(** * Dual-backend data-access layer and operational-data reset

    A shallow embedding of the JavaScript sources

    - [src/database/postgres.js]   (module [Postgres])
    - [src/database/db.js]         (module [Db])
    - [src/database/db-adapter.js] (module [DbAdapter])
    - [src/database/db-helper.js]  (module [DbHelper], placeholder rewriting;
                                    module [DbHelperCalls], [dbGet], [dbAll]
                                    and [dbRun])
    - the SQLite wrapper of [db.js] (module [SqliteWrapper])
    - [src/routes/dev.js]          (module [Dev])
    - [src/routes/admin.js]        (module [Admin], the handler of the reset
                                    route)
    - the reset script             (module [ResetScript])

    [src/services/resetDataService.js], which [routes/admin.js] imports, is
    not among the sources; module [ResetDataService] follows the algorithm
    of the specification.

    A JavaScript string is kept as the bytes of its UTF-8 encoding.  [trim],
    [toUpperCase] and [toLowerCase] of module [Js] work on the characters
    these bytes encode, with the white space and the case mappings of
    Unicode (module [Unicode]).

    The two database engines are black boxes of the program.  The embedding
    talks to them through the interface [Driver]; the query facade, the
    helper and the routes are verified for every driver, the reset script
    and the service against a transactional reference engine with fault
    injection ([engine]), which reads the condition of a [DELETE] off the
    text of the statement. *)

From Stdlib Require Import ZArith Ascii String.
From stdpp Require Import gmap strings list pretty.

(** ** Unicode data

    The character data the string functions of JavaScript work with, from
    the Unicode Character Database, version 14.0: the white space of
    ECMAScript, the case mappings of [UnicodeData.txt] and the unconditional
    ones of [SpecialCasing.txt], and the properties [Cased] and
    [Case_Ignorable] that decide the form of a final sigma. *)

Module Unicode.
Local Open Scope N_scope.

(** [WhiteSpace] and [LineTerminator]: what [trim] removes and what the
    class [\s] matches. *)
Definition isWhiteSpace (cp : N) : bool :=
  (0x9 <=? cp) && (cp <=? 0xD) || (cp =? 0x20) || (cp =? 0xA0) || (cp =? 0x1680)
  || (0x2000 <=? cp) && (cp <=? 0x200A) || (cp =? 0x2028) || (cp =? 0x2029)
  || (cp =? 0x202F) || (cp =? 0x205F) || (cp =? 0x3000) || (cp =? 0xFEFF).

(** A range [(lo, hi, step, target)] maps [lo], [lo + step], ... up to [hi]
    to [target], [target + step], ... *)
Definition upperRanges : list (N * N * N * N) :=
  [ (0xB5, 0xB5, 1, 0x39C); (0xE0, 0xF6, 1, 0xC0); (0xF8, 0xFE, 1, 0xD8);
    (0xFF, 0xFF, 1, 0x178); (0x101, 0x12F, 2, 0x100); (0x131, 0x131, 1, 0x49);
    (0x133, 0x137, 2, 0x132); (0x13A, 0x148, 2, 0x139); (0x14B, 0x177, 2, 0x14A);
    (0x17A, 0x17E, 2, 0x179); (0x17F, 0x17F, 1, 0x53); (0x180, 0x180, 1, 0x243);
    (0x183, 0x185, 2, 0x182); (0x188, 0x188, 1, 0x187); (0x18C, 0x18C, 1, 0x18B);
    (0x192, 0x192, 1, 0x191); (0x195, 0x195, 1, 0x1F6); (0x199, 0x199, 1, 0x198);
    (0x19A, 0x19A, 1, 0x23D); (0x19E, 0x19E, 1, 0x220); (0x1A1, 0x1A5, 2, 0x1A0);
    (0x1A8, 0x1A8, 1, 0x1A7); (0x1AD, 0x1AD, 1, 0x1AC); (0x1B0, 0x1B0, 1, 0x1AF);
    (0x1B4, 0x1B6, 2, 0x1B3); (0x1B9, 0x1B9, 1, 0x1B8); (0x1BD, 0x1BD, 1, 0x1BC);
    (0x1BF, 0x1BF, 1, 0x1F7); (0x1C5, 0x1C5, 1, 0x1C4); (0x1C6, 0x1C6, 1, 0x1C4);
    (0x1C8, 0x1C8, 1, 0x1C7); (0x1C9, 0x1C9, 1, 0x1C7); (0x1CB, 0x1CB, 1, 0x1CA);
    (0x1CC, 0x1CC, 1, 0x1CA); (0x1CE, 0x1DC, 2, 0x1CD); (0x1DD, 0x1DD, 1, 0x18E);
    (0x1DF, 0x1EF, 2, 0x1DE); (0x1F2, 0x1F2, 1, 0x1F1); (0x1F3, 0x1F3, 1, 0x1F1);
    (0x1F5, 0x1F5, 1, 0x1F4); (0x1F9, 0x21F, 2, 0x1F8); (0x223, 0x233, 2, 0x222);
    (0x23C, 0x23C, 1, 0x23B); (0x23F, 0x240, 1, 0x2C7E); (0x242, 0x242, 1, 0x241);
    (0x247, 0x24F, 2, 0x246); (0x250, 0x250, 1, 0x2C6F); (0x251, 0x251, 1, 0x2C6D);
    (0x252, 0x252, 1, 0x2C70); (0x253, 0x253, 1, 0x181); (0x254, 0x254, 1, 0x186);
    (0x256, 0x257, 1, 0x189); (0x259, 0x259, 1, 0x18F); (0x25B, 0x25B, 1, 0x190);
    (0x25C, 0x25C, 1, 0xA7AB); (0x260, 0x260, 1, 0x193); (0x261, 0x261, 1, 0xA7AC);
    (0x263, 0x263, 1, 0x194); (0x265, 0x265, 1, 0xA78D); (0x266, 0x266, 1, 0xA7AA);
    (0x268, 0x268, 1, 0x197); (0x269, 0x269, 1, 0x196); (0x26A, 0x26A, 1, 0xA7AE);
    (0x26B, 0x26B, 1, 0x2C62); (0x26C, 0x26C, 1, 0xA7AD); (0x26F, 0x26F, 1, 0x19C);
    (0x271, 0x271, 1, 0x2C6E); (0x272, 0x272, 1, 0x19D); (0x275, 0x275, 1, 0x19F);
    (0x27D, 0x27D, 1, 0x2C64); (0x280, 0x280, 1, 0x1A6); (0x282, 0x282, 1, 0xA7C5);
    (0x283, 0x283, 1, 0x1A9); (0x287, 0x287, 1, 0xA7B1); (0x288, 0x288, 1, 0x1AE);
    (0x289, 0x289, 1, 0x244); (0x28A, 0x28B, 1, 0x1B1); (0x28C, 0x28C, 1, 0x245);
    (0x292, 0x292, 1, 0x1B7); (0x29D, 0x29D, 1, 0xA7B2); (0x29E, 0x29E, 1, 0xA7B0);
    (0x345, 0x345, 1, 0x399); (0x371, 0x373, 2, 0x370); (0x377, 0x377, 1, 0x376);
    (0x37B, 0x37D, 1, 0x3FD); (0x3AC, 0x3AC, 1, 0x386); (0x3AD, 0x3AF, 1, 0x388);
    (0x3B1, 0x3C1, 1, 0x391); (0x3C2, 0x3C2, 1, 0x3A3); (0x3C3, 0x3CB, 1, 0x3A3);
    (0x3CC, 0x3CC, 1, 0x38C); (0x3CD, 0x3CE, 1, 0x38E); (0x3D0, 0x3D0, 1, 0x392);
    (0x3D1, 0x3D1, 1, 0x398); (0x3D5, 0x3D5, 1, 0x3A6); (0x3D6, 0x3D6, 1, 0x3A0);
    (0x3D7, 0x3D7, 1, 0x3CF); (0x3D9, 0x3EF, 2, 0x3D8); (0x3F0, 0x3F0, 1, 0x39A);
    (0x3F1, 0x3F1, 1, 0x3A1); (0x3F2, 0x3F2, 1, 0x3F9); (0x3F3, 0x3F3, 1, 0x37F);
    (0x3F5, 0x3F5, 1, 0x395); (0x3F8, 0x3F8, 1, 0x3F7); (0x3FB, 0x3FB, 1, 0x3FA);
    (0x430, 0x44F, 1, 0x410); (0x450, 0x45F, 1, 0x400); (0x461, 0x481, 2, 0x460);
    (0x48B, 0x4BF, 2, 0x48A); (0x4C2, 0x4CE, 2, 0x4C1); (0x4CF, 0x4CF, 1, 0x4C0);
    (0x4D1, 0x52F, 2, 0x4D0); (0x561, 0x586, 1, 0x531); (0x10D0, 0x10FA, 1, 0x1C90);
    (0x10FD, 0x10FF, 1, 0x1CBD); (0x13F8, 0x13FD, 1, 0x13F0); (0x1C80, 0x1C80, 1, 0x412);
    (0x1C81, 0x1C81, 1, 0x414); (0x1C82, 0x1C82, 1, 0x41E); (0x1C83, 0x1C84, 1, 0x421);
    (0x1C85, 0x1C85, 1, 0x422); (0x1C86, 0x1C86, 1, 0x42A); (0x1C87, 0x1C87, 1, 0x462);
    (0x1C88, 0x1C88, 1, 0xA64A); (0x1D79, 0x1D79, 1, 0xA77D); (0x1D7D, 0x1D7D, 1, 0x2C63);
    (0x1D8E, 0x1D8E, 1, 0xA7C6); (0x1E01, 0x1E95, 2, 0x1E00); (0x1E9B, 0x1E9B, 1, 0x1E60);
    (0x1EA1, 0x1EFF, 2, 0x1EA0); (0x1F00, 0x1F07, 1, 0x1F08); (0x1F10, 0x1F15, 1, 0x1F18);
    (0x1F20, 0x1F27, 1, 0x1F28); (0x1F30, 0x1F37, 1, 0x1F38); (0x1F40, 0x1F45, 1, 0x1F48);
    (0x1F51, 0x1F57, 2, 0x1F59); (0x1F60, 0x1F67, 1, 0x1F68); (0x1F70, 0x1F71, 1, 0x1FBA);
    (0x1F72, 0x1F75, 1, 0x1FC8); (0x1F76, 0x1F77, 1, 0x1FDA); (0x1F78, 0x1F79, 1, 0x1FF8);
    (0x1F7A, 0x1F7B, 1, 0x1FEA); (0x1F7C, 0x1F7D, 1, 0x1FFA); (0x1FB0, 0x1FB1, 1, 0x1FB8);
    (0x1FBE, 0x1FBE, 1, 0x399); (0x1FD0, 0x1FD1, 1, 0x1FD8); (0x1FE0, 0x1FE1, 1, 0x1FE8);
    (0x1FE5, 0x1FE5, 1, 0x1FEC); (0x214E, 0x214E, 1, 0x2132); (0x2170, 0x217F, 1, 0x2160);
    (0x2184, 0x2184, 1, 0x2183); (0x24D0, 0x24E9, 1, 0x24B6); (0x2C30, 0x2C5F, 1, 0x2C00);
    (0x2C61, 0x2C61, 1, 0x2C60); (0x2C65, 0x2C65, 1, 0x23A); (0x2C66, 0x2C66, 1, 0x23E);
    (0x2C68, 0x2C6C, 2, 0x2C67); (0x2C73, 0x2C73, 1, 0x2C72); (0x2C76, 0x2C76, 1, 0x2C75);
    (0x2C81, 0x2CE3, 2, 0x2C80); (0x2CEC, 0x2CEE, 2, 0x2CEB); (0x2CF3, 0x2CF3, 1, 0x2CF2);
    (0x2D00, 0x2D25, 1, 0x10A0); (0x2D27, 0x2D27, 1, 0x10C7); (0x2D2D, 0x2D2D, 1, 0x10CD);
    (0xA641, 0xA66D, 2, 0xA640); (0xA681, 0xA69B, 2, 0xA680); (0xA723, 0xA72F, 2, 0xA722);
    (0xA733, 0xA76F, 2, 0xA732); (0xA77A, 0xA77C, 2, 0xA779); (0xA77F, 0xA787, 2, 0xA77E);
    (0xA78C, 0xA78C, 1, 0xA78B); (0xA791, 0xA793, 2, 0xA790); (0xA794, 0xA794, 1, 0xA7C4);
    (0xA797, 0xA7A9, 2, 0xA796); (0xA7B5, 0xA7C3, 2, 0xA7B4); (0xA7C8, 0xA7CA, 2, 0xA7C7);
    (0xA7D1, 0xA7D1, 1, 0xA7D0); (0xA7D7, 0xA7D9, 2, 0xA7D6); (0xA7F6, 0xA7F6, 1, 0xA7F5);
    (0xAB53, 0xAB53, 1, 0xA7B3); (0xAB70, 0xABBF, 1, 0x13A0); (0xFF41, 0xFF5A, 1, 0xFF21);
    (0x10428, 0x1044F, 1, 0x10400); (0x104D8, 0x104FB, 1, 0x104B0); (0x10597, 0x105BB, 2, 0x10570);
    (0x10598, 0x105A0, 2, 0x10571); (0x105A4, 0x105B0, 2, 0x1057D); (0x105B4, 0x105B8, 2, 0x1058D);
    (0x105BC, 0x105BC, 1, 0x10595); (0x10CC0, 0x10CF2, 1, 0x10C80); (0x118C0, 0x118DF, 1, 0x118A0);
    (0x16E60, 0x16E7F, 1, 0x16E40); (0x1E922, 0x1E943, 1, 0x1E900) ].

Definition upperSpecial : list (N * list N) :=
  [ (0xDF, [0x53; 0x53]); (0x149, [0x2BC; 0x4E]); (0x1F0, [0x4A; 0x30C]);
    (0x390, [0x399; 0x308; 0x301]); (0x3B0, [0x3A5; 0x308; 0x301]); (0x587, [0x535; 0x552]);
    (0x1E96, [0x48; 0x331]); (0x1E97, [0x54; 0x308]); (0x1E98, [0x57; 0x30A]);
    (0x1E99, [0x59; 0x30A]); (0x1E9A, [0x41; 0x2BE]); (0x1F50, [0x3A5; 0x313]);
    (0x1F52, [0x3A5; 0x313; 0x300]); (0x1F54, [0x3A5; 0x313; 0x301]); (0x1F56, [0x3A5; 0x313; 0x342]);
    (0x1F80, [0x1F08; 0x399]); (0x1F81, [0x1F09; 0x399]); (0x1F82, [0x1F0A; 0x399]);
    (0x1F83, [0x1F0B; 0x399]); (0x1F84, [0x1F0C; 0x399]); (0x1F85, [0x1F0D; 0x399]);
    (0x1F86, [0x1F0E; 0x399]); (0x1F87, [0x1F0F; 0x399]); (0x1F88, [0x1F08; 0x399]);
    (0x1F89, [0x1F09; 0x399]); (0x1F8A, [0x1F0A; 0x399]); (0x1F8B, [0x1F0B; 0x399]);
    (0x1F8C, [0x1F0C; 0x399]); (0x1F8D, [0x1F0D; 0x399]); (0x1F8E, [0x1F0E; 0x399]);
    (0x1F8F, [0x1F0F; 0x399]); (0x1F90, [0x1F28; 0x399]); (0x1F91, [0x1F29; 0x399]);
    (0x1F92, [0x1F2A; 0x399]); (0x1F93, [0x1F2B; 0x399]); (0x1F94, [0x1F2C; 0x399]);
    (0x1F95, [0x1F2D; 0x399]); (0x1F96, [0x1F2E; 0x399]); (0x1F97, [0x1F2F; 0x399]);
    (0x1F98, [0x1F28; 0x399]); (0x1F99, [0x1F29; 0x399]); (0x1F9A, [0x1F2A; 0x399]);
    (0x1F9B, [0x1F2B; 0x399]); (0x1F9C, [0x1F2C; 0x399]); (0x1F9D, [0x1F2D; 0x399]);
    (0x1F9E, [0x1F2E; 0x399]); (0x1F9F, [0x1F2F; 0x399]); (0x1FA0, [0x1F68; 0x399]);
    (0x1FA1, [0x1F69; 0x399]); (0x1FA2, [0x1F6A; 0x399]); (0x1FA3, [0x1F6B; 0x399]);
    (0x1FA4, [0x1F6C; 0x399]); (0x1FA5, [0x1F6D; 0x399]); (0x1FA6, [0x1F6E; 0x399]);
    (0x1FA7, [0x1F6F; 0x399]); (0x1FA8, [0x1F68; 0x399]); (0x1FA9, [0x1F69; 0x399]);
    (0x1FAA, [0x1F6A; 0x399]); (0x1FAB, [0x1F6B; 0x399]); (0x1FAC, [0x1F6C; 0x399]);
    (0x1FAD, [0x1F6D; 0x399]); (0x1FAE, [0x1F6E; 0x399]); (0x1FAF, [0x1F6F; 0x399]);
    (0x1FB2, [0x1FBA; 0x399]); (0x1FB3, [0x391; 0x399]); (0x1FB4, [0x386; 0x399]);
    (0x1FB6, [0x391; 0x342]); (0x1FB7, [0x391; 0x342; 0x399]); (0x1FBC, [0x391; 0x399]);
    (0x1FC2, [0x1FCA; 0x399]); (0x1FC3, [0x397; 0x399]); (0x1FC4, [0x389; 0x399]);
    (0x1FC6, [0x397; 0x342]); (0x1FC7, [0x397; 0x342; 0x399]); (0x1FCC, [0x397; 0x399]);
    (0x1FD2, [0x399; 0x308; 0x300]); (0x1FD3, [0x399; 0x308; 0x301]); (0x1FD6, [0x399; 0x342]);
    (0x1FD7, [0x399; 0x308; 0x342]); (0x1FE2, [0x3A5; 0x308; 0x300]); (0x1FE3, [0x3A5; 0x308; 0x301]);
    (0x1FE4, [0x3A1; 0x313]); (0x1FE6, [0x3A5; 0x342]); (0x1FE7, [0x3A5; 0x308; 0x342]);
    (0x1FF2, [0x1FFA; 0x399]); (0x1FF3, [0x3A9; 0x399]); (0x1FF4, [0x38F; 0x399]);
    (0x1FF6, [0x3A9; 0x342]); (0x1FF7, [0x3A9; 0x342; 0x399]); (0x1FFC, [0x3A9; 0x399]);
    (0xFB00, [0x46; 0x46]); (0xFB01, [0x46; 0x49]); (0xFB02, [0x46; 0x4C]);
    (0xFB03, [0x46; 0x46; 0x49]); (0xFB04, [0x46; 0x46; 0x4C]); (0xFB05, [0x53; 0x54]);
    (0xFB06, [0x53; 0x54]); (0xFB13, [0x544; 0x546]); (0xFB14, [0x544; 0x535]);
    (0xFB15, [0x544; 0x53B]); (0xFB16, [0x54E; 0x546]); (0xFB17, [0x544; 0x53D]) ].

Definition lowerRanges : list (N * N * N * N) :=
  [ (0xC0, 0xD6, 1, 0xE0); (0xD8, 0xDE, 1, 0xF8); (0x100, 0x12E, 2, 0x101);
    (0x132, 0x136, 2, 0x133); (0x139, 0x147, 2, 0x13A); (0x14A, 0x176, 2, 0x14B);
    (0x178, 0x178, 1, 0xFF); (0x179, 0x17D, 2, 0x17A); (0x181, 0x181, 1, 0x253);
    (0x182, 0x184, 2, 0x183); (0x186, 0x186, 1, 0x254); (0x187, 0x187, 1, 0x188);
    (0x189, 0x18A, 1, 0x256); (0x18B, 0x18B, 1, 0x18C); (0x18E, 0x18E, 1, 0x1DD);
    (0x18F, 0x18F, 1, 0x259); (0x190, 0x190, 1, 0x25B); (0x191, 0x191, 1, 0x192);
    (0x193, 0x193, 1, 0x260); (0x194, 0x194, 1, 0x263); (0x196, 0x196, 1, 0x269);
    (0x197, 0x197, 1, 0x268); (0x198, 0x198, 1, 0x199); (0x19C, 0x19C, 1, 0x26F);
    (0x19D, 0x19D, 1, 0x272); (0x19F, 0x19F, 1, 0x275); (0x1A0, 0x1A4, 2, 0x1A1);
    (0x1A6, 0x1A6, 1, 0x280); (0x1A7, 0x1A7, 1, 0x1A8); (0x1A9, 0x1A9, 1, 0x283);
    (0x1AC, 0x1AC, 1, 0x1AD); (0x1AE, 0x1AE, 1, 0x288); (0x1AF, 0x1AF, 1, 0x1B0);
    (0x1B1, 0x1B2, 1, 0x28A); (0x1B3, 0x1B5, 2, 0x1B4); (0x1B7, 0x1B7, 1, 0x292);
    (0x1B8, 0x1B8, 1, 0x1B9); (0x1BC, 0x1BC, 1, 0x1BD); (0x1C4, 0x1C4, 1, 0x1C6);
    (0x1C5, 0x1C5, 1, 0x1C6); (0x1C7, 0x1C7, 1, 0x1C9); (0x1C8, 0x1C8, 1, 0x1C9);
    (0x1CA, 0x1CA, 1, 0x1CC); (0x1CB, 0x1DB, 2, 0x1CC); (0x1DE, 0x1EE, 2, 0x1DF);
    (0x1F1, 0x1F1, 1, 0x1F3); (0x1F2, 0x1F4, 2, 0x1F3); (0x1F6, 0x1F6, 1, 0x195);
    (0x1F7, 0x1F7, 1, 0x1BF); (0x1F8, 0x21E, 2, 0x1F9); (0x220, 0x220, 1, 0x19E);
    (0x222, 0x232, 2, 0x223); (0x23A, 0x23A, 1, 0x2C65); (0x23B, 0x23B, 1, 0x23C);
    (0x23D, 0x23D, 1, 0x19A); (0x23E, 0x23E, 1, 0x2C66); (0x241, 0x241, 1, 0x242);
    (0x243, 0x243, 1, 0x180); (0x244, 0x244, 1, 0x289); (0x245, 0x245, 1, 0x28C);
    (0x246, 0x24E, 2, 0x247); (0x370, 0x372, 2, 0x371); (0x376, 0x376, 1, 0x377);
    (0x37F, 0x37F, 1, 0x3F3); (0x386, 0x386, 1, 0x3AC); (0x388, 0x38A, 1, 0x3AD);
    (0x38C, 0x38C, 1, 0x3CC); (0x38E, 0x38F, 1, 0x3CD); (0x391, 0x3A1, 1, 0x3B1);
    (0x3A3, 0x3AB, 1, 0x3C3); (0x3CF, 0x3CF, 1, 0x3D7); (0x3D8, 0x3EE, 2, 0x3D9);
    (0x3F4, 0x3F4, 1, 0x3B8); (0x3F7, 0x3F7, 1, 0x3F8); (0x3F9, 0x3F9, 1, 0x3F2);
    (0x3FA, 0x3FA, 1, 0x3FB); (0x3FD, 0x3FF, 1, 0x37B); (0x400, 0x40F, 1, 0x450);
    (0x410, 0x42F, 1, 0x430); (0x460, 0x480, 2, 0x461); (0x48A, 0x4BE, 2, 0x48B);
    (0x4C0, 0x4C0, 1, 0x4CF); (0x4C1, 0x4CD, 2, 0x4C2); (0x4D0, 0x52E, 2, 0x4D1);
    (0x531, 0x556, 1, 0x561); (0x10A0, 0x10C5, 1, 0x2D00); (0x10C7, 0x10C7, 1, 0x2D27);
    (0x10CD, 0x10CD, 1, 0x2D2D); (0x13A0, 0x13EF, 1, 0xAB70); (0x13F0, 0x13F5, 1, 0x13F8);
    (0x1C90, 0x1CBA, 1, 0x10D0); (0x1CBD, 0x1CBF, 1, 0x10FD); (0x1E00, 0x1E94, 2, 0x1E01);
    (0x1E9E, 0x1E9E, 1, 0xDF); (0x1EA0, 0x1EFE, 2, 0x1EA1); (0x1F08, 0x1F0F, 1, 0x1F00);
    (0x1F18, 0x1F1D, 1, 0x1F10); (0x1F28, 0x1F2F, 1, 0x1F20); (0x1F38, 0x1F3F, 1, 0x1F30);
    (0x1F48, 0x1F4D, 1, 0x1F40); (0x1F59, 0x1F5F, 2, 0x1F51); (0x1F68, 0x1F6F, 1, 0x1F60);
    (0x1F88, 0x1F8F, 1, 0x1F80); (0x1F98, 0x1F9F, 1, 0x1F90); (0x1FA8, 0x1FAF, 1, 0x1FA0);
    (0x1FB8, 0x1FB9, 1, 0x1FB0); (0x1FBA, 0x1FBB, 1, 0x1F70); (0x1FBC, 0x1FBC, 1, 0x1FB3);
    (0x1FC8, 0x1FCB, 1, 0x1F72); (0x1FCC, 0x1FCC, 1, 0x1FC3); (0x1FD8, 0x1FD9, 1, 0x1FD0);
    (0x1FDA, 0x1FDB, 1, 0x1F76); (0x1FE8, 0x1FE9, 1, 0x1FE0); (0x1FEA, 0x1FEB, 1, 0x1F7A);
    (0x1FEC, 0x1FEC, 1, 0x1FE5); (0x1FF8, 0x1FF9, 1, 0x1F78); (0x1FFA, 0x1FFB, 1, 0x1F7C);
    (0x1FFC, 0x1FFC, 1, 0x1FF3); (0x2126, 0x2126, 1, 0x3C9); (0x212A, 0x212A, 1, 0x6B);
    (0x212B, 0x212B, 1, 0xE5); (0x2132, 0x2132, 1, 0x214E); (0x2160, 0x216F, 1, 0x2170);
    (0x2183, 0x2183, 1, 0x2184); (0x24B6, 0x24CF, 1, 0x24D0); (0x2C00, 0x2C2F, 1, 0x2C30);
    (0x2C60, 0x2C60, 1, 0x2C61); (0x2C62, 0x2C62, 1, 0x26B); (0x2C63, 0x2C63, 1, 0x1D7D);
    (0x2C64, 0x2C64, 1, 0x27D); (0x2C67, 0x2C6B, 2, 0x2C68); (0x2C6D, 0x2C6D, 1, 0x251);
    (0x2C6E, 0x2C6E, 1, 0x271); (0x2C6F, 0x2C6F, 1, 0x250); (0x2C70, 0x2C70, 1, 0x252);
    (0x2C72, 0x2C72, 1, 0x2C73); (0x2C75, 0x2C75, 1, 0x2C76); (0x2C7E, 0x2C7F, 1, 0x23F);
    (0x2C80, 0x2CE2, 2, 0x2C81); (0x2CEB, 0x2CED, 2, 0x2CEC); (0x2CF2, 0x2CF2, 1, 0x2CF3);
    (0xA640, 0xA66C, 2, 0xA641); (0xA680, 0xA69A, 2, 0xA681); (0xA722, 0xA72E, 2, 0xA723);
    (0xA732, 0xA76E, 2, 0xA733); (0xA779, 0xA77B, 2, 0xA77A); (0xA77D, 0xA77D, 1, 0x1D79);
    (0xA77E, 0xA786, 2, 0xA77F); (0xA78B, 0xA78B, 1, 0xA78C); (0xA78D, 0xA78D, 1, 0x265);
    (0xA790, 0xA792, 2, 0xA791); (0xA796, 0xA7A8, 2, 0xA797); (0xA7AA, 0xA7AA, 1, 0x266);
    (0xA7AB, 0xA7AB, 1, 0x25C); (0xA7AC, 0xA7AC, 1, 0x261); (0xA7AD, 0xA7AD, 1, 0x26C);
    (0xA7AE, 0xA7AE, 1, 0x26A); (0xA7B0, 0xA7B0, 1, 0x29E); (0xA7B1, 0xA7B1, 1, 0x287);
    (0xA7B2, 0xA7B2, 1, 0x29D); (0xA7B3, 0xA7B3, 1, 0xAB53); (0xA7B4, 0xA7C2, 2, 0xA7B5);
    (0xA7C4, 0xA7C4, 1, 0xA794); (0xA7C5, 0xA7C5, 1, 0x282); (0xA7C6, 0xA7C6, 1, 0x1D8E);
    (0xA7C7, 0xA7C9, 2, 0xA7C8); (0xA7D0, 0xA7D0, 1, 0xA7D1); (0xA7D6, 0xA7D8, 2, 0xA7D7);
    (0xA7F5, 0xA7F5, 1, 0xA7F6); (0xFF21, 0xFF3A, 1, 0xFF41); (0x10400, 0x10427, 1, 0x10428);
    (0x104B0, 0x104D3, 1, 0x104D8); (0x10570, 0x10594, 2, 0x10597); (0x10571, 0x10579, 2, 0x10598);
    (0x1057D, 0x10589, 2, 0x105A4); (0x1058D, 0x10591, 2, 0x105B4); (0x10595, 0x10595, 1, 0x105BC);
    (0x10C80, 0x10CB2, 1, 0x10CC0); (0x118A0, 0x118BF, 1, 0x118C0); (0x16E40, 0x16E5F, 1, 0x16E60);
    (0x1E900, 0x1E921, 1, 0x1E922) ].

Definition lowerSpecial : list (N * list N) :=
  [ (0x130, [0x69; 0x307]) ].

Definition casedRanges : list (N * N) :=
  [ (0x41, 0x5A); (0x61, 0x7A); (0xAA, 0xAA); (0xB5, 0xB5); (0xBA, 0xBA);
    (0xC0, 0xD6); (0xD8, 0xF6); (0xF8, 0x1BA); (0x1BC, 0x1BF); (0x1C4, 0x293);
    (0x295, 0x2B8); (0x2C0, 0x2C1); (0x2E0, 0x2E4); (0x345, 0x345); (0x370, 0x373);
    (0x376, 0x377); (0x37A, 0x37D); (0x37F, 0x37F); (0x386, 0x386); (0x388, 0x38A);
    (0x38C, 0x38C); (0x38E, 0x3A1); (0x3A3, 0x3F5); (0x3F7, 0x481); (0x48A, 0x52F);
    (0x531, 0x556); (0x560, 0x588); (0x10A0, 0x10C5); (0x10C7, 0x10C7); (0x10CD, 0x10CD);
    (0x10D0, 0x10FA); (0x10FD, 0x10FF); (0x13A0, 0x13F5); (0x13F8, 0x13FD); (0x1C80, 0x1C88);
    (0x1C90, 0x1CBA); (0x1CBD, 0x1CBF); (0x1D00, 0x1DBF); (0x1E00, 0x1F15); (0x1F18, 0x1F1D);
    (0x1F20, 0x1F45); (0x1F48, 0x1F4D); (0x1F50, 0x1F57); (0x1F59, 0x1F59); (0x1F5B, 0x1F5B);
    (0x1F5D, 0x1F5D); (0x1F5F, 0x1F7D); (0x1F80, 0x1FB4); (0x1FB6, 0x1FBC); (0x1FBE, 0x1FBE);
    (0x1FC2, 0x1FC4); (0x1FC6, 0x1FCC); (0x1FD0, 0x1FD3); (0x1FD6, 0x1FDB); (0x1FE0, 0x1FEC);
    (0x1FF2, 0x1FF4); (0x1FF6, 0x1FFC); (0x2071, 0x2071); (0x207F, 0x207F); (0x2090, 0x209C);
    (0x2102, 0x2102); (0x2107, 0x2107); (0x210A, 0x2113); (0x2115, 0x2115); (0x2119, 0x211D);
    (0x2124, 0x2124); (0x2126, 0x2126); (0x2128, 0x2128); (0x212A, 0x212D); (0x212F, 0x2134);
    (0x2139, 0x2139); (0x213C, 0x213F); (0x2145, 0x2149); (0x214E, 0x214E); (0x2160, 0x217F);
    (0x2183, 0x2184); (0x24B6, 0x24E9); (0x2C00, 0x2CE4); (0x2CEB, 0x2CEE); (0x2CF2, 0x2CF3);
    (0x2D00, 0x2D25); (0x2D27, 0x2D27); (0x2D2D, 0x2D2D); (0xA640, 0xA66D); (0xA680, 0xA69D);
    (0xA722, 0xA787); (0xA78B, 0xA78E); (0xA790, 0xA7CA); (0xA7D0, 0xA7D1); (0xA7D3, 0xA7D3);
    (0xA7D5, 0xA7D9); (0xA7F5, 0xA7F6); (0xA7F8, 0xA7FA); (0xAB30, 0xAB5A); (0xAB5C, 0xAB68);
    (0xAB70, 0xABBF); (0xFB00, 0xFB06); (0xFB13, 0xFB17); (0xFF21, 0xFF3A); (0xFF41, 0xFF5A);
    (0x10400, 0x1044F); (0x104B0, 0x104D3); (0x104D8, 0x104FB); (0x10570, 0x1057A); (0x1057C, 0x1058A);
    (0x1058C, 0x10592); (0x10594, 0x10595); (0x10597, 0x105A1); (0x105A3, 0x105B1); (0x105B3, 0x105B9);
    (0x105BB, 0x105BC); (0x10780, 0x10780); (0x10783, 0x10785); (0x10787, 0x107B0); (0x107B2, 0x107BA);
    (0x10C80, 0x10CB2); (0x10CC0, 0x10CF2); (0x118A0, 0x118DF); (0x16E40, 0x16E7F); (0x1D400, 0x1D454);
    (0x1D456, 0x1D49C); (0x1D49E, 0x1D49F); (0x1D4A2, 0x1D4A2); (0x1D4A5, 0x1D4A6); (0x1D4A9, 0x1D4AC);
    (0x1D4AE, 0x1D4B9); (0x1D4BB, 0x1D4BB); (0x1D4BD, 0x1D4C3); (0x1D4C5, 0x1D505); (0x1D507, 0x1D50A);
    (0x1D50D, 0x1D514); (0x1D516, 0x1D51C); (0x1D51E, 0x1D539); (0x1D53B, 0x1D53E); (0x1D540, 0x1D544);
    (0x1D546, 0x1D546); (0x1D54A, 0x1D550); (0x1D552, 0x1D6A5); (0x1D6A8, 0x1D6C0); (0x1D6C2, 0x1D6DA);
    (0x1D6DC, 0x1D6FA); (0x1D6FC, 0x1D714); (0x1D716, 0x1D734); (0x1D736, 0x1D74E); (0x1D750, 0x1D76E);
    (0x1D770, 0x1D788); (0x1D78A, 0x1D7A8); (0x1D7AA, 0x1D7C2); (0x1D7C4, 0x1D7CB); (0x1DF00, 0x1DF09);
    (0x1DF0B, 0x1DF1E); (0x1E900, 0x1E943); (0x1F130, 0x1F149); (0x1F150, 0x1F169); (0x1F170, 0x1F189) ].

Definition caseIgnorableRanges : list (N * N) :=
  [ (0x27, 0x27); (0x2E, 0x2E); (0x3A, 0x3A); (0x5E, 0x5E); (0x60, 0x60);
    (0xA8, 0xA8); (0xAD, 0xAD); (0xAF, 0xAF); (0xB4, 0xB4); (0xB7, 0xB8);
    (0x2B0, 0x36F); (0x374, 0x375); (0x37A, 0x37A); (0x384, 0x385); (0x387, 0x387);
    (0x483, 0x489); (0x559, 0x559); (0x55F, 0x55F); (0x591, 0x5BD); (0x5BF, 0x5BF);
    (0x5C1, 0x5C2); (0x5C4, 0x5C5); (0x5C7, 0x5C7); (0x5F4, 0x5F4); (0x600, 0x605);
    (0x610, 0x61A); (0x61C, 0x61C); (0x640, 0x640); (0x64B, 0x65F); (0x670, 0x670);
    (0x6D6, 0x6DD); (0x6DF, 0x6E8); (0x6EA, 0x6ED); (0x70F, 0x70F); (0x711, 0x711);
    (0x730, 0x74A); (0x7A6, 0x7B0); (0x7EB, 0x7F5); (0x7FA, 0x7FA); (0x7FD, 0x7FD);
    (0x816, 0x82D); (0x859, 0x85B); (0x888, 0x888); (0x890, 0x891); (0x898, 0x89F);
    (0x8C9, 0x902); (0x93A, 0x93A); (0x93C, 0x93C); (0x941, 0x948); (0x94D, 0x94D);
    (0x951, 0x957); (0x962, 0x963); (0x971, 0x971); (0x981, 0x981); (0x9BC, 0x9BC);
    (0x9C1, 0x9C4); (0x9CD, 0x9CD); (0x9E2, 0x9E3); (0x9FE, 0x9FE); (0xA01, 0xA02);
    (0xA3C, 0xA3C); (0xA41, 0xA42); (0xA47, 0xA48); (0xA4B, 0xA4D); (0xA51, 0xA51);
    (0xA70, 0xA71); (0xA75, 0xA75); (0xA81, 0xA82); (0xABC, 0xABC); (0xAC1, 0xAC5);
    (0xAC7, 0xAC8); (0xACD, 0xACD); (0xAE2, 0xAE3); (0xAFA, 0xAFF); (0xB01, 0xB01);
    (0xB3C, 0xB3C); (0xB3F, 0xB3F); (0xB41, 0xB44); (0xB4D, 0xB4D); (0xB55, 0xB56);
    (0xB62, 0xB63); (0xB82, 0xB82); (0xBC0, 0xBC0); (0xBCD, 0xBCD); (0xC00, 0xC00);
    (0xC04, 0xC04); (0xC3C, 0xC3C); (0xC3E, 0xC40); (0xC46, 0xC48); (0xC4A, 0xC4D);
    (0xC55, 0xC56); (0xC62, 0xC63); (0xC81, 0xC81); (0xCBC, 0xCBC); (0xCBF, 0xCBF);
    (0xCC6, 0xCC6); (0xCCC, 0xCCD); (0xCE2, 0xCE3); (0xD00, 0xD01); (0xD3B, 0xD3C);
    (0xD41, 0xD44); (0xD4D, 0xD4D); (0xD62, 0xD63); (0xD81, 0xD81); (0xDCA, 0xDCA);
    (0xDD2, 0xDD4); (0xDD6, 0xDD6); (0xE31, 0xE31); (0xE34, 0xE3A); (0xE46, 0xE4E);
    (0xEB1, 0xEB1); (0xEB4, 0xEBC); (0xEC6, 0xEC6); (0xEC8, 0xECD); (0xF18, 0xF19);
    (0xF35, 0xF35); (0xF37, 0xF37); (0xF39, 0xF39); (0xF71, 0xF7E); (0xF80, 0xF84);
    (0xF86, 0xF87); (0xF8D, 0xF97); (0xF99, 0xFBC); (0xFC6, 0xFC6); (0x102D, 0x1030);
    (0x1032, 0x1037); (0x1039, 0x103A); (0x103D, 0x103E); (0x1058, 0x1059); (0x105E, 0x1060);
    (0x1071, 0x1074); (0x1082, 0x1082); (0x1085, 0x1086); (0x108D, 0x108D); (0x109D, 0x109D);
    (0x10FC, 0x10FC); (0x135D, 0x135F); (0x1712, 0x1714); (0x1732, 0x1733); (0x1752, 0x1753);
    (0x1772, 0x1773); (0x17B4, 0x17B5); (0x17B7, 0x17BD); (0x17C6, 0x17C6); (0x17C9, 0x17D3);
    (0x17D7, 0x17D7); (0x17DD, 0x17DD); (0x180B, 0x180F); (0x1843, 0x1843); (0x1885, 0x1886);
    (0x18A9, 0x18A9); (0x1920, 0x1922); (0x1927, 0x1928); (0x1932, 0x1932); (0x1939, 0x193B);
    (0x1A17, 0x1A18); (0x1A1B, 0x1A1B); (0x1A56, 0x1A56); (0x1A58, 0x1A5E); (0x1A60, 0x1A60);
    (0x1A62, 0x1A62); (0x1A65, 0x1A6C); (0x1A73, 0x1A7C); (0x1A7F, 0x1A7F); (0x1AA7, 0x1AA7);
    (0x1AB0, 0x1ACE); (0x1B00, 0x1B03); (0x1B34, 0x1B34); (0x1B36, 0x1B3A); (0x1B3C, 0x1B3C);
    (0x1B42, 0x1B42); (0x1B6B, 0x1B73); (0x1B80, 0x1B81); (0x1BA2, 0x1BA5); (0x1BA8, 0x1BA9);
    (0x1BAB, 0x1BAD); (0x1BE6, 0x1BE6); (0x1BE8, 0x1BE9); (0x1BED, 0x1BED); (0x1BEF, 0x1BF1);
    (0x1C2C, 0x1C33); (0x1C36, 0x1C37); (0x1C78, 0x1C7D); (0x1CD0, 0x1CD2); (0x1CD4, 0x1CE0);
    (0x1CE2, 0x1CE8); (0x1CED, 0x1CED); (0x1CF4, 0x1CF4); (0x1CF8, 0x1CF9); (0x1D2C, 0x1D6A);
    (0x1D78, 0x1D78); (0x1D9B, 0x1DFF); (0x1FBD, 0x1FBD); (0x1FBF, 0x1FC1); (0x1FCD, 0x1FCF);
    (0x1FDD, 0x1FDF); (0x1FED, 0x1FEF); (0x1FFD, 0x1FFE); (0x200B, 0x200F); (0x2018, 0x2019);
    (0x2024, 0x2024); (0x2027, 0x2027); (0x202A, 0x202E); (0x2060, 0x2064); (0x2066, 0x206F);
    (0x2071, 0x2071); (0x207F, 0x207F); (0x2090, 0x209C); (0x20D0, 0x20F0); (0x2C7C, 0x2C7D);
    (0x2CEF, 0x2CF1); (0x2D6F, 0x2D6F); (0x2D7F, 0x2D7F); (0x2DE0, 0x2DFF); (0x2E2F, 0x2E2F);
    (0x3005, 0x3005); (0x302A, 0x302D); (0x3031, 0x3035); (0x303B, 0x303B); (0x3099, 0x309E);
    (0x30FC, 0x30FE); (0xA015, 0xA015); (0xA4F8, 0xA4FD); (0xA60C, 0xA60C); (0xA66F, 0xA672);
    (0xA674, 0xA67D); (0xA67F, 0xA67F); (0xA69C, 0xA69F); (0xA6F0, 0xA6F1); (0xA700, 0xA721);
    (0xA770, 0xA770); (0xA788, 0xA78A); (0xA7F2, 0xA7F4); (0xA7F8, 0xA7F9); (0xA802, 0xA802);
    (0xA806, 0xA806); (0xA80B, 0xA80B); (0xA825, 0xA826); (0xA82C, 0xA82C); (0xA8C4, 0xA8C5);
    (0xA8E0, 0xA8F1); (0xA8FF, 0xA8FF); (0xA926, 0xA92D); (0xA947, 0xA951); (0xA980, 0xA982);
    (0xA9B3, 0xA9B3); (0xA9B6, 0xA9B9); (0xA9BC, 0xA9BD); (0xA9CF, 0xA9CF); (0xA9E5, 0xA9E6);
    (0xAA29, 0xAA2E); (0xAA31, 0xAA32); (0xAA35, 0xAA36); (0xAA43, 0xAA43); (0xAA4C, 0xAA4C);
    (0xAA70, 0xAA70); (0xAA7C, 0xAA7C); (0xAAB0, 0xAAB0); (0xAAB2, 0xAAB4); (0xAAB7, 0xAAB8);
    (0xAABE, 0xAABF); (0xAAC1, 0xAAC1); (0xAADD, 0xAADD); (0xAAEC, 0xAAED); (0xAAF3, 0xAAF4);
    (0xAAF6, 0xAAF6); (0xAB5B, 0xAB5F); (0xAB69, 0xAB6B); (0xABE5, 0xABE5); (0xABE8, 0xABE8);
    (0xABED, 0xABED); (0xFB1E, 0xFB1E); (0xFBB2, 0xFBC2); (0xFE00, 0xFE0F); (0xFE13, 0xFE13);
    (0xFE20, 0xFE2F); (0xFE52, 0xFE52); (0xFE55, 0xFE55); (0xFEFF, 0xFEFF); (0xFF07, 0xFF07);
    (0xFF0E, 0xFF0E); (0xFF1A, 0xFF1A); (0xFF3E, 0xFF3E); (0xFF40, 0xFF40); (0xFF70, 0xFF70);
    (0xFF9E, 0xFF9F); (0xFFE3, 0xFFE3); (0xFFF9, 0xFFFB); (0x101FD, 0x101FD); (0x102E0, 0x102E0);
    (0x10376, 0x1037A); (0x10780, 0x10785); (0x10787, 0x107B0); (0x107B2, 0x107BA); (0x10A01, 0x10A03);
    (0x10A05, 0x10A06); (0x10A0C, 0x10A0F); (0x10A38, 0x10A3A); (0x10A3F, 0x10A3F); (0x10AE5, 0x10AE6);
    (0x10D24, 0x10D27); (0x10EAB, 0x10EAC); (0x10F46, 0x10F50); (0x10F82, 0x10F85); (0x11001, 0x11001);
    (0x11038, 0x11046); (0x11070, 0x11070); (0x11073, 0x11074); (0x1107F, 0x11081); (0x110B3, 0x110B6);
    (0x110B9, 0x110BA); (0x110BD, 0x110BD); (0x110C2, 0x110C2); (0x110CD, 0x110CD); (0x11100, 0x11102);
    (0x11127, 0x1112B); (0x1112D, 0x11134); (0x11173, 0x11173); (0x11180, 0x11181); (0x111B6, 0x111BE);
    (0x111C9, 0x111CC); (0x111CF, 0x111CF); (0x1122F, 0x11231); (0x11234, 0x11234); (0x11236, 0x11237);
    (0x1123E, 0x1123E); (0x112DF, 0x112DF); (0x112E3, 0x112EA); (0x11300, 0x11301); (0x1133B, 0x1133C);
    (0x11340, 0x11340); (0x11366, 0x1136C); (0x11370, 0x11374); (0x11438, 0x1143F); (0x11442, 0x11444);
    (0x11446, 0x11446); (0x1145E, 0x1145E); (0x114B3, 0x114B8); (0x114BA, 0x114BA); (0x114BF, 0x114C0);
    (0x114C2, 0x114C3); (0x115B2, 0x115B5); (0x115BC, 0x115BD); (0x115BF, 0x115C0); (0x115DC, 0x115DD);
    (0x11633, 0x1163A); (0x1163D, 0x1163D); (0x1163F, 0x11640); (0x116AB, 0x116AB); (0x116AD, 0x116AD);
    (0x116B0, 0x116B5); (0x116B7, 0x116B7); (0x1171D, 0x1171F); (0x11722, 0x11725); (0x11727, 0x1172B);
    (0x1182F, 0x11837); (0x11839, 0x1183A); (0x1193B, 0x1193C); (0x1193E, 0x1193E); (0x11943, 0x11943);
    (0x119D4, 0x119D7); (0x119DA, 0x119DB); (0x119E0, 0x119E0); (0x11A01, 0x11A0A); (0x11A33, 0x11A38);
    (0x11A3B, 0x11A3E); (0x11A47, 0x11A47); (0x11A51, 0x11A56); (0x11A59, 0x11A5B); (0x11A8A, 0x11A96);
    (0x11A98, 0x11A99); (0x11C30, 0x11C36); (0x11C38, 0x11C3D); (0x11C3F, 0x11C3F); (0x11C92, 0x11CA7);
    (0x11CAA, 0x11CB0); (0x11CB2, 0x11CB3); (0x11CB5, 0x11CB6); (0x11D31, 0x11D36); (0x11D3A, 0x11D3A);
    (0x11D3C, 0x11D3D); (0x11D3F, 0x11D45); (0x11D47, 0x11D47); (0x11D90, 0x11D91); (0x11D95, 0x11D95);
    (0x11D97, 0x11D97); (0x11EF3, 0x11EF4); (0x13430, 0x13438); (0x16AF0, 0x16AF4); (0x16B30, 0x16B36);
    (0x16B40, 0x16B43); (0x16F4F, 0x16F4F); (0x16F8F, 0x16F9F); (0x16FE0, 0x16FE1); (0x16FE3, 0x16FE4);
    (0x1AFF0, 0x1AFF3); (0x1AFF5, 0x1AFFB); (0x1AFFD, 0x1AFFE); (0x1BC9D, 0x1BC9E); (0x1BCA0, 0x1BCA3);
    (0x1CF00, 0x1CF2D); (0x1CF30, 0x1CF46); (0x1D167, 0x1D169); (0x1D173, 0x1D182); (0x1D185, 0x1D18B);
    (0x1D1AA, 0x1D1AD); (0x1D242, 0x1D244); (0x1DA00, 0x1DA36); (0x1DA3B, 0x1DA6C); (0x1DA75, 0x1DA75);
    (0x1DA84, 0x1DA84); (0x1DA9B, 0x1DA9F); (0x1DAA1, 0x1DAAF); (0x1E000, 0x1E006); (0x1E008, 0x1E018);
    (0x1E01B, 0x1E021); (0x1E023, 0x1E024); (0x1E026, 0x1E02A); (0x1E130, 0x1E13D); (0x1E2AE, 0x1E2AE);
    (0x1E2EC, 0x1E2EF); (0x1E8D0, 0x1E8D6); (0x1E944, 0x1E94B); (0x1F3FB, 0x1F3FF); (0xE0001, 0xE0001);
    (0xE0020, 0xE007F); (0xE0100, 0xE01EF) ].

Definition inRange (cp : N) (r : N * N * N * N) : bool :=
  let '(lo, hi, step, _) := r in
  (lo <=? cp) && (cp <=? hi) && ((cp - lo) mod step =? 0).

Definition simpleMapping (ranges : list (N * N * N * N)) (cp : N) : option N :=
  match List.find (inRange cp) ranges with
  | Some (lo, _, _, target) => Some (target + (cp - lo))
  | None => None
  end.

Definition specialMapping (table : list (N * list N)) (cp : N) : option (list N) :=
  match List.find (fun e => fst e =? cp) table with
  | Some (_, cps) => Some cps
  | None => None
  end.

Definition within (ranges : list (N * N)) (cp : N) : bool :=
  existsb (fun r => (fst r <=? cp) && (cp <=? snd r)) ranges.

(** The upper case of a character, [None] when it is the character itself. *)
Definition toUpper (cp : N) : option (list N) :=
  if cp <? 0x80
  then (if (0x61 <=? cp) && (cp <=? 0x7A) then Some [cp - 0x20] else None)
  else match specialMapping upperSpecial cp with
       | Some cps => Some cps
       | None => option_map (fun u => [u]) (simpleMapping upperRanges cp)
       end.

(** The lower case of a character other than the capital sigma, [None] when
    it is the character itself. *)
Definition toLower (cp : N) : option (list N) :=
  if cp <? 0x80
  then (if (0x41 <=? cp) && (cp <=? 0x5A) then Some [cp + 0x20] else None)
  else match specialMapping lowerSpecial cp with
       | Some cps => Some cps
       | None => option_map (fun l => [l]) (simpleMapping lowerRanges cp)
       end.

Definition isCased (cp : N) : bool := within casedRanges cp.

Definition isCaseIgnorable (cp : N) : bool := within caseIgnorableRanges cp.

Definition CAPITAL_SIGMA : N := 0x3A3.
Definition SMALL_SIGMA : N := 0x3C3.
Definition FINAL_SIGMA : N := 0x3C2.

End Unicode.

(** ** JavaScript values and strings *)

Module Js.

(** The values that occur in result rows and parameter arrays.  Numbers are
    the integers; objects occur only as rows, see [row]. *)
Inductive value : Type :=
| Null
| Undefined
| Bool (b : bool)
| Num (n : Z)
| Str (s : string).

#[global] Instance value_eq_dec : EqDecision value.
Proof. solve_decision. Defined.

(** A row is an object: a finite map from property names to values. *)
Abbreviation row := (gmap string value).

(** [ToBoolean]. *)
Definition truthy (v : value) : bool :=
  match v with
  | Null | Undefined => false
  | Bool b => b
  | Num n => negb (n =? 0)%Z
  | Str s => negb (String.eqb s "")
  end.

(** [a || b] on values. *)
Definition or (a b : value) : value := if truthy a then a else b.

(** [o.k] and [o?.k] on a row that may be missing. *)
Definition prop (k : string) (o : option row) : value :=
  match o with
  | Some r => default Undefined (r !! k)
  | None => Undefined
  end.

(** *** Strings

    A string of the program is a sequence of UTF-16 code units.  It is held
    here as the bytes of its UTF-8 encoding, an unpaired surrogate as the
    three bytes of its code, so that the string literals of the program are
    the string literals of this file.  Comparison, concatenation,
    [startsWith], [includes] and the replacement of [?] are the same on the
    code units and on these bytes.  [trim], the class [\s] and the case
    mappings work on characters: they are defined on the character that
    starts at a byte. *)

Definition isContinuation (c : ascii) : bool :=
  let b := N_of_ascii c in ((0x80 <=? b) && (b <? 0xC0))%N.

(** The value of a character whose first byte gave [acc], read from the [k]
    continuation bytes at the front of [s]. *)
Fixpoint continuation (k : nat) (acc : N) (s : string) : option N :=
  match k with
  | O => Some acc
  | S k' =>
      match s with
      | String c r =>
          if isContinuation c
          then continuation k' (acc * 64 + (N_of_ascii c - 0x80))%N r
          else None
      | EmptyString => None
      end
  end.

(** A byte that starts no character stands for itself, as a character beyond
    the code points: it has no case and is no white space. *)
Definition stray (c : ascii) : N := (0x110000 + N_of_ascii c)%N.

(** The character that starts at the byte [c], followed by [r]: its code
    point and the number of bytes it takes. *)
Definition codePointAt (c : ascii) (r : string) : N * nat :=
  let b := N_of_ascii c in
  let sequence (k : nat) (acc least : N) : N * nat :=
    match continuation k acc r with
    | Some cp => if ((least <=? cp) && (cp <? 0x110000))%N then (cp, S k) else (stray c, 1)
    | None => (stray c, 1)
    end in
  if (b <? 0x80)%N then (b, 1)
  else if (b <? 0xC0)%N then (stray c, 1)
  else if (b <? 0xE0)%N then sequence 1 (b - 0xC0)%N 0x80%N
  else if (b <? 0xF0)%N then sequence 2 (b - 0xE0)%N 0x800%N
  else if (b <? 0xF8)%N then sequence 3 (b - 0xF0)%N 0x10000%N
  else (stray c, 1).

(** The bytes of a character. *)
Definition byte (n : N) : string := String (ascii_of_N n) EmptyString.

Definition utf8 (cp : N) : string :=
  (if cp <? 0x80 then byte cp
   else if cp <? 0x800 then byte (0xC0 + cp / 64) +:+ byte (0x80 + cp mod 64)
   else if cp <? 0x10000
   then byte (0xE0 + cp / 4096) +:+ byte (0x80 + (cp / 64) mod 64) +:+ byte (0x80 + cp mod 64)
   else if cp <? 0x110000
   then byte (0xF0 + cp / 262144) +:+ byte (0x80 + (cp / 4096) mod 64)
        +:+ byte (0x80 + (cp / 64) mod 64) +:+ byte (0x80 + cp mod 64)
   else byte (cp - 0x110000))%N.

Definition encode (cps : list N) : string := foldr (fun cp s => utf8 cp +:+ s) EmptyString cps.

Fixpoint takeBytes (n : nat) (s : string) : string :=
  match n, s with
  | S n', String c r => String c (takeBytes n' r)
  | _, _ => EmptyString
  end.

Fixpoint dropBytes (n : nat) (s : string) : string :=
  match n, s with
  | S n', String _ r => dropBytes n' r
  | _, _ => s
  end.

(** [s.trimStart()]: [skip] counts the bytes that are left of a character
    that is being removed. *)
Fixpoint trimStartFrom (skip : nat) (s : string) : string :=
  match s with
  | EmptyString => EmptyString
  | String c r =>
      match skip with
      | S k => trimStartFrom k r
      | O =>
          let '(cp, n) := codePointAt c r in
          if Unicode.isWhiteSpace cp then trimStartFrom (pred n) r else s
      end
  end.

Definition trimStart (s : string) : string := trimStartFrom 0 s.

(** The string is empty or white space from end to end. *)
Definition allWhite (s : string) : bool := String.eqb (trimStart s) EmptyString.

(** [s.trimEnd()]: what is left of the first byte from which the string is
    white space to its end. *)
Fixpoint trimEnd (s : string) : string :=
  match s with
  | EmptyString => EmptyString
  | String c r => if allWhite s then EmptyString else String c (trimEnd r)
  end.

Definition trim (s : string) : string := trimEnd (trimStart s).

(** [s.toUpperCase()] *)
Definition upperAt (c : ascii) (r : string) : string * nat :=
  let '(cp, n) := codePointAt c r in
  (match Unicode.toUpper cp with
   | Some cps => encode cps
   | None => takeBytes n (String c r)
   end, n).

Fixpoint toUpperFrom (skip : nat) (s : string) : string :=
  match s with
  | EmptyString => EmptyString
  | String c r =>
      match skip with
      | S k => toUpperFrom k r
      | O => let '(upper, n) := upperAt c r in upper +:+ toUpperFrom (pred n) r
      end
  end.

Definition toUpperCase (s : string) : string := toUpperFrom 0 s.

(** [s.toLowerCase()].  A capital sigma becomes the final sigma when a cased
    letter comes before it, with nothing but case-ignorable characters in
    between, and no cased letter comes after it in the same way. *)
Fixpoint casedAhead (skip : nat) (s : string) : bool :=
  match s with
  | EmptyString => false
  | String c r =>
      match skip with
      | S k => casedAhead k r
      | O =>
          let '(cp, n) := codePointAt c r in
          if Unicode.isCaseIgnorable cp then casedAhead (pred n) r else Unicode.isCased cp
      end
  end.

Fixpoint toLowerFrom (skip : nat) (afterCased : bool) (s : string) : string :=
  match s with
  | EmptyString => EmptyString
  | String c r =>
      match skip with
      | S k => toLowerFrom k afterCased r
      | O =>
          let '(cp, n) := codePointAt c r in
          let lower :=
            if (cp =? Unicode.CAPITAL_SIGMA)%N
            then utf8 (if afterCased && negb (casedAhead (pred n) r)
                       then Unicode.FINAL_SIGMA else Unicode.SMALL_SIGMA)
            else match Unicode.toLower cp with
                 | Some cps => encode cps
                 | None => takeBytes n s
                 end in
          let afterCased' :=
            if Unicode.isCaseIgnorable cp then afterCased else Unicode.isCased cp in
          lower +:+ toLowerFrom (pred n) afterCased' r
      end
  end.

Definition toLowerCase (s : string) : string := toLowerFrom 0 false s.

Fixpoint startsWith (s p : string) {struct p} : bool :=
  match p with
  | EmptyString => true
  | String a p' =>
      match s with
      | EmptyString => false
      | String b s' => Ascii.eqb b a && startsWith s' p'
      end
  end.

Fixpoint includes (s sub : string) : bool :=
  startsWith s sub ||
  match s with
  | EmptyString => false
  | String _ r => includes r sub
  end.

(** [s.replace(/;?\s*$/, '')]: the leftmost match of the pattern starts at
    the statement terminator that precedes the trailing white space, when
    there is one, and at the trailing white space otherwise. *)
Fixpoint dropLastSemicolon (s : string) : string :=
  match s with
  | EmptyString => EmptyString
  | String c EmptyString => if Ascii.eqb c ";" then EmptyString else s
  | String c r => String c (dropLastSemicolon r)
  end.

Definition stripTerminator (s : string) : string := dropLastSemicolon (trimEnd s).

(** [sql.replace(/\?/g, () => `$${paramIndex++}`)], with [paramIndex] the
    counter the callback increments at each match. *)
Fixpoint replacePlaceholders (paramIndex : nat) (sql : string) : string :=
  match sql with
  | EmptyString => EmptyString
  | String c r =>
      if Ascii.eqb c "?"
      then "$" +:+ pretty paramIndex +:+ replacePlaceholders (S paramIndex) r
      else String c (replacePlaceholders paramIndex r)
  end.

End Js.

Import Js.

(** ** The engines, seen from the program

    [pg] hands out pooled connections; [sqlite3] has one connection to the
    database file.  A connection is named so that the statements of a run can
    be attributed to it. *)

Inductive conn : Type :=
| SharedFile
| PoolConn (id : nat).

#[global] Instance conn_eq_dec : EqDecision conn.
Proof. solve_decision. Defined.

Inductive error : Type :=
| DriverError (message : string)
| JsError (message : string)
| TypeError (message : string).

(** [pg.QueryResult]: [rowCount] is [null] for commands that report none. *)
Record PgResult : Type := { pg_rows : list row; pg_rowCount : option Z }.

(** [this] in the callback of [db.run]. *)
Record RunInfo : Type := { changes : Z; lastID : Z }.

(** The calls the program makes on the two client libraries. [poolQuery] is
    [pool.query]: the pool picks a connection, runs the statement on it and
    takes it back; the connection it picked is part of the answer. *)
Class Driver (E : Type) : Type := {
  poolConnect : E -> (error + conn) * E;
  clientQuery : conn -> string -> list value -> E -> (error + PgResult) * E;
  clientRelease : conn -> E -> E;
  poolQuery : string -> list value -> E -> conn * (error + PgResult) * E;
  poolEnd : E -> E;
  sqliteAll : string -> list value -> E -> (error + list row) * E;
  sqliteRun : string -> list value -> E -> (error + RunInfo) * E
}.

(** What a run does to the engines, in order. *)
Inductive event : Type :=
| EvConnect (c : option conn)
| EvQuery (c : conn) (sql : string) (params : list value) (ok : bool)
| EvRelease (c : conn)
| EvPoolEnd.

(** [{ rows, rowCount, insertId }] *)
Record QueryResult : Type := { rows : list row; rowCount : Z; insertId : value }.

(** [{ table, deleted, skipped }] *)
Record TableCleanupResult : Type := { table : string; deleted : Z; skipped : bool }.

(** The lines of the summary the reset script prints; the other console
    output of the program is not part of the model. *)
Inductive logline : Type :=
| LogSkipped (table : string)
| LogDeleted (table : string) (deleted : Z)
| LogTotal (totalDeleted : Z).

(** The two values ['postgres'] and ['sqlite'] of [dbAdapter]. *)
Inductive adapter : Type := AdapterPostgres | AdapterSqlite.

#[global] Instance adapter_eq_dec : EqDecision adapter.
Proof. solve_decision. Defined.

(** ** Process state and the monad of the program *)

Section Program.
Context {E : Type} {D : Driver E}.

(** The module-level variables of the four modules, the environment, the
    engines, and what the run has done so far. [client] is the local of
    [resetOperationalData] that its [try] and [catch] blocks share. *)
Record world : Type := {
  eng : E;
  DATABASE_URL : option string;
  dbAdapter : option adapter;
  pgQuery : bool;
  pool : bool;
  sqliteDb : bool;
  client : option conn;
  trace : list event;
  console : list logline
}.

Definition set_eng (e : E) (w : world) : world :=
  {| eng := e; DATABASE_URL := DATABASE_URL w; dbAdapter := dbAdapter w;
     pgQuery := pgQuery w; pool := pool w; sqliteDb := sqliteDb w;
     client := client w; trace := trace w; console := console w |}.

Definition set_dbAdapter (a : option adapter) (w : world) : world :=
  {| eng := eng w; DATABASE_URL := DATABASE_URL w; dbAdapter := a;
     pgQuery := pgQuery w; pool := pool w; sqliteDb := sqliteDb w;
     client := client w; trace := trace w; console := console w |}.

Definition set_pgQuery (b : bool) (w : world) : world :=
  {| eng := eng w; DATABASE_URL := DATABASE_URL w; dbAdapter := dbAdapter w;
     pgQuery := b; pool := pool w; sqliteDb := sqliteDb w;
     client := client w; trace := trace w; console := console w |}.

Definition set_pool (b : bool) (w : world) : world :=
  {| eng := eng w; DATABASE_URL := DATABASE_URL w; dbAdapter := dbAdapter w;
     pgQuery := pgQuery w; pool := b; sqliteDb := sqliteDb w;
     client := client w; trace := trace w; console := console w |}.

Definition set_sqliteDb (b : bool) (w : world) : world :=
  {| eng := eng w; DATABASE_URL := DATABASE_URL w; dbAdapter := dbAdapter w;
     pgQuery := pgQuery w; pool := pool w; sqliteDb := b;
     client := client w; trace := trace w; console := console w |}.

Definition set_client (c : option conn) (w : world) : world :=
  {| eng := eng w; DATABASE_URL := DATABASE_URL w; dbAdapter := dbAdapter w;
     pgQuery := pgQuery w; pool := pool w; sqliteDb := sqliteDb w;
     client := c; trace := trace w; console := console w |}.

Definition record (ev : event) (w : world) : world :=
  {| eng := eng w; DATABASE_URL := DATABASE_URL w; dbAdapter := dbAdapter w;
     pgQuery := pgQuery w; pool := pool w; sqliteDb := sqliteDb w;
     client := client w; trace := trace w ++ [ev]; console := console w |}.

Definition print (l : logline) (w : world) : world :=
  {| eng := eng w; DATABASE_URL := DATABASE_URL w; dbAdapter := dbAdapter w;
     pgQuery := pgQuery w; pool := pool w; sqliteDb := sqliteDb w;
     client := client w; trace := trace w; console := console w ++ [l] |}.

(** A computation returns, throws, or ends the process ([process.exit]). *)
Inductive outcome (A : Type) : Type :=
| Ok (a : A)
| Throw (e : error)
| Exit (code : Z).
#[global] Arguments Ok {A} a.
#[global] Arguments Throw {A} e.
#[global] Arguments Exit {A} code.

Definition M (A : Type) : Type := world -> outcome A * world.

Definition ret {A} (a : A) : M A := fun w => (Ok a, w).

Definition bind {A B} (m : M A) (k : A -> M B) : M B :=
  fun w =>
    match m w with
    | (Ok a, w') => k a w'
    | (Throw e, w') => (Throw e, w')
    | (Exit c, w') => (Exit c, w')
    end.

Definition throw {A} (e : error) : M A := fun w => (Throw e, w).

Definition exit {A} (code : Z) : M A := fun w => (Exit code, w).

Definition gets {A} (f : world -> A) : M A := fun w => (Ok (f w), w).

Definition modify (f : world -> world) : M unit := fun w => (Ok tt, f w).

(** [try { m } catch (e) { h e }] *)
Definition tryCatch {A} (m : M A) (h : error -> M A) : M A :=
  fun w =>
    match m w with
    | (Throw e, w') => h e w'
    | r => r
    end.

(** [try { m } finally { f }]; a process that has exited runs no [finally]. *)
Definition tryFinally {A} (m : M A) (f : M unit) : M A :=
  fun w =>
    match m w with
    | (Exit c, w') => (Exit c, w')
    | (r, w') =>
        match f w' with
        | (Ok _, w'') => (r, w'')
        | (Throw e, w'') => (Throw e, w'')
        | (Exit c, w'') => (Exit c, w'')
        end
    end.

End Program.

#[global] Arguments world E : clear implicits.
#[global] Arguments M E A : clear implicits.

Declare Scope prog_scope.
Delimit Scope prog_scope with prog.
Notation "'let!' x ':=' m 'in' k" := (bind m (fun x => k))
  (at level 10, x pattern, m at level 100, k at level 200) : prog_scope.
Notation "'do!' m 'in' k" := (bind m (fun _ => k))
  (at level 10, m at level 100, k at level 200) : prog_scope.
Local Open Scope prog_scope.

(** ** Calls on the client libraries, recorded in the trace *)

Section Calls.
Context {E : Type} {D : Driver E}.

(** [await pool.connect()] *)
Definition pool_connect : M E conn :=
  fun w =>
    match poolConnect (eng w) with
    | (inl err, e) => (Throw err, record (EvConnect None) (set_eng e w))
    | (inr c, e) => (Ok c, record (EvConnect (Some c)) (set_eng e w))
    end.

(** [await client.query(sql, params)] *)
Definition client_query (c : conn) (sql : string) (params : list value) : M E PgResult :=
  fun w =>
    match clientQuery c sql params (eng w) with
    | (inl err, e) => (Throw err, record (EvQuery c sql params false) (set_eng e w))
    | (inr r, e) => (Ok r, record (EvQuery c sql params true) (set_eng e w))
    end.

(** [client.release()] *)
Definition client_release (c : conn) : M E unit :=
  fun w => (Ok tt, record (EvRelease c) (set_eng (clientRelease c (eng w)) w)).

(** [await pool.query(sql, params)] *)
Definition pool_query (sql : string) (params : list value) : M E PgResult :=
  fun w =>
    match poolQuery sql params (eng w) with
    | (c, inl err, e) => (Throw err, record (EvQuery c sql params false) (set_eng e w))
    | (c, inr r, e) => (Ok r, record (EvQuery c sql params true) (set_eng e w))
    end.

(** [await pool.end()] *)
Definition pool_end : M E unit :=
  fun w => (Ok tt, record EvPoolEnd (set_eng (poolEnd (eng w)) w)).

(** [db.all(sql, params, (err, rows) => ...)] on the shared connection *)
Definition sqlite_all (sql : string) (params : list value) : M E (list row) :=
  fun w =>
    match sqliteAll sql params (eng w) with
    | (inl err, e) => (Throw err, record (EvQuery SharedFile sql params false) (set_eng e w))
    | (inr r, e) => (Ok r, record (EvQuery SharedFile sql params true) (set_eng e w))
    end.

(** [db.run(sql, params, function (err) { ... this ... })] *)
Definition sqlite_run (sql : string) (params : list value) : M E RunInfo :=
  fun w =>
    match sqliteRun sql params (eng w) with
    | (inl err, e) => (Throw err, record (EvQuery SharedFile sql params false) (set_eng e w))
    | (inr r, e) => (Ok r, record (EvQuery SharedFile sql params true) (set_eng e w))
    end.

End Calls.

(** ** [src/database/postgres.js] *)

Module Postgres.
Section WithDriver.
Context {E : Type} {D : Driver E}.

Definition getPool : M E unit :=
  let! p := gets pool in
  if negb p
  then throw (JsError "PostgreSQL não foi inicializado. Chame initPostgres() primeiro.")
  else ret tt.

Definition initPostgres : M E unit :=
  let! p := gets pool in
  if p then ret tt
  else
    let! connectionString := gets DATABASE_URL in
    if negb (truthy (from_option Str Undefined connectionString))
    then throw (JsError "DATABASE_URL não configurada. Configure a variável de ambiente DATABASE_URL.")
    else
      do! modify (set_pool true) in
      do! tryCatch
            (let! c := pool_connect in
             do! client_query c "SELECT NOW()" [] in
             client_release c)
            (fun error => throw error) in
      ret tt.

Definition query (text : string) (params : list value) : M E PgResult :=
  do! getPool in
  pool_query text params.

Definition execute (text : string) (params : list value) : M E QueryResult :=
  let! result := query text params in
  ret {| rows := pg_rows result;
         rowCount := default 0%Z (pg_rowCount result);
         insertId := Js.or (Js.prop "id" (head (pg_rows result))) Null |}.

Definition queryOne (text : string) (params : list value) : M E (option row) :=
  let! result := query text params in
  ret (head (pg_rows result)).

Definition queryAll (text : string) (params : list value) : M E (list row) :=
  let! result := query text params in
  ret (pg_rows result).

Definition closePool : M E unit :=
  let! p := gets pool in
  if p
  then
    do! pool_end in
    modify (set_pool false)
  else ret tt.

End WithDriver.
End Postgres.

(** ** [src/database/db-adapter.js], the part [db.js] and [db-helper.js] import *)

Module DbAdapterState.
Section WithDriver.
Context {E : Type}.

Definition getDbAdapter : M E (option adapter) := gets dbAdapter.

Definition isPostgres : M E bool :=
  let! a := gets dbAdapter in
  ret (bool_decide (a = Some AdapterPostgres)).

Definition isSqlite : M E bool :=
  let! a := gets dbAdapter in
  ret (bool_decide (a = Some AdapterSqlite)).

End WithDriver.
End DbAdapterState.

(** The rewriting of an insert statement that [query] and [execute] share:
    [' RETURNING id'] is added to a statement that starts with [INSERT] and
    does not contain [RETURNING]. *)
Definition addReturning (convertedSql : string) : string :=
  let sqlUpper := toUpperCase (trim convertedSql) in
  if startsWith sqlUpper "INSERT" && negb (includes convertedSql "RETURNING")
  then stripTerminator convertedSql +:+ " RETURNING id"
  else convertedSql.

(** ** [src/database/db.js] *)

Module Db.
Import DbAdapterState.
Section WithDriver.
Context {E : Type} {D : Driver E}.

(** The handle is a boolean: [true] once [new sqlite3.Database] has run. *)
Definition getSqliteDb : M E bool :=
  let! db := gets sqliteDb in
  let! lite := isSqlite in
  do! (if negb db && lite then modify (set_sqliteDb true) else ret tt) in
  gets sqliteDb.

Definition convertParams (sql : string) (params : list value) : M E (string * list value) :=
  let! pg := isPostgres in
  if pg
  then ret (replacePlaceholders 1 sql, params)
  else ret (sql, params).

Definition query (sql : string) (params : list value) : M E QueryResult :=
  let! (convertedSql, convertedParams) := convertParams sql params in
  let! pg := isPostgres in
  if pg
  then
    let finalSql := addReturning convertedSql in
    let! result := Postgres.query finalSql convertedParams in
    ret {| rows := pg_rows result;
           rowCount := default 0%Z (pg_rowCount result);
           insertId := Js.or (Js.prop "id" (head (pg_rows result))) Null |}
  else
    let! db := getSqliteDb in
    if negb db
    then throw (TypeError "Cannot read properties of null")
    else
      let sqlUpper := toUpperCase (trim convertedSql) in
      if startsWith sqlUpper "SELECT"
      then
        let! rows := sqlite_all convertedSql convertedParams in
        ret {| rows := rows; rowCount := Z.of_nat (length rows); insertId := Null |}
      else if startsWith sqlUpper "INSERT"
      then
        let! this := sqlite_run convertedSql convertedParams in
        ret {| rows := [];
               rowCount := changes this;
               insertId := Js.or (Num (lastID this)) Null |}
      else
        let! this := sqlite_run convertedSql convertedParams in
        ret {| rows := []; rowCount := changes this; insertId := Null |}.

Definition queryOne (sql : string) (params : list value) : M E (option row) :=
  let! result := query sql params in
  ret (head (rows result)).

Definition queryAll (sql : string) (params : list value) : M E (list row) :=
  let! result := query sql params in
  ret (rows result).

End WithDriver.
End Db.

(** ** [src/database/db-helper.js]: the placeholder rewriting *)

Module DbHelper.
Import DbAdapterState.
Section WithDriver.
Context {E : Type}.

Definition convertParams (sql : string) (params : list value) : M E (string * list value) :=
  let! pg := isPostgres in
  if pg
  then ret (replacePlaceholders 1 sql, params)
  else ret (sql, params).

End WithDriver.
End DbHelper.

(** ** [src/database/db-adapter.js] *)

Module DbAdapter.
Export DbAdapterState.
Section WithDriver.
Context {E : Type} {D : Driver E}.

Definition initDatabase : M E (option adapter) :=
  let! url := gets DATABASE_URL in
  let usePostgres := truthy (from_option Str Undefined url) in
  do! (if usePostgres
       then
         do! modify (set_pgQuery true) in
         do! Postgres.initPostgres in
         modify (set_dbAdapter (Some AdapterPostgres))
       else modify (set_dbAdapter (Some AdapterSqlite))) in
  gets dbAdapter.

Definition convertParams (sql : string) (params : list value) : M E (string * list value) :=
  let! pg := isPostgres in
  if pg
  then ret (replacePlaceholders 1 sql, params)
  else ret (sql, params).

Definition notInitialized : error :=
  JsError "PostgreSQL não inicializado. Chame initDatabase() primeiro.".

Definition query (sql : string) (params : list value) : M E QueryResult :=
  let! pg := isPostgres in
  if pg
  then
    let! loaded := gets pgQuery in
    if negb loaded then throw notInitialized
    else
      let! (convertedSql, convertedParams) := convertParams sql params in
      let finalSql := addReturning convertedSql in
      let! result := Postgres.query finalSql convertedParams in
      ret {| rows := pg_rows result;
             rowCount := default 0%Z (pg_rowCount result);
             insertId := Js.or (Js.prop "id" (head (pg_rows result))) Null |}
  else Db.query sql params.

Definition queryOne (sql : string) (params : list value) : M E (option row) :=
  let! pg := isPostgres in
  if pg
  then
    let! loaded := gets pgQuery in
    if negb loaded then throw notInitialized
    else
      let! (convertedSql, convertedParams) := convertParams sql params in
      Postgres.queryOne convertedSql convertedParams
  else Db.queryOne sql params.

Definition queryAll (sql : string) (params : list value) : M E (list row) :=
  let! pg := isPostgres in
  if pg
  then
    let! loaded := gets pgQuery in
    if negb loaded then throw notInitialized
    else
      let! (convertedSql, convertedParams) := convertParams sql params in
      Postgres.queryAll convertedSql convertedParams
  else Db.queryAll sql params.

Definition execute (sql : string) (params : list value) : M E QueryResult :=
  let! pg := isPostgres in
  if pg
  then
    let! loaded := gets pgQuery in
    if negb loaded then throw notInitialized
    else
      let! (convertedSql, convertedParams) := convertParams sql params in
      let finalSql := addReturning convertedSql in
      Postgres.execute finalSql convertedParams
  else
    let! result := Db.query sql params in
    ret {| rows := rows result;
           rowCount := rowCount result;
           insertId := Js.or (insertId result) Null |}.

End WithDriver.
End DbAdapter.

(** ** The reset script *)

Module ResetScript.
Import DbAdapter.

Definition TABLES_TO_CLEAN : list string :=
  [ "km_historico";
    "abastecimentos";
    "manutencoes";
    "ocr_usage";
    "veiculo_compartilhamentos";
    "proprietarios_historico";
    "proprietarios";
    "veiculos" ].

(** The line feed of the template literals. *)
Definition LF : string := String (ascii_of_nat 10) EmptyString.

Definition SQL_EXISTS_POSTGRES : string :=
  "SELECT EXISTS (" +:+ LF +:+
  "        SELECT FROM information_schema.tables " +:+ LF +:+
  "        WHERE table_schema = 'public' " +:+ LF +:+
  "        AND table_name = $1" +:+ LF +:+
  "      )".

Definition SQL_EXISTS_SQLITE : string :=
  "SELECT name FROM sqlite_master " +:+ LF +:+
  "       WHERE type='table' AND name = ?".

Definition SQL_DELETE_USERS : string :=
  "DELETE FROM usuarios " +:+ LF +:+
  "         WHERE role != 'admin' " +:+ LF +:+
  "         AND email != 'admin@troia.com'".

Section WithDriver.
Context {E : Type} {D : Driver E}.

(** Returns [result?.exists || false] on PostgreSQL and [!!result] on
    SQLite. *)
Definition tableExists (tableName : string) : M E value :=
  let! pg := isPostgres in
  if pg
  then
    let! result := queryOne SQL_EXISTS_POSTGRES [Str tableName] in
    ret (Js.or (Js.prop "exists" result) (Bool false))
  else
    let! result := queryOne SQL_EXISTS_SQLITE [Str tableName] in
    ret (Bool (bool_decide (is_Some result))).

(** [client && isPostgres()] *)
Definition useClient (client : option conn) : M E (option conn) :=
  match client with
  | Some c =>
      let! pg := isPostgres in
      ret (if pg then Some c else None)
  | None => ret None
  end.

(** The count that precedes the delete is read into [countBefore], which
    nothing uses. *)
Definition cleanTable (tableName : string) (client : option conn)
  : M E TableCleanupResult :=
  let! exists_ := tableExists tableName in
  if negb (truthy exists_)
  then ret {| table := tableName; deleted := 0; skipped := true |}
  else
    tryCatch
      (let! viaClient := useClient client in
       match viaClient with
       | Some c =>
           let! countResult := client_query c ("SELECT COUNT(*) as count FROM " +:+ tableName) [] in
           let! result := client_query c ("DELETE FROM " +:+ tableName) [] in
           let deleted := default 0%Z (pg_rowCount result) in
           ret {| table := tableName; deleted := deleted; skipped := false |}
       | None =>
           let! result := query ("DELETE FROM " +:+ tableName) [] in
           let deleted := rowCount result in
           ret {| table := tableName; deleted := deleted; skipped := false |}
       end)
      (fun err => throw err).

Definition cleanUsers (client : option conn) : M E TableCleanupResult :=
  let! exists_ := tableExists "usuarios" in
  if negb (truthy exists_)
  then ret {| table := "usuarios"; deleted := 0; skipped := true |}
  else
    tryCatch
      (let! viaClient := useClient client in
       let! deleted :=
         match viaClient with
         | Some c =>
             let! result := client_query c SQL_DELETE_USERS [] in
             ret (default 0%Z (pg_rowCount result))
         | None =>
             let! result := query SQL_DELETE_USERS [] in
             ret (rowCount result)
         end in
       ret {| table := "usuarios"; deleted := deleted; skipped := false |})
      (fun err => throw err).

(** [for (const table of tables) { results.push(await cleanTable(table, client)) }] *)
Fixpoint cleanTables (tables : list string) (client : option conn)
  (results : list TableCleanupResult) : M E (list TableCleanupResult) :=
  match tables with
  | [] => ret results
  | table :: rest =>
      let! result := cleanTable table client in
      cleanTables rest client (results ++ [result])
  end.

(** The summary loop: one line per result, and the running total. *)
Fixpoint printSummary (results : list TableCleanupResult) (totalDeleted : Z) : M E Z :=
  match results with
  | [] => ret totalDeleted
  | result :: rest =>
      if skipped result
      then
        do! modify (print (LogSkipped (table result))) in
        printSummary rest totalDeleted
      else
        do! modify (print (LogDeleted (table result) (deleted result))) in
        printSummary rest (totalDeleted + deleted result)%Z
  end.

(** The body of the [try] block.  Its value here is the array [results] as
    the block leaves it; in the program the array does not leave the
    function. *)
Definition resetTransaction (resetUsers : bool) : M E (list TableCleanupResult) :=
  let! pg := isPostgres in
  do! (if pg
       then
         do! Postgres.getPool in
         let! c := pool_connect in
         do! modify (set_client (Some c)) in
         do! client_query c "BEGIN" [] in
         ret tt
       else
         do! query "BEGIN TRANSACTION" [] in
         ret tt) in
  let! client := gets client in
  let! results := cleanTables TABLES_TO_CLEAN client [] in
  let! results :=
    (if resetUsers
     then
       let! result := cleanUsers client in
       ret (results ++ [result])
     else ret results) in
  do! match client with
      | Some c =>
          do! client_query c "COMMIT" [] in
          client_release c
      | None =>
          do! query "COMMIT" [] in
          ret tt
      end in
  let! totalDeleted := printSummary results 0%Z in
  do! modify (print (LogTotal totalDeleted)) in
  ret results.

(** The [catch] block: roll back, report, end the process with status 1. *)
Definition resetFailed {A} (error : error) : M E A :=
  let! client := gets client in
  do! match client with
      | Some c =>
          tryCatch
            (do! client_query c "ROLLBACK" [] in
             client_release c)
            (fun rollbackError => ret tt)
      | None =>
          tryCatch
            (do! query "ROLLBACK" [] in
             ret tt)
            (fun rollbackError => ret tt)
      end in
  exit 1%Z.

(** The [finally] block. *)
Definition resetFinally : M E unit :=
  let! pg := isPostgres in
  if pg
  then tryCatch Postgres.closePool (fun err => ret tt)
  else ret tt.

(** [async function resetOperationalData(resetUsers = false)]; the function
    has no [return] statement, so that its promise resolves to [undefined]. *)
Definition resetOperationalData (resetUsers : bool) : M E value :=
  do! initDatabase in
  do! modify (set_client None) in
  do! tryFinally (tryCatch (resetTransaction resetUsers) resetFailed) resetFinally in
  ret Undefined.

End WithDriver.
End ResetScript.

(** ** A reference engine: one store, one open transaction, injected faults

    The engine understands the statements the reset script issues.  A
    transaction works on a private copy of the store that [COMMIT] publishes
    and [ROLLBACK] drops; a connection outside the transaction reads and
    writes the committed store.  The [n]-th call fails without effect when
    [faults n] holds. *)

Abbreviation store := (gmap string (list row)).

Record engine : Type := {
  committed : store;
  txn : option (conn * store);
  leased : list nat;
  clock : nat;
  faults : nat -> bool
}.

Inductive dialect : Type := PostgresDialect | SqliteDialect.

(** The condition of a [WHERE] clause: comparisons of columns and literals,
    joined by [AND]. *)
Inductive operand : Type :=
| Column (name : string)
| Literal (v : value).

Inductive comparator : Type := Equal | Different.

Record comparison : Type := { lhs : operand; cmp : comparator; rhs : operand }.

Definition condition : Type := list comparison.

Inductive statement : Type :=
| SBegin
| SCommit
| SRollback
| SNow
| SExistsPostgres (t : string)
| SExistsSqlite (t : string)
| SCount (t : string)
| SDeleteAll (t : string)
| SDeleteWhere (t : string) (c : condition)
| SUnknown.

(** The decimal digits. *)
Definition isDigit (a : ascii) : bool :=
  let n := N_of_ascii a in ((48 <=? n) && (n <=? 57))%N.

Fixpoint allDigits (s : string) : bool :=
  match s with
  | EmptyString => true
  | String a r => isDigit a && allDigits r
  end.

Fixpoint stripPrefix (p s : string) : option string :=
  match p, s with
  | EmptyString, _ => Some s
  | String a p', String b s' => if Ascii.eqb a b then stripPrefix p' s' else None
  | String _ _, EmptyString => None
  end.

(** The words of a clause are separated by white space. *)
Definition unquote (word : string) : option string :=
  match stripPrefix "'" word with
  | Some r =>
      match stripPrefix "'" (String.rev r) with
      | Some inner => if includes inner "'" then None else Some (String.rev inner)
      | None => None
      end
  | None => None
  end.

Fixpoint digitsValue (acc : Z) (s : string) : Z :=
  match s with
  | EmptyString => acc
  | String a r => digitsValue (10 * acc + Z.of_N (N_of_ascii a - 48)) r
  end.

Definition isNameChar (a : ascii) : bool :=
  let n := N_of_ascii a in
  ((0x41 <=? n) && (n <=? 0x5A) || (0x61 <=? n) && (n <=? 0x7A) || (n =? 0x5F) || isDigit a)%N.

Fixpoint isName (s : string) : bool :=
  match s with
  | EmptyString => true
  | String a r => isNameChar a && isName r
  end.

Definition parseOperand (word : string) : option operand :=
  match unquote word with
  | Some text => Some (Literal (Str text))
  | None =>
      if String.eqb word "" then None
      else if allDigits word then Some (Literal (Num (digitsValue 0 word)))
      else if isName word then Some (Column word)
      else None
  end.

Definition parseComparator (word : string) : option comparator :=
  if String.eqb word "=" then Some Equal
  else if String.eqb word "!=" || String.eqb word "<>" then Some Different
  else None.

Definition parseComparison (l op r : string) : option comparison :=
  match parseOperand l, parseComparator op, parseOperand r with
  | Some a, Some c, Some b => Some {| lhs := a; cmp := c; rhs := b |}
  | _, _, _ => None
  end.

Fixpoint parseCondition (words : list string) : option condition :=
  match words with
  | [l; op; r] => (fun c => [c]) <$> parseComparison l op r
  | l :: op :: r :: and_ :: rest =>
      if String.eqb and_ "AND"
      then match parseComparison l op r, parseCondition rest with
           | Some c, Some cs => Some (c :: cs)
           | _, _ => None
           end
      else None
  | _ => None
  end.

(** What follows [DELETE FROM]: the name of the table, alone or with a
    [WHERE] clause. *)
Definition parseDelete (rest : string) : statement :=
  match String.words rest with
  | [t] => SDeleteAll t
  | t :: where_ :: clause =>
      if String.eqb where_ "WHERE"
      then match parseCondition clause with
           | Some c => SDeleteWhere t c
           | None => SUnknown
           end
      else SUnknown
  | [] => SUnknown
  end.

Definition parse (sql : string) (params : list value) : statement :=
  if String.eqb sql "BEGIN" || String.eqb sql "BEGIN TRANSACTION" then SBegin
  else if String.eqb sql "COMMIT" then SCommit
  else if String.eqb sql "ROLLBACK" then SRollback
  else if String.eqb sql "SELECT NOW()" then SNow
  else if String.eqb sql ResetScript.SQL_EXISTS_POSTGRES
  then match params with [Str t] => SExistsPostgres t | _ => SUnknown end
  else if String.eqb sql ResetScript.SQL_EXISTS_SQLITE
  then match params with [Str t] => SExistsSqlite t | _ => SUnknown end
  else
    match stripPrefix "SELECT COUNT(*) as count FROM " sql with
    | Some t => SCount t
    | None =>
        match stripPrefix "DELETE FROM " sql with
        | Some rest => parseDelete rest
        | None => SUnknown
        end
    end.

(** SQL comparison: unknown when a side is [NULL]; values of different
    types are different. *)
Definition sql_eq (a b : value) : option bool :=
  match a, b with
  | Null, _ | Undefined, _ | _, Null | _, Undefined => None
  | Str x, Str y => Some (String.eqb x y)
  | Num x, Num y => Some (x =? y)%Z
  | Bool x, Bool y => Some (eqb x y)
  | _, _ => Some false
  end.

Definition operandValue (r : row) (o : operand) : value :=
  match o with
  | Column name => default Null (r !! name)
  | Literal v => v
  end.

Definition compare (r : row) (c : comparison) : option bool :=
  match cmp c with
  | Equal => sql_eq (operandValue r (lhs c)) (operandValue r (rhs c))
  | Different => negb <$> sql_eq (operandValue r (lhs c)) (operandValue r (rhs c))
  end.

(** SQL comparison with a text literal: unknown on [NULL]. *)
Definition sql_ne (v : option value) (lit : string) : option bool :=
  match v with
  | Some (Str s) => Some (negb (String.eqb s lit))
  | Some (Num _) | Some (Bool _) => Some true
  | Some Null | Some Undefined | None => None
  end.

Definition sql_and (a b : option bool) : option bool :=
  match a, b with
  | Some false, _ | _, Some false => Some false
  | Some true, Some true => Some true
  | _, _ => None
  end.

(** A [WHERE] clause selects the rows on which its condition is true. *)
Definition satisfies (c : condition) (r : row) : bool :=
  match foldr (fun p acc => sql_and (compare r p) acc) (Some true) c with
  | Some true => true
  | _ => false
  end.

(** [WHERE role != 'admin' AND email != 'admin@troia.com'], read by hand. *)
Definition users_where (r : row) : bool :=
  match sql_and (sql_ne (r !! "role") "admin") (sql_ne (r !! "email") "admin@troia.com") with
  | Some true => true
  | _ => false
  end.

Definition view (c : conn) (e : engine) : store :=
  match txn e with
  | Some (c', s) => if decide (c = c') then s else committed e
  | None => committed e
  end.

Definition write (c : conn) (s : store) (e : engine) : engine :=
  match txn e with
  | Some (c', s') =>
      if decide (c = c')
      then {| committed := committed e; txn := Some (c', s); leased := leased e;
              clock := clock e; faults := faults e |}
      else {| committed := s; txn := txn e; leased := leased e;
              clock := clock e; faults := faults e |}
  | None => {| committed := s; txn := None; leased := leased e;
               clock := clock e; faults := faults e |}
  end.

Definition set_txn (t : option (conn * store)) (e : engine) : engine :=
  {| committed := committed e; txn := t; leased := leased e;
     clock := clock e; faults := faults e |}.

Definition publish (s : store) (e : engine) : engine :=
  {| committed := s; txn := None; leased := leased e;
     clock := clock e; faults := faults e |}.

Definition set_leased (l : list nat) (e : engine) : engine :=
  {| committed := committed e; txn := txn e; leased := l;
     clock := clock e; faults := faults e |}.

Definition tick (e : engine) : engine :=
  {| committed := committed e; txn := txn e; leased := leased e;
     clock := S (clock e); faults := faults e |}.

Definition answered (rs : list row) (n : option Z) (e : engine) : (error + PgResult) * engine :=
  (inr {| pg_rows := rs; pg_rowCount := n |}, e).

Definition failed {A} (message : string) (e : engine) : (error + A) * engine :=
  (inl (DriverError message), e).

(** A transaction statement on a connection that holds no transaction:
    PostgreSQL warns, SQLite refuses. *)
Definition outsideTransaction (d : dialect) (e : engine) : (error + PgResult) * engine :=
  match d with
  | PostgresDialect => answered [] None e
  | SqliteDialect => failed "no transaction is active" e
  end.

Definition exec (d : dialect) (c : conn) (st : statement) (e : engine)
  : (error + PgResult) * engine :=
  match st with
  | SBegin =>
      match txn e with
      | None => answered [] None (set_txn (Some (c, committed e)) e)
      | Some (c', _) =>
          if decide (c = c')
          then match d with
               | PostgresDialect => answered [] None e
               | SqliteDialect => failed "cannot start a transaction within a transaction" e
               end
          else failed "another transaction is open" e
      end
  | SCommit =>
      match txn e with
      | Some (c', s) => if decide (c = c') then answered [] None (publish s e)
                        else outsideTransaction d e
      | None => outsideTransaction d e
      end
  | SRollback =>
      match txn e with
      | Some (c', s) => if decide (c = c') then answered [] None (set_txn None e)
                        else outsideTransaction d e
      | None => outsideTransaction d e
      end
  | SNow =>
      match d with
      | PostgresDialect => answered [{[ "now" := Str "now" ]}] (Some 1%Z) e
      | SqliteDialect => failed "no such function: NOW" e
      end
  | SExistsPostgres t =>
      match d with
      | PostgresDialect =>
          answered [{[ "exists" := Bool (bool_decide (is_Some (view c e !! t))) ]}] (Some 1%Z) e
      | SqliteDialect => failed "no such table: information_schema.tables" e
      end
  | SExistsSqlite t =>
      match d with
      | PostgresDialect => failed "relation sqlite_master does not exist" e
      | SqliteDialect =>
          match view c e !! t with
          | Some _ => answered [{[ "name" := Str t ]}] None e
          | None => answered [] None e
          end
      end
  | SCount t =>
      match view c e !! t with
      | Some rs =>
          let n := length rs in
          match d with
          | PostgresDialect => answered [{[ "count" := Str (pretty n) ]}] (Some 1%Z) e
          | SqliteDialect => answered [{[ "count" := Num (Z.of_nat n) ]}] None e
          end
      | None => failed "no such table" e
      end
  | SDeleteAll t =>
      match view c e !! t with
      | Some rs => answered [] (Some (Z.of_nat (length rs))) (write c (<[t := []]> (view c e)) e)
      | None => failed "no such table" e
      end
  | SDeleteWhere t cond =>
      match view c e !! t with
      | Some rs =>
          answered [] (Some (Z.of_nat (length (filter (fun r => satisfies cond r = true) rs))))
               (write c (<[t := filter (fun r => satisfies cond r = false) rs]> (view c e)) e)
      | None => failed "no such table" e
      end
  | SUnknown => failed "syntax error" e
  end.

(** Every call takes a tick of the clock; an injected fault fails it before
    it reaches the store. *)
Definition attempt {A} (k : engine -> (error + A) * engine) (e : engine)
  : (error + A) * engine :=
  if faults e (clock e) then failed "injected fault" (tick e) else k (tick e).

(** The connection the pool hands out next: one that is not leased. *)
Definition idle (l : list nat) : nat :=
  match l with
  | [] => 0
  | _ => S (list_max l)
  end.

(** The pool holds at most 20 connections. *)
Definition poolExhausted (e : engine) : bool := 20 <=? length (leased e).

Definition engine_poolConnect (e : engine) : (error + conn) * engine :=
  attempt (fun e =>
    if poolExhausted e then failed "timeout exceeded when trying to connect" e
    else (inr (PoolConn (idle (leased e))), set_leased (idle (leased e) :: leased e) e)) e.

Definition engine_clientQuery (c : conn) (sql : string) (params : list value) (e : engine)
  : (error + PgResult) * engine :=
  attempt (exec PostgresDialect c (parse sql params)) e.

Definition engine_clientRelease (c : conn) (e : engine) : engine :=
  match c with
  | PoolConn n => set_leased (filter (fun m => m <> n) (leased e)) e
  | SharedFile => e
  end.

Definition engine_poolQuery (sql : string) (params : list value) (e : engine)
  : conn * (error + PgResult) * engine :=
  let c := PoolConn (idle (leased e)) in
  let '(r, e') :=
    attempt (fun e =>
      if poolExhausted e then failed "timeout exceeded when trying to connect" e
      else exec PostgresDialect c (parse sql params) e) e in
  (c, r, e').

Definition engine_sqliteAll (sql : string) (params : list value) (e : engine)
  : (error + list row) * engine :=
  attempt (fun e =>
    match exec SqliteDialect SharedFile (parse sql params) e with
    | (inl err, e') => (inl err, e')
    | (inr r, e') => (inr (pg_rows r), e')
    end) e.

Definition engine_sqliteRun (sql : string) (params : list value) (e : engine)
  : (error + RunInfo) * engine :=
  attempt (fun e =>
    match exec SqliteDialect SharedFile (parse sql params) e with
    | (inl err, e') => (inl err, e')
    | (inr r, e') => (inr {| changes := default 0%Z (pg_rowCount r); lastID := 0 |}, e')
    end) e.

#[global] Instance engine_driver : Driver engine := {
  poolConnect := engine_poolConnect;
  clientQuery := engine_clientQuery;
  clientRelease := engine_clientRelease;
  poolQuery := engine_poolQuery;
  poolEnd := fun e => e;
  sqliteAll := engine_sqliteAll;
  sqliteRun := engine_sqliteRun
}.

(** A new process on a database with the given contents. *)
Definition fresh (s : store) (f : nat -> bool) : engine :=
  {| committed := s; txn := None; leased := []; clock := 0; faults := f |}.

Definition boot {E} (url : option string) (e : E) : world E :=
  {| eng := e; DATABASE_URL := url; dbAdapter := None; pgQuery := false;
     pool := false; sqliteDb := false; client := None; trace := []; console := [] |}.

(** ** Scripted engines

    An engine that answers each call from a table: what [pool.query] and
    [client.query] resolve to, what [db.all] passes to its callback, and what
    [db.run] leaves in [this]. *)

Record script : Type := {
  answerQuery : string -> list value -> error + PgResult;
  answerAll : string -> list value -> error + list row;
  answerRun : string -> list value -> error + RunInfo
}.

#[global] Instance script_driver : Driver script := {
  poolConnect := fun s => (inr (PoolConn 0), s);
  clientQuery := fun _ sql params s => (answerQuery s sql params, s);
  clientRelease := fun _ s => s;
  poolQuery := fun sql params s => (PoolConn 0, answerQuery s sql params, s);
  poolEnd := fun s => s;
  sqliteAll := fun sql params s => (answerAll s sql params, s);
  sqliteRun := fun sql params s => (answerRun s sql params, s)
}.

(** ** The words of the specification *)

(** The text between the placeholders of a query, in order. *)
Fixpoint pieces (sql : string) : list string :=
  match sql with
  | EmptyString => [EmptyString]
  | String c r =>
      if Ascii.eqb c "?" then EmptyString :: pieces r
      else match pieces r with
           | p :: ps => String c p :: ps
           | [] => [String c EmptyString]
           end
  end.

(** The pieces put together again, with [mark i] between piece [i] and the
    next, counting from [i]. *)
Fixpoint joinPieces (mark : nat -> string) (i : nat) (ps : list string) : string :=
  match ps with
  | [] => EmptyString
  | [p] => p
  | p :: ps' => p +:+ mark i +:+ joinPieces mark (S i) ps'
  end.

(** The numbered form [$i] of the [i]-th placeholder. *)
Definition numbered (i : nat) : string := "$" +:+ pretty i.




(** The value an outcome carries, if any. *)
Definition returned {A} (o : outcome A) : option A :=
  match o with
  | Ok a => Some a
  | _ => None
  end.

(** [queryOne] is [queryMany] followed by taking the first row. *)
Definition firstRowOf (o : outcome QueryResult) : outcome (option row) :=
  match o with
  | Ok q => Ok (head (rows q))
  | Throw e => Throw e
  | Exit c => Exit c
  end.

(** The statements among the events. *)
Definition isStatement (ev : event) : bool :=
  match ev with
  | EvQuery _ _ _ _ => true
  | _ => false
  end.

Definition failedStatement (ev : event) : bool :=
  match ev with
  | EvQuery _ _ _ false => true
  | _ => false
  end.

(** A keyword: capital letters only. *)
Fixpoint capitals (p : string) : bool :=
  match p with
  | EmptyString => true
  | String a p' =>
      let n := N_of_ascii a in ((0x41 <=? n) && (n <=? 0x5A))%N && capitals p'
  end.

(** An ASCII character in upper case. *)
Definition asciiUpper (c : ascii) : ascii :=
  let n := N_of_ascii c in
  if ((0x61 <=? n) && (n <=? 0x7A))%N then ascii_of_N (n - 0x20) else c.




(** The first [k] bytes of [r] are continuation bytes. *)
Fixpoint contPrefix (k : nat) (r : string) : bool :=
  match k with
  | O => true
  | S k' =>
      match r with
      | String c r' => isContinuation c && contPrefix k' r'
      | EmptyString => false
      end
  end.

(** The string is empty or starts with a byte that continues no character. *)
Definition startsChar (w : string) : bool :=
  match w with
  | EmptyString => true
  | String c _ => negb (isContinuation c)
  end.

(** A call reaches the engine with at most one statement, and with exactly
    one when it returns. *)
Definition atMostOneStatement {E A} (w : world E) (r : outcome A * world E)
    (params : list value) : Prop :=
  exists evs, trace r.2 = trace w ++ evs /\ length evs <= 1
    /\ (forall a, r.1 = Ok a -> exists c sql', evs = [EvQuery c sql' params true]).

(** The process after [initDatabase]. *)
Definition started {E} {D : Driver E} (url : option string) (e : E) : world E :=
  (DbAdapter.initDatabase (boot url e)).2.

(** An engine that returns the generated key 7 when asked for it. *)
Definition returningScript : script :=
  {| answerQuery := fun sql _ =>
       if includes sql "RETURNING"
       then inr {| pg_rows := [{[ "id" := Num 7 ]}]; pg_rowCount := Some 1%Z |}
       else inr {| pg_rows := []; pg_rowCount := Some 1%Z |};
     answerAll := fun _ _ => inr [];
     answerRun := fun _ _ => inr {| changes := 1; lastID := 7 |} |}.

(** [insertId] is [null] unless one row was affected. *)
Definition insertIdOnlyAfterSingleRow (q : QueryResult) : Prop :=
  rowCount q <> 1%Z -> insertId q = Null.

(** An engine on which an insert statement adds two rows, with the keys 10
    and 11. *)
Definition twoRowScript : script :=
  {| answerQuery := fun sql _ =>
       if includes sql "RETURNING"
       then inr {| pg_rows := [{[ "id" := Num 10 ]}; {[ "id" := Num 11 ]}];
                   pg_rowCount := Some 2%Z |}
       else inr {| pg_rows := []; pg_rowCount := Some 2%Z |};
     answerAll := fun _ _ => inr [];
     answerRun := fun _ _ => inr {| changes := 2; lastID := 11 |} |}.

(** Two engines over the same data: both answer a query with the rows
    [rs]. *)
Definition fixtureScript (rs : list row) : script :=
  {| answerQuery := fun _ _ =>
       inr {| pg_rows := rs; pg_rowCount := Some (Z.of_nat (length rs)) |};
     answerAll := fun _ _ => inr rs;
     answerRun := fun _ _ => inr {| changes := 0; lastID := 0 |} |}.

Definition POSTGRES_URL : option string := Some "postgres://localhost/troia".

(** Characters outside ASCII that [trim] and the case mappings know: the
    no-break space U+00A0, the byte order mark U+FEFF and the ideographic
    space U+3000 are white space; the dotless i U+0131 has the capital [I],
    the sharp s U+00DF the capitals [SS]; U+00C9 is the capital of U+00E9. *)
Definition NBSP : string := utf8 0xA0.
Definition BOM : string := utf8 0xFEFF.
Definition IDEOGRAPHIC_SPACE : string := utf8 0x3000.
Definition DOTLESS_I : string := utf8 0x131.
Definition SHARP_S : string := utf8 0xDF.
Definition CAPITAL_E_ACUTE : string := utf8 0xC9.
Definition SMALL_E_ACUTE : string := utf8 0xE9.

(** C8, as stated: the placeholder tokens of a query are the [?] of the
    statement itself; a [?] inside a string literal, a quoted identifier or a
    comment is text.  [lexState] is the place of the reader in the statement,
    [lexNext] moves it over one character. *)
Definition DOUBLE_QUOTE : ascii := ascii_of_nat 34.

Inductive lexState : Type :=
  | InCode | InLiteral | InQuoted | InLineComment | InBlockComment | LeavingBlockComment.

Definition lexNext (st : lexState) (c : ascii) (r : string) : lexState :=
  match st with
  | InCode =>
      if Ascii.eqb c "'" then InLiteral
      else if Ascii.eqb c DOUBLE_QUOTE then InQuoted
      else if Ascii.eqb c "-" && startsWith r "-" then InLineComment
      else if Ascii.eqb c "/" && startsWith r "*" then InBlockComment
      else InCode
  | InLiteral => if Ascii.eqb c "'" then InCode else InLiteral
  | InQuoted => if Ascii.eqb c DOUBLE_QUOTE then InCode else InQuoted
  | InLineComment => if Ascii.eqb c (ascii_of_nat 10) then InCode else InLineComment
  | InBlockComment =>
      if Ascii.eqb c "*" && startsWith r "/" then LeavingBlockComment else InBlockComment
  | LeavingBlockComment => InCode
  end.

Definition isCode (st : lexState) : bool :=
  match st with
  | InCode => true
  | _ => false
  end.

(** The [i]-th placeholder token becomes [$i], all other text stays. *)
Fixpoint rewriteTokens (st : lexState) (i : nat) (sql : string) : string :=
  match sql with
  | EmptyString => EmptyString
  | String c r =>
      if Ascii.eqb c "?" && isCode st
      then "$" +:+ pretty i +:+ rewriteTokens InCode (S i) r
      else String c (rewriteTokens (lexNext st c r) i r)
  end.

(** Every [?] of the query is a placeholder token. *)
Fixpoint tokensOnly (st : lexState) (sql : string) : bool :=
  match sql with
  | EmptyString => true
  | String c r =>
      (if Ascii.eqb c "?" then isCode st else true) && tokensOnly (lexNext st c r) r
  end.

(** ** States and outcomes of the reset *)

Import ResetScript.

(** The connection that holds the transaction of the reset. *)
Definition txnConn (b : adapter) (c : nat) : conn :=
  match b with
  | AdapterPostgres => PoolConn c
  | AdapterSqlite => SharedFile
  end.

(** The state of the process between [BEGIN] and [COMMIT] or [ROLLBACK]:
    the committed store is the one the run started with, the transaction
    works on [ws], which has the same tables. *)
Definition inTransaction (b : adapter) (c : nat) (S0 ws : store) (w : world engine) : Prop :=
  dbAdapter w = Some b
  /\ committed (eng w) = S0
  /\ txn (eng w) = Some (txnConn b c, ws)
  /\ dom ws = dom S0
  /\ console w = []
  /\ match b with
     | AdapterPostgres =>
         pgQuery w = true /\ pool w = true /\ client w = Some (PoolConn c)
         /\ leased (eng w) = [c]
     | AdapterSqlite => client w = None /\ sqliteDb w = true
     end.

(** An event is pinned to connection [c] when it is a lease or a release of
    [c], or a statement that runs on [c]; the catalog query of [tableExists]
    on PostgreSQL is pinned when it runs on another connection. *)
Definition pinned (c : conn) (ev : event) : bool :=
  match ev with
  | EvQuery c' sql _ _ =>
      if String.eqb sql SQL_EXISTS_POSTGRES
      then negb (bool_decide (c' = c))
      else bool_decide (c' = c)
  | EvConnect (Some c') | EvRelease c' => bool_decide (c' = c)
  | EvConnect None | EvPoolEnd => true
  end.

(** What a block of the run adds to the process. *)
Definition extends (c : conn) (w w' : world engine) (evs : list event) : Prop :=
  trace w' = trace w ++ evs
  /\ faults (eng w') = faults (eng w)
  /\ Forall (fun ev => pinned c ev = true) evs.

(** The entry of the report for table [t], read off the store [ws]. *)
Definition report (ws : store) (t : string) : TableCleanupResult :=
  match ws !! t with
  | Some rs => {| table := t; deleted := Z.of_nat (length rs); skipped := false |}
  | None => {| table := t; deleted := 0; skipped := true |}
  end.

(** The store after [DELETE FROM t], when [t] is there. *)
Definition clearTable (t : string) (ws : store) : store := alter (fun _ => []) t ws.

Definition injected : error := DriverError "injected fault".

(** What a block of the [try] block does: it returns [expect] and leaves the
    transaction working on [ws'], or it throws inside the transaction because of an
    injected fault; it never ends the process. *)
Definition stepOutcome {A} (b : adapter) (c : nat) (S0 ws' : store)
    (w : world engine) (r : outcome A * world engine) (expect : A) : Prop :=
  exists evs, extends (txnConn b c) w r.2 evs
    /\ match r.1 with
       | Ok a => a = expect /\ inTransaction b c S0 ws' r.2
                 /\ Forall (fun ev => failedStatement ev = false) evs
       | Throw _ => (exists ws'', inTransaction b c S0 ws'' r.2)
                    /\ (exists k, faults (eng w) k = true)
       | Exit _ => False
       end.

(** The entries of the report for the tables [ts], cleaned in order from the
    store [ws], and the store they leave. *)
Fixpoint reports (ws : store) (ts : list string) : list TableCleanupResult :=
  match ts with
  | [] => []
  | t :: ts' => report ws t :: reports (clearTable t ws) ts'
  end.

Definition cleared (ts : list string) (ws : store) : store :=
  foldl (fun m t => clearTable t m) ws ts.

(** The entry for the user accounts, and the store after the purge. *)
Definition usersReport (ws : store) : TableCleanupResult :=
  match ws !! "usuarios" with
  | Some rs => {| table := "usuarios";
                  deleted := Z.of_nat (length (filter (fun r => users_where r = true) rs));
                  skipped := false |}
  | None => {| table := "usuarios"; deleted := 0; skipped := true |}
  end.

Definition purged (ws : store) : store :=
  alter (filter (fun r => users_where r = false)) "usuarios" ws.

(** A table name that the engine reads back from [DELETE FROM name]: one
    word. *)
Definition plainName (t : string) : bool := bool_decide (String.words t = [t]).

(** The condition of the statement that purges the user accounts. *)
Definition usersCondition : condition :=
  [ {| lhs := Column "role"; cmp := Different; rhs := Literal (Str "admin") |};
    {| lhs := Column "email"; cmp := Different; rhs := Literal (Str "admin@troia.com") |} ].

(** The process when something was thrown in the [try] block: the committed
    store is untouched; on PostgreSQL either no connection was leased, or
    connection 0 is leased and holds the transaction, if there is one. *)
Definition failing (b : adapter) (S0 : store) (w : world engine) : Prop :=
  dbAdapter w = Some b
  /\ committed (eng w) = S0
  /\ console w = []
  /\ match b with
     | AdapterPostgres =>
         pgQuery w = true /\ pool w = true
         /\ ((client w = None /\ leased (eng w) = [] /\ txn (eng w) = None)
             \/ (client w = Some (PoolConn 0) /\ leased (eng w) = [0]
                 /\ (txn (eng w) = None \/ exists ws, txn (eng w) = Some (PoolConn 0, ws))))
     | AdapterSqlite =>
         client w = None /\ sqliteDb w = true
         /\ (txn (eng w) = None \/ exists ws, txn (eng w) = Some (SharedFile, ws))
     end.

(** The process outside the transaction, with [ls] on the console. *)
Definition finished (b : adapter) (S : store) (ls : list logline) (w : world engine) : Prop :=
  dbAdapter w = Some b
  /\ committed (eng w) = S
  /\ txn (eng w) = None
  /\ console w = ls
  /\ match b with
     | AdapterPostgres => pgQuery w = true /\ pool w = true /\ leased (eng w) = []
     | AdapterSqlite => True
     end.

(** The process before [BEGIN] and after [COMMIT]: nothing is printed yet. *)
Definition settled (b : adapter) (S : store) (w : world engine) : Prop :=
  finished b S [] w.

(** The line of the summary for an entry of the report. *)
Definition summaryLine (r : TableCleanupResult) : logline :=
  if skipped r then LogSkipped (table r) else LogDeleted (table r) (deleted r).

(** The sum of [deleted] over the entries that are not skipped. *)
Definition totalOf (results : list TableCleanupResult) : Z :=
  foldr (fun r n => if skipped r then n else (deleted r + n)%Z) 0%Z results.

(** What a block of the [try] block does, seen from outside: it returns in a
    state [post], or it throws because of an injected fault and leaves the
    committed store alone; it never ends the process. *)
Definition blockOutcome {A} (b : adapter) (S0 : store) (w : world engine)
    (r : outcome A * world engine) (post : A -> world engine -> Prop) : Prop :=
  exists evs, extends (txnConn b 0) w r.2 evs
    /\ match r.1 with
       | Ok a => post a r.2 /\ Forall (fun ev => failedStatement ev = false) evs
       | Throw _ => failing b S0 r.2 /\ (exists k, faults (eng w) k = true)
       | Exit _ => False
       end.

(** The process once [getSqliteDb] has opened the database file. *)
Definition opened {E} (w : world E) : world E :=
  if sqliteDb w then w else set_sqliteDb true w.
#[global] Arguments opened : simpl never.

(** The store a successful reset commits, and the report it prints. *)
Definition finalStore (resetUsers : bool) (S0 : store) : store :=
  let s := cleared TABLES_TO_CLEAN S0 in
  if resetUsers then purged s else s.

Definition finalReport (resetUsers : bool) (S0 : store) : list TableCleanupResult :=
  reports S0 TABLES_TO_CLEAN
  ++ (if resetUsers then [usersReport (cleared TABLES_TO_CLEAN S0)] else []).

Definition summary (results : list TableCleanupResult) : list logline :=
  map summaryLine results ++ [LogTotal (totalOf results)].

(** The [catch] block has issued [ROLLBACK] on connection [cx] as its last
    statement; when the statement succeeded no transaction is left open. *)
Definition rolledBack (cx : conn) (before : list event) (w' : world engine) : Prop :=
  exists ok tail,
    trace w' = before ++ EvQuery cx "ROLLBACK" [] ok :: tail
    /\ Forall (fun ev => isStatement ev = false) tail
    /\ (ok = true -> txn (eng w') = None).

(** The engine the reset talks to, read off the environment. *)
Definition backendOf (url : option string) : adapter :=
  if truthy (from_option Str Undefined url) then AdapterPostgres else AdapterSqlite.

(** The only statement of the start-up is the probe. *)
Definition probeOnly (ev : event) : Prop :=
  match ev with
  | EvQuery _ sql _ _ => sql = "SELECT NOW()"
  | _ => True
  end.

(** ** A database and its faults *)

(** The scenario of the specification, in the tables of the script: three
    maintenance records that refer to two vehicles, and two user accounts. *)
Definition workshop : store :=
  {[ "manutencoes" := [ {[ "id" := Num 1; "veiculo_id" := Num 1 ]};
                        {[ "id" := Num 2; "veiculo_id" := Num 1 ]};
                        {[ "id" := Num 3; "veiculo_id" := Num 2 ]} ];
     "veiculos" := [ {[ "id" := Num 1 ]}; {[ "id" := Num 2 ]} ];
     "usuarios" := [ {[ "id" := Num 1; "role" := Str "admin"; "email" := Str "admin@troia.com" ]};
                     {[ "id" := Num 2; "role" := Str "user"; "email" := Str "ana@troia.com" ]} ] ]}.

Definition noFault : nat -> bool := fun _ => false.

(** The [n]-th call on the engine fails. *)
Definition faultAt (n : nat) : nat -> bool := fun k => k =? n.

(** C9, as stated: the purge deletes the rows whose role is not the
    administrator role and whose email is not the reserved address. *)
Definition notAdministrator (r : row) : bool :=
  negb (bool_decide (r !! "role" = Some (Str "admin")))
  && negb (bool_decide (r !! "email" = Some (Str "admin@troia.com"))).

(** The column has a value: it is there and is not [null]. *)
Definition hasValue (v : option value) : bool :=
  match v with
  | Some Null | Some Undefined | None => false
  | Some _ => true
  end.

(** C9, amended: the rows the purge deletes have, in addition, a value in
    both columns. *)
Definition purgeable (r : row) : bool :=
  hasValue (r !! "role") && hasValue (r !! "email") && notAdministrator r.

(** User accounts, one of them without a role. *)
Definition staff : store :=
  {[ "usuarios" := [ {[ "id" := Num 1; "role" := Str "admin"; "email" := Str "admin@troia.com" ]};
                     {[ "id" := Num 2; "role" := Null; "email" := Str "ana@troia.com" ]};
                     {[ "id" := Num 3; "role" := Str "user"; "email" := Str "bia@troia.com" ]} ] ]}.

(** C2, as stated: every statement runs on connection [c]. *)
Definition allStatementsOn (c : conn) (tr : list event) : Prop :=
  forall c' sql params ok, EvQuery c' sql params ok ∈ tr -> c' = c.

Definition isBegin (sql : string) : Prop := sql = "BEGIN" \/ sql = "BEGIN TRANSACTION".

#[global] Instance event_eq_dec : EqDecision event.
Proof. solve_decision. Defined.

(** ** The SQLite wrapper around [db.js]

    The console line of [initSqlite] is not part of the model.  In
    [execute], [rowCount || 0] and [rows || []] return a number and an
    array as they are. *)

Module SqliteWrapper.
Section WithDriver.
Context {E : Type} {D : Driver E}.

Definition initSqlite : M E bool := ret true.

Definition query (sql : string) (params : list value) : M E QueryResult :=
  Db.query sql params.

Definition queryOne (sql : string) (params : list value) : M E (option row) :=
  Db.queryOne sql params.

Definition queryAll (sql : string) (params : list value) : M E (list row) :=
  Db.queryAll sql params.

Definition execute (sql : string) (params : list value) : M E QueryResult :=
  let! result := Db.query sql params in
  ret {| rows := rows result;
         rowCount := rowCount result;
         insertId := Js.or (insertId result) Null |}.

End WithDriver.
End SqliteWrapper.

(** ** [src/database/db-helper.js]

    The helper keeps a handle of its own on the database file.  [db.get],
    [db.all] and [db.run] on that handle are calls of their own; they are
    not part of the trace, which records the pool and the handle of
    [db.js]. *)

Class HelperDriver (E : Type) : Type := {
  helperGet : string -> list value -> E -> (error + option row) * E;
  helperAll : string -> list value -> E -> (error + list row) * E;
  helperRun : string -> list value -> E -> (error + RunInfo) * E
}.

(** [{ lastID, changes }], the result of [dbRun]. *)
Record RunResult : Type := { run_lastID : value; run_changes : Z }.

Module Helper.
Import DbAdapterState.

(** The process, and the module variable [sqliteDb] of the helper. *)
Record state (E : Type) : Type := { process : world E; helperDb : bool }.
#[global] Arguments process {E} s.
#[global] Arguments helperDb {E} s.
#[global] Arguments Build_state {E} process helperDb.

Section WithDriver.
Context {E : Type} {D : Driver E} {H : HelperDriver E}.

Definition HM (A : Type) : Type := state E -> outcome A * state E.

(** A computation of the other modules, run by the helper. *)
Definition lift {A} (m : M E A) : HM A :=
  fun h =>
    match m (process h) with
    | (o, w) => (o, {| process := w; helperDb := helperDb h |})
    end.

Definition andThen {A B} (m : HM A) (k : A -> HM B) : HM B :=
  fun h =>
    match m h with
    | (Ok a, h') => k a h'
    | (Throw e, h') => (Throw e, h')
    | (Exit c, h') => (Exit c, h')
    end.

Definition pure {A} (a : A) : HM A := fun h => (Ok a, h).

Definition raise {A} (e : error) : HM A := fun h => (Throw e, h).

(** A call on the handle of the helper. *)
Definition onHandle {A} (call : E -> (error + A) * E) : HM A :=
  fun h =>
    match call (eng (process h)) with
    | (inl err, e) => (Throw err, {| process := set_eng e (process h); helperDb := helperDb h |})
    | (inr a, e) => (Ok a, {| process := set_eng e (process h); helperDb := helperDb h |})
    end.

End WithDriver.

#[global] Arguments HM E A : clear implicits.

End Helper.

Declare Scope helper_scope.
Notation "'let!' x ':=' m 'in' k" := (Helper.andThen m (fun x => k))
  (at level 10, x pattern, m at level 100, k at level 200) : helper_scope.

Module DbHelperCalls.
Import DbAdapterState Helper.
Local Open Scope helper_scope.
Section WithDriver.
Context {E : Type} {D : Driver E} {H : HelperDriver E}.

(** The handle is a boolean: [true] once [new sqlite3.Database] has run. *)
Definition getSqliteDb : HM E bool :=
  let! lite := lift isSqlite in
  fun h =>
    let db := if negb (helperDb h) && lite then true else helperDb h in
    (Ok db, {| process := process h; helperDb := db |}).

Definition dbGet (sql : string) (params : list value) : HM E (option row) :=
  let! (convertedSql, convertedParams) := lift (DbHelper.convertParams sql params) in
  let! pg := lift isPostgres in
  if pg
  then lift (Postgres.queryOne convertedSql convertedParams)
  else
    let! db := getSqliteDb in
    if negb db
    then raise (TypeError "Cannot read properties of null")
    else onHandle (helperGet convertedSql convertedParams).

Definition dbAll (sql : string) (params : list value) : HM E (list row) :=
  let! (convertedSql, convertedParams) := lift (DbHelper.convertParams sql params) in
  let! pg := lift isPostgres in
  if pg
  then lift (Postgres.queryAll convertedSql convertedParams)
  else
    let! db := getSqliteDb in
    if negb db
    then raise (TypeError "Cannot read properties of null")
    else onHandle (helperAll convertedSql convertedParams).

Definition dbRun (sql : string) (params : list value) : HM E RunResult :=
  let! (convertedSql, convertedParams) := lift (DbHelper.convertParams sql params) in
  let! pg := lift isPostgres in
  if pg
  then
    if includes convertedSql "RETURNING"
    then
      let! result := lift (Postgres.execute convertedSql convertedParams) in
      pure {| run_lastID := insertId result; run_changes := rowCount result |}
    else if startsWith (toUpperCase (trim convertedSql)) "INSERT"
    then
      let returningSql := stripTerminator convertedSql +:+ " RETURNING id" in
      let! result := lift (Postgres.execute returningSql convertedParams) in
      pure {| run_lastID := insertId result; run_changes := rowCount result |}
    else
      let! result := lift (Postgres.execute convertedSql convertedParams) in
      pure {| run_lastID := Null; run_changes := rowCount result |}
  else
    let! db := getSqliteDb in
    if negb db
    then raise (TypeError "Cannot read properties of null")
    else
      let! this := onHandle (helperRun convertedSql convertedParams) in
      pure {| run_lastID := Num (lastID this); run_changes := changes this |}.

End WithDriver.
End DbHelperCalls.

(** What [dbRun] makes of the result of [execute] on PostgreSQL: the
    identifier is kept when the statement is an insert or asks for rows
    with [RETURNING]. *)
Definition runOf (keepsId : bool) (o : outcome QueryResult) : outcome RunResult :=
  match o with
  | Ok q => Ok {| run_lastID := if keepsId then insertId q else Null;
                  run_changes := rowCount q |}
  | Throw e => Throw e
  | Exit c => Exit c
  end.

(** The helper once its handle is open. *)
Definition helperOpened {E} (h : Helper.state E) : Helper.state E :=
  {| Helper.process := Helper.process h; Helper.helperDb := true |}.

(** An engine for the helper that answers from a script as well. *)
#[global] Instance script_helper : HelperDriver script := {
  helperGet := fun sql params s =>
    (match answerAll s sql params with inl e => inl e | inr rs => inr (head rs) end, s);
  helperAll := fun sql params s => (answerAll s sql params, s);
  helperRun := fun sql params s => (answerRun s sql params, s)
}.

(** ** [src/routes/dev.js]: the route that promotes a user

    The log of the route is not part of the model. *)

(** The double quote of the message texts. *)
Definition QUOTE : string := String (ascii_of_nat 34) EmptyString.

Module Dev.
Import DbAdapter.

(** [process.env] *)
Record Env : Type := { NODE_ENV : option string; ALLOW_DEV_ADMIN : option string }.

(** [req.body], when the request has one. *)
Record Request : Type := { body : option row }.

(** The two shapes of [res.json(...)]: [{ error, message }], and
    [{ success: true, message, user, warning }]. *)
Inductive Json : Type :=
| Failure (error message : string)
| Success (message : string) (user : row) (warning : option string).

Record Response : Type := { status : Z; json : Json }.

Definition SQL_FIND_USER : string :=
  "SELECT id, nome, email, role FROM usuarios WHERE email = ? LIMIT 1".

Definition SQL_PROMOTE : string := "UPDATE usuarios SET role = ? WHERE id = ?".

(** The middleware answers itself, or calls [next()]: [None]. *)
Definition requireDevAdminEnabled (env : Env) : option Response :=
  if negb (bool_decide (NODE_ENV env = Some "production"))
  then Some {| status := 403;
               json := Failure "Rota não disponível"
                         "Esta rota só está disponível em ambiente de produção." |}
  else if negb (bool_decide (ALLOW_DEV_ADMIN env = Some "true"))
  then Some {| status := 403;
               json := Failure "Rota desabilitada"
                         "Esta rota está desabilitada. Configure ALLOW_DEV_ADMIN=true para habilitar." |}
  else None.

Definition invalidEmail : Response :=
  {| status := 400;
     json := Failure "Email inválido"
               ("É necessário fornecer um email válido no body: { " +:+ QUOTE +:+ "email"
                +:+ QUOTE +:+ ": " +:+ QUOTE +:+ "seu@email.com" +:+ QUOTE +:+ " }") |}.

(** [{ id: user.id, nome: user.nome, email: user.email, role }] *)
Definition userObject (user : row) (role : value) : row :=
  {[ "id" := Js.prop "id" (Some user);
     "nome" := Js.prop "nome" (Some user);
     "email" := Js.prop "email" (Some user);
     "role" := role ]}.

Section WithDriver.
Context {E : Type} {D : Driver E}.

(** The handler of [POST /dev/make-me-admin].  The test of the email is
    [!email || typeof email !== 'string' || !email.trim()]. *)
Definition makeMeAdmin (req : Request) : M E Response :=
  tryCatch
    (let! email :=
       match body req with
       | Some b => ret (Js.prop "email" (Some b))
       | None => throw (TypeError "Cannot destructure property 'email' of 'req.body'")
       end in
     match email with
     | Str s =>
         if negb (truthy email) || negb (truthy (Str (trim s)))
         then ret invalidEmail
         else
           let emailTrimmed := toLowerCase (trim s) in
           let! user := queryOne SQL_FIND_USER [Str emailTrimmed] in
           match user with
           | None =>
               ret {| status := 404;
                      json := Failure "Usuário não encontrado"
                                ("Nenhum usuário encontrado com o email: " +:+ emailTrimmed) |}
           | Some u =>
               if bool_decide (Js.prop "role" user = Str "admin")
               then ret {| status := 200;
                           json := Success "Usuário já é admin"
                                     (userObject u (Js.prop "role" user)) None |}
               else
                 do! query SQL_PROMOTE [Str "admin"; Js.prop "id" user] in
                 ret {| status := 200;
                        json := Success "Usuário promovido a admin com sucesso"
                                  (userObject u (Str "admin"))
                                  (Some "⚠️ Esta é uma rota temporária. Remova após uso.") |}
           end
     | _ => ret invalidEmail
     end)
    (fun error =>
       ret {| status := 500;
              json := Failure "Erro ao promover usuário"
                        "Ocorreu um erro ao promover o usuário a admin. Tente novamente." |}).

(** [router.post('/make-me-admin', requireDevAdminEnabled, handler)] *)
Definition route (env : Env) (req : Request) : M E Response :=
  match requireDevAdminEnabled env with
  | Some res => ret res
  | None => makeMeAdmin req
  end.

End WithDriver.
End Dev.

(** The route is open: production, with [ALLOW_DEV_ADMIN=true]. *)
Definition devEnabled (env : Dev.Env) : Prop :=
  Dev.NODE_ENV env = Some "production" /\ Dev.ALLOW_DEV_ADMIN env = Some "true".

(** The body carries a usable email: a string that is not empty after
    trimming; [emailOf] is the form the route looks it up in. *)
Definition usableEmail (req : Dev.Request) (s : string) : Prop :=
  exists b, Dev.body req = Some b /\ b !! "email" = Some (Str s) /\ trim s <> "".

Definition emailOf (s : string) : string := toLowerCase (trim s).

(** An engine that knows one user: it answers the lookup of the route with
    her row, and accepts an update of one row. *)
Definition usersScript : script :=
  {| answerQuery := fun sql _ =>
       if startsWith sql "SELECT"
       then inr {| pg_rows := [{[ "id" := Num 2; "nome" := Str "Ana";
                                  "email" := Str "ana@troia.com"; "role" := Str "user" ]}];
                   pg_rowCount := Some 1%Z |}
       else inr {| pg_rows := []; pg_rowCount := Some 1%Z |};
     answerAll := fun _ _ =>
       inr [{[ "id" := Num 2; "nome" := Str "Ana";
               "email" := Str "ana@troia.com"; "role" := Str "user" ]}];
     answerRun := fun _ _ => inr {| changes := 1; lastID := 0 |} |}.

(** ** [src/services/resetDataService.js]

    [routes/admin.js] and the command line script import
    [resetOperationalData] from this module.  Its definitions here follow
    section 4.5 of the specification step by step, with the records of
    section 3.  The statements are those of the reset script, the list of
    tables is a parameter, and the connection of the transaction is kept in
    [client]. *)

Module ResetDataService.
Import DbAdapter.

(** Modelled from the spec: the [ResetReport] of section 3, which
    [services/resetDataService.js], missing from the sources, returns: the
    entries in the order of processing, and their total. *)
Record ResetReport : Type := { summary : list TableCleanupResult; totalDeleted : Z }.

(** Modelled from the spec: the options of [resetOperationalData] in
    [services/resetDataService.js]; the recognized key is [resetUsers]. *)
Record Options : Type := { resetUsers : bool }.

Section WithDriver.
Context {E : Type} {D : Driver E}.

(** Modelled from the spec: step 2a of section 4.5 for
    [services/resetDataService.js], the existence check with the catalog
    query of the engine, on the connection of the transaction. *)
Definition tableExists (client : option conn) (tableName : string) : M E bool :=
  match client with
  | Some c =>
      let! result := client_query c SQL_EXISTS_POSTGRES [Str tableName] in
      ret (truthy (Js.prop "exists" (head (pg_rows result))))
  | None =>
      let! result := queryOne SQL_EXISTS_SQLITE [Str tableName] in
      ret (bool_decide (is_Some result))
  end.

(** Modelled from the spec: a delete of [services/resetDataService.js] on
    the connection of the transaction; it returns the number of rows
    affected. *)
Definition deleteRows (client : option conn) (sql : string) : M E Z :=
  match client with
  | Some c =>
      let! result := client_query c sql [] in
      ret (default 0%Z (pg_rowCount result))
  | None =>
      let! result := query sql [] in
      ret (rowCount result)
  end.

(** Modelled from the spec: steps 2b and 2c of section 4.5 for
    [services/resetDataService.js]. *)
Definition cleanTable (client : option conn) (tableName : string) : M E TableCleanupResult :=
  let! present := tableExists client tableName in
  if present
  then
    let! affected := deleteRows client ("DELETE FROM " +:+ tableName) in
    ret {| table := tableName; deleted := affected; skipped := false |}
  else ret {| table := tableName; deleted := 0; skipped := true |}.

(** Modelled from the spec: step 2 of section 4.5 for
    [services/resetDataService.js], the tables in the supplied order. *)
Fixpoint cleanTables (client : option conn) (tables : list string)
    (results : list TableCleanupResult) : M E (list TableCleanupResult) :=
  match tables with
  | [] => ret results
  | t :: rest =>
      let! result := cleanTable client t in
      cleanTables client rest (results ++ [result])
  end.

(** Modelled from the spec: step 3 of section 4.5 for
    [services/resetDataService.js], the purge of the user accounts, recorded
    under the key [usuarios]. *)
Definition cleanUsers (client : option conn) : M E TableCleanupResult :=
  let! affected := deleteRows client SQL_DELETE_USERS in
  ret {| table := "usuarios"; deleted := affected; skipped := false |}.

(** Modelled from the spec: step 5 of section 4.5 for
    [services/resetDataService.js]: roll back on the connection of the
    transaction, give the connection back, raise the error again. *)
Definition rollbackAndRaise {A} (error : error) : M E A :=
  let! client := gets client in
  do! match client with
      | Some c =>
          do! tryCatch (do! client_query c "ROLLBACK" [] in ret tt)
                (fun rollbackError => ret tt) in
          client_release c
      | None =>
          let! pg := isPostgres in
          if pg then ret tt
          else tryCatch (do! query "ROLLBACK" [] in ret tt) (fun rollbackError => ret tt)
      end in
  throw error.

(** Modelled from the spec: [resetOperationalData] of
    [services/resetDataService.js], which is missing from the sources, after
    the algorithm of section 4.5: begin a transaction - on PostgreSQL on a
    connection checked out for it -, clean the tables in order, purge the
    user accounts when asked to, commit and return the report with
    [totalDeleted] the sum of [deleted] over the entries that are not
    skipped. *)
Definition resetOperationalData (tables : list string) (options : Options)
  : M E ResetReport :=
  do! modify (set_client None) in
  tryCatch
    (let! pg := isPostgres in
     do! (if pg
          then
            do! Postgres.getPool in
            let! c := pool_connect in
            do! modify (set_client (Some c)) in
            do! client_query c "BEGIN" [] in
            ret tt
          else
            do! query "BEGIN TRANSACTION" [] in
            ret tt) in
     let! client := gets client in
     let! results := cleanTables client tables [] in
     let! results :=
       (if resetUsers options
        then
          let! result := cleanUsers client in
          ret (results ++ [result])
        else ret results) in
     do! match client with
         | Some c =>
             do! client_query c "COMMIT" [] in
             client_release c
         | None =>
             do! query "COMMIT" [] in
             ret tt
         end in
     ret {| summary := results; totalDeleted := totalOf results |})
    rollbackAndRaise.

End WithDriver.
End ResetDataService.

(** ** [src/routes/admin.js]: the route that resets the operational data

    The middlewares in front of the handler - [authRequired],
    [requireRole('admin')], [requireAdminResetEnabled] - and the calls of the
    logger are not part of the model.  The errors of the model carry a
    message and no [code]. *)

Module Admin.

(** [req.body], when the request has one. *)
Record Request : Type := { body : option row }.

(** The two shapes of [res.json(...)]: [{ error, message }], and
    [{ success: true, message, totalDeleted, summary }]. *)
Inductive Json : Type :=
| Failure (error message : string)
| Success (message : string) (totalDeleted : Z) (summary : list TableCleanupResult).

Record Response : Type := { status : Z; json : Json }.

Definition QUOTE : string := String DOUBLE_QUOTE EmptyString.

(** [error.code] *)
Definition codeOf (error : error) : value := Undefined.

Section WithDriver.
Context {E : Type} {D : Driver E}.

(** The handler of [router.post('/reset-operational-data', ...)]; [tables]
    is the list of tables of the service. *)
Definition resetHandler (tables : list string) (req : Request) : M E Response :=
  tryCatch
    (let! confirm :=
       match body req with
       | Some b => ret (default Undefined (b !! "confirm"))
       | None => throw (TypeError "Cannot read properties of undefined (reading 'confirm')")
       end in
     if negb (bool_decide (confirm = Str "RESET_ALL_DATA"))
     then
       ret {| status := 400;
              json := Failure "Confirmação inválida"
                        ("É necessário enviar { confirm: " +:+ QUOTE +:+ "RESET_ALL_DATA"
                         +:+ QUOTE +:+ " } no body para executar o reset.") |}
     else
       let! result :=
         ResetDataService.resetOperationalData tables
           {| ResetDataService.resetUsers := false |} in
       ret {| status := 200;
              json := Success "Dados operacionais resetados com sucesso"
                        (ResetDataService.totalDeleted result)
                        (ResetDataService.summary result) |})
    (fun error =>
       if bool_decide (codeOf error = Str "22007")
       then
         ret {| status := 500;
                json := Failure "Erro de formato de data"
                          "Ocorreu um erro de formato de data. A transação foi revertida automaticamente." |}
       else if bool_decide (codeOf error = Str "42P18")
       then
         ret {| status := 500;
                json := Failure "Erro de parâmetro SQL"
                          "Ocorreu um erro de parâmetro SQL. A transação foi revertida automaticamente." |}
       else
         ret {| status := 500;
                json := Failure "Erro ao executar reset de dados"
                          "Ocorreu um erro ao resetar os dados operacionais. A transação foi revertida automaticamente." |}).

End WithDriver.
End Admin.

(** What the service sends for table [t]: the catalog query and, for a table
    that is there, the delete, both on the connection of the transaction. *)
Definition serviceTableEvents (b : adapter) (S0 : store) (t : string) : list event :=
  EvQuery (txnConn b 0)
    (match b with
     | AdapterPostgres => SQL_EXISTS_POSTGRES
     | AdapterSqlite => SQL_EXISTS_SQLITE
     end) [Str t] true
  :: match S0 !! t with
     | Some _ => [ EvQuery (txnConn b 0) ("DELETE FROM " +:+ t) [] true ]
     | None => []
     end.

(** The whole run of the service. *)
Definition serviceEvents (b : adapter) (tables : list string) (resetUsers : bool)
    (S0 : store) : list event :=
  match b with
  | AdapterPostgres =>
      [ EvConnect (Some (PoolConn 0)); EvQuery (PoolConn 0) "BEGIN" [] true ]
  | AdapterSqlite => [ EvQuery SharedFile "BEGIN TRANSACTION" [] true ]
  end
  ++ concat (map (serviceTableEvents b S0) tables)
  ++ (if resetUsers then [ EvQuery (txnConn b 0) SQL_DELETE_USERS [] true ] else [])
  ++ match b with
     | AdapterPostgres => [ EvQuery (PoolConn 0) "COMMIT" [] true; EvRelease (PoolConn 0) ]
     | AdapterSqlite => [ EvQuery SharedFile "COMMIT" [] true ]
     end.

(** The report of the service, read off the store the run starts with, and
    the store it commits. *)
Definition serviceReport (tables : list string) (resetUsers : bool) (S0 : store)
  : list TableCleanupResult :=
  reports S0 tables ++ (if resetUsers then [usersReport (cleared tables S0)] else []).

Definition serviceStore (tables : list string) (resetUsers : bool) (S0 : store) : store :=
  if resetUsers then purged (cleared tables S0) else cleared tables S0.

(** The scenario of the specification: two tables, three maintenance records
    and two vehicles. *)
Definition scenario : store :=
  {[ "manutencoes" := [ {[ "id" := Num 1; "veiculo_id" := Num 1 ]};
                        {[ "id" := Num 2; "veiculo_id" := Num 1 ]};
                        {[ "id" := Num 3; "veiculo_id" := Num 2 ]} ];
     "veiculos" := [ {[ "id" := Num 1 ]}; {[ "id" := Num 2 ]} ] ]}.

(** ** More words for the statements about the facade *)

(** [queryOne] is [queryAll] followed by taking the first row. *)
Definition firstOf (o : outcome (list row)) : outcome (option row) :=
  match o with
  | Ok rs => Ok (head rs)
  | Throw e => Throw e
  | Exit c => Exit c
  end.

(** The statement has no terminator and no white space at its end:
    removing them leaves it as it is. *)
Definition endsPlain (s : string) : bool := String.eqb (stripTerminator s) s.

(** The process can serve queries: an adapter is chosen and, when it is
    PostgreSQL, the functions of [postgres.js] are loaded and the pool
    exists. *)
Definition ready {E} (w : world E) : Prop :=
  match dbAdapter w with
  | Some AdapterPostgres => pgQuery w = true /\ pool w = true
  | Some AdapterSqlite => True
  | None => False
  end.

(** The text that reaches the engine for the query [sql]: on PostgreSQL the
    placeholders are numbered, and [query] and [execute] rewrite an insert
    statement. *)
Definition sentText {E} (w : world E) (rewritesInsert : bool) (sql : string) : string :=
  if bool_decide (dbAdapter w = Some AdapterPostgres)
  then (if rewritesInsert
        then addReturning (replacePlaceholders 1 sql)
        else replacePlaceholders 1 sql)
  else sql.

(** A call reaches the engine with exactly the statement [sent]; it returns
    when the engine accepts the statement and throws when the engine fails
    it. *)
Definition oneStatement {E A} (w : world E) (r : outcome A * world E)
    (sent : string) (params : list value) : Prop :=
  exists c ok, trace r.2 = trace w ++ [EvQuery c sent params ok]
    /\ match r.1 with
       | Ok _ => ok = true
       | Throw _ => ok = false
       | Exit _ => False
       end.

(** ** The statements of a run without failing statement *)

(** No call on the engine fails. *)
Definition quiet (e : engine) : Prop := forall k, faults e k = false.

(** What [cleanTable] sends for table [t]: the catalog query, on a
    connection of the pool on PostgreSQL, and for a table that is there the
    count - on PostgreSQL - and the delete. *)
Definition cleanTableEvents (b : adapter) (S0 : store) (t : string) : list event :=
  match b with
  | AdapterPostgres =>
      EvQuery (PoolConn 1) SQL_EXISTS_POSTGRES [Str t] true
      :: match S0 !! t with
         | Some _ => [ EvQuery (PoolConn 0) ("SELECT COUNT(*) as count FROM " +:+ t) [] true;
                       EvQuery (PoolConn 0) ("DELETE FROM " +:+ t) [] true ]
         | None => []
         end
  | AdapterSqlite =>
      EvQuery SharedFile SQL_EXISTS_SQLITE [Str t] true
      :: match S0 !! t with
         | Some _ => [ EvQuery SharedFile ("DELETE FROM " +:+ t) [] true ]
         | None => []
         end
  end.

(** What [cleanUsers] sends. *)
Definition cleanUsersEvents (b : adapter) (S0 : store) : list event :=
  match b with
  | AdapterPostgres =>
      EvQuery (PoolConn 1) SQL_EXISTS_POSTGRES [Str "usuarios"] true
      :: match S0 !! "usuarios" with
         | Some _ => [ EvQuery (PoolConn 0) SQL_DELETE_USERS [] true ]
         | None => []
         end
  | AdapterSqlite =>
      EvQuery SharedFile SQL_EXISTS_SQLITE [Str "usuarios"] true
      :: match S0 !! "usuarios" with
         | Some _ => [ EvQuery SharedFile SQL_DELETE_USERS [] true ]
         | None => []
         end
  end.

(** The start of the run, up to the begin of the transaction, and its end,
    from the commit on. *)
Definition openingEvents (b : adapter) : list event :=
  match b with
  | AdapterPostgres =>
      [ EvConnect (Some (PoolConn 0)); EvQuery (PoolConn 0) "SELECT NOW()" [] true;
        EvRelease (PoolConn 0);
        EvConnect (Some (PoolConn 0)); EvQuery (PoolConn 0) "BEGIN" [] true ]
  | AdapterSqlite => [ EvQuery SharedFile "BEGIN TRANSACTION" [] true ]
  end.

Definition closingEvents (b : adapter) : list event :=
  match b with
  | AdapterPostgres =>
      [ EvQuery (PoolConn 0) "COMMIT" [] true; EvRelease (PoolConn 0); EvPoolEnd ]
  | AdapterSqlite => [ EvQuery SharedFile "COMMIT" [] true ]
  end.

(** The whole run. *)
Definition resetEvents (b : adapter) (resetUsers : bool) (S0 : store) : list event :=
  openingEvents b
  ++ concat (map (cleanTableEvents b S0) TABLES_TO_CLEAN)
  ++ (if resetUsers then cleanUsersEvents b S0 else [])
  ++ closingEvents b.

(** The text of a statement. *)
Definition sqlOf (ev : event) : string :=
  match ev with
  | EvQuery _ sql _ _ => sql
  | _ => EmptyString
  end.

(** The delete statements among the events, and the delete of table [t] on
    the connection of the transaction. *)
Definition isDelete (ev : event) : bool :=
  match ev with
  | EvQuery _ sql _ _ => startsWith sql "DELETE"
  | _ => false
  end.

Definition deleteOf (b : adapter) (t : string) : event :=
  EvQuery (txnConn b 0) ("DELETE FROM " +:+ t) [] true.

(** A block of a run without failing statement: it returns [a], sends
    exactly [evs], and leaves the process in a state [post]. *)
Definition quietStep {A} (w : world engine) (r : outcome A * world engine) (a : A)
    (evs : list event) (post : world engine -> Prop) : Prop :=
  r.1 = Ok a /\ trace r.2 = trace w ++ evs /\ quiet (eng r.2) /\ post r.2.

(** * Verification *)

(** ** Strings *)

Lemma pieces_nonempty sql : pieces sql <> [].
Proof.
  destruct sql as [|c r]; simpl; [done|].
  destruct (Ascii.eqb c "?"); [done|]. by destruct (pieces r).
Qed.

Lemma joinPieces_cons mark i p q ps :
  joinPieces mark i (p :: q :: ps) = p +:+ mark i +:+ joinPieces mark (S i) (q :: ps).
Proof. reflexivity. Qed.

Lemma joinPieces_push mark i c p ps :
  joinPieces mark i (String c p :: ps) = String c (joinPieces mark i (p :: ps)).
Proof. destruct ps; reflexivity. Qed.

Lemma replacePlaceholders_pieces i sql :
  replacePlaceholders i sql = joinPieces numbered i (pieces sql).
Proof.
  revert i. induction sql as [|c r IH]; intros i; simpl; [done|].
  destruct (Ascii.eqb c "?") eqn:Hc.
  - rewrite IH. pose proof (pieces_nonempty r) as Hne.
    destruct (pieces r) as [|q ps]; [done|]. by rewrite joinPieces_cons.
  - rewrite IH. pose proof (pieces_nonempty r) as Hne.
    destruct (pieces r) as [|q ps]; [done|]. by rewrite joinPieces_push.
Qed.

Lemma joinPieces_pieces i sql :
  joinPieces (fun _ => "?") i (pieces sql) = sql.
Proof.
  revert i. induction sql as [|c r IH]; intros i; simpl; [done|].
  destruct (Ascii.eqb c "?") eqn:Hc.
  - apply Ascii.eqb_eq in Hc as ->. pose proof (pieces_nonempty r) as Hne.
    specialize (IH (S i)). destruct (pieces r) as [|q ps]; [done|].
    rewrite joinPieces_cons. simpl. by rewrite <- IH.
  - pose proof (pieces_nonempty r) as Hne. specialize (IH i).
    destruct (pieces r) as [|q ps]; [done|].
    rewrite joinPieces_push. by rewrite IH.
Qed.

Lemma includes_question_cons c p :
  includes (String c p) "?" = Ascii.eqb c "?" || includes p "?".
Proof. simpl. by rewrite andb_true_r. Qed.

Lemma pieces_no_placeholder sql :
  Forall (fun p => includes p "?" = false) (pieces sql).
Proof.
  induction sql as [|c r IH]; simpl.
  - by constructor.
  - destruct (Ascii.eqb c "?") eqn:Hc.
    + by constructor.
    + pose proof (pieces_nonempty r) as Hne.
      destruct (pieces r) as [|q ps]; [done|].
      inversion IH as [|? ? Hq Hps]; subst. constructor; [|done].
      by rewrite includes_question_cons, Hc, Hq.
Qed.

Lemma append_cons c (s t : string) : String c s +:+ t = String c (s +:+ t).
Proof. reflexivity. Qed.

Lemma append_nil_r (s : string) : s +:+ "" = s.
Proof. induction s as [|c r IH]; [done|]. by rewrite append_cons, IH. Qed.

Lemma append_assoc (s t u : string) : (s +:+ t) +:+ u = s +:+ (t +:+ u).
Proof. induction s as [|c r IH]; [done|]. by rewrite !append_cons, IH. Qed.

Lemma continuation_contPrefix k acc r cp :
  continuation k acc r = Some cp -> contPrefix k r = true.
Proof.
  revert acc r. induction k as [|k IH]; intros acc r H; [done|].
  destruct r as [|c r]; [done|]. simpl in *.
  destruct (isContinuation c); [|done]. by apply IH in H.
Qed.

Lemma continuation_app k acc r w :
  startsChar w = true -> continuation k acc (r +:+ w) = continuation k acc r.
Proof.
  intros Hw. revert acc r. induction k as [|k IH]; intros acc r; [done|].
  destruct r as [|c r].
  - change ("" +:+ w) with w. destruct w as [|d w]; [done|]. simpl in *.
    by apply negb_true_iff in Hw as ->.
  - rewrite append_cons. simpl. destruct (isContinuation c); [apply IH|done].
Qed.

Lemma continuation_replace k acc i r :
  continuation k acc (replacePlaceholders i r) = continuation k acc r.
Proof.
  revert acc i r. induction k as [|k IH]; intros acc i r; [done|].
  destruct r as [|c r]; [done|].
  destruct (Ascii.eqb_spec c "?") as [->|Hne].
  - reflexivity.
  - apply Ascii.eqb_neq in Hne. simpl. rewrite Hne. simpl.
    destruct (isContinuation c); [apply IH|done].
Qed.

Lemma codePointAt_app c r w :
  startsChar w = true -> codePointAt c (r +:+ w) = codePointAt c r.
Proof. intros Hw. unfold codePointAt. by rewrite !continuation_app. Qed.

Lemma codePointAt_replace c i r :
  codePointAt c (replacePlaceholders i r) = codePointAt c r.
Proof. unfold codePointAt. by rewrite !continuation_replace. Qed.

Lemma codePointAt_width c r : exists k, (codePointAt c r).2 = S k /\ contPrefix k r = true.
Proof.
  unfold codePointAt.
  repeat case_match; simpl; try (by exists 0);
    eexists; (split; [reflexivity|]); by eapply continuation_contPrefix.
Qed.

Lemma codePointAt_ascii c r :
  (N_of_ascii c <? 0x80)%N = true -> codePointAt c r = (N_of_ascii c, 1).
Proof. intros H. unfold codePointAt. by rewrite H. Qed.

(** A character that is no stray byte starts with an ASCII byte, which is
    its code, or with a byte from [0xC0] on. *)
Lemma codePointAt_first c r :
  ((codePointAt c r).1 <? 0x110000)%N = true ->
  ((N_of_ascii c <? 0x80)%N = true /\ (codePointAt c r).1 = N_of_ascii c)
  \/ (0xC0 <=? N_of_ascii c)%N = true.
Proof.
  unfold codePointAt, stray.
  destruct (N_of_ascii c <? 0x80)%N eqn:H1; [by left|].
  destruct (N_of_ascii c <? 0xC0)%N eqn:H2.
  { simpl. intros H. apply N.ltb_lt in H. lia. }
  intros _. right. apply N.leb_le. apply N.ltb_ge in H2. lia.
Qed.

Lemma contPrefix_drop_app k r w :
  contPrefix k r = true -> dropBytes k (r +:+ w) = dropBytes k r +:+ w.
Proof.
  revert r. induction k as [|k IH]; intros r H; [by destruct r|].
  destruct r as [|c r]; [done|]. simpl in *. apply andb_prop in H as [_ H]. by apply IH.
Qed.

Lemma contPrefix_take_app k r w :
  contPrefix k r = true -> takeBytes k (r +:+ w) = takeBytes k r.
Proof.
  revert r. induction k as [|k IH]; intros r H; [by destruct r, w|].
  destruct r as [|c r]; [done|]. simpl in *. apply andb_prop in H as [_ H]. by rewrite IH.
Qed.

Lemma isContinuation_question : isContinuation "?" = false.
Proof. reflexivity. Qed.

Lemma contPrefix_drop_replace k i r :
  contPrefix k r = true ->
  dropBytes k (replacePlaceholders i r) = replacePlaceholders i (dropBytes k r).
Proof.
  revert r. induction k as [|k IH]; intros r H; [by destruct r|].
  destruct r as [|c r]; [done|]. simpl in H. apply andb_prop in H as [Hc H].
  destruct (Ascii.eqb_spec c "?") as [->|Hne]; [done|].
  apply Ascii.eqb_neq in Hne. simpl. rewrite Hne. simpl. by apply IH.
Qed.

Lemma contPrefix_take_replace k i r :
  contPrefix k r = true -> takeBytes k (replacePlaceholders i r) = takeBytes k r.
Proof.
  revert r. induction k as [|k IH]; intros r H; [by destruct r|].
  destruct r as [|c r]; [done|]. simpl in H. apply andb_prop in H as [Hc H].
  destruct (Ascii.eqb_spec c "?") as [->|Hne]; [done|].
  apply Ascii.eqb_neq in Hne. simpl. rewrite Hne. simpl. by rewrite IH.
Qed.

Lemma dropBytes_length k r : String.length (dropBytes k r) <= String.length r.
Proof.
  revert r. induction k as [|k IH]; intros r; [by destruct r|].
  destruct r as [|c r]; [done|]. simpl. specialize (IH r). lia.
Qed.

(** Induction on a string, character by character. *)
Lemma char_ind (P : string -> Prop) :
  P "" ->
  (forall c r, P (dropBytes (pred (codePointAt c r).2) r) -> P (String c r)) ->
  forall s, P s.
Proof.
  intros Hnil Hcons s. remember (String.length s) as n eqn:Hn.
  revert s Hn. induction n as [n IH] using lt_wf_ind. intros s Hn.
  destruct s as [|c r]; [done|]. apply Hcons. eapply IH; [|reflexivity].
  subst n. simpl. pose proof (dropBytes_length (pred (codePointAt c r).2) r). lia.
Qed.

Lemma trimStartFrom_skip k s : trimStartFrom k s = trimStart (dropBytes k s).
Proof.
  revert k. induction s as [|c r IH]; intros k; [by destruct k|].
  destruct k as [|k]; [done|]. simpl. apply IH.
Qed.

Lemma trimStart_cons c r :
  trimStart (String c r)
  = if Unicode.isWhiteSpace (codePointAt c r).1
    then trimStart (dropBytes (pred (codePointAt c r).2) r)
    else String c r.
Proof.
  unfold trimStart at 1. simpl. destruct (codePointAt c r) as [cp n]. simpl.
  destruct (Unicode.isWhiteSpace cp); [apply trimStartFrom_skip|done].
Qed.

Lemma toUpperFrom_skip k s : toUpperFrom k s = toUpperCase (dropBytes k s).
Proof.
  revert k. induction s as [|c r IH]; intros k; [by destruct k|].
  destruct k as [|k]; [done|]. simpl. apply IH.
Qed.

Lemma toUpperCase_cons c r :
  toUpperCase (String c r)
  = (upperAt c r).1 +:+ toUpperCase (dropBytes (pred (upperAt c r).2) r).
Proof.
  unfold toUpperCase at 1. simpl. destruct (upperAt c r) as [u n]. simpl.
  by rewrite toUpperFrom_skip.
Qed.

Lemma upperAt_width c r : (upperAt c r).2 = (codePointAt c r).2.
Proof. unfold upperAt. by destruct (codePointAt c r). Qed.

Lemma upperAt_app c r w :
  startsChar w = true -> upperAt c (r +:+ w) = upperAt c r.
Proof.
  intros Hw. unfold upperAt. rewrite (codePointAt_app c r w Hw).
  destruct (codePointAt_width c r) as (k & Hk & Hc).
  destruct (codePointAt c r) as [cp n]. simpl in Hk. subst n.
  destruct (Unicode.toUpper cp); [done|].
  simpl. by rewrite (contPrefix_take_app k r w Hc).
Qed.

Lemma upperAt_replace c i r :
  upperAt c (replacePlaceholders i r) = upperAt c r.
Proof.
  unfold upperAt. rewrite codePointAt_replace.
  destruct (codePointAt_width c r) as (k & Hk & Hc).
  destruct (codePointAt c r) as [cp n]. simpl in Hk. subst n.
  destruct (Unicode.toUpper cp); [done|].
  simpl. by rewrite (contPrefix_take_replace k i r Hc).
Qed.

Lemma toUpperCase_ascii c r :
  (N_of_ascii c <? 0x80)%N = true ->
  toUpperCase (String c r) = String (asciiUpper c) (toUpperCase r).
Proof.
  intros H. rewrite toUpperCase_cons. unfold upperAt. rewrite (codePointAt_ascii c r H).
  unfold Unicode.toUpper, asciiUpper. rewrite H.
  destruct ((0x61 <=? N_of_ascii c) && (N_of_ascii c <=? 0x7A))%N eqn:Hl; [|done].
  simpl. unfold utf8.
  assert ((N_of_ascii c - 0x20 <? 0x80)%N = true) as ->; [|done].
  apply N.ltb_lt in H. apply N.ltb_lt. lia.
Qed.

Lemma startsWith_app_eq u s t p :
  (forall q, capitals q = true -> startsWith s q = startsWith t q) ->
  capitals p = true ->
  startsWith (u +:+ s) p = startsWith (u +:+ t) p.
Proof.
  intros H. revert p. induction u as [|d u IH]; intros p Hp; [by apply H|].
  destruct p as [|a p]; [done|]. simpl in Hp. apply andb_prop in Hp as [_ Hp].
  rewrite !append_cons. simpl. by rewrite (IH p Hp).
Qed.

(** The white space characters, one by one. *)
Lemma isWhiteSpace_cases cp :
  Unicode.isWhiteSpace cp = true ->
  cp ∈ [0x9; 0xA; 0xB; 0xC; 0xD; 0x20; 0xA0; 0x1680; 0x2000; 0x2001; 0x2002; 0x2003;
        0x2004; 0x2005; 0x2006; 0x2007; 0x2008; 0x2009; 0x200A; 0x2028; 0x2029;
        0x202F; 0x205F; 0x3000; 0xFEFF]%N.
Proof.
  unfold Unicode.isWhiteSpace. intros H.
  repeat (apply orb_prop in H as [H|H]);
    try (apply andb_prop in H as [H1 H2]; apply N.leb_le in H1; apply N.leb_le in H2);
    try apply N.eqb_eq in H.
  all: try (subst cp; apply (bool_decide_unpack _); by vm_compute).
  - assert (cp = 0x9 \/ cp = 0xA \/ cp = 0xB \/ cp = 0xC \/ cp = 0xD)%N as Hc by lia.
    repeat destruct Hc as [->|Hc]; try subst cp; apply (bool_decide_unpack _); by vm_compute.
  - assert (cp = 0x2000 \/ cp = 0x2001 \/ cp = 0x2002 \/ cp = 0x2003 \/ cp = 0x2004
            \/ cp = 0x2005 \/ cp = 0x2006 \/ cp = 0x2007 \/ cp = 0x2008 \/ cp = 0x2009
            \/ cp = 0x200A)%N as Hc by lia.
    repeat destruct Hc as [->|Hc]; try subst cp; apply (bool_decide_unpack _); by vm_compute.
Qed.

Lemma isWhiteSpace_no_case cp :
  Unicode.isWhiteSpace cp = true -> Unicode.toUpper cp = None /\ (cp <? 0x110000)%N = true.
Proof.
  intros H. apply isWhiteSpace_cases in H.
  repeat (apply elem_of_cons in H as [->|H]; [by vm_compute|]).
  by apply elem_of_nil in H.
Qed.

(** A string of white space starts, when it is not empty, with the first
    byte of a white space character: no capital letter and no continuation
    byte. *)
Lemma allWhite_first c r :
  allWhite (String c r) = true ->
  Unicode.isWhiteSpace (codePointAt c r).1 = true
  /\ isContinuation c = false
  /\ capitals (String c "") = false.
Proof.
  unfold allWhite. rewrite trimStart_cons.
  destruct (Unicode.isWhiteSpace (codePointAt c r).1) eqn:Hw; [|done]. intros _.
  split; [done|]. pose proof (isWhiteSpace_no_case _ Hw) as [_ Hr].
  destruct (codePointAt_first c r Hr) as [[Ha Hcp]|Hl].
  - rewrite Hcp in Hw. unfold isContinuation, capitals.
    apply N.ltb_lt in Ha.
    apply isWhiteSpace_cases in Hw.
    repeat (apply elem_of_cons in Hw as [Hw|Hw];
            [first [rewrite Hw; by vm_compute | exfalso; rewrite Hw in Ha; lia]|]).
    by apply elem_of_nil in Hw.
  - apply N.leb_le in Hl. unfold isContinuation, capitals. split.
    + apply andb_false_iff. right. apply N.ltb_ge. lia.
    + rewrite andb_true_r. apply andb_false_iff. right. apply N.leb_gt. lia.
Qed.

Lemma allWhite_startsChar w : allWhite w = true -> startsChar w = true.
Proof.
  destruct w as [|c r]; [done|]. intros H. apply allWhite_first in H as (_ & H & _).
  simpl. by rewrite H.
Qed.

Lemma allWhite_app y w :
  startsChar w = true -> allWhite (y +:+ w) = allWhite y && allWhite w.
Proof.
  intros Hw. induction y as [|c r IH] using char_ind; [done|].
  rewrite append_cons. unfold allWhite at 1 2. rewrite !trimStart_cons.
  rewrite (codePointAt_app c r w Hw).
  destruct (codePointAt_width c r) as (k & Hk & Hc). rewrite Hk in *. simpl in *.
  destruct (Unicode.isWhiteSpace (codePointAt c r).1).
  - rewrite (contPrefix_drop_app k r w Hc). apply IH.
  - done.
Qed.

Lemma trimEnd_split x : exists w, x = trimEnd x +:+ w /\ allWhite w = true.
Proof.
  induction x as [|c r (w & Hr & Hw)]; [by exists ""|]. simpl.
  destruct (allWhite (String c r)) eqn:Ha.
  - by exists (String c r).
  - exists w. by rewrite append_cons, <- Hr.
Qed.

Lemma trimEnd_app x w :
  startsChar w = true ->
  trimEnd (x +:+ w) = if allWhite w then trimEnd x else x +:+ trimEnd w.
Proof.
  intros Hw. induction x as [|c r IH].
  - change ("" +:+ w) with w. destruct (allWhite w) eqn:Ha; [|done].
    destruct w as [|d w]; [done|]. simpl. by rewrite Ha.
  - rewrite append_cons. simpl. rewrite <- append_cons, (allWhite_app _ w Hw), IH.
    destruct (allWhite w); [by rewrite andb_true_r|].
    by rewrite andb_false_r, append_cons.
Qed.

Lemma trimEnd_app_white x w : allWhite w = true -> trimEnd (x +:+ w) = trimEnd x.
Proof. intros Hw. by rewrite trimEnd_app, Hw by by apply allWhite_startsChar. Qed.

Lemma dropLastSemicolon_snoc s : dropLastSemicolon (s +:+ ";") = s.
Proof.
  induction s as [|b s IH]; [done|].
  rewrite append_cons. simpl. rewrite IH. by destruct s.
Qed.

Lemma stripTerminator_semicolon x w :
  allWhite w = true -> stripTerminator (x +:+ ";" +:+ w) = x.
Proof.
  intros Hw. unfold stripTerminator.
  rewrite <- append_assoc, trimEnd_app_white by done.
  rewrite trimEnd_app by done. apply dropLastSemicolon_snoc.
Qed.

(** The upper case of a string starts with a keyword when the upper case of
    the string without its trailing white space does. *)
Lemma startsWith_upper_app_white x w p :
  allWhite w = true -> capitals p = true -> p <> "" ->
  startsWith (toUpperCase (x +:+ w)) p = startsWith (toUpperCase x) p.
Proof.
  intros Hw. pose proof (allWhite_startsChar w Hw) as Hs.
  revert p. induction x as [|c r IH] using char_ind; intros p Hp Hne.
  - change ("" +:+ w) with w. destruct p as [|a p]; [done|].
    destruct w as [|d w]; [done|].
    destruct (allWhite_first d w Hw) as (Hd & _ & Hcap).
    rewrite toUpperCase_cons. unfold upperAt.
    destruct (codePointAt_width d w) as (k & Hk & Hc).
    destruct (codePointAt d w) as [cp n]. simpl in Hk, Hd. subst n.
    rewrite (proj1 (isWhiteSpace_no_case cp Hd)). simpl.
    simpl in Hp. apply andb_prop in Hp as [Ha _].
    destruct (Ascii.eqb_spec d a) as [->|]; [|done].
    simpl in Hcap. rewrite andb_true_r in Hcap. congruence.
  - rewrite append_cons, !toUpperCase_cons, (upperAt_app c r w Hs), upperAt_width.
    destruct (codePointAt_width c r) as (k & Hk & Hc). rewrite Hk. simpl.
    rewrite (contPrefix_drop_app k r w Hc).
    rewrite Hk in IH. simpl in IH.
    destruct (upperAt c r).1 as [|u0 u] eqn:Hu.
    + by apply IH.
    + destruct p as [|a p]; [done|]. rewrite !append_cons. simpl.
      destruct (Ascii.eqb u0 a); [|done]. simpl.
      simpl in Hp. apply andb_prop in Hp as [_ Hp].
      apply startsWith_app_eq; [|done].
      intros q Hq. destruct q as [|b q]; [done|]. by apply IH.
Qed.

Lemma startsWith_upper_trimEnd x p :
  capitals p = true -> p <> "" ->
  startsWith (toUpperCase (trimEnd x)) p = startsWith (toUpperCase x) p.
Proof.
  intros Hp Hne. destruct (trimEnd_split x) as (w & Hx & Hw).
  rewrite Hx at 2. by rewrite startsWith_upper_app_white.
Qed.

Lemma trimStart_replace i s :
  trimStart (replacePlaceholders i s) = replacePlaceholders i (trimStart s).
Proof.
  revert i. induction s as [|c r IH] using char_ind; intros i; [done|].
  destruct (Ascii.eqb_spec c "?") as [->|Hne]; [done|].
  apply Ascii.eqb_neq in Hne.
  assert (Hr : replacePlaceholders i (String c r) = String c (replacePlaceholders i r))
    by (simpl; by rewrite Hne).
  rewrite Hr, !trimStart_cons, codePointAt_replace.
  destruct (codePointAt_width c r) as (k & Hk & Hc). rewrite Hk in *. simpl in *.
  destruct (Unicode.isWhiteSpace (codePointAt c r).1); [|done].
  rewrite (contPrefix_drop_replace k i r Hc). apply IH.
Qed.

Lemma startsWith_upper_replace p i s :
  capitals p = true ->
  startsWith (toUpperCase (replacePlaceholders i s)) p = startsWith (toUpperCase s) p.
Proof.
  revert p i. induction s as [|c r IH] using char_ind; intros p i Hp; [done|].
  destruct p as [|a p]; [done|].
  destruct (Ascii.eqb_spec c "?") as [->|Hne].
  - change (replacePlaceholders i (String "?" r))
      with (String "$" (pretty i +:+ replacePlaceholders (S i) r)).
    rewrite !toUpperCase_ascii by reflexivity.
    change (asciiUpper "$") with "$"%char. change (asciiUpper "?") with "?"%char.
    cbn [startsWith]. cbn [capitals] in Hp. apply andb_prop in Hp as [Ha _].
    destruct (Ascii.eqb_spec "$" a) as [<-|]; [done|].
    by destruct (Ascii.eqb_spec "?" a) as [<-|].
  - apply Ascii.eqb_neq in Hne.
    assert (Hr : replacePlaceholders i (String c r) = String c (replacePlaceholders i r))
      by (simpl; by rewrite Hne).
    rewrite Hr, !toUpperCase_cons, upperAt_replace, upperAt_width.
    destruct (codePointAt_width c r) as (k & Hk & Hc). rewrite Hk in *.
    cbn [Nat.pred] in *. rewrite (contPrefix_drop_replace k i r Hc).
    apply startsWith_app_eq; [|done].
    intros q Hq. by apply IH.
Qed.

Lemma firstKeyword_replace p i s :
  capitals p = true -> p <> "" ->
  startsWith (toUpperCase (trim (replacePlaceholders i s))) p
  = startsWith (toUpperCase (trim s)) p.
Proof.
  intros Hp Hne. unfold trim.
  by rewrite trimStart_replace, !startsWith_upper_trimEnd, startsWith_upper_replace.
Qed.






Lemma rewriteTokens_replace st i sql :
  tokensOnly st sql = true -> rewriteTokens st i sql = replacePlaceholders i sql.
Proof.
  revert st i. induction sql as [|c r IH]; intros st i H; [done|].
  cbn [tokensOnly] in H. apply andb_prop in H as [Hq Hr].
  cbn [rewriteTokens replacePlaceholders].
  destruct (Ascii.eqb_spec c "?") as [->|Hne].
  - rewrite Hq. cbn [andb]. destruct st; try done.
    by rewrite (IH InCode (S i) Hr).
  - cbn [andb]. by rewrite (IH _ i Hr).
Qed.

Lemma pretty_N_char_digit x : isDigit (pretty_N_char x) = true.
Proof. unfold pretty_N_char. by repeat case_match. Qed.

Lemma pretty_N_go_digits x s : allDigits s = true -> allDigits (pretty_N_go x s) = true.
Proof.
  revert s. induction (N.lt_wf_0 x) as [x _ IH]; intros s Hs.
  destruct (decide (x = 0)%N) as [->|Hx].
  - by rewrite pretty_N_go_0.
  - rewrite pretty_N_go_step by lia. apply IH.
    + apply N.div_lt; lia.
    + simpl. by rewrite pretty_N_char_digit, Hs.
Qed.

Lemma pretty_nat_digits (i : nat) : allDigits (pretty i) = true.
Proof.
  unfold pretty, pretty_nat, pretty, pretty_N.
  case_decide; [done|]. by apply pretty_N_go_digits.
Qed.

Lemma capital_not_digit a c :
  capitals (String a "") = true -> isDigit c = true -> Ascii.eqb c a = false.
Proof.
  intros Ha Hc. destruct (Ascii.eqb_spec c a) as [->|]; [|done].
  unfold capitals, isDigit in *. rewrite andb_true_r in Ha.
  apply andb_prop in Ha as [Ha _]. apply andb_prop in Hc as [_ Hc].
  apply N.leb_le in Ha. apply N.leb_le in Hc. lia.
Qed.

Lemma capital_not_placeholder a :
  capitals (String a "") = true -> Ascii.eqb "?" a = false /\ Ascii.eqb "$" a = false.
Proof.
  intros Ha. unfold capitals in Ha. rewrite andb_true_r in Ha.
  apply andb_prop in Ha as [Ha _]. apply N.leb_le in Ha.
  split; [destruct (Ascii.eqb_spec "?" a) as [<-|]|destruct (Ascii.eqb_spec "$" a) as [<-|]];
    try done; simpl in Ha; lia.
Qed.

Lemma capitals_cons a p :
  capitals (String a p) = true -> capitals (String a "") = true /\ capitals p = true.
Proof. cbn [capitals]. rewrite andb_true_r. apply andb_prop. Qed.

Lemma includes_cons c s sub :
  includes (String c s) sub = startsWith (String c s) sub || includes s sub.
Proof. reflexivity. Qed.

Lemma includes_skip_digits a sub ds s :
  capitals (String a "") = true -> allDigits ds = true ->
  includes (ds +:+ s) (String a sub) = includes s (String a sub).
Proof.
  intros Ha. induction ds as [|c ds IH]; intros Hds; [done|].
  simpl in Hds. apply andb_prop in Hds as [Hc Hds].
  change (String c ds +:+ s) with (String c (ds +:+ s)).
  rewrite includes_cons, IH by done.
  change (startsWith (String c (ds +:+ s)) (String a sub))
    with (Ascii.eqb c a && startsWith (ds +:+ s) sub).
  by rewrite (capital_not_digit a c Ha Hc).
Qed.

Lemma startsWith_replace p i s :
  capitals p = true ->
  startsWith (replacePlaceholders i s) p = startsWith s p.
Proof.
  revert i s. induction p as [|a p' IH]; intros i s Hp; [done|].
  apply capitals_cons in Hp as [Ha Hp'].
  destruct s as [|c r]; [done|].
  destruct (Ascii.eqb_spec c "?") as [->|Hne].
  - destruct (capital_not_placeholder a Ha) as [Hq Hd].
    change (replacePlaceholders i (String "?" r))
      with (String "$" (pretty i +:+ replacePlaceholders (S i) r)).
    change (startsWith (String "$" ?x) (String a p'))
      with (Ascii.eqb "$" a && startsWith x p').
    change (startsWith (String "?" r) (String a p'))
      with (Ascii.eqb "?" a && startsWith r p').
    by rewrite Hq, Hd.
  - apply Ascii.eqb_neq in Hne. simpl. rewrite Hne. simpl. by rewrite IH.
Qed.

Lemma includes_replace a sub i s :
  capitals (String a sub) = true ->
  includes (replacePlaceholders i s) (String a sub) = includes s (String a sub).
Proof.
  intros Hp. revert i. induction s as [|c r IH]; intros i; [done|].
  rewrite includes_cons, <- (startsWith_replace _ i (String c r) Hp), <- (IH i).
  destruct (Ascii.eqb_spec c "?") as [->|Hne].
  - change (replacePlaceholders i (String "?" r))
      with (String "$" (pretty i +:+ replacePlaceholders (S i) r)).
    rewrite includes_cons.
    apply capitals_cons in Hp as [Ha Hp'].
    rewrite (includes_skip_digits a sub _ _ Ha (pretty_nat_digits i)).
    by rewrite (IH (S i)), (IH i).
  - apply Ascii.eqb_neq in Hne.
    assert (replacePlaceholders i (String c r) = String c (replacePlaceholders i r)) as ->
      by (simpl; by rewrite Hne).
    by rewrite includes_cons.
Qed.

(** ** The query facade *)

(** C8, amended. On PostgreSQL [convertParams] returns the pieces of the
    query text between the characters [?], unchanged and in order, with [$i]
    in the place of the [i]-th of them (counting from 1); on SQLite it returns
    the query text itself.  In a query in which every [?] is a placeholder
    token - none stands in a string literal, a quoted identifier or a
    comment - this is the query with its [i]-th placeholder token rewritten
    to [$i] and all other text unchanged.  The parameter array is returned as
    it came, and the state of the process is not touched.  The three copies
    of the function ([db.js], [db-helper.js], [db-adapter.js]) agree. *)
Theorem convertParams_numbers_placeholders {E : Type} (w : world E)
    (sql : string) (params : list value) :
  let translated :=
    if bool_decide (dbAdapter w = Some AdapterPostgres)
    then joinPieces numbered 1 (pieces sql)
    else sql in
  Db.convertParams sql params w = (Ok (translated, params), w)
  /\ DbHelper.convertParams sql params w = (Ok (translated, params), w)
  /\ DbAdapter.convertParams sql params w = (Ok (translated, params), w)
  /\ joinPieces (fun _ => "?") 1 (pieces sql) = sql
  /\ Forall (fun p => includes p "?" = false) (pieces sql)
  /\ (tokensOnly InCode sql = true ->
      joinPieces numbered 1 (pieces sql) = rewriteTokens InCode 1 sql).
Proof.
  cbv zeta.
  unfold Db.convertParams, DbHelper.convertParams, DbAdapter.convertParams,
    DbAdapterState.isPostgres, bind, gets, ret.
  rewrite <- replacePlaceholders_pieces.
  assert (Htok : tokensOnly InCode sql = true ->
                 replacePlaceholders 1 sql = rewriteTokens InCode 1 sql).
  { intros H. by rewrite rewriteTokens_replace. }
  destruct (bool_decide (dbAdapter w = Some AdapterPostgres));
    repeat split; auto using joinPieces_pieces, pieces_no_placeholder.
Qed.

Lemma isPostgres_run {E : Type} (w : world E) :
  DbAdapterState.isPostgres w = (Ok (bool_decide (dbAdapter w = Some AdapterPostgres)), w).
Proof. reflexivity. Qed.

Lemma getSqliteDb_sqlite {E : Type} (w : world E) :
  dbAdapter w = Some AdapterSqlite ->
  exists w', Db.getSqliteDb w = (Ok true, w')
    /\ eng w' = eng w /\ trace w' = trace w /\ dbAdapter w' = dbAdapter w
    /\ client w' = client w /\ console w' = console w
    /\ pgQuery w' = pgQuery w /\ pool w' = pool w.
Proof.
  intros Ha. unfold Db.getSqliteDb, DbAdapterState.isSqlite, bind, gets, ret, modify.
  rewrite Ha. simpl. destruct (sqliteDb w) eqn:Hdb; simpl.
  - exists w. by rewrite Hdb.
  - eexists. split; [reflexivity|]. by simpl.
Qed.


(** Running a program step by step. *)

Lemma bind_run {E A B} (m : M E A) (k : A -> M E B) (w : world E) :
  bind m k w = match m w with
               | (Ok a, w') => k a w'
               | (Throw e, w') => (Throw e, w')
               | (Exit c, w') => (Exit c, w')
               end.
Proof. reflexivity. Qed.

Ltac mred := cbv beta iota zeta delta [ret gets modify throw exit negb].
Ltac mstep := repeat (rewrite bind_run; mred).

Lemma not_postgres {E} (w : world E) :
  dbAdapter w = Some AdapterSqlite ->
  bool_decide (dbAdapter w = Some AdapterPostgres) = false.
Proof. by intros ->. Qed.

Lemma is_postgres {E} (w : world E) :
  dbAdapter w = Some AdapterPostgres ->
  bool_decide (dbAdapter w = Some AdapterPostgres) = true.
Proof. by intros ->. Qed.


Lemma addReturning_unchanged (sql : string) :
  startsWith (toUpperCase (trim sql)) "INSERT" = false \/ includes sql "RETURNING" = true ->
  addReturning (replacePlaceholders 1 sql) = replacePlaceholders 1 sql.
Proof.
  intros H. unfold addReturning.
  rewrite (firstKeyword_replace "INSERT") by done.
  rewrite (includes_replace "R" "ETURNING") by reflexivity.
  destruct H as [-> | ->]; [done|]. by rewrite andb_false_r.
Qed.

Lemma addReturning_insert (sql : string) :
  startsWith (toUpperCase (trim sql)) "INSERT" = true -> includes sql "RETURNING" = false ->
  addReturning (replacePlaceholders 1 sql)
  = stripTerminator (replacePlaceholders 1 sql) +:+ " RETURNING id".
Proof.
  intros H1 H2. unfold addReturning.
  rewrite (firstKeyword_replace "INSERT") by done.
  rewrite (includes_replace "R" "ETURNING") by reflexivity.
  by rewrite H1, H2.
Qed.

Lemma select_not_insert (s : string) :
  startsWith s "SELECT" = true -> startsWith s "INSERT" = false.
Proof.
  destruct s as [|c r]; [done|].
  change (startsWith (String c r) "SELECT") with (Ascii.eqb c "S" && startsWith r "ELECT").
  change (startsWith (String c r) "INSERT") with (Ascii.eqb c "I" && startsWith r "NSERT").
  destruct (Ascii.eqb_spec c "S") as [->|]; [done|]. done.
Qed.

Lemma Postgres_query_run {E : Type} {D : Driver E} (w : world E) text params :
  pool w = true -> Postgres.query text params w = pool_query text params w.
Proof.
  intros Hp. unfold Postgres.query, Postgres.getPool. mstep. rewrite Hp. by mred.
Qed.

Lemma DbAdapter_query_postgres {E : Type} {D : Driver E} (w : world E) sql params :
  dbAdapter w = Some AdapterPostgres -> pgQuery w = true -> pool w = true ->
  DbAdapter.query sql params w =
  let finalSql := addReturning (replacePlaceholders 1 sql) in
  match poolQuery finalSql params (eng w) with
  | (c, inr r, e) =>
      (Ok {| rows := pg_rows r;
             rowCount := default 0%Z (pg_rowCount r);
             insertId := Js.or (Js.prop "id" (head (pg_rows r))) Null |},
       record (EvQuery c finalSql params true) (set_eng e w))
  | (c, inl err, e) => (Throw err, record (EvQuery c finalSql params false) (set_eng e w))
  end.
Proof.
  intros Ha Hl Hp. unfold DbAdapter.query, DbAdapter.convertParams.
  mstep. rewrite isPostgres_run, (is_postgres w Ha). mred.
  mstep. rewrite Hl. mred.
  mstep. rewrite isPostgres_run, (is_postgres w Ha). mred.
  mstep. rewrite (Postgres_query_run w _ _ Hp). unfold pool_query.
  by destruct (poolQuery _ _ _) as [[c [err|r]] e].
Qed.

Lemma DbAdapter_queryOne_postgres {E : Type} {D : Driver E} (w : world E) sql params :
  dbAdapter w = Some AdapterPostgres -> pgQuery w = true -> pool w = true ->
  DbAdapter.queryOne sql params w =
  let convertedSql := replacePlaceholders 1 sql in
  match poolQuery convertedSql params (eng w) with
  | (c, inr r, e) =>
      (Ok (head (pg_rows r)), record (EvQuery c convertedSql params true) (set_eng e w))
  | (c, inl err, e) => (Throw err, record (EvQuery c convertedSql params false) (set_eng e w))
  end.
Proof.
  intros Ha Hl Hp. unfold DbAdapter.queryOne, DbAdapter.convertParams.
  mstep. rewrite isPostgres_run, (is_postgres w Ha). mred.
  mstep. rewrite Hl. mred.
  mstep. rewrite isPostgres_run, (is_postgres w Ha). mred.
  unfold Postgres.queryOne.
  mstep. rewrite (Postgres_query_run w _ _ Hp). unfold pool_query.
  by destruct (poolQuery _ _ _) as [[c [err|r]] e].
Qed.

Lemma Db_queryOne_run {E : Type} {D : Driver E} (w : world E) sql params :
  Db.queryOne sql params w =
  (let (o, w') := Db.query sql params w in (firstRowOf o, w')).
Proof.
  unfold Db.queryOne. rewrite bind_run.
  by destruct (Db.query sql params w) as [[q|e|c] w'].
Qed.

Lemma Db_query_once {E : Type} {D : Driver E} (w : world E) sql params :
  dbAdapter w <> Some AdapterPostgres ->
  atMostOneStatement w (Db.query sql params w) params.
Proof.
  intros Ha. apply (bool_decide_eq_false_2 _) in Ha.
  unfold Db.query, Db.convertParams, Db.getSqliteDb, DbAdapterState.isSqlite.
  mstep. rewrite isPostgres_run, Ha. mred.
  mstep. rewrite isPostgres_run, Ha. mred.
  mstep. 
  assert (Hcall : forall w1 : world E, trace w1 = trace w ->
     atMostOneStatement w
    ((if startsWith (toUpperCase (trim sql)) "SELECT"
     then
      let! rows := sqlite_all sql params
      in ret {| rows := rows; rowCount := Z.of_nat (length rows); insertId := Null |}
     else
      if startsWith (toUpperCase (trim sql)) "INSERT"
      then
       let! this := sqlite_run sql params
       in ret {| rows := []; rowCount := changes this; insertId := Js.or (Num (lastID this)) Null |}
      else
       let! this := sqlite_run sql params
       in ret {| rows := []; rowCount := changes this; insertId := Null |}) w1) params).
  { intros w1 Hw1. unfold atMostOneStatement.
    destruct (startsWith _ "SELECT"); [|destruct (startsWith _ "INSERT")];
      rewrite bind_run; unfold sqlite_all, sqlite_run;
      destruct (sqliteAll _ _ _) as [[err|r] e] || destruct (sqliteRun _ _ _) as [[err|r] e];
      simpl; rewrite Hw1; eexists; (split; [reflexivity|]); (split; [simpl; lia|]);
      intros a [=]; eauto. }
  assert (Hnone : forall w1 : world E, trace w1 = trace w -> forall e,
     atMostOneStatement w (@Throw QueryResult e, w1) params).
  { intros w1 Hw1 e. exists []. rewrite app_nil_r. repeat split; [done|simpl; lia|done]. }
  destruct (sqliteDb w) eqn:Hdb; simpl.
  - mred. rewrite Hdb. by apply Hcall.
  - destruct (bool_decide (dbAdapter w = Some AdapterSqlite)); simpl.
    + by apply Hcall.
    + rewrite Hdb. simpl. by apply Hnone.
Qed.

(** C6, amended. [queryOne] returns the first row of the rows [query] returns
    for the same call, or [null] when there is none, and leaves the process
    in the same state as [query], on SQLite for every statement and on
    PostgreSQL for every statement that [query] sends as it is: one that
    does not start with [INSERT], or that contains [RETURNING].  The statement
    reaches the engine at most once, and once when the call returns.  For
    the other statements - an insert without [RETURNING] on PostgreSQL -
    [queryOne] sends the statement with numbered placeholders as it is and
    returns the first row of the answer to it, and [query] sends it without
    its terminator and with [RETURNING id] at its end. *)
Theorem queryOne_first_row_of_query {E : Type} {D : Driver E} (w : world E)
    (sql : string) (params : list value) :
  let many := DbAdapter.query sql params w in
  let one := DbAdapter.queryOne sql params w in
  let converted := replacePlaceholders 1 sql in
  ((dbAdapter w = Some AdapterPostgres ->
    startsWith (toUpperCase (trim sql)) "INSERT" = false \/ includes sql "RETURNING" = true) ->
   one = (firstRowOf many.1, many.2) /\ atMostOneStatement w one params)
  /\ (dbAdapter w = Some AdapterPostgres -> pgQuery w = true -> pool w = true ->
      startsWith (toUpperCase (trim sql)) "INSERT" = true ->
      includes sql "RETURNING" = false ->
      oneStatement w one converted params
      /\ oneStatement w many (stripTerminator converted +:+ " RETURNING id") params
      /\ (forall c r e, poolQuery converted params (eng w) = (c, inr r, e) ->
          one.1 = Ok (head (pg_rows r)))
      /\ (forall c r e,
            poolQuery (stripTerminator converted +:+ " RETURNING id") params (eng w)
            = (c, inr r, e) ->
          firstRowOf many.1 = Ok (head (pg_rows r)))).
Proof.
  intros many one converted. subst many one converted. split.
  - intros Hins.
    destruct (decide (dbAdapter w = Some AdapterPostgres)) as [Ha|Ha].
    + specialize (Hins Ha).
      assert (Hnone : forall e, atMostOneStatement w (@Throw (option row) e, w) params).
      { intros e. exists []. rewrite app_nil_r.
        split; [done|]. split; [simpl; lia|]. intros a [=]. }
      unfold DbAdapter.query, DbAdapter.queryOne, DbAdapter.convertParams.
      mstep. rewrite isPostgres_run, (is_postgres w Ha). mred.
      mstep. destruct (pgQuery w); mred; [|split; [reflexivity|apply Hnone]].
      mstep. rewrite isPostgres_run, (is_postgres w Ha). mred.
      rewrite (addReturning_unchanged sql Hins).
      unfold Postgres.queryOne, Postgres.query, Postgres.getPool.
      mstep. destruct (pool w); mred; [|split; [reflexivity|apply Hnone]].
      mstep. unfold pool_query.
      destruct (poolQuery _ _ _) as [[c [err|r]] e]; simpl; (split; [done|]);
        eexists; (split; [reflexivity|]); (split; [simpl; lia|]); intros a [=]; eauto.
    + pose proof (Db_query_once w sql params Ha) as Honce.
      apply (bool_decide_eq_false_2 _) in Ha.
      unfold DbAdapter.query, DbAdapter.queryOne.
      mstep. rewrite isPostgres_run, Ha. mred.
      rewrite Db_queryOne_run.
      destruct (Db.query sql params w) as [[q|e|c] w'] eqn:Hq; simpl; (split; [done|]);
        destruct Honce as (evs & Ht & Hlen & Hok); exists evs; simpl in *;
        (split; [done|]); (split; [done|]); intros a [=].
      destruct (Hok q eq_refl) as (c & sql' & ->). eauto.
  - intros Ha Hl Hp Hins Hret.
    rewrite (DbAdapter_query_postgres w sql params Ha Hl Hp).
    rewrite (DbAdapter_queryOne_postgres w sql params Ha Hl Hp). cbv zeta.
    rewrite (addReturning_insert sql Hins Hret).
    split; [|split; [|split]].
    + destruct (poolQuery (replacePlaceholders 1 sql) _ _) as [[c [err|r]] e];
        [by exists c, false|by exists c, true].
    + destruct (poolQuery (stripTerminator _ +:+ _) _ _) as [[c [err|r]] e];
        [by exists c, false|by exists c, true].
    + intros c r e Hq. by rewrite Hq.
    + intros c r e Hq. by rewrite Hq.
Qed.

Lemma queryOne_first_row_of_query_witness :
  let rs : list row := [{[ "id" := Num 1; "nome" := Str "Fiat" ]}] in
  let w := started POSTGRES_URL (fixtureScript rs) in
  let sql := "SELECT id, nome FROM modelos WHERE fabricante_id = ? AND ativo = true ORDER BY nome ASC" in
  let w' := started POSTGRES_URL returningScript in
  let insert := NBSP +:+ " insert into fabricantes (nome) values (?) ;" +:+ IDEOGRAPHIC_SPACE in
  (DbAdapter.queryOne sql [Num 3] w
   = (firstRowOf (DbAdapter.query sql [Num 3] w).1, (DbAdapter.query sql [Num 3] w).2)
   /\ atMostOneStatement w (DbAdapter.queryOne sql [Num 3] w) [Num 3])
  /\ oneStatement w' (DbAdapter.queryOne insert [Str "Fiat"] w')
       (NBSP +:+ " insert into fabricantes (nome) values ($1) ;" +:+ IDEOGRAPHIC_SPACE)
       [Str "Fiat"]
  /\ oneStatement w' (DbAdapter.query insert [Str "Fiat"] w')
       (NBSP +:+ " insert into fabricantes (nome) values ($1)  RETURNING id") [Str "Fiat"]
  /\ (DbAdapter.queryOne insert [Str "Fiat"] w').1 = Ok None
  /\ firstRowOf (DbAdapter.query insert [Str "Fiat"] w').1 = Ok (Some {[ "id" := Num 7 ]}).
Proof.
  cbv zeta. split.
  - destruct (queryOne_first_row_of_query
                (started POSTGRES_URL (fixtureScript [{[ "id" := Num 1; "nome" := Str "Fiat" ]}]))
                "SELECT id, nome FROM modelos WHERE fabricante_id = ? AND ativo = true ORDER BY nome ASC"
                [Num 3]) as [Hselect _].
    exact (Hselect (fun _ => or_introl eq_refl)).
  - destruct (queryOne_first_row_of_query (started POSTGRES_URL returningScript)
                (NBSP +:+ " insert into fabricantes (nome) values (?) ;" +:+ IDEOGRAPHIC_SPACE)
                [Str "Fiat"]) as [_ Hinsert].
    destruct (Hinsert eq_refl eq_refl eq_refl eq_refl eq_refl)
      as (Hone & Hmany & Hfirst & Hkey).
    split; [exact Hone|]. split; [exact Hmany|].
    split; [exact (Hfirst (PoolConn 0) _ _ eq_refl)|exact (Hkey (PoolConn 0) _ _ eq_refl)].
Defined.

(** C6, as stated, fails on PostgreSQL for an insert statement: [query]
    adds [RETURNING id] and returns the row with the key, [queryOne] sends the
    statement as it is and returns [null]. *)
Lemma queryOne_insert_counterexample :
  let w := started POSTGRES_URL returningScript in
  let sql := "INSERT INTO fabricantes (nome) VALUES (?)" in
  (DbAdapter.queryOne sql [Str "Fiat"] w).1
  <> firstRowOf (DbAdapter.query sql [Str "Fiat"] w).1.
Proof. vm_compute. discriminate. Qed.

(** C7, amended. For an insert statement without [RETURNING], on PostgreSQL
    the statement is sent with [RETURNING id] added and [insertId] is the [id]
    of the first row the engine returns, [null] when that is missing or zero;
    on SQLite [insertId] is [this.lastID], [null] when that is zero.  The
    number of rows affected plays no part. *)
Theorem insertId_of_insert {E : Type} {D : Driver E} (w : world E)
    (sql : string) (params : list value) :
  startsWith (toUpperCase (trim sql)) "INSERT" = true ->
  includes sql "RETURNING" = false ->
  (dbAdapter w = Some AdapterPostgres -> pgQuery w = true -> pool w = true ->
   forall c r e,
     poolQuery (stripTerminator (replacePlaceholders 1 sql) +:+ " RETURNING id")
       params (eng w) = (c, inr r, e) ->
     exists q, (DbAdapter.query sql params w).1 = Ok q
       /\ rows q = pg_rows r
       /\ rowCount q = default 0%Z (pg_rowCount r)
       /\ insertId q = (let id := Js.prop "id" (head (pg_rows r)) in
                        if truthy id then id else Null))
  /\ (dbAdapter w = Some AdapterSqlite ->
      forall this e, sqliteRun sql params (eng w) = (inr this, e) ->
      exists q, (DbAdapter.query sql params w).1 = Ok q
        /\ rows q = []
        /\ rowCount q = changes this
        /\ insertId q = if (lastID this =? 0)%Z then Null else Num (lastID this)).
Proof.
  intros Hins Hret. split.
  - intros Ha Hl Hp c r e Hq.
    rewrite (DbAdapter_query_postgres w sql params Ha Hl Hp). cbv zeta.
    rewrite (addReturning_insert sql Hins Hret), Hq. simpl. eauto.
  - intros Ha this e Hrun.
    assert (Hsel : startsWith (toUpperCase (trim sql)) "SELECT" = false).
    { destruct (startsWith _ "SELECT") eqn:Hs; [|done].
      apply select_not_insert in Hs. congruence. }
    destruct (getSqliteDb_sqlite w Ha) as (w' & Hdb & He & Ht & _).
    unfold DbAdapter.query. mstep. rewrite isPostgres_run, (not_postgres w Ha). mred.
    unfold Db.query, Db.convertParams.
    mstep. rewrite isPostgres_run, (not_postgres w Ha). mred.
    mstep. rewrite isPostgres_run, (not_postgres w Ha). mred.
    mstep. rewrite Hdb. mred. rewrite Hsel, Hins.
    rewrite bind_run. unfold sqlite_run. rewrite He, Hrun. simpl.
    eexists. split; [reflexivity|]. simpl. repeat split.
    unfold Js.or. simpl. by destruct (lastID this =? 0)%Z.
Qed.

Lemma insertId_of_insert_witness :
  let sql := LF +:+ NBSP +:+ "Insert Into fabricantes (nome) Values (?);" +:+ BOM +:+ LF in
  startsWith (toUpperCase (trim sql)) "INSERT" = true
  /\ includes sql "RETURNING" = false
  /\ (exists q, (DbAdapter.query sql [Str "Fiat"] (started POSTGRES_URL returningScript)).1 = Ok q
      /\ rows q = [{[ "id" := Num 7 ]}] /\ rowCount q = 1%Z /\ insertId q = Num 7)
  /\ (exists q, (DbAdapter.query sql [Str "Fiat"] (started None returningScript)).1 = Ok q
      /\ rows q = [] /\ rowCount q = 1%Z /\ insertId q = Num 7).
Proof.
  cbv zeta. split; [reflexivity|]. split; [reflexivity|]. split.
  - destruct (insertId_of_insert (started POSTGRES_URL returningScript)
                (LF +:+ NBSP +:+ "Insert Into fabricantes (nome) Values (?);" +:+ BOM +:+ LF)
                [Str "Fiat"] eq_refl eq_refl) as [Hpg _].
    exact (Hpg eq_refl eq_refl eq_refl (PoolConn 0) _ _ eq_refl).
  - destruct (insertId_of_insert (started None returningScript)
                (LF +:+ NBSP +:+ "Insert Into fabricantes (nome) Values (?);" +:+ BOM +:+ LF)
                [Str "Fiat"] eq_refl eq_refl) as [_ Hlite].
    exact (Hlite eq_refl _ _ eq_refl).
Defined.

(** C7, as stated, fails on both backends for an insert of two rows:
    [insertId] is the first returned key on PostgreSQL and the last inserted
    key on SQLite, not [null]. *)
Lemma insertId_two_rows_counterexample :
  let sql := "INSERT INTO fabricantes (nome) VALUES (?), (?)" in
  let params := [Str "Fiat"; Str "Ford"] in
  (exists q, (DbAdapter.query sql params (started POSTGRES_URL twoRowScript)).1 = Ok q
     /\ ~ insertIdOnlyAfterSingleRow q)
  /\ (exists q, (DbAdapter.query sql params (started None twoRowScript)).1 = Ok q
     /\ ~ insertIdOnlyAfterSingleRow q).
Proof.
  split; eexists; (split; [vm_compute; reflexivity|]);
    unfold insertIdOnlyAfterSingleRow; simpl; intros H;
    specialize (H ltac:(discriminate)); discriminate.
Qed.




(** ** The reset script on the reference engine *)

Lemma parse_count t : parse ("SELECT COUNT(*) as count FROM " +:+ t) [] = SCount t.
Proof. reflexivity. Qed.

Lemma parse_delete t :
  plainName t = true -> parse ("DELETE FROM " +:+ t) [] = SDeleteAll t.
Proof.
  intros H. apply bool_decide_eq_true in H. unfold parse.
  change (String.eqb ("DELETE FROM " +:+ t) "BEGIN") with false.
  change (String.eqb ("DELETE FROM " +:+ t) "BEGIN TRANSACTION") with false.
  change (String.eqb ("DELETE FROM " +:+ t) "COMMIT") with false.
  change (String.eqb ("DELETE FROM " +:+ t) "ROLLBACK") with false.
  change (String.eqb ("DELETE FROM " +:+ t) "SELECT NOW()") with false.
  change (String.eqb ("DELETE FROM " +:+ t) SQL_EXISTS_POSTGRES) with false.
  change (String.eqb ("DELETE FROM " +:+ t) SQL_EXISTS_SQLITE) with false.
  cbn [orb]. cbv iota.
  change (stripPrefix "SELECT COUNT(*) as count FROM " ("DELETE FROM " +:+ t)) with (@None string).
  change (stripPrefix "DELETE FROM " ("DELETE FROM " +:+ t)) with (Some t).
  cbv iota. unfold parseDelete. by rewrite H.
Qed.

(** The engine reads the purge of the user accounts off its text. *)
Lemma parse_delete_users :
  parse SQL_DELETE_USERS [] = SDeleteWhere "usuarios" usersCondition.
Proof. reflexivity. Qed.

Lemma satisfies_users (r : row) : satisfies usersCondition r = users_where r.
Proof.
  unfold satisfies, users_where, usersCondition, compare, sql_ne, operandValue. cbn [foldr cmp lhs rhs].
  destruct (r !! "role") as [[| |b|n|s]|], (r !! "email") as [[| |b'|n'|s']|]; cbn; try reflexivity;
    try (by destruct (String.eqb s "admin"));
    try (by destruct (String.eqb s' "admin@troia.com"));
    by destruct (String.eqb s "admin"), (String.eqb s' "admin@troia.com").
Qed.

Lemma filter_users (b : bool) (rs : list row) :
  filter (fun r => satisfies usersCondition r = b) rs = filter (fun r => users_where r = b) rs.
Proof. apply list_filter_iff. intros r. by rewrite satisfies_users. Qed.

Lemma delete_not_select t :
  startsWith (toUpperCase (trim ("DELETE FROM " +:+ t))) "SELECT" = false
  /\ startsWith (toUpperCase (trim ("DELETE FROM " +:+ t))) "INSERT" = false.
Proof.
  unfold trim. rewrite !startsWith_upper_trimEnd by done. split; reflexivity.
Qed.

Lemma extends_refl c w : extends c w w [].
Proof. unfold extends. by rewrite app_nil_r. Qed.

Lemma extends_trans c w w1 w2 evs1 evs2 :
  extends c w w1 evs1 -> extends c w1 w2 evs2 -> extends c w w2 (evs1 ++ evs2).
Proof.
  intros (Ht1 & Hf1 & Hp1) (Ht2 & Hf2 & Hp2). unfold extends.
  rewrite Ht2, Ht1, Hf2, Hf1, app_assoc. repeat split; try done.
  by apply Forall_app.
Qed.

Lemma idle_single c : idle [c] = S c.
Proof. simpl. by rewrite Nat.max_0_r. Qed.

Lemma insert_present_alter (ws : store) t rs v :
  ws !! t = Some rs -> <[t := v]> ws = alter (fun _ => v) t ws.
Proof.
  intros H. apply map_eq. intros k. rewrite lookup_alter, lookup_insert.
  destruct (decide (t = k)) as [->|]; [by rewrite H|done].
Qed.

Lemma dom_clearTable t (ws : store) : dom (clearTable t ws) = dom ws.
Proof. unfold clearTable. apply dom_alter_L. Qed.

Lemma poolQuery_exists e c ws t :
  leased e = [c] -> txn e = Some (PoolConn c, ws) ->
  poolQuery SQL_EXISTS_POSTGRES [Str t] e
  = (PoolConn (S c),
     if faults e (clock e) then inl injected
     else inr {| pg_rows := [{[ "exists" := Bool (bool_decide (is_Some (committed e !! t))) ]}];
                 pg_rowCount := Some 1%Z |},
     tick e).
Proof.
  intros Hl Ht. unfold poolQuery, engine_driver, engine_poolQuery, attempt, poolExhausted.
  rewrite Hl, idle_single. destruct (faults e (clock e)); [reflexivity|].
  unfold tick at 1 2. simpl leased. rewrite Hl. simpl.
  unfold view. simpl. rewrite Ht.
  destruct (decide (PoolConn (S c) = PoolConn c)) as [[=]|_]; [lia|]. reflexivity.
Qed.

Lemma exec_count d cx ws t e :
  txn e = Some (cx, ws) -> is_Some (ws !! t) ->
  exists r, exec d cx (SCount t) e = (inr r, e).
Proof.
  intros Ht [rs Hrs]. unfold exec, view. rewrite Ht.
  destruct (decide (cx = cx)); [|done]. rewrite Hrs. destruct d; eauto.
Qed.

Lemma exec_delete d cx ws t rs e :
  txn e = Some (cx, ws) -> ws !! t = Some rs ->
  exec d cx (SDeleteAll t) e
  = (inr {| pg_rows := []; pg_rowCount := Some (Z.of_nat (length rs)) |},
     set_txn (Some (cx, clearTable t ws)) e).
Proof.
  intros Ht Hrs. unfold exec, view, write. rewrite Ht.
  destruct (decide (cx = cx)); [|done]. rewrite Hrs.
  by rewrite (insert_present_alter ws t rs []).
Qed.

Lemma exec_delete_users d cx ws rs e :
  txn e = Some (cx, ws) -> ws !! "usuarios" = Some rs ->
  exec d cx (SDeleteWhere "usuarios" usersCondition) e
  = (inr {| pg_rows := [];
            pg_rowCount := Some (Z.of_nat (length (filter (fun r => users_where r = true) rs))) |},
     set_txn (Some (cx, alter (filter (fun r => users_where r = false)) "usuarios" ws)) e).
Proof.
  intros Ht Hrs. unfold exec, view, write. rewrite Ht.
  destruct (decide (cx = cx)); [|done]. rewrite Hrs, !filter_users.
  rewrite (insert_present_alter ws "usuarios" rs _ Hrs).
  assert (alter (fun _ => filter (fun r => users_where r = false) rs) "usuarios" ws
          = alter (filter (fun r => users_where r = false)) "usuarios" ws) as ->; [|done].
  apply map_eq. intros k. rewrite !lookup_alter.
  destruct (decide ("usuarios" = k)) as [<-|]; [by rewrite Hrs|done].
Qed.

Lemma exec_exists_sqlite ws t e :
  txn e = Some (SharedFile, ws) ->
  exec SqliteDialect SharedFile (SExistsSqlite t) e
  = (inr {| pg_rows := match ws !! t with Some _ => [{[ "name" := Str t ]}] | None => [] end;
            pg_rowCount := None |}, e).
Proof.
  intros Ht. unfold exec, view. rewrite Ht. simpl. by destruct (ws !! t).
Qed.

(** The facade on SQLite, once the database handle is open. *)

Lemma getSqliteDb_open {E : Type} (w : world E) :
  sqliteDb w = true -> Db.getSqliteDb w = (Ok true, w).
Proof.
  intros H. unfold Db.getSqliteDb, DbAdapterState.isSqlite. mstep. rewrite H. simpl.
  by rewrite H.
Qed.

Lemma DbAdapter_query_sqlite_run {E : Type} {D : Driver E} (w : world E) sql params :
  dbAdapter w = Some AdapterSqlite -> sqliteDb w = true ->
  startsWith (toUpperCase (trim sql)) "SELECT" = false ->
  startsWith (toUpperCase (trim sql)) "INSERT" = false ->
  DbAdapter.query sql params w =
  match sqliteRun sql params (eng w) with
  | (inr this, e) =>
      (Ok {| rows := []; rowCount := changes this; insertId := Null |},
       record (EvQuery SharedFile sql params true) (set_eng e w))
  | (inl err, e) => (Throw err, record (EvQuery SharedFile sql params false) (set_eng e w))
  end.
Proof.
  intros Ha Hdb Hs Hi. unfold DbAdapter.query.
  mstep. rewrite isPostgres_run, (not_postgres w Ha). mred.
  unfold Db.query, Db.convertParams.
  mstep. rewrite isPostgres_run, (not_postgres w Ha). mred.
  mstep. rewrite isPostgres_run, (not_postgres w Ha). mred.
  mstep. rewrite (getSqliteDb_open w Hdb). mred. rewrite Hs, Hi.
  rewrite bind_run. unfold sqlite_run.
  by destruct (sqliteRun _ _ _) as [[err|this] e].
Qed.

Lemma DbAdapter_queryOne_sqlite_all {E : Type} {D : Driver E} (w : world E) sql params :
  dbAdapter w = Some AdapterSqlite -> sqliteDb w = true ->
  startsWith (toUpperCase (trim sql)) "SELECT" = true ->
  DbAdapter.queryOne sql params w =
  match sqliteAll sql params (eng w) with
  | (inr rs, e) => (Ok (head rs), record (EvQuery SharedFile sql params true) (set_eng e w))
  | (inl err, e) => (Throw err, record (EvQuery SharedFile sql params false) (set_eng e w))
  end.
Proof.
  intros Ha Hdb Hs. unfold DbAdapter.queryOne.
  mstep. rewrite isPostgres_run, (not_postgres w Ha). mred.
  unfold Db.queryOne, Db.query, Db.convertParams.
  mstep. rewrite isPostgres_run, (not_postgres w Ha). mred.
  mstep. rewrite isPostgres_run, (not_postgres w Ha). mred.
  mstep. rewrite (getSqliteDb_open w Hdb). mred. rewrite Hs.
  mstep. unfold sqlite_all.
  by destruct (sqliteAll _ _ _) as [[err|rs] e].
Qed.

Lemma clearTable_absent t (ws : store) : ws !! t = None -> clearTable t ws = ws.
Proof.
  intros H. apply map_eq. intros k. unfold clearTable. rewrite lookup_alter.
  destruct (decide (t = k)) as [<-|]; [by rewrite H|done].
Qed.

Lemma same_tables (S0 ws : store) t :
  dom ws = dom S0 -> is_Some (S0 !! t) <-> is_Some (ws !! t).
Proof. intros H. by rewrite <- !elem_of_dom, H. Qed.

Lemma useClient_postgres {E} (w : world E) c :
  dbAdapter w = Some AdapterPostgres -> useClient (Some c) w = (Ok (Some c), w).
Proof.
  intros Ha. unfold useClient. mstep. by rewrite isPostgres_run, (is_postgres w Ha).
Qed.

Lemma clientQuery_run c sql ps (e : engine) :
  clientQuery c sql ps e
  = if faults e (clock e) then (inl injected, tick e)
    else exec PostgresDialect c (parse sql ps) (tick e).
Proof. reflexivity. Qed.

Lemma extends_record c (w : world engine) e ev :
  faults e = faults (eng w) -> pinned c ev = true ->
  extends c w (record ev (set_eng e w)) [ev].
Proof. intros Hf Hp. repeat split; simpl; try done. by repeat constructor. Qed.

Lemma inTransaction_record b c S0 ws ws' (w : world engine) e ev :
  inTransaction b c S0 ws w ->
  committed e = S0 -> txn e = Some (txnConn b c, ws') -> dom ws' = dom S0 ->
  leased e = leased (eng w) ->
  inTransaction b c S0 ws' (record ev (set_eng e w)).
Proof.
  intros (Ha & Hc & Ht & Hd & Hco & Hb) Hc' Ht' Hd' Hl'.
  repeat split; simpl; try done.
  destruct b; [|done]. destruct Hb as (? & ? & ? & ?). repeat split; try done.
  by rewrite Hl'.
Qed.

Lemma pinned_exists c t ok :
  pinned (PoolConn c) (EvQuery (PoolConn (S c)) SQL_EXISTS_POSTGRES [Str t] ok) = true.
Proof.
  unfold pinned. rewrite String.eqb_refl.
  apply negb_true_iff, bool_decide_eq_false. intros [=]. lia.
Qed.

Lemma pinned_client c sql ps ok :
  String.eqb sql SQL_EXISTS_POSTGRES = false ->
  pinned c (EvQuery c sql ps ok) = true.
Proof. intros H. unfold pinned. rewrite H. by apply bool_decide_eq_true. Qed.

Lemma exists_answer b n :
  truthy (Js.or (Js.prop "exists"
                   (head (pg_rows {| pg_rows := [{[ "exists" := Bool b ]}]; pg_rowCount := n |})))
            (Bool false)) = b.
Proof.
  unfold Js.prop. cbn [head pg_rows]. rewrite lookup_singleton_eq.
  unfold Js.or. simpl. by destruct b.
Qed.

Lemma cleanTable_postgres c S0 ws w t :
  inTransaction AdapterPostgres c S0 ws w ->
  plainName t = true ->
  stepOutcome AdapterPostgres c S0 (clearTable t ws) w
    (cleanTable t (Some (PoolConn c)) w) (report ws t).
Proof.
  intros Hin Hname. pose proof Hin as (Ha & Hc & Ht & Hd & Hco & Hl & Hp & Hcl & Hle).
  unfold cleanTable, tableExists.
  mstep. rewrite isPostgres_run, (is_postgres w Ha). mred.
  mstep. rewrite (DbAdapter_queryOne_postgres w _ _ Ha Hl Hp). cbv zeta.
  change (replacePlaceholders 1 SQL_EXISTS_POSTGRES) with SQL_EXISTS_POSTGRES.
  rewrite (poolQuery_exists _ c ws t Hle Ht).
  destruct (faults (eng w) (clock (eng w))) eqn:Hf1.
  { (* the catalog query fails *)
    eexists. split; [apply extends_record; [done|apply pinned_exists]|].
    simpl. split; [|by eauto]. exists ws. by eapply inTransaction_record; [exact Hin|..]. }
  mred. rewrite exists_answer, Hc.
  set (w1 := record _ (set_eng (tick (eng w)) w)).
  assert (Hw1 : inTransaction AdapterPostgres c S0 ws w1) by (by eapply inTransaction_record; [exact Hin|..]).
  assert (He1 : extends (PoolConn c) w w1 [EvQuery (PoolConn (S c)) SQL_EXISTS_POSTGRES [Str t] true])
    by (apply extends_record; [done|apply pinned_exists]).
  destruct (bool_decide (is_Some (S0 !! t))) eqn:Hex; cbv iota.
  2: { (* the table is absent *)
    apply bool_decide_eq_false in Hex.
    assert (Hnone : ws !! t = None).
    { apply eq_None_not_Some. by rewrite <- (same_tables S0 ws t Hd). }
    eexists. split; [exact He1|]. simpl.
    unfold report. rewrite Hnone, (clearTable_absent t ws Hnone).
    repeat split; try done. by repeat constructor. }
  apply bool_decide_eq_true in Hex. apply (same_tables S0 ws t Hd) in Hex as Hsome.
  destruct Hsome as [rs Hrs].
  unfold tryCatch. rewrite bind_run, (useClient_postgres w1 _ Ha). cbv iota beta.
  rewrite bind_run. unfold client_query at 1. rewrite clientQuery_run.
  change (eng w1) with (tick (eng w)).
  destruct (faults (tick (eng w)) (clock (tick (eng w)))) eqn:Hf2.
  { (* the count fails *)
    eexists. split.
    - eapply extends_trans; [exact He1|]. by apply extends_record; [|apply pinned_client].
    - simpl. split; [|by eauto]. exists ws. by eapply inTransaction_record; [exact Hin|..]. }
  rewrite parse_count.
  destruct (exec_count PostgresDialect (PoolConn c) ws t (tick (tick (eng w))) Ht
              (ex_intro _ rs Hrs)) as [rc Hrc].
  rewrite Hrc. cbv iota beta.
  set (w2 := record _ (set_eng _ w1)).
  assert (Hw2 : inTransaction AdapterPostgres c S0 ws w2) by (by eapply inTransaction_record; [exact Hin|..]).
  assert (He2 : extends (PoolConn c) w1 w2 [EvQuery (PoolConn c) ("SELECT COUNT(*) as count FROM " +:+ t) [] true])
    by (by apply extends_record; [|apply pinned_client]).
  rewrite bind_run. unfold client_query. rewrite clientQuery_run.
  change (eng w2) with (tick (tick (eng w))).
  destruct (faults (tick (tick (eng w))) (clock (tick (tick (eng w))))) eqn:Hf3.
  { (* the delete fails *)
    eexists. split.
    - eapply extends_trans; [exact He1|]. eapply extends_trans; [exact He2|].
      by apply extends_record; [|apply pinned_client].
    - simpl. split; [|by eauto]. exists ws. by eapply inTransaction_record; [exact Hin|..]. }
  rewrite (parse_delete t Hname).
  rewrite (exec_delete PostgresDialect (PoolConn c) ws t rs
             (tick (tick (tick (eng w)))) Ht Hrs).
  eexists. split.
  - eapply extends_trans; [exact He1|]. eapply extends_trans; [exact He2|].
    by apply extends_record; [|apply pinned_client].
  - simpl. unfold report. rewrite Hrs. split; [done|]. split.
    + eapply inTransaction_record; [exact Hin|try done..]. by rewrite dom_clearTable.
    + by repeat constructor.
Qed.

Lemma sqliteAll_run sql ps (e : engine) :
  sqliteAll sql ps e
  = if faults e (clock e) then (inl injected, tick e)
    else match exec SqliteDialect SharedFile (parse sql ps) (tick e) with
         | (inl err, e') => (inl err, e')
         | (inr r, e') => (inr (pg_rows r), e')
         end.
Proof. reflexivity. Qed.

Lemma sqliteRun_run sql ps (e : engine) :
  sqliteRun sql ps e
  = if faults e (clock e) then (inl injected, tick e)
    else match exec SqliteDialect SharedFile (parse sql ps) (tick e) with
         | (inl err, e') => (inl err, e')
         | (inr r, e') => (inr {| changes := default 0%Z (pg_rowCount r); lastID := 0 |}, e')
         end.
Proof. reflexivity. Qed.

Lemma pinned_shared sql ps ok :
  String.eqb sql SQL_EXISTS_POSTGRES = false ->
  pinned SharedFile (EvQuery SharedFile sql ps ok) = true.
Proof. apply pinned_client. Qed.

Lemma delete_not_catalog t : String.eqb ("DELETE FROM " +:+ t) SQL_EXISTS_POSTGRES = false.
Proof. reflexivity. Qed.

Lemma cleanTable_sqlite c S0 ws w t :
  inTransaction AdapterSqlite c S0 ws w ->
  plainName t = true ->
  stepOutcome AdapterSqlite c S0 (clearTable t ws) w (cleanTable t None w) (report ws t).
Proof.
  intros Hin Hname. pose proof Hin as (Ha & Hc & Ht & Hd & Hco & Hcl & Hdb).
  unfold cleanTable, tableExists.
  mstep. rewrite isPostgres_run, (not_postgres w Ha). mred.
  mstep. rewrite (DbAdapter_queryOne_sqlite_all w SQL_EXISTS_SQLITE _ Ha Hdb eq_refl).
  rewrite sqliteAll_run.
  destruct (faults (eng w) (clock (eng w))) eqn:Hf1.
  { eexists. split; [by apply extends_record|].
    simpl. split; [|by eauto]. exists ws. by eapply inTransaction_record; [exact Hin|..]. }
  change (parse SQL_EXISTS_SQLITE [Str t]) with (SExistsSqlite t).
  rewrite (exec_exists_sqlite ws t (tick (eng w)) Ht). cbv iota beta. cbn [pg_rows].
  set (w1 := record _ (set_eng (tick (eng w)) w)).
  assert (Hw1 : inTransaction AdapterSqlite c S0 ws w1)
    by (by eapply inTransaction_record; [exact Hin|..]).
  assert (He1 : extends SharedFile w w1 [EvQuery SharedFile SQL_EXISTS_SQLITE [Str t] true])
    by (by apply extends_record).
  destruct (ws !! t) as [rs|] eqn:Hrs.
  2: { eexists. split; [exact He1|]. simpl.
       unfold report. rewrite Hrs, (clearTable_absent t ws Hrs).
       repeat split; try done. by repeat constructor. }
  simpl. unfold tryCatch. mstep.
  destruct (delete_not_select t) as [Hs Hi].
  assert (Hdb1 : sqliteDb w1 = true) by done.
  rewrite (DbAdapter_query_sqlite_run w1 _ _ Ha Hdb1 Hs Hi), sqliteRun_run.
  change (eng w1) with (tick (eng w)).
  destruct (faults (tick (eng w)) (clock (tick (eng w)))) eqn:Hf2.
  { eexists. split.
    - eapply extends_trans; [exact He1|]. by apply extends_record.
    - simpl. split; [|by eauto]. exists ws. by eapply inTransaction_record; [exact Hin|..]. }
  rewrite (parse_delete t Hname).
  rewrite (exec_delete SqliteDialect SharedFile ws t rs (tick (tick (eng w))) Ht Hrs).
  eexists. split.
  - eapply extends_trans; [exact He1|]. by apply extends_record.
  - simpl. unfold report. rewrite Hrs. split; [done|]. split.
    + eapply inTransaction_record; [exact Hin|try done..]. by rewrite dom_clearTable.
    + by repeat constructor.
Qed.

Lemma cleanTable_spec b c S0 ws w t :
  inTransaction b c S0 ws w ->
  plainName t = true ->
  stepOutcome b c S0 (clearTable t ws) w (cleanTable t (client w) w) (report ws t).
Proof.
  intros Hin Hname. pose proof Hin as (_ & _ & _ & _ & _ & Hb). destruct b.
  - destruct Hb as (_ & _ & -> & _). by apply cleanTable_postgres.
  - destruct Hb as (-> & _). by apply cleanTable_sqlite.
Qed.

Lemma stepOutcome_bind {A B} b c S0 ws1 ws2 (w : world engine)
    (m : M engine A) (k : A -> M engine B) a x :
  stepOutcome b c S0 ws1 w (m w) a ->
  (forall w1, inTransaction b c S0 ws1 w1 -> faults (eng w1) = faults (eng w) ->
     stepOutcome b c S0 ws2 w1 (k a w1) x) ->
  stepOutcome b c S0 ws2 w (bind m k w) x.
Proof.
  intros (evs1 & He1 & H1) Hk. rewrite bind_run.
  destruct (m w) as [[a'|e|code] w1]; simpl in *; [|by exists evs1|done].
  destruct H1 as (-> & Hin1 & Hok1).
  pose proof He1 as (_ & Hf1 & _).
  destruct (Hk w1 Hin1 Hf1) as (evs2 & He2 & H2).
  exists (evs1 ++ evs2). split; [by eapply extends_trans|].
  destruct (k a w1) as [[y|e|code] w2]; simpl in *; [| |done].
  - destruct H2 as (-> & Hin2 & Hok2). split; [done|]. split; [done|]. by apply Forall_app.
  - destruct H2 as (Hin2 & k' & Hk'). split; [done|]. exists k'. by rewrite <- Hf1.
Qed.

Lemma stepOutcome_ret {A} b c S0 ws (w : world engine) (a : A) :
  inTransaction b c S0 ws w -> stepOutcome b c S0 ws w (ret a w) a.
Proof. intros Hin. exists []. split; [apply extends_refl|]. simpl. by split. Qed.

Lemma inTransaction_client b c S0 ws w :
  inTransaction b c S0 ws w ->
  client w = match b with AdapterPostgres => Some (PoolConn c) | AdapterSqlite => None end.
Proof. intros (_ & _ & _ & _ & _ & Hb). destruct b; [by destruct Hb as (_ & _ & -> & _)|by destruct Hb]. Qed.

Lemma cleanTables_spec b c S0 ts : forall ws w acc cl,
  inTransaction b c S0 ws w -> cl = client w ->
  Forall (fun t => plainName t = true) ts ->
  stepOutcome b c S0 (cleared ts ws) w (cleanTables ts cl acc w) (acc ++ reports ws ts).
Proof.
  induction ts as [|t ts IH]; intros ws w acc cl Hin Hcl Hts.
  - simpl. rewrite app_nil_r. by apply stepOutcome_ret.
  - inversion Hts as [|? ? Ht Hts']; subst.
    change (cleanTables (t :: ts) (client w) acc w)
      with (bind (cleanTable t (client w)) (fun r => cleanTables ts (client w) (acc ++ [r])) w).
    eapply stepOutcome_bind; [by apply cleanTable_spec|].
    intros w1 Hin1 _. cbn [reports].
    replace (acc ++ report ws t :: reports (clearTable t ws) ts)
      with ((acc ++ [report ws t]) ++ reports (clearTable t ws) ts)
      by (by rewrite <- app_assoc).
    apply IH; try done.
    by rewrite (inTransaction_client _ _ _ _ _ Hin), (inTransaction_client _ _ _ _ _ Hin1).
Qed.

Lemma tableExists_spec b c S0 ws w t :
  inTransaction b c S0 ws w ->
  stepOutcome b c S0 ws w (tableExists t w) (Bool (bool_decide (is_Some (ws !! t)))).
Proof.
  intros Hin. pose proof Hin as (Ha & Hc & Ht & Hd & Hco & Hb). unfold tableExists.
  destruct b.
  - destruct Hb as (Hl & Hp & Hcl & Hle).
    mstep. rewrite isPostgres_run, (is_postgres w Ha). mred.
    mstep. rewrite (DbAdapter_queryOne_postgres w _ _ Ha Hl Hp). cbv zeta.
    change (replacePlaceholders 1 SQL_EXISTS_POSTGRES) with SQL_EXISTS_POSTGRES.
    rewrite (poolQuery_exists _ c ws t Hle Ht).
    destruct (faults (eng w) (clock (eng w))) eqn:Hf1.
    + eexists. split; [apply extends_record; [done|apply pinned_exists]|].
      simpl. split; [|by eauto]. exists ws. by eapply inTransaction_record; [exact Hin|..].
    + eexists. split; [apply extends_record; [done|apply pinned_exists]|].
      simpl. split; [|split].
      * rewrite Hc. unfold Js.prop. cbn [head pg_rows]. rewrite lookup_singleton_eq.
        unfold Js.or. simpl.
        assert (bool_decide (is_Some (S0 !! t)) = bool_decide (is_Some (ws !! t))) as ->
          by (apply bool_decide_ext, (same_tables S0 ws t Hd)).
        by destruct (bool_decide _).
      * by eapply inTransaction_record; [exact Hin|..].
      * by repeat constructor.
  - destruct Hb as (Hcl & Hdb).
    mstep. rewrite isPostgres_run, (not_postgres w Ha). mred.
    mstep. rewrite (DbAdapter_queryOne_sqlite_all w SQL_EXISTS_SQLITE _ Ha Hdb eq_refl).
    rewrite sqliteAll_run.
    destruct (faults (eng w) (clock (eng w))) eqn:Hf1.
    + eexists. split; [by apply extends_record|].
      simpl. split; [|by eauto]. exists ws. by eapply inTransaction_record; [exact Hin|..].
    + change (parse SQL_EXISTS_SQLITE [Str t]) with (SExistsSqlite t).
      rewrite (exec_exists_sqlite ws t (tick (eng w)) Ht). cbv iota beta. cbn [pg_rows].
      eexists. split; [by apply extends_record|].
      simpl. split; [|split].
      * by destruct (ws !! t).
      * by eapply inTransaction_record; [exact Hin|..].
      * by repeat constructor.
Qed.

Lemma users_not_select :
  startsWith (toUpperCase (trim SQL_DELETE_USERS)) "SELECT" = false
  /\ startsWith (toUpperCase (trim SQL_DELETE_USERS)) "INSERT" = false.
Proof. split; reflexivity. Qed.

Lemma purged_dom (ws : store) : dom (purged ws) = dom ws.
Proof. unfold purged. apply dom_alter_L. Qed.

Lemma purged_absent (ws : store) : ws !! "usuarios" = None -> purged ws = ws.
Proof.
  intros H. apply map_eq. intros k. unfold purged. rewrite lookup_alter.
  destruct (decide ("usuarios" = k)) as [<-|]; [by rewrite H|done].
Qed.

Lemma cleanUsers_spec b c S0 ws w :
  inTransaction b c S0 ws w ->
  stepOutcome b c S0 (purged ws) w (cleanUsers (client w) w) (usersReport ws).
Proof.
  intros Hin. unfold cleanUsers.
  eapply stepOutcome_bind; [by apply tableExists_spec|].
  intros w1 Hin1 _. cbn [truthy].
  rewrite (inTransaction_client _ _ _ _ _ Hin).
  destruct (ws !! "usuarios") as [rs|] eqn:Hrs.
  2: { rewrite bool_decide_eq_false_2 by (by intros [? ?]).
       change (negb false) with true. cbv beta iota.
       unfold usersReport. rewrite Hrs, (purged_absent ws Hrs).
       by apply stepOutcome_ret. }
  rewrite bool_decide_eq_true_2 by eauto. change (negb true) with false. cbv beta iota.
  pose proof Hin1 as (Ha & Hc & Ht & Hd & Hco & Hb). unfold tryCatch.
  destruct b.
  - destruct Hb as (Hl & Hp & Hcl & Hle).
    rewrite bind_run, (useClient_postgres w1 _ Ha). cbv iota beta.
    mstep. unfold client_query. rewrite clientQuery_run.
    destruct (faults (eng w1) (clock (eng w1))) eqn:Hf.
    + eexists. split; [by apply extends_record; [|apply pinned_client]|].
      simpl. split; [|by eauto]. exists ws. by eapply inTransaction_record; [exact Hin1|..].
    + rewrite parse_delete_users.
      rewrite (exec_delete_users PostgresDialect (PoolConn c) ws rs (tick (eng w1)) Ht Hrs).
      eexists. split; [by apply extends_record; [|apply pinned_client]|].
      simpl. unfold usersReport. rewrite Hrs. split; [done|]. split.
      * eapply inTransaction_record; [exact Hin1|try done..]. by rewrite purged_dom.
      * by repeat constructor.
  - destruct Hb as (Hcl & Hdb). unfold useClient. mstep.
    destruct users_not_select as [Hs Hi].
    rewrite (DbAdapter_query_sqlite_run w1 _ _ Ha Hdb Hs Hi), sqliteRun_run.
    destruct (faults (eng w1) (clock (eng w1))) eqn:Hf.
    + eexists. split; [by apply extends_record|].
      simpl. split; [|by eauto]. exists ws. by eapply inTransaction_record; [exact Hin1|..].
    + rewrite parse_delete_users.
      rewrite (exec_delete_users SqliteDialect SharedFile ws rs (tick (eng w1)) Ht Hrs).
      eexists. split; [by apply extends_record|].
      simpl. unfold usersReport. rewrite Hrs. split; [done|]. split.
      * eapply inTransaction_record; [exact Hin1|try done..]. by rewrite purged_dom.
      * by repeat constructor.
Qed.

Lemma inTransaction_failing b S0 ws w :
  inTransaction b 0 S0 ws w -> failing b S0 w.
Proof.
  intros (Ha & Hc & Ht & Hd & Hco & Hb). split; [done|]. split; [done|]. destruct b.
  - destruct Hb as (? & ? & ? & ?). repeat split; try done. right. eauto 10.
  - destruct Hb as (? & ?). repeat split; try done. eauto.
Qed.

Lemma printSummary_run {E} (results : list TableCleanupResult) : forall (n : Z) (w : world E),
  exists w', printSummary results n w = (Ok (n + totalOf results)%Z, w')
    /\ console w' = console w ++ map summaryLine results
    /\ trace w' = trace w /\ eng w' = eng w /\ dbAdapter w' = dbAdapter w
    /\ pool w' = pool w /\ client w' = client w /\ pgQuery w' = pgQuery w.
Proof.
  induction results as [|r rs IH]; intros n w; simpl.
  - exists w. rewrite Z.add_0_r, app_nil_r. by repeat split.
  - unfold summaryLine at 1. destruct (skipped r).
    + rewrite bind_run. mred.
      destruct (IH n (print (LogSkipped (table r)) w)) as (w' & -> & Hc & Ht & He & Hrest).
      exists w'. split; [done|]. rewrite Hc. simpl. rewrite <- app_assoc.
      destruct Hrest as (? & ? & ? & ?). by repeat split.
    + rewrite bind_run. mred.
      destruct (IH (n + deleted r)%Z (print (LogDeleted (table r) (deleted r)) w))
        as (w' & -> & Hc & Ht & He & Hrest).
      exists w'. split; [f_equal; f_equal; lia|]. rewrite Hc. simpl.
      rewrite <- app_assoc. destruct Hrest as (? & ? & ? & ?). by repeat split.
Qed.

Lemma blockOutcome_step {A} b S0 ws' (w : world engine) (r : outcome A * world engine) x :
  stepOutcome b 0 S0 ws' w r x ->
  blockOutcome b S0 w r (fun a w' => a = x /\ inTransaction b 0 S0 ws' w').
Proof.
  intros (evs & He & H). exists evs. split; [done|].
  destruct r as [[a|e|code] w']; simpl in *; [| |done].
  - destruct H as (-> & Hin & Hok). by split.
  - destruct H as ((ws'' & Hin) & Hk). split; [|done]. by eapply inTransaction_failing.
Qed.

Lemma blockOutcome_bind {A B} b S0 (w : world engine)
    (m : M engine A) (k : A -> M engine B) (P : A -> world engine -> Prop)
    (Q : B -> world engine -> Prop) :
  blockOutcome b S0 w (m w) P ->
  (forall a w1, P a w1 -> faults (eng w1) = faults (eng w) ->
     blockOutcome b S0 w1 (k a w1) Q) ->
  blockOutcome b S0 w (bind m k w) Q.
Proof.
  intros (evs1 & He1 & H1) Hk. rewrite bind_run.
  destruct (m w) as [[a|e|code] w1]; simpl in *; [|by exists evs1|done].
  destruct H1 as (HP & Hok1).
  pose proof He1 as (_ & Hf1 & _).
  destruct (Hk a w1 HP Hf1) as (evs2 & He2 & H2).
  exists (evs1 ++ evs2). split; [by eapply extends_trans|].
  destruct (k a w1) as [[y|e|code] w2]; simpl in *; [| |done].
  - destruct H2 as (HQ & Hok2). split; [done|]. by apply Forall_app.
  - destruct H2 as (Hin2 & k' & Hk'). split; [done|]. exists k'. by rewrite <- Hf1.
Qed.

Lemma blockOutcome_weaken {A} b S0 (w : world engine) (r : outcome A * world engine)
    (P Q : A -> world engine -> Prop) :
  blockOutcome b S0 w r P -> (forall a w', P a w' -> Q a w') -> blockOutcome b S0 w r Q.
Proof.
  intros (evs & He & H) HPQ. exists evs. split; [done|].
  destruct r as [[a|e|code] w']; simpl in *; [|done|done].
  destruct H as (HP & Hok). split; [by apply HPQ|done].
Qed.

Lemma poolConnect_run (e : engine) :
  leased e = [] ->
  poolConnect e
  = if faults e (clock e) then (inl injected, tick e)
    else (inr (PoolConn 0), set_leased [0] (tick e)).
Proof.
  intros Hl. unfold poolConnect, engine_driver, engine_poolConnect, attempt, poolExhausted.
  destruct (faults e (clock e)); [done|]. simpl. by rewrite Hl.
Qed.

Lemma getPool_run {E} {D : Driver E} (w : world E) :
  pool w = true -> Postgres.getPool w = (Ok tt, w).
Proof. intros H. unfold Postgres.getPool. mstep. by rewrite H. Qed.

Lemma begin_postgres S0 (w : world engine) :
  settled AdapterPostgres S0 w -> client w = None ->
  blockOutcome AdapterPostgres S0 w
    ((do! Postgres.getPool in
      let! c := pool_connect in
      do! modify (set_client (Some c)) in
      do! client_query c "BEGIN" [] in
      ret tt) w)
    (fun _ w' => inTransaction AdapterPostgres 0 S0 S0 w').
Proof.
  intros (Ha & Hc & Ht & Hco & Hl & Hp & Hle) Hcl.
  rewrite bind_run, (getPool_run w Hp). cbv beta iota.
  rewrite bind_run. unfold pool_connect. rewrite (poolConnect_run _ Hle).
  destruct (faults (eng w) (clock (eng w))) eqn:Hf1.
  { eexists. split; [by apply extends_record|]. simpl.
    split; [|by eauto]. repeat split; try done. by left. }
  cbv beta iota. mstep. unfold client_query. rewrite clientQuery_run.
  cbn [eng set_client record set_eng].
  set (e1 := set_leased [0] (tick (eng w))).
  destruct (faults e1 (clock e1)) eqn:Hf2.
  { exists [EvConnect (Some (PoolConn 0)); EvQuery (PoolConn 0) "BEGIN" [] false]. split.
    - split; [simpl; by rewrite <- app_assoc|]. repeat split; try done.
      by repeat constructor.
    - simpl. split; [|by eauto]. repeat split; try done. right. repeat split; try done. by left. }
  change (parse "BEGIN" []) with SBegin. unfold exec.
  change (txn (tick e1)) with (txn (eng w)). rewrite Ht. unfold answered. cbv beta iota.
  exists [EvConnect (Some (PoolConn 0)); EvQuery (PoolConn 0) "BEGIN" [] true]. split.
  - split; [simpl; by rewrite <- app_assoc|]. repeat split; try done.
    by repeat constructor.
  - simpl. split; [|by repeat constructor].
    unfold inTransaction. simpl. rewrite Hc. by repeat split.
Qed.

Lemma getSqliteDb_run {E : Type} (w : world E) :
  dbAdapter w = Some AdapterSqlite -> Db.getSqliteDb w = (Ok true, opened w).
Proof.
  intros Ha. unfold Db.getSqliteDb, DbAdapterState.isSqlite, opened. mstep.
  rewrite Ha. destruct (sqliteDb w) eqn:Hdb; simpl; by rewrite ?Hdb.
Qed.

Lemma DbAdapter_query_sqlite_statement {E : Type} {D : Driver E} (w : world E) sql params :
  dbAdapter w = Some AdapterSqlite ->
  startsWith (toUpperCase (trim sql)) "SELECT" = false ->
  startsWith (toUpperCase (trim sql)) "INSERT" = false ->
  DbAdapter.query sql params w =
  match sqliteRun sql params (eng w) with
  | (inr this, e) =>
      (Ok {| rows := []; rowCount := changes this; insertId := Null |},
       record (EvQuery SharedFile sql params true) (set_eng e (opened w)))
  | (inl err, e) =>
      (Throw err, record (EvQuery SharedFile sql params false) (set_eng e (opened w)))
  end.
Proof.
  intros Ha Hs Hi. unfold DbAdapter.query.
  mstep. rewrite isPostgres_run, (not_postgres w Ha). mred.
  unfold Db.query, Db.convertParams.
  mstep. rewrite isPostgres_run, (not_postgres w Ha). mred.
  mstep. rewrite isPostgres_run, (not_postgres w Ha). mred.
  mstep. rewrite (getSqliteDb_run w Ha). mred. rewrite Hs, Hi.
  rewrite bind_run. unfold sqlite_run.
  assert (eng (opened w) = eng w) as -> by (unfold opened; by destruct (sqliteDb w)).
  by destruct (sqliteRun _ _ _) as [[err|this] e].
Qed.

Lemma opened_fields {E} (w : world E) :
  eng (opened w) = eng w /\ trace (opened w) = trace w /\ console (opened w) = console w
  /\ dbAdapter (opened w) = dbAdapter w /\ client (opened w) = client w
  /\ sqliteDb (opened w) = true.
Proof. unfold opened. destruct (sqliteDb w) eqn:H; by repeat split. Qed.

Lemma begin_sqlite S0 (w : world engine) :
  settled AdapterSqlite S0 w -> client w = None ->
  blockOutcome AdapterSqlite S0 w
    ((do! DbAdapter.query "BEGIN TRANSACTION" [] in ret tt) w)
    (fun _ w' => inTransaction AdapterSqlite 0 S0 S0 w').
Proof.
  intros (Ha & Hc & Ht & Hco & _) Hcl.
  destruct (opened_fields w) as (Hoe & Hot & Hoc & Hoa & Hocl & Hodb).
  rewrite bind_run, (DbAdapter_query_sqlite_statement w "BEGIN TRANSACTION" _ Ha eq_refl eq_refl),
    sqliteRun_run.
  destruct (faults (eng w) (clock (eng w))) eqn:Hf1.
  { exists [EvQuery SharedFile "BEGIN TRANSACTION" [] false]. split.
    - split; [simpl; by rewrite Hot|]. split; [done|]. by repeat constructor.
    - simpl. split; [|by eauto]. unfold failing. simpl. rewrite Hoa, Hocl, Hodb, Hoc.
      repeat split; try done. by left. }
  change (parse "BEGIN TRANSACTION" []) with SBegin. unfold exec.
  change (txn (tick (eng w))) with (txn (eng w)). rewrite Ht. unfold answered. cbv beta iota.
  exists [EvQuery SharedFile "BEGIN TRANSACTION" [] true]. split.
  - split; [simpl; by rewrite Hot|]. split; [done|]. by repeat constructor.
  - simpl. split; [|by repeat constructor].
    unfold inTransaction. simpl. rewrite Hc, Hoa, Hocl, Hodb, Hoc. by repeat split.
Qed.

Lemma commit_postgres S0 ws (w : world engine) :
  inTransaction AdapterPostgres 0 S0 ws w ->
  blockOutcome AdapterPostgres S0 w
    ((do! client_query (PoolConn 0) "COMMIT" [] in client_release (PoolConn 0)) w)
    (fun _ w' => settled AdapterPostgres ws w').
Proof.
  intros Hin. pose proof Hin as (Ha & Hc & Ht & Hd & Hco & Hl & Hp & Hcl & Hle).
  rewrite bind_run. unfold client_query. rewrite clientQuery_run.
  destruct (faults (eng w) (clock (eng w))) eqn:Hf1.
  { eexists. split; [by apply extends_record|]. simpl. split; [|by eauto].
    apply (inTransaction_failing _ _ ws). by eapply inTransaction_record; [exact Hin|..]. }
  change (parse "COMMIT" []) with SCommit. unfold exec.
  change (txn (tick (eng w))) with (txn (eng w)). rewrite Ht.
  destruct (decide (txnConn AdapterPostgres 0 = PoolConn 0)); [|done].
  unfold answered. cbv beta iota. unfold client_release.
  exists [EvQuery (PoolConn 0) "COMMIT" [] true; EvRelease (PoolConn 0)]. split.
  - split; [simpl; by rewrite <- app_assoc|]. repeat split; try done. by repeat constructor.
  - simpl. split; [|by repeat constructor]. unfold settled. simpl. rewrite Hle. by repeat split.
Qed.

Lemma commit_sqlite S0 ws (w : world engine) :
  inTransaction AdapterSqlite 0 S0 ws w ->
  blockOutcome AdapterSqlite S0 w
    ((do! DbAdapter.query "COMMIT" [] in ret tt) w)
    (fun _ w' => settled AdapterSqlite ws w').
Proof.
  intros Hin. pose proof Hin as (Ha & Hc & Ht & Hd & Hco & Hcl & Hdb).
  rewrite bind_run, (DbAdapter_query_sqlite_run w "COMMIT" _ Ha Hdb eq_refl eq_refl), sqliteRun_run.
  destruct (faults (eng w) (clock (eng w))) eqn:Hf1.
  { eexists. split; [by apply extends_record|]. simpl. split; [|by eauto].
    apply (inTransaction_failing _ _ ws). by eapply inTransaction_record; [exact Hin|..]. }
  change (parse "COMMIT" []) with SCommit. unfold exec.
  change (txn (tick (eng w))) with (txn (eng w)). rewrite Ht.
  destruct (decide (SharedFile = txnConn AdapterSqlite 0)); [|done].
  unfold answered. cbv beta iota.
  eexists. split; [by apply extends_record|].
  simpl. split; [|by repeat constructor]. by repeat split.
Qed.

Lemma summary_block b S0 S results (w : world engine) :
  settled b S w ->
  blockOutcome b S0 w
    ((let! totalDeleted := printSummary results 0%Z in
      do! modify (print (LogTotal totalDeleted)) in
      ret results) w)
    (fun _ w' => finished b S (summary results) w').
Proof.
  intros (Ha & Hc & Ht & Hco & Hb).
  destruct (printSummary_run results 0%Z w) as (w' & Hrun & Hc' & Ht' & He' & Ha' & Hp' & Hcl' & Hl').
  rewrite bind_run, Hrun. cbv beta iota. mstep.
  exists []. split.
  - split; [simpl; by rewrite app_nil_r|]. split; [simpl; by rewrite He'|]. constructor.
  - simpl. split; [|constructor]. unfold finished, summary. simpl.
    rewrite He', Ha', Hc', Hco, Hp', Hl'. simpl. by repeat split.
Qed.

Lemma plain_tables : Forall (fun t => plainName t = true) TABLES_TO_CLEAN.
Proof. by repeat constructor. Qed.

Lemma cleanUsers_spec' b c S0 ws w cl :
  inTransaction b c S0 ws w -> cl = client w ->
  stepOutcome b c S0 (purged ws) w (cleanUsers cl w) (usersReport ws).
Proof. intros Hin ->. by apply cleanUsers_spec. Qed.

Lemma clientOf b c S0 ws w :
  inTransaction b c S0 ws w ->
  client w = match b with AdapterPostgres => Some (PoolConn c) | AdapterSqlite => None end.
Proof. apply inTransaction_client. Qed.

Lemma resetTransaction_spec b S0 ru (w : world engine) :
  settled b S0 w -> client w = None ->
  blockOutcome b S0 w (resetTransaction ru w)
    (fun _ w' => finished b (finalStore ru S0) (summary (finalReport ru S0)) w').
Proof.
  intros Hs Hcl. pose proof Hs as (Ha & _).
  unfold resetTransaction. rewrite bind_run, isPostgres_run. cbv beta iota.
  eapply (blockOutcome_bind _ _ _ _ _ (fun _ w' => inTransaction b 0 S0 S0 w')).
  { destruct b.
    - rewrite (is_postgres w Ha). by apply begin_postgres.
    - rewrite (not_postgres w Ha). by apply begin_sqlite. }
  intros _ w1 Hin1 _. rewrite bind_run. mred.
  eapply blockOutcome_bind.
  { apply blockOutcome_step, cleanTables_spec; [exact Hin1|done|apply plain_tables]. }
  intros results w2 [-> Hin2] _.
  eapply (blockOutcome_bind _ _ _ _ _
            (fun rs w' => rs = finalReport ru S0
                          /\ inTransaction b 0 S0 (finalStore ru S0) w'
                          /\ client w' = client w1)).
  { destruct ru.
    - eapply blockOutcome_bind.
      + apply blockOutcome_step, cleanUsers_spec'; [exact Hin2|].
        by rewrite (clientOf _ _ _ _ _ Hin1), (clientOf _ _ _ _ _ Hin2).
      + intros r w3 [-> Hin3] _. exists []. split; [apply extends_refl|]. simpl.
        split; [|constructor]. split; [done|]. split; [done|].
        by rewrite (clientOf _ _ _ _ _ Hin1), (clientOf _ _ _ _ _ Hin3).
    - exists []. split; [apply extends_refl|]. simpl.
      split; [|constructor]. split; [unfold finalReport; by rewrite app_nil_r|]. split; [done|].
      by rewrite (clientOf _ _ _ _ _ Hin1), (clientOf _ _ _ _ _ Hin2). }
  intros rs w3 (-> & Hin3 & Hcl3) _.
  rewrite (clientOf _ _ _ _ _ Hin1).
  eapply (blockOutcome_bind _ _ _ _ _ (fun _ w' => settled b (finalStore ru S0) w')).
  { destruct b; [by apply commit_postgres|by apply commit_sqlite]. }
  intros _ w4 Hs4 _. by apply summary_block.
Qed.

Lemma poolQuery_rollback_idle (e : engine) :
  leased e = [] -> txn e = None ->
  poolQuery "ROLLBACK" [] e
  = (PoolConn 0,
     if faults e (clock e) then inl injected
     else inr {| pg_rows := []; pg_rowCount := None |},
     tick e).
Proof.
  intros Hl Ht. unfold poolQuery, engine_driver, engine_poolQuery, attempt, poolExhausted.
  rewrite Hl. simpl idle. destruct (faults e (clock e)); [reflexivity|].
  simpl. by rewrite Hl, Ht.
Qed.

Lemma resetFailed_spec {A} b S0 err (w : world engine) :
  failing b S0 w ->
  exists w', @resetFailed _ _ A err w = (Exit 1%Z, w')
    /\ rolledBack (txnConn b 0) (trace w) w'
    /\ Forall (fun ev => pinned (txnConn b 0) ev = true) (drop (length (trace w)) (trace w'))
    /\ committed (eng w') = S0
    /\ console w' = []
    /\ faults (eng w') = faults (eng w).
Proof.
  intros (Ha & Hc & Hco & Hb). unfold resetFailed. rewrite bind_run. mred.
  assert (Hdrop : forall (l : list event) evs, drop (length l) ((l ++ evs)) = evs)
    by (intros; apply drop_app_length).
  assert (Hdrop2 : forall (l : list event) ev1 ev2, drop (length l) ((l ++ [ev1]) ++ [ev2]) = [ev1; ev2])
    by (intros; rewrite <- app_assoc; apply drop_app_length).
  destruct b.
  - destruct Hb as (Hl & Hp & [(Hcl & Hle & Ht) | (Hcl & Hle & Ht)]); rewrite Hcl.
    + (* no connection was leased *)
      unfold tryCatch. rewrite !bind_run.
      rewrite (DbAdapter_query_postgres w _ _ Ha Hl Hp). cbv zeta.
      change (addReturning (replacePlaceholders 1 "ROLLBACK")) with "ROLLBACK".
      rewrite (poolQuery_rollback_idle _ Hle Ht).
      destruct (faults (eng w) (clock (eng w))); simpl;
        eexists; (split; [reflexivity|]); simpl; rewrite Hdrop;
        (split; [eexists _, []; split; [reflexivity|]; split; [constructor|done]|]);
        (split; [by repeat constructor|done]).
    + (* connection 0 is leased *)
      unfold tryCatch. rewrite !bind_run. unfold client_query. rewrite clientQuery_run.
      destruct (faults (eng w) (clock (eng w))).
      { simpl. eexists. split; [reflexivity|]. simpl. rewrite Hdrop.
        split; [eexists _, []; split; [reflexivity|]; split; [constructor|done]|].
        split; [by repeat constructor|done]. }
      change (parse "ROLLBACK" []) with SRollback. unfold exec.
      change (txn (tick (eng w))) with (txn (eng w)).
      destruct Ht as [Ht | [ws Ht]]; rewrite Ht; simpl;
        eexists; (split; [reflexivity|]); unfold rolledBack; simpl; rewrite Hdrop2;
        (split; [eexists _, [_]; split; [by rewrite <- app_assoc|];
                 split; [by repeat constructor|done]|]);
        (split; [by repeat constructor|done]).
  - destruct Hb as (Hcl & Hdb & Ht). rewrite Hcl.
    unfold tryCatch. rewrite !bind_run.
    rewrite (DbAdapter_query_sqlite_run w "ROLLBACK" _ Ha Hdb eq_refl eq_refl), sqliteRun_run.
    destruct (faults (eng w) (clock (eng w))).
    { simpl. eexists. split; [reflexivity|]. simpl. rewrite Hdrop.
      split; [eexists _, []; split; [reflexivity|]; split; [constructor|done]|].
      split; [by repeat constructor|done]. }
    change (parse "ROLLBACK" []) with SRollback. unfold exec.
    change (txn (tick (eng w))) with (txn (eng w)).
    destruct Ht as [Ht | [ws Ht]]; rewrite Ht; simpl;
      eexists; (split; [reflexivity|]); simpl; rewrite Hdrop;
      (split; [eexists _, []; split; [reflexivity|]; split; [constructor|done]|]);
      (split; [by repeat constructor|done]).
Qed.

Ltac solve_forall :=
  repeat first [apply List.Forall_nil | apply List.Forall_cons; [reflexivity|]].

Lemma initDatabase_boot url S0 f :
  let b := backendOf url in
  let r := DbAdapter.initDatabase (boot url (fresh S0 f)) in
  Forall (fun ev => pinned (txnConn b 0) ev = true) (trace r.2)
  /\ faults (eng r.2) = f
  /\ match r.1 with
     | Ok _ => settled b S0 r.2 /\ client r.2 = None
               /\ Forall (fun ev => failedStatement ev = false) (trace r.2)
     | Throw _ => committed (eng r.2) = S0 /\ txn (eng r.2) = None /\ console r.2 = []
                  /\ (exists k, f k = true) /\ Forall probeOnly (trace r.2)
     | Exit _ => False
     end.
Proof.
  cbv zeta. unfold backendOf.
  destruct (truthy (from_option Str Undefined url)) eqn:Hurl.
  - unfold DbAdapter.initDatabase, Postgres.initPostgres.
    rewrite bind_run. mred. cbn [DATABASE_URL boot]. rewrite Hurl. cbv iota.
    mstep. cbn [pool set_pgQuery boot]. cbv iota.
    mstep. cbn [DATABASE_URL set_pgQuery boot]. rewrite Hurl. cbv iota.
    mstep. unfold tryCatch. rewrite bind_run. unfold pool_connect.
    rewrite poolConnect_run by reflexivity. cbn [eng set_pool set_pgQuery boot fresh faults clock].
    destruct (f 0) eqn:Hf0.
    { simpl. split; [solve_forall|]. split; [done|].
      repeat split; eauto. solve_forall. }
    cbv iota beta. rewrite bind_run. unfold client_query. rewrite clientQuery_run.
    simpl. destruct (f 1) eqn:Hf1.
    { simpl. split; [solve_forall|]. split; [done|].
      repeat split; eauto. solve_forall. }
    simpl. split; [solve_forall|]. split; [done|].
    split; [by repeat split|]. split; [done|]. solve_forall.
  - unfold DbAdapter.initDatabase.
    rewrite bind_run. mred. cbn [DATABASE_URL boot]. rewrite Hurl. cbv iota.
    mstep. simpl. split; [constructor|]. split; [done|].
    split; [by repeat split|]. split; [done|]. constructor.
Qed.

Lemma resetFinally_run b S (ls : list logline) (w : world engine) :
  finished b S ls w ->
  exists w', resetFinally w = (Ok tt, w')
    /\ committed (eng w') = S /\ txn (eng w') = None /\ console w' = ls
    /\ exists evs, trace w' = trace w ++ evs
         /\ Forall (fun ev => isStatement ev = false) evs
         /\ Forall (fun ev => pinned (txnConn b 0) ev = true) evs.
Proof.
  intros (Ha & Hc & Ht & Hco & Hb). unfold resetFinally.
  rewrite bind_run, isPostgres_run. cbv beta iota. destruct b.
  - destruct Hb as (Hl & Hp & Hle). rewrite (is_postgres w Ha).
    unfold tryCatch, Postgres.closePool. mstep. rewrite Hp. mred. mstep.
    unfold pool_end. eexists. split; [reflexivity|]. simpl.
    repeat split; try done. exists [EvPoolEnd]. by repeat split; try solve_forall.
  - rewrite (not_postgres w Ha). exists w. split; [done|]. repeat split; try done.
    exists []. rewrite app_nil_r. by repeat split.
Qed.

(** The run of the reset from a new process. *)
Lemma reset_run url S0 f ru :
  let b := backendOf url in
  let r := resetOperationalData ru (boot url (fresh S0 f)) in
  Forall (fun ev => pinned (txnConn b 0) ev = true) (trace r.2)
  /\ match r.1 with
     | Ok v =>
         v = Undefined
         /\ committed (eng r.2) = finalStore ru S0
         /\ txn (eng r.2) = None
         /\ console r.2 = summary (finalReport ru S0)
         /\ Forall (fun ev => failedStatement ev = false) (trace r.2)
     | Throw _ =>
         committed (eng r.2) = S0 /\ txn (eng r.2) = None /\ console r.2 = []
         /\ (exists k, f k = true) /\ Forall probeOnly (trace r.2)
     | Exit code =>
         code = 1%Z /\ committed (eng r.2) = S0 /\ console r.2 = []
         /\ (exists k, f k = true)
         /\ exists before, rolledBack (txnConn b 0) before r.2
     end.
Proof.
  cbv zeta. unfold resetOperationalData.
  destruct (initDatabase_boot url S0 f) as (Hpin0 & Hf0 & Hinit).
  rewrite bind_run.
  destruct (DbAdapter.initDatabase (boot url (fresh S0 f))) as [[a|e|code] w1];
    simpl in Hpin0, Hf0, Hinit; [|done|done].
  destruct Hinit as (Hs1 & Hcl1 & Hok0).
  rewrite bind_run. mred.
  set (w2 := set_client None w1).
  assert (Hs2 : settled (backendOf url) S0 w2) by exact Hs1.
  destruct (resetTransaction_spec (backendOf url) S0 ru w2 Hs2 eq_refl)
    as (evs & (Htr & Hfa & Hpin) & Hout).
  rewrite bind_run. unfold tryFinally, tryCatch.
  destruct (resetTransaction ru w2) as [[rs|e|code] w3]; simpl in Htr, Hfa, Hpin, Hout; [| |done].
  - (* committed *)
    destruct Hout as (Hfin & Hok).
    destruct (resetFinally_run _ _ _ w3 Hfin) as (w4 & -> & Hc4 & Ht4 & Hco4 & evs' & Htr4 & Hns & Hpin4).
    simpl. rewrite Htr4, Htr. change (trace w2) with (trace w1).
    split; [by rewrite !Forall_app|]. repeat split; try done.
    rewrite !Forall_app. repeat split; try done.
    eapply Forall_impl; [exact Hns|]. by intros [] ?.
  - (* rolled back *)
    destruct Hout as (Hfail & k & Hk).
    destruct (resetFailed_spec (A := list TableCleanupResult) _ S0 e w3 Hfail) as (w4 & -> & Hrb & Hpin4 & Hc4 & Hco4 & Hfa4).
    simpl. split.
    + destruct Hrb as (ok & tail & Htr4 & _).
      rewrite <- (take_drop (length (trace w3)) (trace w4)).
      apply Forall_app. split; [|done].
      rewrite Htr4, take_app_length, Htr. change (trace w2) with (trace w1).
      by apply Forall_app.
    + repeat split; try done; [|by eauto].
      exists k. by rewrite <- Hf0.
Qed.

(** ** The claims about the reset *)

Lemma noDup_tables : NoDup TABLES_TO_CLEAN.
Proof. apply (bool_decide_unpack _). by vm_compute. Qed.

Lemma report_clearTable_ne t t' (ws : store) :
  t <> t' -> report (clearTable t ws) t' = report ws t'.
Proof. intros Hne. unfold report, clearTable. by rewrite lookup_alter_ne. Qed.

Lemma reports_clearTable_notin t (ws : store) ts :
  t ∉ ts -> reports (clearTable t ws) ts = reports ws ts.
Proof.
  revert ws. induction ts as [|t' ts IH]; intros ws Hnotin; [done|].
  apply not_elem_of_cons in Hnotin as [Hne Hnotin]. simpl.
  rewrite report_clearTable_ne by done. f_equal.
  assert (clearTable t' (clearTable t ws) = clearTable t (clearTable t' ws)) as ->.
  { unfold clearTable. apply map_eq. intros k.
    destruct (decide (t = k)) as [->|Hk], (decide (t' = k)) as [->|Hk'];
      rewrite ?lookup_alter_eq, ?lookup_alter_ne, ?lookup_alter_eq, ?lookup_alter_ne by done;
      try done. }
  by apply IH.
Qed.

Lemma reports_map (ws : store) ts :
  NoDup ts -> reports ws ts = map (report ws) ts.
Proof.
  induction 1 as [|t ts Hnotin Hnd IH]; [done|]. simpl. f_equal.
  by rewrite reports_clearTable_notin.
Qed.

Lemma cleared_lookup ts : forall (ws : store) t,
  cleared ts ws !! t = if bool_decide (t ∈ ts) then (fun _ => []) <$> ws !! t else ws !! t.
Proof.
  induction ts as [|t' ts IH]; intros ws t; [done|].
  change (cleared (t' :: ts) ws) with (cleared ts (clearTable t' ws)).
  rewrite IH. unfold clearTable. rewrite lookup_alter.
  destruct (decide (t' = t)) as [->|Hne].
  - rewrite (bool_decide_eq_true_2 (t ∈ t :: ts) (list_elem_of_here t ts)).
    destruct (bool_decide (t ∈ ts)); by destruct (ws !! t).
  - assert (bool_decide (t ∈ t' :: ts) = bool_decide (t ∈ ts)) as ->; [|done].
    apply bool_decide_ext. rewrite elem_of_cons.
    split; [intros [?|?]; [congruence|done]|by right].
Qed.

Lemma finalStore_table ru (S0 : store) t :
  t ∈ TABLES_TO_CLEAN -> finalStore ru S0 !! t = (fun _ => []) <$> S0 !! t.
Proof.
  intros Hin. unfold finalStore.
  assert (Hc : cleared TABLES_TO_CLEAN S0 !! t = (fun _ => []) <$> S0 !! t)
    by (by rewrite cleared_lookup, bool_decide_eq_true_2).
  destruct ru; [|done]. unfold purged. rewrite lookup_alter_ne; [done|].
  intros <-. revert Hin. by apply (bool_decide_unpack _).
Qed.

Lemma finalStore_users ru (S0 : store) :
  finalStore ru S0 !! "usuarios"
  = if ru then filter (fun r => users_where r = false) <$> S0 !! "usuarios"
    else S0 !! "usuarios".
Proof.
  unfold finalStore.
  assert (Hc : cleared TABLES_TO_CLEAN S0 !! "usuarios" = S0 !! "usuarios").
  { rewrite cleared_lookup, bool_decide_eq_false_2; [done|]. by apply (bool_decide_unpack _). }
  destruct ru; [|done]. unfold purged. by rewrite lookup_alter_eq, Hc.
Qed.

Lemma pinned_begin cx c sql ps ok :
  isBegin sql -> pinned cx (EvQuery c sql ps ok) = true -> c = cx.
Proof.
  intros [-> | ->] H; unfold pinned in H;
    [change (String.eqb "BEGIN" SQL_EXISTS_POSTGRES) with false in H
    |change (String.eqb "BEGIN TRANSACTION" SQL_EXISTS_POSTGRES) with false in H];
    by apply bool_decide_eq_true in H.
Qed.

(** C1. When a statement fails during [resetOperationalData], the call does
    not return: the error ends in the [catch] block, or, for the probe of
    the start-up, leaves the function before any transaction.  The committed
    contents of the database are those from before the call, on both
    backends.  On the connection on which the transaction was begun,
    [ROLLBACK] is the last statement of the run; when it succeeds, no
    transaction is left open. *)
Theorem failed_reset_is_rolled_back (url : option string) (S0 : store)
    (f : nat -> bool) (resetUsers : bool) :
  let r := resetOperationalData resetUsers (boot url (fresh S0 f)) in
  Exists (fun ev => failedStatement ev = true) (trace r.2) ->
  returned r.1 = None
  /\ committed (eng r.2) = S0
  /\ (forall c sql, isBegin sql -> EvQuery c sql [] true ∈ trace r.2 ->
      exists before, rolledBack c before r.2).
Proof.
  intros r Hfailed. subst r.
  destruct (reset_run url S0 f resetUsers) as (Hpin & Hout).
  destruct (resetOperationalData resetUsers (boot url (fresh S0 f))) as [[v|e|code] w];
    simpl in *.
  - destruct Hout as (_ & _ & _ & _ & Hok). exfalso.
    apply Exists_exists in Hfailed as (ev & Hin & Hev).
    rewrite Forall_forall in Hok. specialize (Hok ev Hin). congruence.
  - destruct Hout as (Hc & _ & _ & _ & Hprobe). repeat split; try done.
    intros c sql Hb Hin. exfalso. rewrite Forall_forall in Hprobe.
    specialize (Hprobe _ Hin). simpl in Hprobe. by destruct Hb; subst.
  - destruct Hout as (_ & Hc & _ & _ & before & Hrb). repeat split; try done.
    intros c sql Hb Hin. rewrite Forall_forall in Hpin.
    rewrite (pinned_begin _ c sql [] true Hb (Hpin _ Hin)). eauto.
Qed.

Lemma failed_reset_is_rolled_back_witness :
  let r := resetOperationalData false (boot POSTGRES_URL (fresh workshop (faultAt 9))) in
  Exists (fun ev => failedStatement ev = true) (trace r.2)
  /\ returned r.1 = None
  /\ committed (eng r.2) = workshop
  /\ (forall c sql, isBegin sql -> EvQuery c sql [] true ∈ trace r.2 ->
      exists before, rolledBack c before r.2).
Proof.
  assert (H : Exists (fun ev => failedStatement ev = true)
                (trace (resetOperationalData false
                          (boot POSTGRES_URL (fresh workshop (faultAt 9)))).2)).
  { apply (bool_decide_unpack _). by vm_compute. }
  split; [exact H|].
  exact (failed_reset_is_rolled_back POSTGRES_URL workshop (faultAt 9) false H).
Defined.

Lemma reset_returns_without_fault url S0 f ru :
  (forall k, f k = false) ->
  (resetOperationalData ru (boot url (fresh S0 f))).1 = Ok Undefined.
Proof.
  intros Hf. destruct (reset_run url S0 f ru) as (_ & Hout).
  destruct (resetOperationalData ru (boot url (fresh S0 f))) as [[v|e|code] w]; simpl in *.
  - by destruct Hout as (-> & _).
  - destruct Hout as (_ & _ & _ & (k & Hk) & _). by rewrite Hf in Hk.
  - destruct Hout as (_ & _ & _ & (k & Hk) & _). by rewrite Hf in Hk.
Qed.

Lemma usersReport_cleared (S0 : store) :
  usersReport (cleared TABLES_TO_CLEAN S0) = usersReport S0.
Proof.
  unfold usersReport. rewrite cleared_lookup, bool_decide_eq_false_2; [done|].
  by apply (bool_decide_unpack _).
Qed.

Lemma finalReport_map ru (S0 : store) :
  finalReport ru S0
  = map (report S0) TABLES_TO_CLEAN ++ (if ru then [usersReport S0] else []).
Proof.
  unfold finalReport. by rewrite (reports_map S0 _ noDup_tables), usersReport_cleared.
Qed.

(** C2, amended. On PostgreSQL every lease of the run returns the same
    connection, and every statement of the run other than the catalog query
    of [tableExists] is issued on it: the begin, the counts, the deletes, the
    purge of the user accounts, the commit or the rollback.  The catalog
    queries go through [pool.query] and run on another connection. *)
Theorem reset_statements_on_leased_connection (url : option string) (S0 : store)
    (f : nat -> bool) (resetUsers : bool) :
  backendOf url = AdapterPostgres ->
  let r := resetOperationalData resetUsers (boot url (fresh S0 f)) in
  (forall c, EvConnect (Some c) ∈ trace r.2 -> c = PoolConn 0)
  /\ (forall c sql params ok, EvQuery c sql params ok ∈ trace r.2 ->
      sql <> SQL_EXISTS_POSTGRES -> c = PoolConn 0)
  /\ (forall c params ok, EvQuery c SQL_EXISTS_POSTGRES params ok ∈ trace r.2 ->
      c <> PoolConn 0).
Proof.
  intros Hb r. subst r.
  destruct (reset_run url S0 f resetUsers) as (Hpin & _). rewrite Hb in Hpin.
  rewrite Forall_forall in Hpin. repeat split.
  - intros c Hin. specialize (Hpin _ Hin). by apply bool_decide_eq_true in Hpin.
  - intros c sql params ok Hin Hsql. specialize (Hpin _ Hin). unfold pinned in Hpin.
    apply String.eqb_neq in Hsql. rewrite Hsql in Hpin.
    by apply bool_decide_eq_true in Hpin.
  - intros c params ok Hin. specialize (Hpin _ Hin). unfold pinned in Hpin.
    rewrite String.eqb_refl in Hpin. apply negb_true_iff in Hpin.
    by apply bool_decide_eq_false in Hpin.
Qed.

Lemma reset_statements_on_leased_connection_witness :
  let r := resetOperationalData true (boot POSTGRES_URL (fresh workshop noFault)) in
  backendOf POSTGRES_URL = AdapterPostgres
  /\ (forall c, EvConnect (Some c) ∈ trace r.2 -> c = PoolConn 0)
  /\ (forall c sql params ok, EvQuery c sql params ok ∈ trace r.2 ->
      sql <> SQL_EXISTS_POSTGRES -> c = PoolConn 0)
  /\ (forall c params ok, EvQuery c SQL_EXISTS_POSTGRES params ok ∈ trace r.2 ->
      c <> PoolConn 0).
Proof.
  split; [reflexivity|].
  exact (reset_statements_on_leased_connection POSTGRES_URL workshop noFault true eq_refl).
Defined.

(** C2, as stated, fails: the run has statements on two connections, the
    begin on connection 0 and the catalog query for the first table on
    connection 1. *)
Lemma statements_on_two_connections_counterexample :
  let r := resetOperationalData false (boot POSTGRES_URL (fresh workshop noFault)) in
  ~ exists c, allStatementsOn c (trace r.2).
Proof.
  intros r [c Hall].
  assert (H0 : EvQuery (PoolConn 0) "BEGIN" [] true ∈ trace r.2)
    by (apply (bool_decide_unpack _); by vm_compute).
  assert (H1 : EvQuery (PoolConn 1) SQL_EXISTS_POSTGRES [Str "km_historico"] true ∈ trace r.2)
    by (apply (bool_decide_unpack _); by vm_compute).
  apply Hall in H0. apply Hall in H1. congruence.
Qed.

(** X23. The function [resetOperationalData] of the reset script has no
    [return] statement: when the reset succeeds, its promise resolves to
    [undefined].  The script prints its report: one line for each processed
    table in the order of processing, the tables of the list and then the
    user accounts when they are reset, followed by the total, the sum of
    [deleted] over the entries that are not skipped. *)
Theorem reset_prints_its_report (url : option string) (S0 : store)
    (f : nat -> bool) (resetUsers : bool) :
  let r := resetOperationalData resetUsers (boot url (fresh S0 f)) in
  forall v, r.1 = Ok v ->
    v = Undefined
    /\ exists results,
         console r.2 = map summaryLine results ++ [LogTotal (totalOf results)]
         /\ map table results
            = TABLES_TO_CLEAN ++ (if resetUsers then ["usuarios"] else []).
Proof.
  intros r v Hv. subst r. destruct (reset_run url S0 f resetUsers) as (_ & Hout).
  rewrite Hv in Hout. destruct Hout as (-> & _ & _ & Hco & _). split; [done|].
  exists (finalReport resetUsers S0). split; [done|].
  rewrite finalReport_map, map_app, map_map.
  f_equal.
  - clear. induction TABLES_TO_CLEAN as [|t ts IH]; [done|]. simpl. rewrite IH.
    f_equal. unfold report. by destruct (S0 !! t).
  - destruct resetUsers; [|done]. simpl. unfold usersReport. by destruct (S0 !! "usuarios").
Qed.

Lemma reset_prints_its_report_witness :
  let r := resetOperationalData true (boot POSTGRES_URL (fresh workshop noFault)) in
  r.1 = Ok Undefined
  /\ exists results,
       console r.2 = map summaryLine results ++ [LogTotal (totalOf results)]
       /\ map table results = TABLES_TO_CLEAN ++ ["usuarios"].
Proof.
  cbv zeta.
  assert (H : (resetOperationalData true (boot POSTGRES_URL (fresh workshop noFault))).1
              = Ok Undefined) by (by vm_compute).
  split; [exact H|].
  exact (proj2 (reset_prints_its_report POSTGRES_URL workshop noFault true Undefined H)).
Defined.

Lemma users_where_purgeable (r : row) : users_where r = purgeable r.
Proof.
  unfold users_where, purgeable, notAdministrator, hasValue, sql_ne.
  destruct (r !! "role") as [[]|], (r !! "email") as [[]|]; cbn;
    repeat match goal with
           | |- context [String.eqb ?a ?b] => destruct (String.eqb_spec a b)
           end;
    repeat case_bool_decide; by simplify_eq.
Qed.

(** C9, amended. Without [resetUsers] the rows of the user accounts are after
    the call what they were before, whatever happens during the call.  With
    [resetUsers] a reset that returns has deleted from the user accounts
    exactly the rows that have a role and an email, with a role other than
    [admin] and an email other than [admin@troia.com]: the engine reads the
    condition off the text of the statement, and a comparison with [NULL] is
    not true.  All other rows are kept, in their order: the administrators,
    the reserved address, and the rows without role or without email.  A
    reset that does not return leaves the rows as they were. *)
Theorem users_kept_or_purged (url : option string) (S0 : store) (f : nat -> bool) :
  let kept := resetOperationalData false (boot url (fresh S0 f)) in
  let purge := resetOperationalData true (boot url (fresh S0 f)) in
  committed (eng kept.2) !! "usuarios" = S0 !! "usuarios"
  /\ (forall v, purge.1 = Ok v ->
      committed (eng purge.2) !! "usuarios"
      = filter (fun r => purgeable r = false) <$> S0 !! "usuarios")
  /\ (returned purge.1 = None ->
      committed (eng purge.2) !! "usuarios" = S0 !! "usuarios")
  /\ ((forall k, f k = false) -> purge.1 = Ok Undefined).
Proof.
  intros kept purge. subst kept purge.
  split; [|split; [|split]].
  - destruct (reset_run url S0 f false) as (_ & Hout).
    destruct (resetOperationalData false (boot url (fresh S0 f))) as [[v|e|code] w];
      cbn [fst snd] in *.
    + destruct Hout as (_ & -> & _). by rewrite finalStore_users.
    + by destruct Hout as (-> & _).
    + by destruct Hout as (_ & -> & _).
  - intros v Hv. destruct (reset_run url S0 f true) as (_ & Hout).
    rewrite Hv in Hout. destruct Hout as (_ & -> & _). rewrite finalStore_users.
    destruct (S0 !! "usuarios") as [rs|]; [|done]. cbn. f_equal.
    apply list_filter_iff. intros r. by rewrite users_where_purgeable.
  - intros Hnone. destruct (reset_run url S0 f true) as (_ & Hout).
    destruct (resetOperationalData true (boot url (fresh S0 f))) as [[v|e|code] w];
      cbn [fst snd] in *; [done| |].
    + by destruct Hout as (-> & _).
    + by destruct Hout as (_ & -> & _).
  - apply reset_returns_without_fault.
Qed.

Lemma users_kept_or_purged_witness :
  let purge := resetOperationalData true (boot None (fresh staff noFault)) in
  purge.1 = Ok Undefined
  /\ committed (eng purge.2) !! "usuarios"
     = Some [ {[ "id" := Num 1; "role" := Str "admin"; "email" := Str "admin@troia.com" ]};
              {[ "id" := Num 2; "role" := Null; "email" := Str "ana@troia.com" ]} ].
Proof.
  cbv zeta.
  destruct (users_kept_or_purged None staff noFault) as (_ & Hpurged & _ & Hret).
  specialize (Hret (fun _ => eq_refl)). split; [exact Hret|].
  rewrite (Hpurged _ Hret). by vm_compute.
Defined.

(** C9, as stated, fails for a user account without a role: its role is not
    the administrator role and its email is not the reserved address, and
    the purge keeps it, on both backends. *)
Lemma users_without_role_counterexample :
  let claimed := filter (fun r => notAdministrator r = false) <$> staff !! "usuarios" in
  let lite := resetOperationalData true (boot None (fresh staff noFault)) in
  let pg := resetOperationalData true (boot POSTGRES_URL (fresh staff noFault)) in
  lite.1 = Ok Undefined /\ committed (eng lite.2) !! "usuarios" <> claimed
  /\ pg.1 = Ok Undefined /\ committed (eng pg.2) !! "usuarios" <> claimed.
Proof.
  cbv zeta. split; [by vm_compute|]. split; [by vm_compute|].
  split; [by vm_compute|by vm_compute].
Qed.

(** ** Witnesses and examples *)


(** C8, as stated, fails for a query with a [?] inside a string literal:
    the query has one placeholder token, which the claim numbers [$1], and
    [convertParams] changes the literal and numbers the token [$2]. *)
Lemma placeholder_in_literal_counterexample :
  let sql := "SELECT id FROM usuarios WHERE nome = 'que?' AND id = ?" in
  let w := started POSTGRES_URL returningScript in
  rewriteTokens InCode 1 sql = "SELECT id FROM usuarios WHERE nome = 'que?' AND id = $1"
  /\ (DbAdapter.convertParams sql [Num 7] w).1
     = Ok ("SELECT id FROM usuarios WHERE nome = 'que$1' AND id = $2", [Num 7])
  /\ (DbAdapter.convertParams sql [Num 7] w).1 <> Ok (rewriteTokens InCode 1 sql, [Num 7]).
Proof. cbv zeta. split; [reflexivity|]. split; [reflexivity|]. vm_compute. discriminate. Qed.

Lemma convertParams_numbers_placeholders_witness :
  let sql := "SELECT id FROM usuarios WHERE nome = 'Ana' AND role = ? -- papel"
             +:+ LF +:+ "AND id = ?" in
  let w := started POSTGRES_URL returningScript in
  tokensOnly InCode sql = true
  /\ Db.convertParams sql [Str "user"; Num 2] w
     = (Ok (rewriteTokens InCode 1 sql, [Str "user"; Num 2]), w)
  /\ rewriteTokens InCode 1 sql
     = "SELECT id FROM usuarios WHERE nome = 'Ana' AND role = $1 -- papel"
       +:+ LF +:+ "AND id = $2".
Proof.
  cbv zeta. split; [reflexivity|].
  destruct (convertParams_numbers_placeholders (started POSTGRES_URL returningScript)
              ("SELECT id FROM usuarios WHERE nome = 'Ana' AND role = ? -- papel"
               +:+ LF +:+ "AND id = ?") [Str "user"; Num 2])
    as (Hdb & _ & _ & _ & _ & Htokens).
  split; [|reflexivity]. rewrite <- (Htokens eq_refl). exact Hdb.
Defined.

Example replacePlaceholders_example :
  replacePlaceholders 1 "UPDATE veiculos SET km_atual = ? WHERE id = ? AND usuario_id = ?"
  = "UPDATE veiculos SET km_atual = $1 WHERE id = $2 AND usuario_id = $3".
Proof. reflexivity. Qed.

Example pieces_example :
  pieces "SELECT * FROM t WHERE a = ? AND b = ?" = ["SELECT * FROM t WHERE a = "; " AND b = "; ""].
Proof. reflexivity. Qed.

Example addReturning_example :
  addReturning "  insert into fabricantes (nome) values ($1) ;  "
  = "  insert into fabricantes (nome) values ($1)  RETURNING id".
Proof. reflexivity. Qed.

Example addReturning_lower_case_example :
  addReturning "INSERT INTO t (x) VALUES ($1) returning id"
  = "INSERT INTO t (x) VALUES ($1) returning id RETURNING id".
Proof. reflexivity. Qed.

Example placeholder_in_literal_example :
  replacePlaceholders 1 "SELECT * FROM t WHERE nome = 'que?' AND id = ?"
  = "SELECT * FROM t WHERE nome = 'que$1' AND id = $2".
Proof. reflexivity. Qed.

Example pragma_on_sqlite_example :
  (DbAdapter.query "PRAGMA table_info(usuarios)" []
     (started None (fixtureScript [{[ "name" := Str "id" ]}]))).1
  = Ok {| rows := []; rowCount := 0; insertId := Null |}.
Proof. reflexivity. Qed.

Example reset_scenario_example :
  console (resetOperationalData false (boot POSTGRES_URL (fresh workshop noFault))).2
  = [ LogSkipped "km_historico"; LogSkipped "abastecimentos";
      LogDeleted "manutencoes" 3; LogSkipped "ocr_usage";
      LogSkipped "veiculo_compartilhamentos";
      LogSkipped "proprietarios_historico"; LogSkipped "proprietarios";
      LogDeleted "veiculos" 2; LogTotal 5 ].
Proof. by vm_compute. Qed.

Example reset_twice_example :
  let once := resetOperationalData false (boot None (fresh workshop noFault)) in
  let twice := resetOperationalData false (boot None (fresh (committed (eng once.2)) noFault)) in
  last (console once.2) = Some (LogTotal 5)
  /\ twice.1 = Ok Undefined /\ last (console twice.2) = Some (LogTotal 0).
Proof. by vm_compute. Qed.

Example fault_after_first_delete_example :
  let r := resetOperationalData false (boot None (fresh workshop (faultAt 5))) in
  r.1 = Exit 1
  /\ EvQuery SharedFile "DELETE FROM manutencoes" [] true ∈ trace r.2
  /\ last (trace r.2) = Some (EvQuery SharedFile "ROLLBACK" [] true)
  /\ committed (eng r.2) = workshop /\ txn (eng r.2) = None.
Proof.
  cbv zeta. split; [by vm_compute|]. split; [apply (bool_decide_unpack _); by vm_compute|].
  split; [by vm_compute|]. split; [|by vm_compute].
  apply (bool_decide_unpack _). by vm_compute.
Qed.

(** * Further properties of the code *)

Lemma includes_question_digits ds s :
  allDigits ds = true -> includes (ds +:+ s) "?" = includes s "?".
Proof.
  induction ds as [|d ds IH]; intros Hd; [done|].
  simpl in Hd. apply andb_prop in Hd as [Hd1 Hd2].
  change (String d ds +:+ s) with (String d (ds +:+ s)).
  rewrite includes_question_cons, IH by done.
  replace (Ascii.eqb d "?") with false; [done|].
  symmetry. apply Ascii.eqb_neq. intros ->. done.
Qed.

Lemma replacePlaceholders_no_placeholder i s :
  includes (replacePlaceholders i s) "?" = false.
Proof.
  revert i. induction s as [|c r IH]; intros i; [done|]. simpl replacePlaceholders.
  destruct (Ascii.eqb c "?") eqn:Hc.
  - change ("$" +:+ pretty i +:+ replacePlaceholders (S i) r)
      with (String "$" (pretty i +:+ replacePlaceholders (S i) r)).
    rewrite includes_question_cons, includes_question_digits by apply pretty_nat_digits.
    by rewrite IH.
  - by rewrite includes_question_cons, Hc, IH.
Qed.

Lemma replacePlaceholders_plain i s :
  includes s "?" = false -> replacePlaceholders i s = s.
Proof.
  induction s as [|c r IH]; intros H; [done|].
  rewrite includes_question_cons in H. apply orb_false_elim in H as [Hc Hr].
  simpl. rewrite Hc. by rewrite IH.
Qed.

Lemma replacePlaceholders_idem i j s :
  replacePlaceholders i (replacePlaceholders j s) = replacePlaceholders j s.
Proof. apply replacePlaceholders_plain, replacePlaceholders_no_placeholder. Qed.

Lemma startsWith_app s t p : startsWith s p = true -> startsWith (s +:+ t) p = true.
Proof.
  revert s. induction p as [|a p IH]; intros s H; [done|].
  destruct s as [|b s]; [done|]. rewrite append_cons.
  simpl in *. apply andb_prop in H as [-> H]. by rewrite IH.
Qed.

Lemma includes_app_r s t p : includes t p = true -> includes (s +:+ t) p = true.
Proof.
  intros H. induction s as [|c s IH]; [done|].
  rewrite append_cons. destruct p as [|a p].
  - done.
  - by rewrite includes_cons, IH, orb_true_r.
Qed.

(** ** The placeholder rewriting and the insert rewriting, once more *)

(** X1. The text [convertParams] returns holds no placeholder [?], on
    PostgreSQL, whatever the query was; converting it a second time, as
    [dbRun] does with the text [dbPrepare] has converted, returns it
    unchanged.  This holds for the three copies of [convertParams]. *)
Theorem convertParams_twice {E : Type} (w : world E) (sql : string) (params : list value) :
  (dbAdapter w = Some AdapterPostgres ->
   exists converted, DbHelper.convertParams sql params w = (Ok (converted, params), w)
     /\ includes converted "?" = false)
  /\ (let! (convertedSql, convertedParams) := DbHelper.convertParams sql params in
      DbHelper.convertParams convertedSql convertedParams) w
     = DbHelper.convertParams sql params w
  /\ (let! (convertedSql, convertedParams) := DbAdapter.convertParams sql params in
      DbAdapter.convertParams convertedSql convertedParams) w
     = DbAdapter.convertParams sql params w
  /\ (let! (convertedSql, convertedParams) := Db.convertParams sql params in
      Db.convertParams convertedSql convertedParams) w
     = Db.convertParams sql params w.
Proof.
  split; [|split; [|split]].
  - intros Ha. exists (replacePlaceholders 1 sql).
    unfold DbHelper.convertParams. rewrite bind_run, isPostgres_run, (is_postgres w Ha).
    split; [done|]. apply replacePlaceholders_no_placeholder.
  - unfold DbHelper.convertParams. rewrite !bind_run, isPostgres_run.
    destruct (bool_decide (dbAdapter w = Some AdapterPostgres)) eqn:Hpg; mred.
    + rewrite bind_run, isPostgres_run, Hpg. mred. by rewrite replacePlaceholders_idem.
    + by rewrite bind_run, isPostgres_run, Hpg.
  - unfold DbAdapter.convertParams. rewrite !bind_run, isPostgres_run.
    destruct (bool_decide (dbAdapter w = Some AdapterPostgres)) eqn:Hpg; mred.
    + rewrite bind_run, isPostgres_run, Hpg. mred. by rewrite replacePlaceholders_idem.
    + by rewrite bind_run, isPostgres_run, Hpg.
  - unfold Db.convertParams. rewrite !bind_run, isPostgres_run.
    destruct (bool_decide (dbAdapter w = Some AdapterPostgres)) eqn:Hpg; mred.
    + rewrite bind_run, isPostgres_run, Hpg. mred. by rewrite replacePlaceholders_idem.
    + by rewrite bind_run, isPostgres_run, Hpg.
Qed.

(** X2. The rewriting of insert statements leaves a statement that does not
    start with [INSERT] as it is, gives every statement that starts with
    [INSERT] a [RETURNING] clause, and changes nothing when it is applied to
    its own result. *)
Theorem addReturning_once (sql : string) :
  addReturning (addReturning sql) = addReturning sql
  /\ (startsWith (toUpperCase (trim sql)) "INSERT" = true ->
      includes (addReturning sql) "RETURNING" = true)
  /\ (startsWith (toUpperCase (trim sql)) "INSERT" = false -> addReturning sql = sql).
Proof.
  assert (Hinc : startsWith (toUpperCase (trim sql)) "INSERT" = true ->
                 includes (addReturning sql) "RETURNING" = true).
  { intros Hi. unfold addReturning. rewrite Hi.
    destruct (includes sql "RETURNING") eqn:Hr; [done|].
    cbn [negb andb]. by apply includes_app_r. }
  split; [|split; [exact Hinc|]].
  - destruct (startsWith (toUpperCase (trim sql)) "INSERT") eqn:Hi.
    + specialize (Hinc eq_refl). unfold addReturning at 1.
      by rewrite Hinc, andb_false_r.
    + unfold addReturning. rewrite Hi. cbn [andb]. by rewrite Hi.
  - intros Hi. unfold addReturning. by rewrite Hi.
Qed.

Lemma addReturning_once_witness :
  let insert := NBSP +:+ LF +:+ " insert into fabricantes (nome) values ($1);" +:+ BOM in
  let dotless := DOTLESS_I +:+ "nsert into fabricantes (nome) values ($1)" in
  let update := NBSP +:+ "update fabricantes set nome = $1 where id = $2;" in
  addReturning insert = NBSP +:+ LF +:+ " insert into fabricantes (nome) values ($1) RETURNING id"
  /\ addReturning (addReturning insert) = addReturning insert
  /\ includes (addReturning insert) "RETURNING" = true
  /\ toUpperCase dotless = "INSERT INTO FABRICANTES (NOME) VALUES ($1)"
  /\ includes (addReturning dotless) "RETURNING" = true
  /\ addReturning update = update.
Proof.
  destruct (addReturning_once
              (NBSP +:+ LF +:+ " insert into fabricantes (nome) values ($1);" +:+ BOM))
    as (Htwice & Hreturning & _).
  destruct (addReturning_once (DOTLESS_I +:+ "nsert into fabricantes (nome) values ($1)"))
    as (_ & Hdotless & _).
  destruct (addReturning_once (NBSP +:+ "update fabricantes set nome = $1 where id = $2;"))
    as (_ & _ & Hsame).
  split; [reflexivity|]. split; [exact Htwice|]. split; [exact (Hreturning eq_refl)|].
  split; [reflexivity|]. split; [exact (Hdotless eq_refl)|exact (Hsame eq_refl)].
Defined.

(** X3. For a statement that starts with [INSERT] and has no [RETURNING]
    clause, the rewriting removes one statement terminator and the white
    space after it, or the trailing white space when the statement has no
    terminator, and puts [' RETURNING id'] in their place.  White space is
    what the class [\s] matches: the no-break space and the other space
    characters of Unicode as well as the ASCII ones. *)
Theorem addReturning_strips_terminator (sql ws : string) :
  allWhite ws = true ->
  (let statement := sql +:+ ";" +:+ ws in
   startsWith (toUpperCase (trim statement)) "INSERT" = true ->
   includes statement "RETURNING" = false ->
   addReturning statement = sql +:+ " RETURNING id")
  /\ (let statement := sql +:+ ws in
      endsPlain sql = true ->
      startsWith (toUpperCase (trim statement)) "INSERT" = true ->
      includes statement "RETURNING" = false ->
      addReturning statement = sql +:+ " RETURNING id").
Proof.
  intros Hws. split; cbv zeta.
  - intros Hi Hr. unfold addReturning. rewrite Hi, Hr. cbn [negb andb].
    by rewrite stripTerminator_semicolon.
  - intros He Hi Hr. unfold addReturning. rewrite Hi, Hr. cbn [negb andb].
    unfold stripTerminator. rewrite trimEnd_app_white by done.
    apply String.eqb_eq in He. f_equal. exact He.
Qed.

Lemma addReturning_strips_terminator_witness :
  let sql := "  insert into fabricantes (nome) values ($1)" in
  let ws := LF +:+ " " +:+ NBSP +:+ IDEOGRAPHIC_SPACE +:+ BOM in
  allWhite ws = true
  /\ addReturning (sql +:+ ";" +:+ ws) = sql +:+ " RETURNING id"
  /\ addReturning (sql +:+ ws) = sql +:+ " RETURNING id".
Proof.
  destruct (addReturning_strips_terminator
              "  insert into fabricantes (nome) values ($1)"
              (LF +:+ " " +:+ NBSP +:+ IDEOGRAPHIC_SPACE +:+ BOM) eq_refl) as [H1 H2].
  split; [reflexivity|]. split; [exact (H1 eq_refl eq_refl)|exact (H2 eq_refl eq_refl eq_refl)].
Defined.

(** ** The facade, for every engine *)

Lemma Db_query_sqlite {E : Type} {D : Driver E} (w : world E) sql params :
  dbAdapter w = Some AdapterSqlite ->
  Db.query sql params w =
  let keyword := toUpperCase (trim sql) in
  if startsWith keyword "SELECT"
  then match sqliteAll sql params (eng w) with
       | (inr rs, e) =>
           (Ok {| rows := rs; rowCount := Z.of_nat (length rs); insertId := Null |},
            record (EvQuery SharedFile sql params true) (set_eng e (opened w)))
       | (inl err, e) =>
           (Throw err, record (EvQuery SharedFile sql params false) (set_eng e (opened w)))
       end
  else match sqliteRun sql params (eng w) with
       | (inr this, e) =>
           (Ok {| rows := [];
                  rowCount := changes this;
                  insertId := if startsWith keyword "INSERT"
                              then Js.or (Num (lastID this)) Null else Null |},
            record (EvQuery SharedFile sql params true) (set_eng e (opened w)))
       | (inl err, e) =>
           (Throw err, record (EvQuery SharedFile sql params false) (set_eng e (opened w)))
       end.
Proof.
  intros Ha. unfold Db.query, Db.convertParams.
  mstep. rewrite isPostgres_run, (not_postgres w Ha). mred.
  mstep. rewrite isPostgres_run, (not_postgres w Ha). mred.
  mstep. rewrite (getSqliteDb_run w Ha). mred.
  assert (eng (opened w) = eng w) as Heng by (unfold opened; by destruct (sqliteDb w)).
  destruct (startsWith _ "SELECT"); [|destruct (startsWith _ "INSERT")];
    rewrite bind_run; unfold sqlite_all, sqlite_run; rewrite Heng;
    by (destruct (sqliteAll _ _ _) as [[err|r] e] || destruct (sqliteRun _ _ _) as [[err|r] e]).
Qed.

Lemma Db_query_unset {E : Type} {D : Driver E} (w : world E) sql params :
  dbAdapter w = None -> sqliteDb w = false ->
  Db.query sql params w = (Throw (TypeError "Cannot read properties of null"), w).
Proof.
  intros Ha Hdb.
  assert (Hpg : bool_decide (dbAdapter w = Some AdapterPostgres) = false) by by rewrite Ha.
  unfold Db.query, Db.convertParams, Db.getSqliteDb, DbAdapterState.isSqlite.
  mstep. rewrite isPostgres_run, Hpg. mred.
  mstep. rewrite isPostgres_run, Hpg. mred.
  mstep. rewrite Hdb, Ha. simpl. by rewrite Hdb.
Qed.

Lemma Db_query_postgres {E : Type} {D : Driver E} (w : world E) sql params :
  dbAdapter w = Some AdapterPostgres ->
  Db.query sql params w =
  (let! result := Postgres.query (addReturning (replacePlaceholders 1 sql)) params in
   ret {| rows := pg_rows result;
          rowCount := default 0%Z (pg_rowCount result);
          insertId := Js.or (Js.prop "id" (head (pg_rows result))) Null |}) w.
Proof.
  intros Ha. unfold Db.query, Db.convertParams.
  mstep. rewrite isPostgres_run, (is_postgres w Ha). mred.
  mstep. rewrite isPostgres_run, (is_postgres w Ha). mred. by mstep.
Qed.

Lemma DbAdapter_query_loaded {E : Type} {D : Driver E} (w : world E) sql params :
  dbAdapter w = Some AdapterPostgres -> pgQuery w = true ->
  DbAdapter.query sql params w =
  (let! result := Postgres.query (addReturning (replacePlaceholders 1 sql)) params in
   ret {| rows := pg_rows result;
          rowCount := default 0%Z (pg_rowCount result);
          insertId := Js.or (Js.prop "id" (head (pg_rows result))) Null |}) w.
Proof.
  intros Ha Hl. unfold DbAdapter.query, DbAdapter.convertParams.
  mstep. rewrite isPostgres_run, (is_postgres w Ha). mred.
  mstep. rewrite Hl. mred.
  mstep. rewrite isPostgres_run, (is_postgres w Ha). mred. by mstep.
Qed.

Lemma DbAdapter_query_other {E : Type} {D : Driver E} (w : world E) sql params :
  dbAdapter w <> Some AdapterPostgres ->
  DbAdapter.query sql params w = Db.query sql params w.
Proof.
  intros Ha. apply (bool_decide_eq_false_2 _) in Ha.
  unfold DbAdapter.query. mstep. by rewrite isPostgres_run, Ha.
Qed.

(** The results of [db.js] hold an [insertId] that is [null] or a number
    other than zero: [x || null] returns it as it is. *)
Lemma Db_query_insertId {E : Type} {D : Driver E} (w : world E) sql params q w' :
  Db.query sql params w = (Ok q, w') -> Js.or (insertId q) Null = insertId q.
Proof.
  destruct (decide (dbAdapter w = Some AdapterPostgres)) as [Ha|Ha].
  - rewrite (Db_query_postgres w _ _ Ha), bind_run.
    destruct (Postgres.query _ _ w) as [[r|e|c] w1]; [|done|done].
    mred. intros [= <- <-]. cbn [insertId]. unfold Js.or.
    destruct (truthy (Js.prop "id" (head (pg_rows r)))) eqn:Ht; [by rewrite Ht|done].
  - apply (bool_decide_eq_false_2 _) in Ha.
    unfold Db.query, Db.convertParams.
    mstep. rewrite isPostgres_run, Ha. mred.
    mstep. rewrite isPostgres_run, Ha. mred.
    rewrite bind_run. destruct (Db.getSqliteDb w) as [[[]|e|c] w1]; mred; [|done..].
    destruct (startsWith _ "SELECT"); [|destruct (startsWith _ "INSERT")];
      rewrite bind_run; unfold sqlite_all, sqlite_run;
      (destruct (sqliteAll _ _ _) as [[err|r] e] || destruct (sqliteRun _ _ _) as [[err|r] e]);
      mred; intros [= <- <-]; try done.
    cbn [insertId]. unfold Js.or.
    destruct (truthy (Num (lastID r))) eqn:Ht; [by rewrite Ht|done].
Qed.

Lemma execute_is_query {E : Type} {D : Driver E} (w : world E) sql params :
  DbAdapter.execute sql params w = DbAdapter.query sql params w.
Proof.
  unfold DbAdapter.execute, DbAdapter.query. rewrite !bind_run, isPostgres_run.
  destruct (bool_decide (dbAdapter w = Some AdapterPostgres)); mred; [reflexivity|].
  rewrite bind_run.
  destruct (Db.query sql params w) as [[q|e|c] w'] eqn:Hq; [|done|done].
  mred. rewrite (Db_query_insertId _ _ _ _ _ Hq). by destruct q.
Qed.

(** X4. [execute] is [query]: for every statement, on both backends and in
    every state of the process, the two return the same result or throw the
    same error, and leave the process in the same state.  The same holds for
    the [execute] of the SQLite wrapper and the [query] of [db.js]. *)
Theorem execute_same_as_query {E : Type} {D : Driver E} (w : world E)
    (sql : string) (params : list value) :
  DbAdapter.execute sql params w = DbAdapter.query sql params w
  /\ SqliteWrapper.execute sql params w = Db.query sql params w.
Proof.
  split; [apply execute_is_query|].
  unfold SqliteWrapper.execute. rewrite bind_run.
  destruct (Db.query sql params w) as [[q|e|c] w'] eqn:Hq; [|done|done].
  mred. rewrite (Db_query_insertId _ _ _ _ _ Hq). by destruct q.
Qed.

Lemma queryOne_of_queryAll {E : Type} {D : Driver E} (w : world E) sql params :
  DbAdapter.queryOne sql params w
  = (let (o, w') := DbAdapter.queryAll sql params w in (firstOf o, w')).
Proof.
  unfold DbAdapter.queryOne, DbAdapter.queryAll. rewrite !bind_run, isPostgres_run.
  destruct (bool_decide (dbAdapter w = Some AdapterPostgres)); mred.
  - rewrite !bind_run. mred. destruct (pgQuery w); mred; [|done].
    rewrite !bind_run. destruct (DbAdapter.convertParams sql params w) as [[[s p]|e|c] w1]; [|done|done].
    unfold Postgres.queryOne, Postgres.queryAll. rewrite !bind_run.
    by destruct (Postgres.query s p w1) as [[r|e|c] w2].
  - unfold Db.queryOne, Db.queryAll. rewrite !bind_run.
    by destruct (Db.query sql params w) as [[r|e|c] w2].
Qed.

(** X5. [queryOne] returns the first row of what [queryAll] returns for the
    same call, and [null] when [queryAll] returns no row; it throws what
    [queryAll] throws, and the two leave the process in the same state.
    This holds for every statement, in [db-adapter.js], in [db.js] and in
    [postgres.js]. *)
Theorem queryOne_first_row_of_queryAll {E : Type} {D : Driver E} (w : world E)
    (sql : string) (params : list value) :
  DbAdapter.queryOne sql params w
  = (let (o, w') := DbAdapter.queryAll sql params w in (firstOf o, w'))
  /\ Db.queryOne sql params w
     = (let (o, w') := Db.queryAll sql params w in (firstOf o, w'))
  /\ Postgres.queryOne sql params w
     = (let (o, w') := Postgres.queryAll sql params w in (firstOf o, w')).
Proof.
  split; [apply queryOne_of_queryAll|]. split.
  - unfold Db.queryOne, Db.queryAll. rewrite !bind_run.
    by destruct (Db.query sql params w) as [[r|e|c] w2].
  - unfold Postgres.queryOne, Postgres.queryAll. rewrite !bind_run.
    by destruct (Postgres.query sql params w) as [[r|e|c] w2].
Qed.



(** ** Start-up and shutdown *)

Lemma initPostgres_run {E : Type} {D : Driver E} (w : world E) :
  pool w = false -> truthy (from_option Str Undefined (DATABASE_URL w)) = true ->
  Postgres.initPostgres w =
  match poolConnect (eng w) with
  | (inl err, e) => (Throw err, record (EvConnect None) (set_eng e (set_pool true w)))
  | (inr c, e) =>
      match clientQuery c "SELECT NOW()" [] e with
      | (inl err, e') =>
          (Throw err,
           record (EvQuery c "SELECT NOW()" [] false)
             (set_eng e' (record (EvConnect (Some c)) (set_eng e (set_pool true w)))))
      | (inr _, e') =>
          (Ok tt,
           record (EvRelease c)
             (set_eng (clientRelease c e')
                (record (EvQuery c "SELECT NOW()" [] true)
                   (set_eng e' (record (EvConnect (Some c)) (set_eng e (set_pool true w)))))))
      end
  end.
Proof.
  intros Hp Hurl. unfold Postgres.initPostgres.
  mstep. rewrite Hp. mred. mstep. rewrite Hurl. mred. mstep.
  unfold tryCatch. rewrite bind_run. unfold pool_connect.
  cbn [eng set_pool]. destruct (poolConnect (eng w)) as [[err|c] e]; [done|].
  cbv iota beta. rewrite bind_run. unfold client_query. cbn [eng record set_eng].
  destruct (clientQuery c "SELECT NOW()" [] e) as [[err|r] e']; [done|].
  reflexivity.
Qed.

(** X7. [initPostgres] without a pool: when [DATABASE_URL] is not set, or
    empty, it throws and no pool is made; otherwise the pool is made and
    probed with one lease, [SELECT NOW()] and one release.  When the lease
    fails, or when the probe fails - then the leased connection is not
    released -, the error is thrown and the pool stays in place, so that a
    second call returns without a probe. *)
Theorem initPostgres_probe {E : Type} {D : Driver E} (w : world E) :
  pool w = false ->
  let r := Postgres.initPostgres w in
  (truthy (from_option Str Undefined (DATABASE_URL w)) = false ->
   r = (Throw (JsError "DATABASE_URL não configurada. Configure a variável de ambiente DATABASE_URL."), w))
  /\ (truthy (from_option Str Undefined (DATABASE_URL w)) = true ->
      pool r.2 = true
      /\ Postgres.initPostgres r.2 = (Ok tt, r.2)
      /\ match poolConnect (eng w) with
         | (inl err, e) => r.1 = Throw err /\ trace r.2 = trace w ++ [EvConnect None]
         | (inr c, e) =>
             match clientQuery c "SELECT NOW()" [] e with
             | (inl err, _) =>
                 r.1 = Throw err
                 /\ trace r.2 = trace w ++ [EvConnect (Some c); EvQuery c "SELECT NOW()" [] false]
             | (inr _, _) =>
                 r.1 = Ok tt
                 /\ trace r.2 = trace w ++ [EvConnect (Some c); EvQuery c "SELECT NOW()" [] true;
                                            EvRelease c]
             end
         end).
Proof.
  intros Hp. cbv zeta. split.
  - intros Hurl. unfold Postgres.initPostgres.
    mstep. rewrite Hp. mred. mstep. by rewrite Hurl.
  - intros Hurl. rewrite (initPostgres_run w Hp Hurl).
    assert (Hagain : forall w' : world E, pool w' = true -> Postgres.initPostgres w' = (Ok tt, w')).
    { intros w' Hp'. unfold Postgres.initPostgres. mstep. by rewrite Hp'. }
    destruct (poolConnect (eng w)) as [[err|c] e].
    { split; [done|]. split; [by apply Hagain|]. done. }
    destruct (clientQuery c "SELECT NOW()" [] e) as [[err|r] e'].
    { split; [done|]. split; [by apply Hagain|]. split; [done|].
      cbn [fst snd trace record set_eng set_pool]. by rewrite <- app_assoc. }
    split; [done|]. split; [by apply Hagain|]. split; [done|].
    cbn [fst snd trace record set_eng set_pool]. by rewrite <- !app_assoc.
Qed.

Lemma initPostgres_probe_witness :
  let r := Postgres.initPostgres (boot POSTGRES_URL (fresh workshop (faultAt 1))) in
  r.1 = Throw injected
  /\ trace r.2 = [EvConnect (Some (PoolConn 0)); EvQuery (PoolConn 0) "SELECT NOW()" [] false]
  /\ pool r.2 = true
  /\ Postgres.initPostgres r.2 = (Ok tt, r.2).
Proof.
  destruct (initPostgres_probe (boot POSTGRES_URL (fresh workshop (faultAt 1))) eq_refl)
    as [_ H].
  destruct (H eq_refl) as (Hp & Hagain & Hr & Htr).
  split; [exact Hr|]. split; [exact Htr|]. split; [exact Hp|exact Hagain].
Defined.

Lemma initDatabase_run {E : Type} {D : Driver E} (w : world E) :
  DbAdapter.initDatabase w =
  match backendOf (DATABASE_URL w) with
  | AdapterPostgres =>
      match Postgres.initPostgres (set_pgQuery true w) with
      | (Ok _, w') => (Ok (Some AdapterPostgres), set_dbAdapter (Some AdapterPostgres) w')
      | (Throw e, w') => (Throw e, w')
      | (Exit c, w') => (Exit c, w')
      end
  | AdapterSqlite => (Ok (Some AdapterSqlite), set_dbAdapter (Some AdapterSqlite) w)
  end.
Proof.
  unfold DbAdapter.initDatabase, backendOf. mstep.
  destruct (truthy (from_option Str Undefined (DATABASE_URL w))); [|by mstep].
  mstep. by destruct (Postgres.initPostgres (set_pgQuery true w)) as [[[]|e|c] w'].
Qed.

Lemma initPostgres_frame {E : Type} {D : Driver E} (w : world E) :
  let r := Postgres.initPostgres w in
  pgQuery r.2 = pgQuery w /\ dbAdapter r.2 = dbAdapter w /\ DATABASE_URL r.2 = DATABASE_URL w
  /\ sqliteDb r.2 = sqliteDb w
  /\ (forall a, r.1 = Ok a -> pool r.2 = true)
  /\ (forall c, r.1 <> Exit c).
Proof.
  cbv zeta. destruct (pool w) eqn:Hp.
  { unfold Postgres.initPostgres. mstep. rewrite Hp. by mred. }
  destruct (truthy (from_option Str Undefined (DATABASE_URL w))) eqn:Hurl.
  - rewrite (initPostgres_run w Hp Hurl).
    destruct (poolConnect (eng w)) as [[err|c] e]; [by repeat split|].
    destruct (clientQuery c "SELECT NOW()" [] e) as [[err|r] e']; by repeat split.
  - unfold Postgres.initPostgres. mstep. rewrite Hp. mred. mstep. rewrite Hurl. by mred.
Qed.

(** X8. [initDatabase] chooses PostgreSQL exactly when [DATABASE_URL] is set
    and not empty; with SQLite it reaches no engine.  When it returns, the
    process is ready to serve queries and [getDbAdapter] names the backend
    that was chosen; calling it again returns the same adapter and changes
    nothing.  When it throws, the adapter is as it was before. *)
Theorem initDatabase_ready {E : Type} {D : Driver E} (w : world E) :
  let r := DbAdapter.initDatabase w in
  (backendOf (DATABASE_URL w) = AdapterSqlite ->
   r = (Ok (Some AdapterSqlite), set_dbAdapter (Some AdapterSqlite) w))
  /\ (forall a, r.1 = Ok a ->
      a = Some (backendOf (DATABASE_URL w))
      /\ DbAdapterState.getDbAdapter r.2 = (Ok a, r.2)
      /\ ready r.2
      /\ DbAdapter.initDatabase r.2 = (Ok a, r.2))
  /\ (forall e, r.1 = Throw e ->
      backendOf (DATABASE_URL w) = AdapterPostgres /\ dbAdapter r.2 = dbAdapter w).
Proof.
  cbv zeta. rewrite (initDatabase_run w).
  destruct (backendOf (DATABASE_URL w)) eqn:Hb.
  - pose proof (initPostgres_frame (set_pgQuery true w)) as (Hq & Ha & Hu & _ & Hp & _).
    cbv zeta in *.
    destruct (Postgres.initPostgres (set_pgQuery true w)) as [[[]|e|c] w'];
      cbn [fst snd] in *.
    + split; [done|]. split; [|done]. intros a [= <-]. split; [done|]. split; [done|].
      specialize (Hp tt eq_refl).
      split; [by split|].
      rewrite initDatabase_run. cbn [DATABASE_URL set_dbAdapter]. rewrite Hu.
      cbn [DATABASE_URL set_pgQuery]. rewrite Hb.
      unfold Postgres.initPostgres at 1. mstep. cbn [pool set_pgQuery set_dbAdapter].
      rewrite Hp. mred. cbn [set_dbAdapter set_pgQuery dbAdapter pgQuery pool eng DATABASE_URL
                              sqliteDb client trace console].
      f_equal. cbn [pgQuery set_pgQuery] in Hq. destruct w'. cbn in *. by rewrite Hq.
    + split; [done|]. split; [done|]. intros e' [= <-]. by split.
    + split; [done|]. by split.
  - split; [done|]. split; [|done]. intros a [= <-]. split; [done|]. split; [done|].
    split; [done|]. cbn [fst snd]. rewrite initDatabase_run. cbn [DATABASE_URL set_dbAdapter]. by rewrite Hb.
Qed.

Lemma initDatabase_ready_witness :
  let r := DbAdapter.initDatabase (boot POSTGRES_URL (fresh workshop noFault)) in
  r.1 = Ok (Some AdapterPostgres)
  /\ ready r.2
  /\ DbAdapter.initDatabase r.2 = (Ok (Some AdapterPostgres), r.2).
Proof.
  destruct (initDatabase_ready (boot POSTGRES_URL (fresh workshop noFault))) as (_ & H & _).
  destruct (H (Some AdapterPostgres) eq_refl) as (_ & _ & Hr & Hi).
  split; [reflexivity|]. split; [exact Hr|exact Hi].
Defined.

(** ** One call, one statement *)

Lemma pool_query_shape {E : Type} {D : Driver E} (w : world E) text params :
  pool_query text params w =
  match poolQuery text params (eng w) with
  | (c, inr r, e) => (Ok r, record (EvQuery c text params true) (set_eng e w))
  | (c, inl err, e) => (Throw err, record (EvQuery c text params false) (set_eng e w))
  end.
Proof. unfold pool_query. by destruct (poolQuery _ _ _) as [[c [err|r]] e]. Qed.

Lemma ready_record {E : Type} (w : world E) ev e :
  ready w -> ready (record ev (set_eng e w)).
Proof. done. Qed.

Lemma ready_opened {E : Type} (w : world E) : ready w -> ready (opened w).
Proof. unfold opened. by destruct (sqliteDb w). Qed.

Lemma served_postgres {E A : Type} {D : Driver E} (w : world E) text params
    (k : PgResult -> A) :
  dbAdapter w = Some AdapterPostgres -> pgQuery w = true -> pool w = true ->
  let r := (let! result := Postgres.query text params in ret (k result)) w in
  oneStatement w r text params /\ ready r.2.
Proof.
  intros Ha Hl Hp. cbv zeta. rewrite bind_run, (Postgres_query_run w _ _ Hp), pool_query_shape.
  destruct (poolQuery text params (eng w)) as [[c [err|r]] e]; mred.
  - split; [by exists c, false|]. unfold ready. cbn. by rewrite Ha.
  - split; [by exists c, true|]. unfold ready. cbn. by rewrite Ha.
Qed.

Lemma served_sqlite {E : Type} {D : Driver E} (w : world E) sql params :
  dbAdapter w = Some AdapterSqlite ->
  let r := Db.query sql params w in
  oneStatement w r sql params /\ ready r.2.
Proof.
  intros Ha. cbv zeta. rewrite (Db_query_sqlite w _ _ Ha). cbv zeta.
  assert (Htr : trace (opened w) = trace w) by apply opened_fields.
  assert (Hr : forall ev e, ready (record ev (set_eng e (opened w)))).
  { intros ev e. apply ready_record, ready_opened. unfold ready. by rewrite Ha. }
  destruct (startsWith _ "SELECT").
  - destruct (sqliteAll _ _ _) as [[err|rs] e]; (split; [|apply Hr]).
    + exists SharedFile, false. cbn. by rewrite Htr.
    + exists SharedFile, true. cbn. by rewrite Htr.
  - destruct (sqliteRun _ _ _) as [[err|rs] e]; (split; [|apply Hr]).
    + exists SharedFile, false. cbn. by rewrite Htr.
    + exists SharedFile, true. cbn. by rewrite Htr.
Qed.

Lemma served_map {E A B : Type} (w : world E) (m : M E A) (k : A -> B) sent params :
  oneStatement w (m w) sent params /\ ready (m w).2 ->
  let r := (let! a := m in ret (k a)) w in
  oneStatement w r sent params /\ ready r.2.
Proof.
  cbv zeta. rewrite bind_run. by destruct (m w) as [[a|e|c] w'].
Qed.

Lemma ready_cases {E : Type} (w : world E) :
  ready w ->
  (dbAdapter w = Some AdapterPostgres /\ pgQuery w = true /\ pool w = true)
  \/ dbAdapter w = Some AdapterSqlite.
Proof.
  unfold ready. destruct (dbAdapter w) as [[]|]; [by left|by right|done].
Qed.

Lemma query_served {E : Type} {D : Driver E} (w : world E) sql params :
  ready w ->
  oneStatement w (DbAdapter.query sql params w) (sentText w true sql) params
  /\ ready (DbAdapter.query sql params w).2.
Proof.
  intros Hr. unfold sentText. destruct (ready_cases w Hr) as [(Ha & Hl & Hp)|Ha].
  - rewrite (is_postgres w Ha), (DbAdapter_query_loaded w _ _ Ha Hl).
    by apply served_postgres.
  - rewrite (not_postgres w Ha).
    assert (Hne : dbAdapter w <> Some AdapterPostgres) by by rewrite Ha.
    rewrite (DbAdapter_query_other w _ _ Hne). by apply served_sqlite.
Qed.

Lemma queryOne_served {E : Type} {D : Driver E} (w : world E) sql params :
  ready w ->
  oneStatement w (DbAdapter.queryOne sql params w) (sentText w false sql) params
  /\ ready (DbAdapter.queryOne sql params w).2.
Proof.
  intros Hr. unfold sentText. destruct (ready_cases w Hr) as [(Ha & Hl & Hp)|Ha].
  - rewrite (is_postgres w Ha).
    unfold DbAdapter.queryOne, DbAdapter.convertParams.
    mstep. rewrite isPostgres_run, (is_postgres w Ha). mred.
    mstep. rewrite Hl. mred.
    mstep. rewrite isPostgres_run, (is_postgres w Ha). mred. mstep.
    by apply (served_postgres w _ _ (fun result => head (pg_rows result))).
  - rewrite (not_postgres w Ha).
    unfold DbAdapter.queryOne. mstep. rewrite isPostgres_run, (not_postgres w Ha). mred.
    apply (served_map w (Db.query sql params) (fun result => head (rows result))).
    by apply served_sqlite.
Qed.

(** X9. In a process that is ready, every call of [query], [execute],
    [queryOne] and [queryAll] reaches the engine with exactly one statement:
    on SQLite the text of the call, on PostgreSQL the text with numbered
    placeholders, which [query] and [execute] extend with [RETURNING id] for
    an insert and [queryOne] and [queryAll] do not.  The call returns when
    the engine accepts the statement and throws when the engine fails it,
    and the process is still ready afterwards. *)
Theorem one_call_one_statement {E : Type} {D : Driver E} (w : world E)
    (sql : string) (params : list value) :
  ready w ->
  (oneStatement w (DbAdapter.query sql params w) (sentText w true sql) params
   /\ ready (DbAdapter.query sql params w).2)
  /\ (oneStatement w (DbAdapter.execute sql params w) (sentText w true sql) params
      /\ ready (DbAdapter.execute sql params w).2)
  /\ (oneStatement w (DbAdapter.queryOne sql params w) (sentText w false sql) params
      /\ ready (DbAdapter.queryOne sql params w).2)
  /\ (oneStatement w (DbAdapter.queryAll sql params w) (sentText w false sql) params
      /\ ready (DbAdapter.queryAll sql params w).2).
Proof.
  intros Hr. rewrite execute_is_query.
  split; [by apply query_served|]. split; [by apply query_served|].
  split; [by apply queryOne_served|].
  unfold sentText. destruct (ready_cases w Hr) as [(Ha & Hl & Hp)|Ha].
  - rewrite (is_postgres w Ha).
    unfold DbAdapter.queryAll, DbAdapter.convertParams.
    mstep. rewrite isPostgres_run, (is_postgres w Ha). mred.
    mstep. rewrite Hl. mred.
    mstep. rewrite isPostgres_run, (is_postgres w Ha). mred. mstep.
    by apply (served_postgres w _ _ (fun result => pg_rows result)).
  - rewrite (not_postgres w Ha).
    unfold DbAdapter.queryAll. mstep. rewrite isPostgres_run, (not_postgres w Ha). mred.
    apply (served_map w (Db.query sql params) (fun result => rows result)).
    by apply served_sqlite.
Qed.

Lemma one_call_one_statement_witness :
  let w := started POSTGRES_URL returningScript in
  let sql := NBSP +:+ "Insert Into fabricantes (nome) Values (?) ; " +:+ BOM in
  ready w
  /\ oneStatement w (DbAdapter.query sql [Str "Fiat"] w)
       (NBSP +:+ "Insert Into fabricantes (nome) Values ($1)  RETURNING id") [Str "Fiat"]
  /\ oneStatement w (DbAdapter.queryOne sql [Str "Fiat"] w)
       (NBSP +:+ "Insert Into fabricantes (nome) Values ($1) ; " +:+ BOM) [Str "Fiat"]
  /\ oneStatement (started None returningScript)
       (DbAdapter.query sql [Str "Fiat"] (started None returningScript)) sql [Str "Fiat"].
Proof.
  assert (Hr : ready (started POSTGRES_URL returningScript)) by (split; reflexivity).
  destruct (one_call_one_statement (started POSTGRES_URL returningScript)
              (NBSP +:+ "Insert Into fabricantes (nome) Values (?) ; " +:+ BOM) [Str "Fiat"] Hr)
    as ((H1 & _) & _ & (H3 & _) & _).
  destruct (one_call_one_statement (started None returningScript)
              (NBSP +:+ "Insert Into fabricantes (nome) Values (?) ; " +:+ BOM) [Str "Fiat"] I)
    as ((H4 & _) & _).
  split; [exact Hr|]. split; [exact H1|]. split; [exact H3|exact H4].
Defined.

(** X10. In a process in which [initDatabase] has not chosen an adapter,
    [query], [execute], [queryOne] and [queryAll] throw a [TypeError] - the
    SQLite handle is [null] - and reach no engine: the process is as it was
    before the call. *)
Theorem calls_before_initDatabase {E : Type} {D : Driver E} (w : world E)
    (sql : string) (params : list value) :
  dbAdapter w = None -> sqliteDb w = false ->
  exists message,
    DbAdapter.query sql params w = (Throw (TypeError message), w)
    /\ DbAdapter.execute sql params w = (Throw (TypeError message), w)
    /\ DbAdapter.queryOne sql params w = (Throw (TypeError message), w)
    /\ DbAdapter.queryAll sql params w = (Throw (TypeError message), w).
Proof.
  intros Ha Hdb. eexists.
  assert (Hne : dbAdapter w <> Some AdapterPostgres) by by rewrite Ha.
  pose proof Hne as Hpg. apply (bool_decide_eq_false_2 _) in Hpg.
  rewrite execute_is_query, (DbAdapter_query_other w _ _ Hne), (Db_query_unset w _ _ Ha Hdb).
  split; [reflexivity|]. split; [reflexivity|]. split.
  - unfold DbAdapter.queryOne, Db.queryOne. mstep. rewrite isPostgres_run, Hpg. mred.
    by rewrite bind_run, (Db_query_unset w _ _ Ha Hdb).
  - unfold DbAdapter.queryAll, Db.queryAll. mstep. rewrite isPostgres_run, Hpg. mred.
    by rewrite bind_run, (Db_query_unset w _ _ Ha Hdb).
Qed.

Lemma calls_before_initDatabase_witness :
  let w := boot POSTGRES_URL returningScript in
  exists message,
    DbAdapter.query "SELECT id FROM veiculos" [] w = (Throw (TypeError message), w)
    /\ DbAdapter.execute "SELECT id FROM veiculos" [] w = (Throw (TypeError message), w)
    /\ DbAdapter.queryOne "SELECT id FROM veiculos" [] w = (Throw (TypeError message), w)
    /\ DbAdapter.queryAll "SELECT id FROM veiculos" [] w = (Throw (TypeError message), w).
Proof.
  exact (calls_before_initDatabase (boot POSTGRES_URL returningScript)
           "SELECT id FROM veiculos" [] eq_refl eq_refl).
Defined.

(** X11. [closePool] ends the pool when there is one, once, and forgets it:
    a second [closePool] does nothing, and every later call of the functions
    of [postgres.js] throws ['PostgreSQL não foi inicializado'] without
    reaching the engine. *)
Theorem closePool_forgets_pool {E : Type} {D : Driver E} (w : world E)
    (text : string) (params : list value) :
  let r := Postgres.closePool w in
  let closed := JsError "PostgreSQL não foi inicializado. Chame initPostgres() primeiro." in
  r.1 = Ok tt
  /\ pool r.2 = false
  /\ trace r.2 = trace w ++ (if pool w then [EvPoolEnd] else [])
  /\ Postgres.closePool r.2 = (Ok tt, r.2)
  /\ Postgres.query text params r.2 = (Throw closed, r.2)
  /\ Postgres.execute text params r.2 = (Throw closed, r.2)
  /\ Postgres.queryOne text params r.2 = (Throw closed, r.2)
  /\ Postgres.queryAll text params r.2 = (Throw closed, r.2).
Proof.
  cbv zeta.
  assert (Hq : forall w' : world E, pool w' = false ->
            Postgres.query text params w'
            = (Throw (JsError "PostgreSQL não foi inicializado. Chame initPostgres() primeiro."), w')).
  { intros w' Hp. unfold Postgres.query, Postgres.getPool. mstep. by rewrite Hp. }
  assert (Hrest : forall w' : world E, pool w' = false ->
            Postgres.closePool w' = (Ok tt, w')
            /\ Postgres.query text params w'
               = (Throw (JsError "PostgreSQL não foi inicializado. Chame initPostgres() primeiro."), w')
            /\ Postgres.execute text params w'
               = (Throw (JsError "PostgreSQL não foi inicializado. Chame initPostgres() primeiro."), w')
            /\ Postgres.queryOne text params w'
               = (Throw (JsError "PostgreSQL não foi inicializado. Chame initPostgres() primeiro."), w')
            /\ Postgres.queryAll text params w'
               = (Throw (JsError "PostgreSQL não foi inicializado. Chame initPostgres() primeiro."), w')).
  { intros w' Hp. split; [unfold Postgres.closePool; mstep; by rewrite Hp|].
    split; [by apply Hq|].
    unfold Postgres.execute, Postgres.queryOne, Postgres.queryAll.
    by rewrite !bind_run, (Hq w' Hp). }
  assert (Hrun : exists w1, Postgres.closePool w = (Ok tt, w1) /\ pool w1 = false
                   /\ trace w1 = trace w ++ (if pool w then [EvPoolEnd] else [])).
  { unfold Postgres.closePool. rewrite bind_run. mred. destruct (pool w) eqn:Hp.
    - mstep. unfold pool_end. by eexists.
    - exists w. by rewrite app_nil_r. }
  destruct Hrun as (w1 & -> & Hp1 & Htr1). cbn [fst snd].
  split; [done|]. split; [done|]. split; [done|]. by apply Hrest.
Qed.

(** ** More about the reset *)

Lemma finalStore_other ru (S0 : store) t :
  t ∉ TABLES_TO_CLEAN -> t <> "usuarios" -> finalStore ru S0 !! t = S0 !! t.
Proof.
  intros Hnotin Hne. unfold finalStore.
  assert (Hc : cleared TABLES_TO_CLEAN S0 !! t = S0 !! t)
    by (by rewrite cleared_lookup, bool_decide_eq_false_2).
  destruct ru; [|done]. unfold purged. by rewrite lookup_alter_ne.
Qed.

Lemma users_not_listed : "usuarios" ∉ TABLES_TO_CLEAN.
Proof. by apply (bool_decide_unpack _). Qed.

Lemma finalStore_lookup ru (S0 : store) t :
  finalStore ru S0 !! t
  = if bool_decide (t ∈ TABLES_TO_CLEAN) then (fun _ => []) <$> S0 !! t
    else if ru && bool_decide (t = "usuarios")
         then filter (fun r => users_where r = false) <$> S0 !! t
         else S0 !! t.
Proof.
  destruct (decide (t ∈ TABLES_TO_CLEAN)) as [Hin|Hnotin].
  - by rewrite (finalStore_table ru S0 t Hin), bool_decide_eq_true_2.
  - rewrite (bool_decide_eq_false_2 _ Hnotin).
    destruct (decide (t = "usuarios")) as [->|Hne].
    + rewrite finalStore_users, bool_decide_eq_true_2 by done. by destruct ru.
    + rewrite (finalStore_other ru S0 t Hnotin Hne), (bool_decide_eq_false_2 _ Hne).
      by rewrite andb_false_r.
Qed.

Lemma filter_kept_twice (rs : list row) :
  filter (fun r => users_where r = false) (filter (fun r => users_where r = false) rs)
  = filter (fun r => users_where r = false) rs.
Proof.
  induction rs as [|r rs IH]; [done|].
  rewrite filter_cons. destruct (decide (users_where r = false)) as [Hr|Hr].
  - by rewrite filter_cons, decide_True, IH.
  - done.
Qed.

Lemma filter_purged_none (rs : list row) :
  filter (fun r => users_where r = true) (filter (fun r => users_where r = false) rs) = [].
Proof.
  induction rs as [|r rs IH]; [done|].
  rewrite filter_cons. destruct (decide (users_where r = false)) as [Hr|Hr]; [|done].
  rewrite filter_cons, decide_False; [done|]. by rewrite Hr.
Qed.

Lemma finalStore_twice ru (S0 : store) :
  finalStore ru (finalStore ru S0) = finalStore ru S0.
Proof.
  apply map_eq. intros t. rewrite finalStore_lookup, (finalStore_lookup ru S0 t).
  destruct (bool_decide (t ∈ TABLES_TO_CLEAN)); [by destruct (S0 !! t)|].
  destruct (ru && bool_decide (t = "usuarios")); [|done].
  destruct (S0 !! t) as [rs|]; [|done]. simpl. by rewrite filter_kept_twice.
Qed.

Lemma finalStore_dom ru (S0 : store) : dom (finalStore ru S0) = dom S0.
Proof.
  apply set_eq. intros t. rewrite !elem_of_dom, finalStore_lookup.
  destruct (bool_decide (t ∈ TABLES_TO_CLEAN)); [by rewrite fmap_is_Some|].
  destruct (ru && bool_decide (t = "usuarios")); [by rewrite fmap_is_Some|done].
Qed.

Lemma finalStore_sublist ru (S0 : store) t rs' :
  finalStore ru S0 !! t = Some rs' -> exists rs, S0 !! t = Some rs /\ sublist rs' rs.
Proof.
  rewrite finalStore_lookup.
  destruct (bool_decide (t ∈ TABLES_TO_CLEAN)).
  { destruct (S0 !! t) as [rs|]; [|done]. intros [= <-]. exists rs. split; [done|].
    apply sublist_nil_l. }
  destruct (ru && bool_decide (t = "usuarios")).
  { destruct (S0 !! t) as [rs|]; [|done]. intros [= <-]. exists rs. split; [done|].
    apply sublist_filter. }
  intros H. by exists rs'.
Qed.

(** X12. The reset keeps the structure and the master data.  After every
    run, with or without failing statements and with or without the reset
    of the user accounts, the database has the tables it had before; the
    tables that are neither in the list of the script nor the user accounts
    hold the rows they held; and the rows of every table are rows that were
    in it before, in their order. *)
Theorem reset_keeps_structure_and_master_data (url : option string) (S0 : store)
    (f : nat -> bool) (resetUsers : bool) :
  let r := resetOperationalData resetUsers (boot url (fresh S0 f)) in
  dom (committed (eng r.2)) = dom S0
  /\ (forall t, t ∉ TABLES_TO_CLEAN -> t <> "usuarios" ->
      committed (eng r.2) !! t = S0 !! t)
  /\ (forall t rs', committed (eng r.2) !! t = Some rs' ->
      exists rs, S0 !! t = Some rs /\ sublist rs' rs).
Proof.
  cbv zeta. destruct (reset_run url S0 f resetUsers) as [_ Hrun]. cbv zeta in Hrun.
  assert (Hc : committed (eng (resetOperationalData resetUsers (boot url (fresh S0 f))).2)
               = finalStore resetUsers S0
               \/ committed (eng (resetOperationalData resetUsers (boot url (fresh S0 f))).2)
                  = S0).
  { destruct (resetOperationalData resetUsers (boot url (fresh S0 f))) as [[v|e|c] w'];
      cbn [fst snd] in *; [left|right|right]; apply Hrun. }
  destruct Hc as [-> | ->].
  - split; [apply finalStore_dom|]. split; [apply finalStore_other|apply finalStore_sublist].
  - split; [done|]. split; [done|]. intros t rs' H. by exists rs'.
Qed.

Lemma report_finalStore ru (S0 : store) t :
  deleted (report (finalStore ru S0) t) = 0%Z \/ t ∉ TABLES_TO_CLEAN.
Proof.
  destruct (decide (t ∈ TABLES_TO_CLEAN)) as [Hin|]; [left|by right].
  unfold report. rewrite (finalStore_table ru S0 t Hin). by destruct (S0 !! t).
Qed.

Lemma finalReport_twice ru (S0 : store) :
  Forall (fun r => deleted r = 0%Z) (finalReport ru (finalStore ru S0)).
Proof.
  rewrite finalReport_map. apply Forall_app. split.
  - apply Forall_map, Forall_forall. intros t Hin.
    by destruct (report_finalStore ru S0 t).
  - destruct ru; [|constructor]. constructor; [|constructor].
    unfold usersReport. rewrite finalStore_users.
    destruct (S0 !! "usuarios") as [rs|]; [|done]. simpl. by rewrite filter_purged_none.
Qed.

Lemma totalOf_nothing results :
  Forall (fun r => deleted r = 0%Z) results -> totalOf results = 0%Z.
Proof.
  induction 1 as [|r rs Hr _ IH]; [done|]. simpl. rewrite IH, Hr. by destruct (skipped r).
Qed.

(** X13. The reset is idempotent.  A second run on the database a
    successful run has left changes nothing: it commits the same contents,
    or fails and rolls back to them.  When it returns, every entry of its
    report has [deleted: 0] and the total it prints is 0. *)
Theorem reset_twice_deletes_nothing (url url' : option string) (S0 : store)
    (f f' : nat -> bool) (resetUsers : bool) :
  let once := resetOperationalData resetUsers (boot url (fresh S0 f)) in
  let twice := resetOperationalData resetUsers
                 (boot url' (fresh (committed (eng once.2)) f')) in
  forall v, once.1 = Ok v ->
    committed (eng twice.2) = committed (eng once.2)
    /\ (forall v', twice.1 = Ok v' ->
        exists results,
          console twice.2 = map summaryLine results ++ [LogTotal 0]
          /\ Forall (fun r => deleted r = 0%Z) results).
Proof.
  cbv zeta. intros v Hv.
  destruct (reset_run url S0 f resetUsers) as [_ Hrun]. cbv zeta in Hrun.
  rewrite Hv in Hrun. destruct Hrun as (_ & Hc & _). rewrite Hc.
  destruct (reset_run url' (finalStore resetUsers S0) f' resetUsers) as [_ Hrun']. cbv zeta in Hrun'.
  destruct (resetOperationalData resetUsers (boot url' (fresh (finalStore resetUsers S0) f')))
    as [[v'|e|c] w']; cbn [fst snd] in *.
  - destruct Hrun' as (_ & Hc' & _ & Hco' & _). split; [by rewrite Hc', finalStore_twice|].
    intros _ _. exists (finalReport resetUsers (finalStore resetUsers S0)).
    split; [|apply finalReport_twice].
    rewrite Hco'. unfold summary. by rewrite (totalOf_nothing _ (finalReport_twice _ _)).
  - split; [apply Hrun'|done].
  - split; [apply Hrun'|done].
Qed.

Lemma reset_twice_deletes_nothing_witness :
  let once := resetOperationalData true (boot None (fresh workshop noFault)) in
  let twice := resetOperationalData true
                 (boot POSTGRES_URL (fresh (committed (eng once.2)) noFault)) in
  once.1 = Ok Undefined
  /\ committed (eng twice.2) = committed (eng once.2)
  /\ twice.1 = Ok Undefined
  /\ exists results,
       console twice.2 = map summaryLine results ++ [LogTotal 0]
       /\ Forall (fun r => deleted r = 0%Z) results.
Proof.
  destruct (reset_twice_deletes_nothing None POSTGRES_URL workshop noFault noFault true
              Undefined) as [Hc Hr]; [by vm_compute|].
  split; [by vm_compute|]. split; [exact Hc|].
  assert (Hok : (resetOperationalData true
                   (boot POSTGRES_URL
                      (fresh (committed (eng (resetOperationalData true
                                                (boot None (fresh workshop noFault))).2))
                         noFault))).1 = Ok Undefined) by (by vm_compute).
  split; [exact Hok|]. exact (Hr Undefined Hok).
Defined.

Lemma resetFinally_closes S (ls : list logline) (w : world engine) :
  finished AdapterPostgres S ls w ->
  exists w', resetFinally w = (Ok tt, w')
    /\ pool w' = false /\ leased (eng w') = [] /\ trace w' = trace w ++ [EvPoolEnd]
    /\ client w' = client w.
Proof.
  intros (Ha & Hc & Ht & Hco & Hl & Hp & Hle). unfold resetFinally.
  rewrite bind_run, isPostgres_run, (is_postgres w Ha). cbv beta iota.
  unfold tryCatch, Postgres.closePool. mstep. rewrite Hp. mred. mstep.
  unfold pool_end. eexists. split; [reflexivity|]. by cbn.
Qed.

Lemma resetFinally_sqlite {E : Type} {D : Driver E} (w : world E) :
  dbAdapter w = Some AdapterSqlite -> resetFinally w = (Ok tt, w).
Proof.
  intros Ha. unfold resetFinally. by rewrite bind_run, isPostgres_run, (not_postgres w Ha).
Qed.

(** How the run ends, by outcome: what a run that returns leaves of the pool
    on PostgreSQL, and where a thrown error comes from. *)
Lemma reset_run_end url S0 f ru :
  let b := backendOf url in
  let r := resetOperationalData ru (boot url (fresh S0 f)) in
  match r.1 with
  | Ok _ =>
      match b with
      | AdapterPostgres =>
          pool r.2 = false /\ leased (eng r.2) = [] /\ last (trace r.2) = Some EvPoolEnd
      | AdapterSqlite => True
      end
  | Throw _ => b = AdapterPostgres /\ dbAdapter r.2 = None
  | Exit _ => True
  end.
Proof.
  cbv zeta. unfold resetOperationalData.
  destruct (initDatabase_boot url S0 f) as (_ & _ & Hinit).
  pose proof (initDatabase_run (boot url (fresh S0 f))) as Hrun.
  pose proof (initPostgres_frame (set_pgQuery true (boot url (fresh S0 f))))
    as (_ & Hda & _ & _ & _ & _).
  cbn [DATABASE_URL boot] in Hrun.
  rewrite bind_run.
  destruct (DbAdapter.initDatabase (boot url (fresh S0 f))) as [[a|e|code] w1];
    cbn [fst snd] in Hinit; [| |done].
  2:{ cbn [fst snd]. destruct (backendOf url); [|done]. split; [done|].
      cbv zeta in Hda.
      destruct (Postgres.initPostgres (set_pgQuery true (boot url (fresh S0 f))))
        as [[[]|e'|c'] w']; [done| |done].
      injection Hrun as _ <-. exact Hda. }
  destruct Hinit as (Hs1 & Hcl1 & _).
  rewrite bind_run. mred.
  set (w2 := set_client None w1).
  assert (Hs2 : settled (backendOf url) S0 w2) by exact Hs1.
  destruct (resetTransaction_spec (backendOf url) S0 ru w2 Hs2 eq_refl)
    as (evs & (Htr & Hfa & Hpin) & Hout).
  rewrite bind_run. unfold tryFinally, tryCatch.
  destruct (resetTransaction ru w2) as [[rs|e|code] w3] eqn:Hrt;
    cbn [fst snd] in Htr, Hfa, Hpin, Hout; [| |done].
  - destruct Hout as (Hfin & _).
    destruct (backendOf url) eqn:Hb.
    + destruct (resetFinally_closes _ _ w3 Hfin) as (w4 & -> & Hp4 & Hl4 & Htr4 & _).
      cbn [fst snd]. split; [done|]. split; [done|].
      rewrite Htr4. apply last_snoc.
    + destruct Hfin as (Ha3 & _). by rewrite (resetFinally_sqlite w3 Ha3).
  - destruct Hout as (Hfail & _).
    by destruct (resetFailed_spec (A := list TableCleanupResult) _ S0 e w3 Hfail) as (w4 & -> & _).
Qed.

(** X14. A reset that returns on PostgreSQL leaves no connection behind: the
    connection of the transaction is back in the pool, the pool is ended as
    the last action of the run and forgotten, and no transaction is open. *)
Theorem reset_releases_and_closes (url : option string) (S0 : store)
    (f : nat -> bool) (resetUsers : bool) :
  backendOf url = AdapterPostgres ->
  let r := resetOperationalData resetUsers (boot url (fresh S0 f)) in
  forall v, r.1 = Ok v ->
    leased (eng r.2) = [] /\ txn (eng r.2) = None
    /\ pool r.2 = false /\ last (trace r.2) = Some EvPoolEnd.
Proof.
  intros Hb. cbv zeta. intros v Hv.
  pose proof (reset_run_end url S0 f resetUsers) as Hend.
  destruct (reset_run url S0 f resetUsers) as [_ Hrun].
  cbv zeta in Hend, Hrun. rewrite Hv, Hb in Hend. rewrite Hv in Hrun.
  destruct Hend as (Hp & Hl & Hlast). destruct Hrun as (_ & _ & Ht & _).
  by repeat split.
Qed.

Lemma reset_releases_and_closes_witness :
  let r := resetOperationalData true (boot POSTGRES_URL (fresh workshop noFault)) in
  leased (eng r.2) = [] /\ txn (eng r.2) = None
  /\ pool r.2 = false /\ last (trace r.2) = Some EvPoolEnd.
Proof.
  apply (reset_releases_and_closes POSTGRES_URL workshop noFault true eq_refl Undefined).
  by vm_compute.
Defined.

(** The start-up on the reference engine: on PostgreSQL the lease of the
    probe is call 0 and the probe call 1, and the start-up throws exactly when
    one of them fails; on SQLite the start-up calls nothing. *)
Lemma initDatabase_outcome url S0 f :
  let r := DbAdapter.initDatabase (boot url (fresh S0 f)) in
  match backendOf url with
  | AdapterPostgres =>
      if f 0 || f 1 then r.1 = Throw injected
      else (exists a, r.1 = Ok a) /\ clock (eng r.2) = 2 /\ faults (eng r.2) = f
  | AdapterSqlite => (exists a, r.1 = Ok a) /\ clock (eng r.2) = 0 /\ faults (eng r.2) = f
  end.
Proof.
  cbv zeta. unfold backendOf.
  destruct (truthy (from_option Str Undefined url)) eqn:Hurl.
  - unfold DbAdapter.initDatabase, Postgres.initPostgres.
    rewrite bind_run. mred. cbn [DATABASE_URL boot]. rewrite Hurl. cbv iota.
    mstep. cbn [pool set_pgQuery boot]. cbv iota.
    mstep. cbn [DATABASE_URL set_pgQuery boot]. rewrite Hurl. cbv iota.
    mstep. unfold tryCatch. rewrite bind_run. unfold pool_connect.
    rewrite poolConnect_run by reflexivity. cbn [eng set_pool set_pgQuery boot fresh faults clock].
    destruct (f 0) eqn:Hf0; [done|].
    cbv iota beta. rewrite bind_run. unfold client_query. rewrite clientQuery_run.
    simpl. destruct (f 1) eqn:Hf1; [done|].
    simpl. split; [by eexists|done].
  - unfold DbAdapter.initDatabase.
    rewrite bind_run. mred. cbn [DATABASE_URL boot]. rewrite Hurl. cbv iota.
    mstep. simpl. split; [by eexists|done].
Qed.

(** The first call of the [try] block is the lease of the connection on
    PostgreSQL and the begin of the transaction on SQLite; when it fails, the
    block throws. *)
Lemma resetTransaction_first_call b S0 ru (w : world engine) :
  settled b S0 w -> client w = None -> faults (eng w) (clock (eng w)) = true ->
  (resetTransaction ru w).1 = Throw injected.
Proof.
  intros Hs Hcl Hf. pose proof Hs as (Ha & Hc & Ht & Hco & Hb).
  unfold resetTransaction. rewrite bind_run, isPostgres_run. cbv beta iota.
  destruct b.
  - destruct Hb as (Hl & Hp & Hle). rewrite (is_postgres w Ha).
    rewrite !bind_run, (getPool_run w Hp). cbv beta iota.
    rewrite bind_run. unfold pool_connect. by rewrite (poolConnect_run _ Hle), Hf.
  - rewrite (not_postgres w Ha).
    rewrite !bind_run,
      (DbAdapter_query_sqlite_statement w "BEGIN TRANSACTION" _ Ha eq_refl eq_refl),
      sqliteRun_run. by rewrite Hf.
Qed.

(** How the outcome of the run follows from the outcomes of the start-up and
    of the [try] block. *)
Lemma reset_outcome url S0 f ru :
  let w0 := boot url (fresh S0 f) in
  let r := resetOperationalData ru w0 in
  match (DbAdapter.initDatabase w0).1 with
  | Ok _ =>
      match (resetTransaction ru (set_client None (DbAdapter.initDatabase w0).2)).1 with
      | Ok _ => r.1 = Ok Undefined
      | Throw _ => r.1 = Exit 1%Z
      | Exit _ => False
      end
  | Throw e => r.1 = Throw e
  | Exit _ => False
  end.
Proof.
  cbv zeta. unfold resetOperationalData.
  destruct (initDatabase_boot url S0 f) as (_ & _ & Hinit).
  rewrite bind_run.
  destruct (DbAdapter.initDatabase (boot url (fresh S0 f))) as [[a|e|code] w1];
    cbn [fst snd] in Hinit |- *; [|done|done].
  destruct Hinit as (Hs1 & Hcl1 & _).
  rewrite bind_run. mred.
  set (w2 := set_client None w1).
  assert (Hs2 : settled (backendOf url) S0 w2) by exact Hs1.
  destruct (resetTransaction_spec (backendOf url) S0 ru w2 Hs2 eq_refl)
    as (evs & _ & Hout).
  rewrite bind_run. unfold tryFinally, tryCatch.
  destruct (resetTransaction ru w2) as [[rs|e|code] w3];
    cbn [fst snd] in Hout |- *; [| |done].
  - destruct Hout as (Hfin & _).
    by destruct (resetFinally_run _ _ _ w3 Hfin) as (w4 & -> & _).
  - destruct Hout as (Hfail & _).
    by destruct (resetFailed_spec (A := list TableCleanupResult) _ S0 e w3 Hfail)
      as (w4 & -> & _).
Qed.

(** X15. Where the errors of the reset go.  The failure of the start-up
    probe - of its lease or of its statement - is thrown to the caller: this
    happens on PostgreSQL only, before an adapter is chosen and before any
    statement other than the probe.  Every later failure ends the process
    with status 1, the failure of the first call of the [try] block - the
    lease of the connection on PostgreSQL, the begin of the transaction on
    SQLite - among them: once the start-up has returned, the run returns
    [undefined] or ends the process with status 1 and throws nothing.  In
    both cases no line of the summary is printed, and a run that returns has
    had no failing statement. *)
Theorem reset_error_routing (url : option string) (S0 : store)
    (f : nat -> bool) (resetUsers : bool) :
  let r := resetOperationalData resetUsers (boot url (fresh S0 f)) in
  let probeFails := bool_decide (backendOf url = AdapterPostgres) && (f 0 || f 1) in
  let firstCall := match backendOf url with AdapterPostgres => 2 | AdapterSqlite => 0 end in
  (forall e, r.1 = Throw e ->
     backendOf url = AdapterPostgres /\ dbAdapter r.2 = None /\ console r.2 = []
     /\ forall c sql params ok, EvQuery c sql params ok ∈ trace r.2 -> sql = "SELECT NOW()")
  /\ (forall code, r.1 = Exit code -> code = 1%Z /\ console r.2 = [])
  /\ (forall v, r.1 = Ok v ->
      forall c sql params, EvQuery c sql params false ∉ trace r.2)
  /\ (probeFails = true -> r.1 = Throw injected)
  /\ (probeFails = false -> r.1 = Ok Undefined \/ r.1 = Exit 1%Z)
  /\ (probeFails = false -> f firstCall = true -> r.1 = Exit 1%Z).
Proof.
  cbv zeta.
  pose proof (reset_run_end url S0 f resetUsers) as Hend.
  destruct (reset_run url S0 f resetUsers) as [_ Hrun].
  pose proof (reset_outcome url S0 f resetUsers) as Hout.
  pose proof (initDatabase_outcome url S0 f) as Hinit.
  destruct (initDatabase_boot url S0 f) as (_ & _ & Hboot).
  cbv zeta in Hend, Hrun, Hout, Hinit, Hboot.
  split; [|split; [|split; [|split; [|split]]]].
  - intros e He. rewrite He in Hend, Hrun. destruct Hend as [Hb Ha].
    destruct Hrun as (_ & _ & Hco & _ & Hprobe).
    split; [done|]. split; [done|]. split; [done|].
    intros c sql params ok Hin. rewrite Forall_forall in Hprobe. exact (Hprobe _ Hin).
  - intros code He. rewrite He in Hrun. by destruct Hrun as (-> & _ & Hco & _).
  - intros v He c sql params Hin. rewrite He in Hrun.
    destruct Hrun as (_ & _ & _ & _ & Hok).
    rewrite Forall_forall in Hok. by specialize (Hok _ Hin).
  - intros Hp. apply andb_prop in Hp as [Hb Hf]. apply bool_decide_eq_true in Hb.
    rewrite Hb, Hf in Hinit. by rewrite Hinit in Hout.
  - intros Hp.
    assert (Hok : exists a, (DbAdapter.initDatabase (boot url (fresh S0 f))).1 = Ok a).
    { destruct (backendOf url); [|by destruct Hinit].
      rewrite bool_decide_eq_true_2 in Hp by done. cbn [andb] in Hp.
      rewrite Hp in Hinit. by destruct Hinit. }
    destruct Hok as [a Hok]. rewrite Hok in Hout.
    destruct (resetTransaction _ _).1; [by left|by right|done].
  - intros Hp Hf.
    assert (Hok : (exists a, (DbAdapter.initDatabase (boot url (fresh S0 f))).1 = Ok a)
                  /\ faults (eng (DbAdapter.initDatabase (boot url (fresh S0 f))).2)
                       (clock (eng (DbAdapter.initDatabase (boot url (fresh S0 f))).2)) = true).
    { destruct (backendOf url).
      - rewrite bool_decide_eq_true_2 in Hp by done. cbn [andb] in Hp.
        rewrite Hp in Hinit. destruct Hinit as (Ha & -> & ->). by split.
      - destruct Hinit as (Ha & -> & ->). by split. }
    destruct Hok as [[a Hok] Hfault]. rewrite Hok in Hout, Hboot.
    destruct Hboot as (Hs & Hcl & _).
    pose proof (resetTransaction_first_call (backendOf url) S0 resetUsers
                  (set_client None (DbAdapter.initDatabase (boot url (fresh S0 f))).2)
                  Hs eq_refl Hfault) as Hthrow.
    by rewrite Hthrow in Hout.
Qed.

Lemma reset_error_routing_witness :
  let lease := resetOperationalData false (boot POSTGRES_URL (fresh workshop (faultAt 0))) in
  let probe := resetOperationalData false (boot POSTGRES_URL (fresh workshop (faultAt 1))) in
  let ended := resetOperationalData false (boot POSTGRES_URL (fresh workshop (faultAt 2))) in
  let later := resetOperationalData false (boot POSTGRES_URL (fresh workshop (faultAt 5))) in
  let file := resetOperationalData false (boot None (fresh workshop (faultAt 0))) in
  lease.1 = Throw injected /\ probe.1 = Throw injected
  /\ dbAdapter probe.2 = None /\ console probe.2 = []
  /\ ended.1 = Exit 1 /\ console ended.2 = []
  /\ later.1 = Exit 1 /\ file.1 = Exit 1.
Proof.
  destruct (reset_error_routing POSTGRES_URL workshop (faultAt 0) false)
    as (_ & _ & _ & Hlease & _).
  destruct (reset_error_routing POSTGRES_URL workshop (faultAt 1) false)
    as (Ht & _ & _ & Hprobe & _).
  destruct (reset_error_routing POSTGRES_URL workshop (faultAt 2) false)
    as (_ & He & _ & _ & _ & Hended).
  destruct (reset_error_routing POSTGRES_URL workshop (faultAt 5) false)
    as (_ & _ & _ & _ & Hlater & _).
  destruct (reset_error_routing None workshop (faultAt 0) false)
    as (_ & _ & _ & _ & _ & Hfile).
  destruct (Ht injected (Hprobe eq_refl)) as (_ & Ha & Hco & _).
  destruct (He 1%Z (Hended eq_refl eq_refl)) as (_ & Hco').
  split; [exact (Hlease eq_refl)|]. split; [exact (Hprobe eq_refl)|].
  split; [exact Ha|]. split; [exact Hco|].
  split; [exact (Hended eq_refl eq_refl)|]. split; [exact Hco'|].
  split; [|exact (Hfile eq_refl eq_refl)].
  destruct (Hlater eq_refl) as [Hr|Hr]; [|exact Hr].
  exfalso. vm_compute in Hr. discriminate.
Defined.

(** ** The helper *)


Lemma andThen_run {E A B} (m : Helper.HM E A) (k : A -> Helper.HM E B) (h : Helper.state E) :
  Helper.andThen m k h = match m h with
                  | (Ok a, h') => k a h'
                  | (Throw e, h') => (Throw e, h')
                  | (Exit c, h') => (Exit c, h')
                  end.
Proof. reflexivity. Qed.

Lemma lift_isPostgres {E : Type} (h : Helper.state E) :
  Helper.lift DbAdapterState.isPostgres h
  = (Ok (bool_decide (dbAdapter (Helper.process h) = Some AdapterPostgres)), h).
Proof. unfold Helper.lift. rewrite isPostgres_run. by destruct h. Qed.

Lemma lift_convertParams {E : Type} (h : Helper.state E) sql params :
  Helper.lift (DbHelper.convertParams sql params) h
  = (Ok (if bool_decide (dbAdapter (Helper.process h) = Some AdapterPostgres)
         then replacePlaceholders 1 sql else sql, params), h).
Proof.
  unfold Helper.lift, DbHelper.convertParams. rewrite bind_run, isPostgres_run.
  destruct (bool_decide _); by destruct h.
Qed.

Lemma getSqliteDb_helper {E : Type} (h : Helper.state E) :
  DbHelperCalls.getSqliteDb h
  = (let db := if negb (Helper.helperDb h)
                  && bool_decide (dbAdapter (Helper.process h) = Some AdapterSqlite)
               then true else Helper.helperDb h in
     (Ok db, {| Helper.process := Helper.process h; Helper.helperDb := db |})).
Proof.
  unfold DbHelperCalls.getSqliteDb. rewrite andThen_run. unfold Helper.lift, DbAdapterState.isSqlite.
  rewrite bind_run. mred. reflexivity.
Qed.

Lemma DbAdapter_execute_loaded {E : Type} {D : Driver E} (w : world E) sql params :
  dbAdapter w = Some AdapterPostgres -> pgQuery w = true ->
  DbAdapter.execute sql params w
  = Postgres.execute (addReturning (replacePlaceholders 1 sql)) params w.
Proof.
  intros Ha Hl. unfold DbAdapter.execute, DbAdapter.convertParams.
  mstep. rewrite isPostgres_run, (is_postgres w Ha). mred.
  mstep. rewrite Hl. mred.
  mstep. rewrite isPostgres_run, (is_postgres w Ha). mred. by mstep.
Qed.

Lemma DbAdapter_queryOne_loaded {E : Type} {D : Driver E} (w : world E) sql params :
  dbAdapter w = Some AdapterPostgres -> pgQuery w = true ->
  DbAdapter.queryOne sql params w = Postgres.queryOne (replacePlaceholders 1 sql) params w.
Proof.
  intros Ha Hl. unfold DbAdapter.queryOne, DbAdapter.convertParams.
  mstep. rewrite isPostgres_run, (is_postgres w Ha). mred.
  mstep. rewrite Hl. mred.
  mstep. rewrite isPostgres_run, (is_postgres w Ha). mred. by mstep.
Qed.

Lemma DbAdapter_queryAll_loaded {E : Type} {D : Driver E} (w : world E) sql params :
  dbAdapter w = Some AdapterPostgres -> pgQuery w = true ->
  DbAdapter.queryAll sql params w = Postgres.queryAll (replacePlaceholders 1 sql) params w.
Proof.
  intros Ha Hl. unfold DbAdapter.queryAll, DbAdapter.convertParams.
  mstep. rewrite isPostgres_run, (is_postgres w Ha). mred.
  mstep. rewrite Hl. mred.
  mstep. rewrite isPostgres_run, (is_postgres w Ha). mred. by mstep.
Qed.

(** X16. On PostgreSQL [dbRun] sends the statement that [execute] sends -
    the placeholders numbered, an insert extended with [RETURNING id] - and
    reports what [execute] reports: [changes] is its [rowCount], and
    [lastID] is its [insertId] when the statement starts with [INSERT] or
    contains [RETURNING], and [null] for every other statement. *)
Theorem dbRun_reports_execute {E : Type} {D : Driver E} {H : HelperDriver E} 
    (h : Helper.state E) (sql : string) (params : list value) :
  dbAdapter (Helper.process h) = Some AdapterPostgres -> pgQuery (Helper.process h) = true ->
  DbHelperCalls.dbRun sql params h
  = (let (o, w') := DbAdapter.execute sql params (Helper.process h) in
     (runOf (includes sql "RETURNING" || startsWith (toUpperCase (trim sql)) "INSERT") o,
      {| Helper.process := w'; Helper.helperDb := Helper.helperDb h |})).
Proof.
  intros Ha Hl. rewrite (DbAdapter_execute_loaded _ _ _ Ha Hl).
  unfold DbHelperCalls.dbRun. rewrite andThen_run, lift_convertParams, (is_postgres _ Ha).
  cbv beta iota. rewrite andThen_run, lift_isPostgres, (is_postgres _ Ha). cbv beta iota zeta.
  unfold addReturning.
  rewrite (firstKeyword_replace "INSERT") by done.
  rewrite (includes_replace "R" "ETURNING") by reflexivity.
  destruct (includes sql "RETURNING") eqn:Hr.
  - rewrite andb_false_r. cbn [orb]. rewrite andThen_run. unfold Helper.lift.
    by destruct (Postgres.execute _ _ _) as [[q|e|c] w'].
  - destruct (startsWith (toUpperCase (trim sql)) "INSERT") eqn:Hi; cbn [orb andb negb];
      rewrite andThen_run; unfold Helper.lift;
      by destruct (Postgres.execute _ _ _) as [[q|e|c] w'].
Qed.

(** X17. On PostgreSQL [dbGet] and [dbAll] are the [queryOne] and the
    [queryAll] of the adapter.  On SQLite the helper opens its handle and
    passes every statement, whatever its first keyword, with its text and
    its parameters unchanged to [db.get], [db.all] or [db.run]; [dbGet]
    returns the row or [null], [dbAll] the rows, and [dbRun] the [lastID]
    and the [changes] of the engine as they are. *)
Theorem helper_reads_like_adapter {E : Type} {D : Driver E} {H : HelperDriver E} 
    (h : Helper.state E) (sql : string) (params : list value) :
  (dbAdapter (Helper.process h) = Some AdapterPostgres -> pgQuery (Helper.process h) = true ->
   DbHelperCalls.dbGet sql params h = Helper.lift (DbAdapter.queryOne sql params) h
   /\ DbHelperCalls.dbAll sql params h = Helper.lift (DbAdapter.queryAll sql params) h)
  /\ (dbAdapter (Helper.process h) = Some AdapterSqlite ->
      DbHelperCalls.dbGet sql params h = Helper.onHandle (helperGet sql params) (helperOpened h)
      /\ DbHelperCalls.dbAll sql params h = Helper.onHandle (helperAll sql params) (helperOpened h)
      /\ DbHelperCalls.dbRun sql params h
         = Helper.andThen (Helper.onHandle (helperRun sql params))
             (fun this => Helper.pure {| run_lastID := Num (lastID this);
                                  run_changes := changes this |})
             (helperOpened h)).
Proof.
  split.
  - intros Ha Hl. unfold DbHelperCalls.dbGet, DbHelperCalls.dbAll.
    rewrite !andThen_run, lift_convertParams, (is_postgres _ Ha). cbv beta iota.
    rewrite !andThen_run, lift_isPostgres, (is_postgres _ Ha). cbv beta iota.
    unfold Helper.lift.
    by rewrite (DbAdapter_queryOne_loaded _ _ _ Ha Hl), (DbAdapter_queryAll_loaded _ _ _ Ha Hl).
  - intros Ha. unfold DbHelperCalls.dbGet, DbHelperCalls.dbAll, DbHelperCalls.dbRun.
    rewrite !andThen_run, lift_convertParams, (not_postgres _ Ha). cbv beta iota.
    rewrite !andThen_run, lift_isPostgres, (not_postgres _ Ha). cbv beta iota.
    rewrite !andThen_run, getSqliteDb_helper. cbv zeta.
    rewrite (bool_decide_eq_true_2 _ Ha). unfold helperOpened.
    destruct (Helper.helperDb h) eqn:Hdb; cbn [negb andb]; cbv beta iota; by rewrite ?andThen_run.
Qed.

(** X18. Before [initDatabase] has chosen an adapter, and with the handle of
    the helper not open, [dbGet], [dbAll] and [dbRun] throw a [TypeError]
    and reach no engine. *)
Theorem helper_before_initDatabase {E : Type} {D : Driver E} {H : HelperDriver E} 
    (h : Helper.state E) (sql : string) (params : list value) :
  dbAdapter (Helper.process h) = None -> Helper.helperDb h = false ->
  exists message,
    DbHelperCalls.dbGet sql params h = (Throw (TypeError message), h)
    /\ DbHelperCalls.dbAll sql params h = (Throw (TypeError message), h)
    /\ DbHelperCalls.dbRun sql params h = (Throw (TypeError message), h).
Proof.
  intros Ha Hdb. eexists.
  assert (Hpg : bool_decide (dbAdapter (Helper.process h) = Some AdapterPostgres) = false)
    by by rewrite Ha.
  assert (Hlite : bool_decide (dbAdapter (Helper.process h) = Some AdapterSqlite) = false)
    by by rewrite Ha.
  unfold DbHelperCalls.dbGet, DbHelperCalls.dbAll, DbHelperCalls.dbRun.
  rewrite !andThen_run, lift_convertParams, Hpg. cbv beta iota.
  rewrite !andThen_run, lift_isPostgres, Hpg. cbv beta iota.
  rewrite !andThen_run, getSqliteDb_helper, Hlite, Hdb. cbn [negb andb]. cbv beta iota zeta.
  unfold Helper.raise. destruct h as [w db]. cbn in *. subst db. by repeat split.
Qed.

Lemma dbRun_reports_execute_witness :
  let h := {| Helper.process := started POSTGRES_URL returningScript;
              Helper.helperDb := false |} in
  let insert := BOM +:+ "insert into fabricantes (nome) values (?);" +:+ NBSP in
  let dotless := DOTLESS_I +:+ "nsert into fabricantes (nome) values (?)" in
  (DbHelperCalls.dbRun insert [Str "Fiat"] h).1
  = Ok {| run_lastID := Num 7; run_changes := 1 |}
  /\ (DbHelperCalls.dbRun "UPDATE fabricantes SET nome = ? WHERE id = ?" [Str "Fiat"; Num 7] h).1
     = Ok {| run_lastID := Null; run_changes := 1 |}
  /\ (DbHelperCalls.dbRun dotless [Str "Fiat"] h).1
     = Ok {| run_lastID := Num 7; run_changes := 1 |}.
Proof.
  split; [|split].
  - rewrite (dbRun_reports_execute
               {| Helper.process := started POSTGRES_URL returningScript;
                  Helper.helperDb := false |}
               (BOM +:+ "insert into fabricantes (nome) values (?);" +:+ NBSP) [Str "Fiat"]);
      reflexivity.
  - rewrite (dbRun_reports_execute
               {| Helper.process := started POSTGRES_URL returningScript;
                  Helper.helperDb := false |}
               "UPDATE fabricantes SET nome = ? WHERE id = ?" [Str "Fiat"; Num 7]);
      reflexivity.
  - rewrite (dbRun_reports_execute
               {| Helper.process := started POSTGRES_URL returningScript;
                  Helper.helperDb := false |}
               (DOTLESS_I +:+ "nsert into fabricantes (nome) values (?)") [Str "Fiat"]);
      reflexivity.
Defined.

Lemma helper_before_initDatabase_witness :
  let h := {| Helper.process := boot None returningScript; Helper.helperDb := false |} in
  exists message,
    DbHelperCalls.dbGet "SELECT * FROM veiculos WHERE id = ?" [Num 1] h
    = (Throw (TypeError message), h)
    /\ DbHelperCalls.dbAll "SELECT * FROM veiculos WHERE id = ?" [Num 1] h
       = (Throw (TypeError message), h)
    /\ DbHelperCalls.dbRun "SELECT * FROM veiculos WHERE id = ?" [Num 1] h
       = (Throw (TypeError message), h).
Proof.
  exact (helper_before_initDatabase
           {| Helper.process := boot None returningScript; Helper.helperDb := false |}
           "SELECT * FROM veiculos WHERE id = ?" [Num 1] eq_refl eq_refl).
Defined.

(** ** The route that promotes a user *)

Lemma Postgres_query_no_exit {E : Type} {D : Driver E} (w : world E) text params c :
  (Postgres.query text params w).1 <> Exit c.
Proof.
  unfold Postgres.query, Postgres.getPool. rewrite !bind_run. mred.
  destruct (pool w); mred; [|done]. rewrite pool_query_shape.
  by destruct (poolQuery text params (eng w)) as [[c' [err|r]] e].
Qed.

Lemma Db_query_no_exit {E : Type} {D : Driver E} (w : world E) sql params c :
  (Db.query sql params w).1 <> Exit c.
Proof.
  destruct (decide (dbAdapter w = Some AdapterPostgres)) as [Ha|Ha].
  - rewrite (Db_query_postgres w _ _ Ha), bind_run.
    pose proof (Postgres_query_no_exit w (addReturning (replacePlaceholders 1 sql)) params) as Hne.
    destruct (Postgres.query _ _ w) as [[r|e|c'] w1]; [done|done|]. by destruct (Hne c').
  - apply (bool_decide_eq_false_2 _) in Ha.
    unfold Db.query, Db.convertParams.
    mstep. rewrite isPostgres_run, Ha. mred.
    mstep. rewrite isPostgres_run, Ha. mred.
    assert (Hg : exists b w1, Db.getSqliteDb w = (Ok b, w1)).
    { unfold Db.getSqliteDb, DbAdapterState.isSqlite. mstep.
      destruct (sqliteDb w), (bool_decide (dbAdapter w = Some AdapterSqlite)); cbn; eauto. }
    destruct Hg as (b & w1 & Hg). rewrite bind_run, Hg. destruct b; mred; [|done].
    destruct (startsWith _ "SELECT"); [|destruct (startsWith _ "INSERT")];
      rewrite bind_run; unfold sqlite_all, sqlite_run;
      by (destruct (sqliteAll _ _ _) as [[err|r] e] || destruct (sqliteRun _ _ _) as [[err|r] e]).
Qed.

Lemma DbAdapter_query_no_exit {E : Type} {D : Driver E} (w : world E) sql params c :
  (DbAdapter.query sql params w).1 <> Exit c.
Proof.
  destruct (decide (dbAdapter w = Some AdapterPostgres)) as [Ha|Ha].
  - destruct (pgQuery w) eqn:Hl.
    + rewrite (DbAdapter_query_loaded w _ _ Ha Hl), bind_run.
      pose proof (Postgres_query_no_exit w (addReturning (replacePlaceholders 1 sql)) params) as Hne.
      destruct (Postgres.query _ _ w) as [[r|e|c'] w1]; [done|done|]. by destruct (Hne c').
    + unfold DbAdapter.query. mstep. rewrite isPostgres_run, (is_postgres w Ha). mred.
      mstep. by rewrite Hl.
  - rewrite (DbAdapter_query_other w _ _ Ha). apply Db_query_no_exit.
Qed.

Lemma DbAdapter_queryOne_no_exit {E : Type} {D : Driver E} (w : world E) sql params c :
  (DbAdapter.queryOne sql params w).1 <> Exit c.
Proof.
  destruct (decide (dbAdapter w = Some AdapterPostgres)) as [Ha|Ha].
  - destruct (pgQuery w) eqn:Hl.
    + rewrite (DbAdapter_queryOne_loaded w _ _ Ha Hl). unfold Postgres.queryOne. rewrite bind_run.
      pose proof (Postgres_query_no_exit w (replacePlaceholders 1 sql) params) as Hne.
      destruct (Postgres.query _ _ w) as [[r|e|c'] w1]; [done|done|]. by destruct (Hne c').
    + unfold DbAdapter.queryOne. mstep. rewrite isPostgres_run, (is_postgres w Ha). mred.
      mstep. by rewrite Hl.
  - apply (bool_decide_eq_false_2 _) in Ha.
    unfold DbAdapter.queryOne. mstep. rewrite isPostgres_run, Ha. mred.
    unfold Db.queryOne. rewrite bind_run.
    pose proof (Db_query_no_exit w sql params) as Hne.
    destruct (Db.query sql params w) as [[r|e|c'] w1]; [done|done|]. by destruct (Hne c').
Qed.

Lemma route_disabled {E : Type} {D : Driver E} (env : Dev.Env) (req : Dev.Request)
    (w : world E) :
  ~ devEnabled env ->
  exists res, Dev.route env req w = (Ok res, w) /\ Dev.status res = 403%Z.
Proof.
  intros Hoff. unfold Dev.route, Dev.requireDevAdminEnabled.
  destruct (decide (Dev.NODE_ENV env = Some "production")) as [Hn|Hn].
  - rewrite (bool_decide_eq_true_2 _ Hn). cbn [negb].
    destruct (decide (Dev.ALLOW_DEV_ADMIN env = Some "true")) as [Ha|Ha].
    + by destruct Hoff.
    + rewrite (bool_decide_eq_false_2 _ Ha). cbn [negb]. by eexists.
  - rewrite (bool_decide_eq_false_2 _ Hn). cbn [negb]. by eexists.
Qed.

Lemma route_enabled {E : Type} {D : Driver E} (env : Dev.Env) (req : Dev.Request)
    (w : world E) :
  devEnabled env -> Dev.route env req w = Dev.makeMeAdmin req w.
Proof.
  intros [Hn Ha]. unfold Dev.route, Dev.requireDevAdminEnabled.
  by rewrite (bool_decide_eq_true_2 _ Hn), (bool_decide_eq_true_2 _ Ha).
Qed.

(** What the handler does once the email has passed the test. *)
Lemma makeMeAdmin_usable {E : Type} {D : Driver E} (req : Dev.Request) (s : string)
    (w : world E) :
  usableEmail req s ->
  Dev.makeMeAdmin req w =
  match DbAdapter.queryOne Dev.SQL_FIND_USER [Str (emailOf s)] w with
  | (Ok None, w1) =>
      (Ok {| Dev.status := 404;
             Dev.json := Dev.Failure "Usuário não encontrado"
                           ("Nenhum usuário encontrado com o email: " +:+ emailOf s) |}, w1)
  | (Ok (Some u), w1) =>
      if bool_decide (Js.prop "role" (Some u) = Str "admin")
      then (Ok {| Dev.status := 200;
                  Dev.json := Dev.Success "Usuário já é admin"
                                (Dev.userObject u (Js.prop "role" (Some u))) None |}, w1)
      else
        match DbAdapter.query Dev.SQL_PROMOTE [Str "admin"; Js.prop "id" (Some u)] w1 with
        | (Ok _, w2) =>
            (Ok {| Dev.status := 200;
                   Dev.json := Dev.Success "Usuário promovido a admin com sucesso"
                                 (Dev.userObject u (Str "admin"))
                                 (Some "⚠️ Esta é uma rota temporária. Remova após uso.") |}, w2)
        | (Throw _, w2) =>
            (Ok {| Dev.status := 500;
                   Dev.json := Dev.Failure "Erro ao promover usuário"
                                 "Ocorreu um erro ao promover o usuário a admin. Tente novamente." |},
             w2)
        | (Exit c, w2) => (Exit c, w2)
        end
  | (Throw _, w1) =>
      (Ok {| Dev.status := 500;
             Dev.json := Dev.Failure "Erro ao promover usuário"
                           "Ocorreu um erro ao promover o usuário a admin. Tente novamente." |},
       w1)
  | (Exit c, w1) => (Exit c, w1)
  end.
Proof.
  intros (b & Hb & He & Ht).
  assert (Hprop : Js.prop "email" (Some b) = Str s) by (unfold Js.prop; by rewrite He).
  assert (Hs : truthy (Str s) = true).
  { cbn [truthy]. apply negb_true_iff, String.eqb_neq. intros ->. by apply Ht. }
  assert (Ht' : truthy (Str (trim s)) = true).
  { cbn [truthy]. by apply negb_true_iff, String.eqb_neq. }
  unfold Dev.makeMeAdmin, tryCatch. rewrite bind_run, Hb. mred.
  rewrite !Hprop. cbv iota beta. rewrite Hs, Ht'. cbn [orb]. cbv iota.
  rewrite bind_run. fold (emailOf s).
  destruct (DbAdapter.queryOne Dev.SQL_FIND_USER [Str (emailOf s)] w) as [[[u|]|e|c] w1];
    mred; try done.
  destruct (bool_decide (Js.prop "role" (Some u) = Str "admin")); mred; [done|].
  rewrite bind_run.
  by destruct (DbAdapter.query Dev.SQL_PROMOTE [Str "admin"; Js.prop "id" (Some u)] w1)
    as [[q|e|c] w2].
Qed.

(** X19. The route always answers, with status 200, 400, 403, 404 or 500; no
    error leaves it.  It reaches no engine when it is not open - outside
    production, or without [ALLOW_DEV_ADMIN=true]: status 403 -, when the
    request has no body - status 500 - and when the email of the body is
    missing, is not a string, or is empty after trimming - status 400. *)
Theorem make_me_admin_answers {E : Type} {D : Driver E} (env : Dev.Env)
    (req : Dev.Request) (w : world E) :
  exists res w',
    Dev.route env req w = (Ok res, w')
    /\ Dev.status res ∈ [200; 400; 403; 404; 500]%Z
    /\ (~ devEnabled env -> Dev.status res = 403%Z /\ w' = w)
    /\ (devEnabled env -> Dev.body req = None -> Dev.status res = 500%Z /\ w' = w)
    /\ (devEnabled env -> Dev.body req <> None -> (forall s, ~ usableEmail req s) ->
        Dev.status res = 400%Z /\ w' = w).
Proof.
  destruct (decide (Dev.NODE_ENV env = Some "production"
                    /\ Dev.ALLOW_DEV_ADMIN env = Some "true")) as [Hon|Hoff].
  2:{ destruct (route_disabled env req w Hoff) as (res & Hr & Hs).
      exists res, w. split; [done|]. rewrite Hs.
      split; [by apply (bool_decide_unpack _)|]. split; [done|]. by split; intros. }
  rewrite (route_enabled env req w Hon).
  assert (Hbad : forall res,
            Dev.makeMeAdmin req w = (Ok res, w) ->
            Dev.status res = 400%Z \/ Dev.status res = 500%Z ->
            (Dev.body req = None -> Dev.status res = 500%Z) ->
            (Dev.body req <> None -> Dev.status res = 400%Z) ->
            exists res w',
              Dev.makeMeAdmin req w = (Ok res, w')
              /\ Dev.status res ∈ [200; 400; 403; 404; 500]%Z
              /\ (~ devEnabled env -> Dev.status res = 403%Z /\ w' = w)
              /\ (devEnabled env -> Dev.body req = None -> Dev.status res = 500%Z /\ w' = w)
              /\ (devEnabled env -> Dev.body req <> None -> (forall s, ~ usableEmail req s) ->
                  Dev.status res = 400%Z /\ w' = w)).
  { intros res Hrun Hst Hnone Hsome. exists res, w. split; [done|].
    split; [destruct Hst as [-> | ->]; by apply (bool_decide_unpack _)|].
    split; [done|]. split.
    - intros _ Hb. split; [by apply Hnone|done].
    - intros _ Hb _. split; [by apply Hsome|done]. }
  destruct (Dev.body req) as [b|] eqn:Hb.
  2:{ eapply Hbad;
        [unfold Dev.makeMeAdmin, tryCatch; rewrite bind_run, Hb; by mred|by right|done|done]. }
  destruct (b !! "email") as [email|] eqn:He.
  2:{ eapply Hbad;
        [unfold Dev.makeMeAdmin, tryCatch; rewrite bind_run, Hb; mred;
         unfold Js.prop; by rewrite He|by left|done|done]. }
  assert (Hprop : Js.prop "email" (Some b) = email) by (unfold Js.prop; by rewrite He).
  assert (Hcases : (exists s, email = Str s /\ trim s <> "")
                   \/ ~ (exists s, email = Str s /\ trim s <> "")).
  { destruct email as [| |bb|n|s]; try (right; by intros (s' & [=] & _)).
    destruct (decide (trim s = "")) as [Hts|Hts].
    - right. intros (s' & [= <-] & Hs'). done.
    - left. by exists s. }
  destruct Hcases as [(s & -> & Ht)|Hno].
  - assert (Hu : usableEmail req s) by by exists b.
    rewrite (makeMeAdmin_usable req s w Hu).
    pose proof (DbAdapter_queryOne_no_exit w Dev.SQL_FIND_USER [Str (emailOf s)]) as Hne1.
    destruct (DbAdapter.queryOne Dev.SQL_FIND_USER [Str (emailOf s)] w)
      as [[[u|]|e|c] w1]; [| | |by destruct (Hne1 c)].
    + destruct (bool_decide (Js.prop "role" (Some u) = Str "admin")).
      { eexists _, _. split; [reflexivity|]. split; [by apply (bool_decide_unpack _)|].
        split; [done|]. split; [done|]. intros _ _ Hall. by destruct (Hall s). }
      pose proof (DbAdapter_query_no_exit w1 Dev.SQL_PROMOTE
                    [Str "admin"; Js.prop "id" (Some u)]) as Hne2.
      destruct (DbAdapter.query Dev.SQL_PROMOTE [Str "admin"; Js.prop "id" (Some u)] w1)
        as [[q|e|c] w2]; [| |by destruct (Hne2 c)];
        (eexists _, _; split; [reflexivity|]; split; [by apply (bool_decide_unpack _)|];
         split; [done|]; split; [done|]; intros _ _ Hall; by destruct (Hall s)).
    + eexists _, _. split; [reflexivity|]. split; [by apply (bool_decide_unpack _)|].
      split; [done|]. split; [done|]. intros _ _ Hall. by destruct (Hall s).
    + eexists _, _. split; [reflexivity|]. split; [by apply (bool_decide_unpack _)|].
      split; [done|]. split; [done|]. intros _ _ Hall. by destruct (Hall s).
  - assert (Hrun : Dev.makeMeAdmin req w = (Ok Dev.invalidEmail, w)).
    { unfold Dev.makeMeAdmin, tryCatch. rewrite bind_run, Hb. mred. rewrite !Hprop.
      destruct email as [| |bb|n|s]; try done.
      destruct (decide (trim s = "")) as [Hts|Hts].
      + rewrite Hts. cbn [truthy String.eqb]. cbv iota. by rewrite orb_true_r.
      + destruct Hno. by exists s. }
    eapply Hbad; [exact Hrun|by left|done|done].
Qed.

Lemma make_me_admin_answers_witness :
  let env := {| Dev.NODE_ENV := Some "production"; Dev.ALLOW_DEV_ADMIN := Some "true" |} in
  let blank := NBSP +:+ " " +:+ IDEOGRAPHIC_SPACE +:+ LF +:+ BOM in
  let req := {| Dev.body := Some {[ "email" := Str blank ]} |} in
  let w := started POSTGRES_URL returningScript in
  exists res, Dev.route env req w = (Ok res, w) /\ Dev.status res = 400%Z.
Proof.
  destruct (make_me_admin_answers
              {| Dev.NODE_ENV := Some "production"; Dev.ALLOW_DEV_ADMIN := Some "true" |}
              {| Dev.body := Some {[ "email" := Str (NBSP +:+ " " +:+ IDEOGRAPHIC_SPACE
                                                     +:+ LF +:+ BOM) ]} |}
              (started POSTGRES_URL returningScript))
    as (res & w' & Hrun & _ & _ & _ & Hbad).
  destruct Hbad as [Hs Hw].
  - by split.
  - done.
  - intros s (b & [= <-] & Hb & Ht). rewrite lookup_singleton_eq in Hb.
    injection Hb as <-. apply Ht. by vm_compute.
  - rewrite Hw in Hrun. exists res. split; [exact Hrun|exact Hs].
Defined.

Lemma queryOne_adapter {E : Type} {D : Driver E} (w : world E) sql params :
  ready w -> dbAdapter (DbAdapter.queryOne sql params w).2 = dbAdapter w.
Proof.
  intros Hr. destruct (ready_cases w Hr) as [(Ha & Hl & Hp)|Ha].
  - rewrite (DbAdapter_queryOne_postgres w _ _ Ha Hl Hp). cbv zeta.
    by destruct (poolQuery _ _ _) as [[c [err|r]] e].
  - unfold DbAdapter.queryOne. mstep. rewrite isPostgres_run, (not_postgres w Ha). mred.
    unfold Db.queryOne. rewrite bind_run, (Db_query_sqlite w _ _ Ha). cbv zeta.
    assert (Hd : dbAdapter (opened w) = dbAdapter w) by apply opened_fields.
    destruct (startsWith _ "SELECT");
      by (destruct (sqliteAll _ _ _) as [[err|r] e] || destruct (sqliteRun _ _ _) as [[err|r] e]).
Qed.

(** X20. In a process that is ready, with the route open and a usable email,
    the route looks the user up with one statement whose only parameter is
    the email, trimmed and in lower case.  It changes a role only when the
    lookup returned a user whose role is not ['admin']: then it sends one
    update, with the parameters ['admin'] and the [id] of the row that was
    returned.  No user: status 404; already admin: status 200 and the user
    as stored; update accepted: status 200 and the user with role
    ['admin']; a statement that fails: status 500. *)
Theorem promotion_only_for_found_user {E : Type} {D : Driver E} (env : Dev.Env)
    (req : Dev.Request) (s : string) (w : world E) :
  devEnabled env -> usableEmail req s -> ready w ->
  let lookup := DbAdapter.queryOne Dev.SQL_FIND_USER [Str (emailOf s)] w in
  let r := Dev.route env req w in
  exists c ok res,
    let find := EvQuery c (sentText w false Dev.SQL_FIND_USER) [Str (emailOf s)] ok in
    r.1 = Ok res
    /\ match lookup.1 with
       | Ok (Some u) =>
           ok = true
           /\ if bool_decide (Js.prop "role" (Some u) = Str "admin")
              then trace r.2 = trace w ++ [find]
                   /\ Dev.status res = 200%Z
                   /\ Dev.json res
                      = Dev.Success "Usuário já é admin"
                          (Dev.userObject u (Js.prop "role" (Some u))) None
              else exists c' ok',
                   trace r.2
                   = trace w ++ [find;
                                 EvQuery c' (sentText w true Dev.SQL_PROMOTE)
                                   [Str "admin"; Js.prop "id" (Some u)] ok']
                   /\ Dev.status res = (if ok' then 200 else 500)%Z
                   /\ (ok' = true ->
                       exists warning,
                         Dev.json res
                         = Dev.Success "Usuário promovido a admin com sucesso"
                             (Dev.userObject u (Str "admin")) (Some warning))
       | Ok None => ok = true /\ trace r.2 = trace w ++ [find] /\ Dev.status res = 404%Z
       | Throw _ => ok = false /\ trace r.2 = trace w ++ [find] /\ Dev.status res = 500%Z
       | Exit _ => False
       end.
Proof.
  intros Hon Hu Hr. cbv zeta.
  rewrite (route_enabled env req w Hon), (makeMeAdmin_usable req s w Hu).
  destruct (queryOne_served w Dev.SQL_FIND_USER [Str (emailOf s)] Hr)
    as ((c & ok & Htr & Hok) & Hr1).
  pose proof (queryOne_adapter w Dev.SQL_FIND_USER [Str (emailOf s)] Hr) as Hda.
  destruct (DbAdapter.queryOne Dev.SQL_FIND_USER [Str (emailOf s)] w)
    as [[[u|]|e|code] w1]; cbn [fst snd] in *; [| | |done].
  - subst ok. destruct (bool_decide (Js.prop "role" (Some u) = Str "admin")) eqn:Hrole.
    { exists c, true. eexists. split; [reflexivity|]. by repeat split. }
    destruct (query_served w1 Dev.SQL_PROMOTE [Str "admin"; Js.prop "id" (Some u)] Hr1)
      as ((c' & ok' & Htr' & Hok') & _).
    assert (Hsent : sentText w1 true Dev.SQL_PROMOTE = sentText w true Dev.SQL_PROMOTE).
    { unfold sentText. by rewrite Hda. }
    rewrite Hsent in Htr'.
    destruct (DbAdapter.query Dev.SQL_PROMOTE [Str "admin"; Js.prop "id" (Some u)] w1)
      as [[q|e|code] w2]; cbn [fst snd] in *; [| |done]; subst ok'.
    + exists c, true. eexists. split; [reflexivity|]. split; [done|].
      exists c', true. rewrite Htr', Htr, <- app_assoc. split; [done|]. split; [done|].
      intros _. by eexists.
    + exists c, true. eexists. split; [reflexivity|]. split; [done|].
      exists c', false. rewrite Htr', Htr, <- app_assoc. by repeat split.
  - subst ok. exists c, true. eexists. split; [reflexivity|]. by repeat split.
  - subst ok. exists c, false. eexists. split; [reflexivity|]. by repeat split.
Qed.


Lemma promotion_only_for_found_user_witness :
  let env := {| Dev.NODE_ENV := Some "production"; Dev.ALLOW_DEV_ADMIN := Some "true" |} in
  let email := NBSP +:+ " " +:+ CAPITAL_E_ACUTE +:+ "rica@Troia.COM" +:+ LF +:+ BOM in
  let req := {| Dev.body := Some {[ "email" := Str email ]} |} in
  let w := started POSTGRES_URL usersScript in
  let r := Dev.route env req w in
  emailOf email = SMALL_E_ACUTE +:+ "rica@troia.com"
  /\ exists res,
    r.1 = Ok res /\ Dev.status res = 200%Z
    /\ trace r.2
       = trace w ++ [ EvQuery (PoolConn 0)
                        "SELECT id, nome, email, role FROM usuarios WHERE email = $1 LIMIT 1"
                        [Str (SMALL_E_ACUTE +:+ "rica@troia.com")] true;
                      EvQuery (PoolConn 0) "UPDATE usuarios SET role = $1 WHERE id = $2"
                        [Str "admin"; Num 2] true ].
Proof.
  split; [reflexivity|].
  assert (Hon : devEnabled {| Dev.NODE_ENV := Some "production";
                              Dev.ALLOW_DEV_ADMIN := Some "true" |}) by (by split).
  assert (Hu : usableEmail
                 {| Dev.body := Some {[ "email" := Str (NBSP +:+ " " +:+ CAPITAL_E_ACUTE
                                                        +:+ "rica@Troia.COM" +:+ LF +:+ BOM) ]} |}
                 (NBSP +:+ " " +:+ CAPITAL_E_ACUTE +:+ "rica@Troia.COM" +:+ LF +:+ BOM)).
  { eexists. split; [reflexivity|]. split; [by vm_compute|]. by vm_compute. }
  assert (Hr : ready (started POSTGRES_URL usersScript)) by (split; reflexivity).
  destruct (promotion_only_for_found_user _ _ _ _ Hon Hu Hr) as (c & ok & res & Hres & Hm).
  exists res. split; [exact Hres|].
  vm_compute in Hres. injection Hres as <-. split; [reflexivity|]. by vm_compute.
Defined.

(** ** The reset without failing call *)

Lemma quiet_tick e : quiet e -> quiet (tick e).
Proof. done. Qed.

Lemma quietStep_bind {A B} (w : world engine) (m : M engine A) (k : A -> M engine B)
    a b evs1 evs2 (P Q : world engine -> Prop) :
  quietStep w (m w) a evs1 P ->
  (forall w1, P w1 -> quiet (eng w1) -> quietStep w1 (k a w1) b evs2 Q) ->
  quietStep w (bind m k w) b (evs1 ++ evs2) Q.
Proof.
  intros (Hr & Htr & Hq & HP) Hk. rewrite bind_run.
  destruct (m w) as [[a'|e|c] w1]; cbn [fst snd] in *; [|done|done].
  injection Hr as ->. destruct (Hk w1 HP Hq) as (Hr2 & Htr2 & Hq2 & HQ).
  split; [done|]. split; [by rewrite Htr2, Htr, app_assoc|]. done.
Qed.

Lemma cleanTable_quiet_postgres S0 ws w t :
  inTransaction AdapterPostgres 0 S0 ws w -> quiet (eng w) ->
  plainName t = true ->
  quietStep w (cleanTable t (Some (PoolConn 0)) w) (report ws t)
    (cleanTableEvents AdapterPostgres S0 t)
    (inTransaction AdapterPostgres 0 S0 (clearTable t ws)).
Proof.
  intros Hin Hq Hname. pose proof Hin as (Ha & Hc & Ht & Hd & Hco & Hl & Hp & Hcl & Hle).
  unfold cleanTable, tableExists.
  mstep. rewrite isPostgres_run, (is_postgres w Ha). mred.
  mstep. rewrite (DbAdapter_queryOne_postgres w _ _ Ha Hl Hp). cbv zeta.
  change (replacePlaceholders 1 SQL_EXISTS_POSTGRES) with SQL_EXISTS_POSTGRES.
  rewrite (poolQuery_exists _ 0 ws t Hle Ht), (Hq _).
  mred. rewrite exists_answer, Hc.
  set (w1 := record _ (set_eng (tick (eng w)) w)).
  assert (Hw1 : inTransaction AdapterPostgres 0 S0 ws w1)
    by (by eapply inTransaction_record; [exact Hin|..]).
  unfold cleanTableEvents.
  destruct (S0 !! t) as [rs0|] eqn:Hs0.
  2: { rewrite bool_decide_eq_false_2 by (by intros [? ?]). cbv iota.
       assert (Hnone : ws !! t = None).
       { apply eq_None_not_Some. rewrite <- (same_tables S0 ws t Hd), Hs0. by intros [? ?]. }
       unfold report. rewrite Hnone, (clearTable_absent t ws Hnone). by repeat split. }
  rewrite bool_decide_eq_true_2 by eauto. cbv iota.
  assert (Hsome : is_Some (ws !! t)) by (apply (same_tables S0 ws t Hd); eauto).
  destruct Hsome as [rs Hrs].
  unfold tryCatch. rewrite bind_run, (useClient_postgres w1 _ Ha). cbv iota beta.
  rewrite bind_run. unfold client_query at 1. rewrite clientQuery_run.
  change (eng w1) with (tick (eng w)).
  change (faults (tick (eng w))) with (faults (eng w)). rewrite (Hq _).
  rewrite parse_count.
  destruct (exec_count PostgresDialect (PoolConn 0) ws t (tick (tick (eng w))) Ht
              (ex_intro _ rs Hrs)) as [rc Hrc].
  rewrite Hrc. cbv iota beta.
  set (w2 := record _ (set_eng _ w1)).
  rewrite bind_run. unfold client_query. rewrite clientQuery_run.
  change (eng w2) with (tick (tick (eng w))).
  change (faults (tick (tick (eng w)))) with (faults (eng w)). rewrite (Hq _).
  rewrite (parse_delete t Hname).
  rewrite (exec_delete PostgresDialect (PoolConn 0) ws t rs
             (tick (tick (tick (eng w)))) Ht Hrs).
  cbv iota beta. unfold report. rewrite Hrs. split; [done|]. split.
  { cbn [fst snd trace record set_eng]. subst w2 w1. cbn [trace record set_eng].
    by rewrite <- !app_assoc. }
  split; [done|].
  cbn [fst snd]. eapply inTransaction_record; [exact Hin|try done..]. by rewrite dom_clearTable.
Qed.

Lemma cleanTable_quiet_sqlite S0 ws w t :
  inTransaction AdapterSqlite 0 S0 ws w -> quiet (eng w) ->
  plainName t = true ->
  quietStep w (cleanTable t None w) (report ws t)
    (cleanTableEvents AdapterSqlite S0 t)
    (inTransaction AdapterSqlite 0 S0 (clearTable t ws)).
Proof.
  intros Hin Hq Hname. pose proof Hin as (Ha & Hc & Ht & Hd & Hco & Hcl & Hdb).
  unfold cleanTable, tableExists.
  mstep. rewrite isPostgres_run, (not_postgres w Ha). mred.
  mstep. rewrite (DbAdapter_queryOne_sqlite_all w SQL_EXISTS_SQLITE _ Ha Hdb eq_refl).
  rewrite sqliteAll_run, (Hq _).
  change (parse SQL_EXISTS_SQLITE [Str t]) with (SExistsSqlite t).
  rewrite (exec_exists_sqlite ws t (tick (eng w)) Ht). cbv iota beta. cbn [pg_rows].
  set (w1 := record _ (set_eng (tick (eng w)) w)).
  assert (Hw1 : inTransaction AdapterSqlite 0 S0 ws w1)
    by (by eapply inTransaction_record; [exact Hin|..]).
  unfold cleanTableEvents.
  destruct (S0 !! t) as [rs0|] eqn:Hs0.
  2: { assert (Hnone : ws !! t = None).
       { apply eq_None_not_Some. rewrite <- (same_tables S0 ws t Hd), Hs0. by intros [? ?]. }
       rewrite Hnone. cbn. unfold report. rewrite Hnone, (clearTable_absent t ws Hnone).
       by repeat split. }
  assert (Hsome : is_Some (ws !! t)) by (apply (same_tables S0 ws t Hd); eauto).
  destruct Hsome as [rs Hrs]. rewrite Hrs.
  simpl. unfold tryCatch. mstep.
  destruct (delete_not_select t) as [Hs Hi].
  assert (Hdb1 : sqliteDb w1 = true) by done.
  rewrite (DbAdapter_query_sqlite_run w1 _ _ Ha Hdb1 Hs Hi), sqliteRun_run.
  change (eng w1) with (tick (eng w)).
  change (faults (tick (eng w))) with (faults (eng w)). rewrite (Hq _).
  rewrite (parse_delete t Hname).
  rewrite (exec_delete SqliteDialect SharedFile ws t rs (tick (tick (eng w))) Ht Hrs).
  cbv iota beta. unfold report. rewrite Hrs. split; [done|]. split.
  { cbn [fst snd trace record set_eng]. subst w1. cbn [trace record set_eng].
    by rewrite <- !app_assoc. }
  split; [done|].
  cbn [fst snd]. eapply inTransaction_record; [exact Hin|try done..]. by rewrite dom_clearTable.
Qed.

Lemma cleanTable_quiet b S0 ws w t :
  inTransaction b 0 S0 ws w -> quiet (eng w) ->
  plainName t = true ->
  quietStep w (cleanTable t (client w) w) (report ws t)
    (cleanTableEvents b S0 t) (inTransaction b 0 S0 (clearTable t ws)).
Proof.
  intros Hin Hq Hname. rewrite (inTransaction_client _ _ _ _ _ Hin). destruct b.
  - by apply cleanTable_quiet_postgres.
  - by apply cleanTable_quiet_sqlite.
Qed.

Lemma cleanTables_quiet b S0 ts : forall ws w acc cl,
  inTransaction b 0 S0 ws w -> quiet (eng w) -> cl = client w ->
  Forall (fun t => plainName t = true) ts ->
  quietStep w (cleanTables ts cl acc w) (acc ++ reports ws ts)
    (concat (map (cleanTableEvents b S0) ts)) (inTransaction b 0 S0 (cleared ts ws)).
Proof.
  induction ts as [|t ts IH]; intros ws w acc cl Hin Hq -> Hplain.
  { unfold quietStep. cbn [cleanTables reports map concat ret fst snd]. rewrite !app_nil_r.
    split; [done|]. split; [done|]. split; [done|]. exact Hin. }
  apply Forall_cons in Hplain as [Ht Hts].
  cbn [cleanTables map concat reports].
  eapply quietStep_bind.
  - by apply (cleanTable_quiet b S0 ws w t Hin Hq).
  - intros w1 Hin1 Hq1.
    replace (acc ++ report ws t :: reports (clearTable t ws) ts)
      with ((acc ++ [report ws t]) ++ reports (clearTable t ws) ts)
      by (by rewrite <- app_assoc).
    apply (IH (clearTable t ws) w1); [done|done| |done].
    by rewrite (inTransaction_client _ _ _ _ _ Hin), (inTransaction_client _ _ _ _ _ Hin1).
Qed.

Lemma cleanUsers_quiet b S0 ws w cl :
  inTransaction b 0 S0 ws w -> quiet (eng w) -> cl = client w ->
  quietStep w (cleanUsers cl w) (usersReport ws)
    (cleanUsersEvents b S0) (inTransaction b 0 S0 (purged ws)).
Proof.
  intros Hin Hq ->. pose proof Hin as (Ha & Hc & Ht & Hd & Hco & Hb).
  rewrite (inTransaction_client _ _ _ _ _ Hin).
  assert (Hsame : is_Some (S0 !! "usuarios") <-> is_Some (ws !! "usuarios"))
    by apply (same_tables S0 ws _ Hd).
  unfold cleanUsers, tableExists, cleanUsersEvents. destruct b.
  - destruct Hb as (Hl & Hp & Hcl & Hle).
    mstep. rewrite isPostgres_run, (is_postgres w Ha). mred.
    mstep. rewrite (DbAdapter_queryOne_postgres w _ _ Ha Hl Hp). cbv zeta.
    change (replacePlaceholders 1 SQL_EXISTS_POSTGRES) with SQL_EXISTS_POSTGRES.
    rewrite (poolQuery_exists _ 0 ws "usuarios" Hle Ht), (Hq _).
    mred. rewrite exists_answer, Hc.
    set (w1 := record _ (set_eng (tick (eng w)) w)).
    assert (Hw1 : inTransaction AdapterPostgres 0 S0 ws w1)
      by (by eapply inTransaction_record; [exact Hin|..]).
    destruct (S0 !! "usuarios") as [rs0|] eqn:Hs0.
    2: { rewrite bool_decide_eq_false_2 by (by intros [? ?]). cbv iota.
         assert (Hnone : ws !! "usuarios" = None).
         { apply eq_None_not_Some. rewrite <- Hsame. by intros [? ?]. }
         unfold usersReport. rewrite Hnone, (purged_absent ws Hnone). by repeat split. }
    rewrite bool_decide_eq_true_2 by eauto. cbv iota.
    assert (Hsome : is_Some (ws !! "usuarios")) by (apply Hsame; eauto).
    destruct Hsome as [rs Hrs].
    unfold tryCatch. rewrite bind_run, (useClient_postgres w1 _ Ha). cbv iota beta.
    mstep. unfold client_query. rewrite clientQuery_run.
    change (eng w1) with (tick (eng w)).
    change (faults (tick (eng w))) with (faults (eng w)). rewrite (Hq _).
    rewrite parse_delete_users.
    rewrite (exec_delete_users PostgresDialect (PoolConn 0) ws rs (tick (tick (eng w))) Ht Hrs).
    cbv iota beta. unfold usersReport. rewrite Hrs. split; [done|]. split.
    { cbn [fst snd trace record set_eng]. subst w1. cbn [trace record set_eng].
      by rewrite <- !app_assoc. }
    split; [done|].
    cbn [fst snd]. eapply inTransaction_record; [exact Hin|try done..]. by rewrite purged_dom.
  - destruct Hb as (Hcl & Hdb).
    mstep. rewrite isPostgres_run, (not_postgres w Ha). mred.
    mstep. rewrite (DbAdapter_queryOne_sqlite_all w SQL_EXISTS_SQLITE _ Ha Hdb eq_refl).
    rewrite sqliteAll_run, (Hq _).
    change (parse SQL_EXISTS_SQLITE [Str "usuarios"]) with (SExistsSqlite "usuarios").
    rewrite (exec_exists_sqlite ws "usuarios" (tick (eng w)) Ht). cbv iota beta. cbn [pg_rows].
    set (w1 := record _ (set_eng (tick (eng w)) w)).
    assert (Hw1 : inTransaction AdapterSqlite 0 S0 ws w1)
      by (by eapply inTransaction_record; [exact Hin|..]).
    destruct (S0 !! "usuarios") as [rs0|] eqn:Hs0.
    2: { assert (Hnone : ws !! "usuarios" = None).
         { apply eq_None_not_Some. rewrite <- Hsame. by intros [? ?]. }
         rewrite Hnone. cbn. unfold usersReport. rewrite Hnone, (purged_absent ws Hnone).
         by repeat split. }
    assert (Hsome : is_Some (ws !! "usuarios")) by (apply Hsame; eauto).
    destruct Hsome as [rs Hrs]. rewrite Hrs.
    simpl. unfold tryCatch, useClient. mstep.
    destruct users_not_select as [Hs Hi].
    assert (Hdb1 : sqliteDb w1 = true) by done.
    rewrite (DbAdapter_query_sqlite_run w1 _ _ Ha Hdb1 Hs Hi), sqliteRun_run.
    change (eng w1) with (tick (eng w)).
    change (faults (tick (eng w))) with (faults (eng w)). rewrite (Hq _).
    rewrite parse_delete_users.
    rewrite (exec_delete_users SqliteDialect SharedFile ws rs (tick (tick (eng w))) Ht Hrs).
    cbv iota beta. unfold usersReport. rewrite Hrs. split; [done|]. split.
    { cbn [fst snd trace record set_eng]. subst w1. cbn [trace record set_eng].
      by rewrite <- !app_assoc. }
    split; [done|].
    cbn [fst snd]. eapply inTransaction_record; [exact Hin|try done..]. by rewrite purged_dom.
Qed.

Lemma begin_quiet_postgres S0 (w : world engine) :
  settled AdapterPostgres S0 w -> client w = None -> quiet (eng w) ->
  quietStep w
    ((do! Postgres.getPool in
      let! c := pool_connect in
      do! modify (set_client (Some c)) in
      do! client_query c "BEGIN" [] in
      ret tt) w) tt
    [EvConnect (Some (PoolConn 0)); EvQuery (PoolConn 0) "BEGIN" [] true]
    (inTransaction AdapterPostgres 0 S0 S0).
Proof.
  intros (Ha & Hc & Ht & Hco & Hl & Hp & Hle) Hcl Hq.
  rewrite bind_run, (getPool_run w Hp). cbv beta iota.
  rewrite bind_run. unfold pool_connect. rewrite (poolConnect_run _ Hle), (Hq _).
  cbv beta iota. mstep. unfold client_query. rewrite clientQuery_run.
  cbn [eng set_client record set_eng].
  change (faults (set_leased [0] (tick (eng w)))) with (faults (eng w)). rewrite (Hq _).
  change (parse "BEGIN" []) with SBegin. unfold exec.
  change (txn (tick (set_leased [0] (tick (eng w))))) with (txn (eng w)).
  rewrite Ht. unfold answered. cbv beta iota.
  split; [done|]. split; [cbn; by rewrite <- app_assoc|]. split; [done|].
  unfold inTransaction. cbn. rewrite Hc. by repeat split.
Qed.

Lemma begin_quiet_sqlite S0 (w : world engine) :
  settled AdapterSqlite S0 w -> client w = None -> quiet (eng w) ->
  quietStep w ((do! DbAdapter.query "BEGIN TRANSACTION" [] in ret tt) w) tt
    [EvQuery SharedFile "BEGIN TRANSACTION" [] true]
    (inTransaction AdapterSqlite 0 S0 S0).
Proof.
  intros (Ha & Hc & Ht & Hco & _) Hcl Hq.
  destruct (opened_fields w) as (Hoe & Hot & Hoc & Hoa & Hocl & Hodb).
  rewrite bind_run, (DbAdapter_query_sqlite_statement w "BEGIN TRANSACTION" _ Ha eq_refl eq_refl),
    sqliteRun_run, (Hq _).
  change (parse "BEGIN TRANSACTION" []) with SBegin. unfold exec.
  change (txn (tick (eng w))) with (txn (eng w)). rewrite Ht. unfold answered. cbv beta iota.
  split; [done|]. split; [cbn; by rewrite Hot|]. split; [done|].
  unfold inTransaction. cbn. rewrite Hc, Hoa, Hocl, Hodb, Hoc. by repeat split.
Qed.

Lemma commit_quiet_postgres S0 ws (w : world engine) :
  inTransaction AdapterPostgres 0 S0 ws w -> quiet (eng w) ->
  quietStep w
    ((do! client_query (PoolConn 0) "COMMIT" [] in client_release (PoolConn 0)) w) tt
    [EvQuery (PoolConn 0) "COMMIT" [] true; EvRelease (PoolConn 0)]
    (settled AdapterPostgres ws).
Proof.
  intros Hin Hq. pose proof Hin as (Ha & Hc & Ht & Hd & Hco & Hl & Hp & Hcl & Hle).
  rewrite bind_run. unfold client_query. rewrite clientQuery_run, (Hq _).
  change (parse "COMMIT" []) with SCommit. unfold exec.
  change (txn (tick (eng w))) with (txn (eng w)). rewrite Ht.
  change (txnConn AdapterPostgres 0) with (PoolConn 0). rewrite decide_True by done.
  unfold answered. cbv beta iota. unfold client_release.
  split; [done|]. split; [cbn; by rewrite <- app_assoc|]. split; [done|].
  unfold settled, finished. cbn. rewrite Hle. by repeat split.
Qed.

Lemma commit_quiet_sqlite S0 ws (w : world engine) :
  inTransaction AdapterSqlite 0 S0 ws w -> quiet (eng w) ->
  quietStep w ((do! DbAdapter.query "COMMIT" [] in ret tt) w) tt
    [EvQuery SharedFile "COMMIT" [] true] (settled AdapterSqlite ws).
Proof.
  intros Hin Hq. pose proof Hin as (Ha & Hc & Ht & Hd & Hco & Hcl & Hdb).
  rewrite bind_run, (DbAdapter_query_sqlite_run w "COMMIT" _ Ha Hdb eq_refl eq_refl),
    sqliteRun_run, (Hq _).
  change (parse "COMMIT" []) with SCommit. unfold exec.
  change (txn (tick (eng w))) with (txn (eng w)). rewrite Ht.
  change (txnConn AdapterSqlite 0) with SharedFile. rewrite decide_True by done.
  unfold answered. cbv beta iota.
  split; [done|]. split; [done|]. split; [done|]. by repeat split.
Qed.

Lemma summary_quiet b S results (w : world engine) :
  settled b S w -> quiet (eng w) ->
  quietStep w
    ((let! totalDeleted := printSummary results 0%Z in
      do! modify (print (LogTotal totalDeleted)) in
      ret results) w) results [] (finished b S (summary results)).
Proof.
  intros (Ha & Hc & Ht & Hco & Hb) Hq.
  destruct (printSummary_run results 0%Z w)
    as (w' & Hrun & Hco' & Htr' & He' & Ha' & Hp' & Hcl' & Hl').
  rewrite bind_run, Hrun. cbv beta iota. mstep.
  split; [done|]. split; [cbn; by rewrite Htr', app_nil_r|].
  split; [cbn; by rewrite He'|].
  unfold finished. cbn. rewrite He', Ha', Hco', Hco, Hp', Hl'.
  by repeat split.
Qed.

(** The begin of the transaction, the tables, the user accounts, the commit,
    in this order. *)
Lemma resetTransaction_quiet b S0 ru (w : world engine) :
  settled b S0 w -> client w = None -> quiet (eng w) ->
  quietStep w (resetTransaction ru w) (finalReport ru S0)
    (drop (match b with AdapterPostgres => 3 | AdapterSqlite => 0 end) (openingEvents b)
     ++ concat (map (cleanTableEvents b S0) TABLES_TO_CLEAN)
     ++ (if ru then cleanUsersEvents b S0 else [])
     ++ take (match b with AdapterPostgres => 2 | AdapterSqlite => 1 end) (closingEvents b))
    (finished b (finalStore ru S0) (summary (finalReport ru S0))).
Proof.
  intros Hs Hcl Hq. pose proof Hs as (Ha & _).
  unfold resetTransaction. rewrite bind_run, isPostgres_run. cbv beta iota.
  assert (Hnil : forall l : list event, l ++ [] = l) by apply app_nil_r.
  rewrite <- (Hnil (take _ (closingEvents b))).
  eapply (quietStep_bind _ _ _ _ _ _ _ (inTransaction b 0 S0 S0)).
  { destruct b.
    - rewrite (is_postgres w Ha). by apply begin_quiet_postgres.
    - rewrite (not_postgres w Ha). by apply begin_quiet_sqlite. }
  intros w1 Hin1 Hq1. rewrite bind_run. mred.
  eapply quietStep_bind.
  { by apply cleanTables_quiet; [exact Hin1|done|done|apply plain_tables]. }
  intros w2 Hin2 Hq2. cbn [app].
  eapply (quietStep_bind _ _ _ (finalReport ru S0) _ _ _
            (fun w' => inTransaction b 0 S0 (finalStore ru S0) w')).
  { destruct ru.
    - replace (cleanUsersEvents b S0) with (cleanUsersEvents b S0 ++ []) by apply app_nil_r.
      eapply quietStep_bind.
      + apply cleanUsers_quiet; [exact Hin2|done|].
        by rewrite (clientOf _ _ _ _ _ Hin1), (clientOf _ _ _ _ _ Hin2).
      + intros w3 Hin3 Hq3. split; [reflexivity|]. split; [by rewrite app_nil_r|].
        split; [done|exact Hin3].
    - split; [by unfold finalReport; rewrite app_nil_r|].
      split; [by rewrite app_nil_r|]. split; [done|exact Hin2]. }
  intros w3 Hin3 Hq3.
  rewrite (clientOf _ _ _ _ _ Hin1).
  eapply (quietStep_bind _ _ _ _ _ _ _ (settled b (finalStore ru S0))).
  { destruct b; [by apply (commit_quiet_postgres S0)|by apply (commit_quiet_sqlite S0)]. }
  intros w4 Hs4 Hq4. by apply summary_quiet.
Qed.

Lemma initDatabase_quiet url S0 f :
  (forall k, f k = false) ->
  let b := backendOf url in
  let r := DbAdapter.initDatabase (boot url (fresh S0 f)) in
  trace r.2 = take (match b with AdapterPostgres => 3 | AdapterSqlite => 0 end)
                (openingEvents b)
  /\ exists a, r.1 = Ok a.
Proof.
  intros Hf. cbv zeta. rewrite initDatabase_run. cbn [DATABASE_URL boot].
  unfold backendOf.
  destruct (truthy (from_option Str Undefined url)) eqn:Hurl; [|by eauto].
  rewrite initPostgres_run by done.
  cbn [eng set_pgQuery boot]. rewrite poolConnect_run by done.
  cbn [faults fresh clock]. rewrite Hf.
  rewrite clientQuery_run. cbn [faults fresh clock tick set_leased]. rewrite Hf.
  cbn. eauto.
Qed.

Lemma reset_quiet url S0 f ru :
  (forall k, f k = false) ->
  trace (resetOperationalData ru (boot url (fresh S0 f))).2
  = resetEvents (backendOf url) ru S0.
Proof.
  intros Hf. unfold resetOperationalData.
  destruct (initDatabase_boot url S0 f) as (_ & Hf0 & Hinit).
  destruct (initDatabase_quiet url S0 f Hf) as [Htr0 [a Ha]]. cbv zeta in Htr0.
  rewrite bind_run.
  destruct (DbAdapter.initDatabase (boot url (fresh S0 f))) as [[a'|e|code] w1];
    cbn [fst snd] in *; [|done|done].
  destruct Hinit as (Hs1 & Hcl1 & _).
  rewrite bind_run. mred.
  set (w2 := set_client None w1).
  assert (Hs2 : settled (backendOf url) S0 w2) by exact Hs1.
  assert (Hq2 : quiet (eng w2)).
  { intros k. change (eng w2) with (eng w1). by rewrite Hf0. }
  destruct (resetTransaction_quiet (backendOf url) S0 ru w2 Hs2 eq_refl Hq2)
    as (Hr & Htr & Hq3 & Hfin).
  rewrite bind_run. unfold tryFinally, tryCatch.
  destruct (resetTransaction ru w2) as [[rs|e|code] w3]; cbn [fst snd] in *; [|done|done].
  change (trace w2) with (trace w1) in Htr. rewrite Htr0 in Htr.
  unfold resetEvents.
  destruct (backendOf url) eqn:Hb.
  - destruct (resetFinally_closes _ _ w3 Hfin) as (w4 & -> & _ & _ & Htr4 & _).
    cbn [fst snd]. rewrite Htr4, Htr. cbn [openingEvents closingEvents take drop].
    cbn [app]. by rewrite <- !app_assoc.
  - destruct Hfin as (Ha3 & _). rewrite (resetFinally_sqlite w3 Ha3). cbn [fst snd].
    rewrite Htr. by cbn [openingEvents closingEvents take drop app].
Qed.

(** X21. The statements of a reset in which no call fails, in order.  On
    PostgreSQL: the probe of the start-up on a leased connection that is
    released; a second lease and [BEGIN]; for each table of the list, in
    the order of the list, the catalog query on another connection of the
    pool and, when the table is there, the count and then the delete on the
    leased connection; the same for the user accounts when they are reset;
    [COMMIT], the release, the end of the pool.  On SQLite: [BEGIN
    TRANSACTION]; for each table the catalog query and, when the table is
    there, the delete; [COMMIT].  No other statement is sent, and a table
    that is absent gets no delete. *)
Theorem reset_statement_sequence (url : option string) (S0 : store)
    (f : nat -> bool) (resetUsers : bool) :
  (forall k, f k = false) ->
  let r := resetOperationalData resetUsers (boot url (fresh S0 f)) in
  r.1 = Ok Undefined /\ trace r.2 = resetEvents (backendOf url) resetUsers S0.
Proof.
  intros Hf. cbv zeta. split; [by apply reset_returns_without_fault|by apply reset_quiet].
Qed.

Lemma reset_statement_sequence_witness :
  let r := resetOperationalData false (boot None (fresh workshop noFault)) in
  r.1 = Ok Undefined
  /\ trace r.2
     = [ EvQuery SharedFile "BEGIN TRANSACTION" [] true;
         EvQuery SharedFile SQL_EXISTS_SQLITE [Str "km_historico"] true;
         EvQuery SharedFile SQL_EXISTS_SQLITE [Str "abastecimentos"] true;
         EvQuery SharedFile SQL_EXISTS_SQLITE [Str "manutencoes"] true;
         EvQuery SharedFile "DELETE FROM manutencoes" [] true;
         EvQuery SharedFile SQL_EXISTS_SQLITE [Str "ocr_usage"] true;
         EvQuery SharedFile SQL_EXISTS_SQLITE [Str "veiculo_compartilhamentos"] true;
         EvQuery SharedFile SQL_EXISTS_SQLITE [Str "proprietarios_historico"] true;
         EvQuery SharedFile SQL_EXISTS_SQLITE [Str "proprietarios"] true;
         EvQuery SharedFile SQL_EXISTS_SQLITE [Str "veiculos"] true;
         EvQuery SharedFile "DELETE FROM veiculos" [] true;
         EvQuery SharedFile "COMMIT" [] true ].
Proof.
  destruct (reset_statement_sequence None workshop noFault false) as [Hr Htr]; [done|].
  split; [exact Hr|]. rewrite Htr. by vm_compute.
Defined.

Lemma filter_concat_map {A B} (P : B -> Prop) `{forall x, Decision (P x)}
    (g : A -> list B) (l : list A) :
  filter P (concat (map g l)) = concat (map (fun a => filter P (g a)) l).
Proof.
  induction l as [|a l IH]; [done|]. cbn [map concat]. by rewrite filter_app, IH.
Qed.

Lemma concat_map_present {A B} (P : A -> Prop) `{forall x, Decision (P x)}
    (g : A -> B) (l : list A) :
  concat (map (fun a => if decide (P a) then [g a] else []) l) = map g (filter P l).
Proof.
  induction l as [|a l IH]; [done|]. cbn [map concat]. rewrite filter_cons, IH.
  by destruct (decide (P a)).
Qed.

Lemma deletes_of_cleanTable b (S0 : store) t :
  filter (fun ev => isDelete ev = true) (cleanTableEvents b S0 t)
  = if decide (is_Some (S0 !! t)) then [deleteOf b t] else [].
Proof.
  unfold cleanTableEvents, deleteOf.
  destruct b; destruct (S0 !! t) as [rs|] eqn:Hs.
  - rewrite decide_True by eauto. reflexivity.
  - rewrite decide_False by (by intros [? ?]). reflexivity.
  - rewrite decide_True by eauto. reflexivity.
  - rewrite decide_False by (by intros [? ?]). reflexivity.
Qed.

(** X22. The deletes of a reset in which no call fails are sent in the order
    of the list of the script, which respects the foreign keys: one
    [DELETE FROM t], on the connection of the transaction, for each table
    [t] of the list that is there, and after them the delete of the user
    accounts when they are reset and the table is there. *)
Theorem reset_deletes_in_list_order (url : option string) (S0 : store)
    (f : nat -> bool) (resetUsers : bool) :
  (forall k, f k = false) ->
  let b := backendOf url in
  let r := resetOperationalData resetUsers (boot url (fresh S0 f)) in
  filter (fun ev => isDelete ev = true) (trace r.2)
  = map (deleteOf b) (filter (fun t => is_Some (S0 !! t)) TABLES_TO_CLEAN)
    ++ (if resetUsers && bool_decide (is_Some (S0 !! "usuarios"))
        then [EvQuery (txnConn b 0) SQL_DELETE_USERS [] true] else []).
Proof.
  intros Hf. cbv zeta. rewrite (reset_quiet url S0 f resetUsers Hf). unfold resetEvents.
  rewrite !filter_app, filter_concat_map.
  assert (Hopen : filter (fun ev => isDelete ev = true) (openingEvents (backendOf url)) = [])
    by (by destruct (backendOf url)).
  assert (Hclose : filter (fun ev => isDelete ev = true) (closingEvents (backendOf url)) = [])
    by (by destruct (backendOf url)).
  rewrite Hopen, Hclose, app_nil_r. cbn [app].
  rewrite (map_ext _ (fun t => if decide (is_Some (S0 !! t))
                               then [deleteOf (backendOf url) t] else []))
    by (intros; apply deletes_of_cleanTable).
  rewrite (concat_map_present (fun t => is_Some (S0 !! t))). f_equal.
  destruct resetUsers; [|done]. cbn [andb]. unfold cleanUsersEvents.
  destruct (backendOf url); destruct (S0 !! "usuarios") as [rs|] eqn:Hs;
    rewrite ?bool_decide_eq_true_2 by eauto;
    rewrite ?bool_decide_eq_false_2 by (by intros [? ?]); reflexivity.
Qed.

Lemma reset_deletes_in_list_order_witness :
  let r := resetOperationalData true (boot POSTGRES_URL (fresh workshop noFault)) in
  filter (fun ev => isDelete ev = true) (trace r.2)
  = [ EvQuery (PoolConn 0) "DELETE FROM manutencoes" [] true;
      EvQuery (PoolConn 0) "DELETE FROM veiculos" [] true;
      EvQuery (PoolConn 0) SQL_DELETE_USERS [] true ].
Proof.
  cbv zeta.
  rewrite (reset_deletes_in_list_order POSTGRES_URL workshop noFault true (fun _ => eq_refl)).
  by vm_compute.
Defined.

(** ** The entries of the report *)

Lemma resetTransaction_results url S0 f ru :
  (forall k, f k = false) ->
  let entered := set_client None (started url (fresh S0 f)) in
  (resetTransaction ru entered).1 = Ok (finalReport ru S0)
  /\ resetOperationalData ru (boot url (fresh S0 f))
     = (do! tryFinally (tryCatch (resetTransaction ru) resetFailed) resetFinally in
        ret Undefined) entered.
Proof.
  intros Hf. cbv zeta. unfold started, resetOperationalData.
  destruct (initDatabase_boot url S0 f) as (_ & Hf0 & Hinit).
  destruct (initDatabase_quiet url S0 f Hf) as [_ [a Ha]].
  rewrite (bind_run (DbAdapter.initDatabase)).
  destruct (DbAdapter.initDatabase (boot url (fresh S0 f))) as [[a'|e|code] w1];
    cbn [fst snd] in *; [|done|done].
  destruct Hinit as (Hs1 & Hcl1 & _). split; [|by rewrite bind_run].
  assert (Hs2 : settled (backendOf url) S0 (set_client None w1)) by exact Hs1.
  assert (Hq2 : quiet (eng (set_client None w1))).
  { intros k. change (eng (set_client None w1)) with (eng w1). by rewrite Hf0. }
  by destruct (resetTransaction_quiet (backendOf url) S0 ru _ Hs2 eq_refl Hq2) as (Hr & _).
Qed.

Lemma delete_in_resetEvents b ru (S0 : store) c ps ok t :
  t ∈ TABLES_TO_CLEAN ->
  EvQuery c ("DELETE FROM " +:+ t) ps ok ∈ resetEvents b ru S0 -> is_Some (S0 !! t).
Proof.
  intros Ht. unfold resetEvents. rewrite !elem_of_app. intros [H|[H|[H|H]]].
  - destruct b; cbn in H;
      repeat (apply elem_of_cons in H as [H|H]; [by simplify_eq/=|]);
      by apply elem_of_nil in H.
  - apply list_elem_of_In, in_concat in H as (l & Hl & H).
    apply in_map_iff in Hl as (t' & <- & _). apply list_elem_of_In in H.
    unfold cleanTableEvents in H.
    destruct b, (S0 !! t') as [rs|] eqn:Hrs;
      repeat (apply elem_of_cons in H as [H|H];
              [first [by simplify_eq/=
                     |apply (f_equal sqlOf) in H; vm_compute in H; simplify_eq;
                      by rewrite Hrs]|]);
      by apply elem_of_nil in H.
  - exfalso. destruct ru; [|by apply elem_of_nil in H].
    assert (Hne : "DELETE FROM " +:+ t <> SQL_DELETE_USERS).
    { intros Heq. vm_compute in Heq. simplify_eq.
      revert Ht. apply (bool_decide_eq_false_1 _). by vm_compute. }
    unfold cleanUsersEvents in H.
    destruct b, (S0 !! "usuarios");
      repeat (apply elem_of_cons in H as [H|H];
              [first [by simplify_eq/=|by destruct (Hne (f_equal sqlOf H))]|]);
      by apply elem_of_nil in H.
  - destruct b; cbn in H;
      repeat (apply elem_of_cons in H as [H|H]; [by simplify_eq/=|]);
      by apply elem_of_nil in H.
Qed.

(** C3. In a reset in which no statement fails, the array [results] holds at
    the end of the [try] block, for each table of the list and in the order
    of the list, exactly [{table, deleted: 0, skipped: true}] when the table
    is absent and [{table, deleted: n, skipped: false}], with [n] the number
    of its rows, when it is there; the entry for the user accounts follows
    when they are reset.  The call returns: an absent table raises no
    error.  No delete is sent for an absent table of the list, every table
    of the list that is there is empty afterwards, and the summary that is
    printed is the one of these entries. *)
Theorem absent_tables_are_skipped (url : option string) (S0 : store)
    (f : nat -> bool) (resetUsers : bool) :
  (forall k, f k = false) ->
  let entered := set_client None (started url (fresh S0 f)) in
  let r := resetOperationalData resetUsers (boot url (fresh S0 f)) in
  let entry (t : string) :=
    match S0 !! t with
    | None => {| table := t; deleted := 0; skipped := true |}
    | Some rs => {| table := t; deleted := Z.of_nat (length rs); skipped := false |}
    end in
  let usersEntry :=
    match S0 !! "usuarios" with
    | None => {| table := "usuarios"; deleted := 0; skipped := true |}
    | Some rs =>
        {| table := "usuarios";
           deleted := Z.of_nat (length (filter (fun r => purgeable r = true) rs));
           skipped := false |}
    end in
  let results := map entry TABLES_TO_CLEAN ++ (if resetUsers then [usersEntry] else []) in
  r = (do! tryFinally (tryCatch (resetTransaction resetUsers) resetFailed) resetFinally in
       ret Undefined) entered
  /\ (resetTransaction resetUsers entered).1 = Ok results
  /\ r.1 = Ok Undefined
  /\ console r.2 = map summaryLine results ++ [LogTotal (totalOf results)]
  /\ (forall t, t ∈ TABLES_TO_CLEAN ->
      committed (eng r.2) !! t = (fun _ => []) <$> S0 !! t)
  /\ (forall t, t ∈ TABLES_TO_CLEAN -> S0 !! t = None ->
      forall c params ok, EvQuery c ("DELETE FROM " +:+ t) params ok ∉ trace r.2).
Proof.
  intros Hf. cbv zeta.
  destruct (resetTransaction_results url S0 f resetUsers Hf) as [Hres Hrun]. cbv zeta in Hres, Hrun.
  assert (Hrep : map (fun t => match S0 !! t with
                               | None => {| table := t; deleted := 0; skipped := true |}
                               | Some rs => {| table := t; deleted := Z.of_nat (length rs);
                                               skipped := false |}
                               end) TABLES_TO_CLEAN
                 ++ (if resetUsers
                     then [match S0 !! "usuarios" with
                           | None => {| table := "usuarios"; deleted := 0; skipped := true |}
                           | Some rs =>
                               {| table := "usuarios";
                                  deleted := Z.of_nat (length (filter (fun r => purgeable r = true) rs));
                                  skipped := false |}
                           end]
                     else [])
                 = finalReport resetUsers S0).
  { rewrite finalReport_map. f_equal. destruct resetUsers; [|done]. f_equal.
    unfold usersReport. destruct (S0 !! "usuarios") as [rs|]; [|done].
    do 3 f_equal. apply list_filter_iff. intros r. by rewrite users_where_purgeable. }
  rewrite Hrep. split; [exact Hrun|]. split; [exact Hres|].
  pose proof (reset_returns_without_fault url S0 f resetUsers Hf) as Hret.
  split; [exact Hret|].
  destruct (reset_run url S0 f resetUsers) as (_ & Hout). rewrite Hret in Hout.
  destruct Hout as (_ & Hc & _ & Hco & _).
  split; [by rewrite Hco|]. split.
  - intros t Ht. rewrite Hc. by apply finalStore_table.
  - intros t Ht Hnone c params ok Hin. rewrite (reset_quiet url S0 f resetUsers Hf) in Hin.
    apply delete_in_resetEvents in Hin; [|done]. rewrite Hnone in Hin. by destruct Hin.
Qed.

Lemma absent_tables_are_skipped_witness :
  let entered := set_client None (started None (fresh workshop noFault)) in
  let r := resetOperationalData false (boot None (fresh workshop noFault)) in
  (resetTransaction false entered).1
  = Ok [ {| table := "km_historico"; deleted := 0; skipped := true |};
         {| table := "abastecimentos"; deleted := 0; skipped := true |};
         {| table := "manutencoes"; deleted := 3; skipped := false |};
         {| table := "ocr_usage"; deleted := 0; skipped := true |};
         {| table := "veiculo_compartilhamentos"; deleted := 0; skipped := true |};
         {| table := "proprietarios_historico"; deleted := 0; skipped := true |};
         {| table := "proprietarios"; deleted := 0; skipped := true |};
         {| table := "veiculos"; deleted := 2; skipped := false |} ]
  /\ r.1 = Ok Undefined
  /\ committed (eng r.2) !! "manutencoes" = Some []
  /\ committed (eng r.2) !! "km_historico" = None.
Proof.
  cbv zeta.
  destruct (absent_tables_are_skipped None workshop noFault false (fun _ => eq_refl))
    as (_ & Hres & Hret & _ & Hst & _).
  split; [rewrite Hres; by vm_compute|]. split; [exact Hret|]. split.
  - rewrite (Hst "manutencoes") by (apply (bool_decide_unpack _); by vm_compute).
    by vm_compute.
  - rewrite (Hst "km_historico") by (apply (bool_decide_unpack _); by vm_compute).
    by vm_compute.
Defined.

(** ** The service and the administrative route *)

Lemma exists_flag (b : bool) n :
  truthy (prop "exists" (head (pg_rows {| pg_rows := [{[ "exists" := Bool b ]}];
                                          pg_rowCount := n |}))) = b.
Proof. unfold prop. cbn [head pg_rows]. by rewrite lookup_singleton_eq. Qed.

Lemma service_cleanTable_postgres S0 ws w t :
  inTransaction AdapterPostgres 0 S0 ws w -> quiet (eng w) -> plainName t = true ->
  quietStep w (ResetDataService.cleanTable (Some (PoolConn 0)) t w) (report ws t)
    (serviceTableEvents AdapterPostgres S0 t)
    (inTransaction AdapterPostgres 0 S0 (clearTable t ws)).
Proof.
  intros Hin Hq Hname. pose proof Hin as (Ha & Hc & Ht & Hd & Hco & Hl & Hp & Hcl & Hle).
  unfold ResetDataService.cleanTable, ResetDataService.tableExists, ResetDataService.deleteRows.
  mstep. unfold client_query at 1. rewrite clientQuery_run, (Hq _).
  change (parse SQL_EXISTS_POSTGRES [Str t]) with (SExistsPostgres t).
  unfold exec, view. change (txn (tick (eng w))) with (txn (eng w)). rewrite Ht.
  rewrite decide_True by done. unfold answered. cbv beta iota. rewrite exists_flag.
  set (w1 := record _ (set_eng (tick (eng w)) w)).
  assert (Hw1 : inTransaction AdapterPostgres 0 S0 ws w1)
    by (by eapply inTransaction_record; [exact Hin|..]).
  unfold serviceTableEvents.
  destruct (S0 !! t) as [rs0|] eqn:Hs0.
  2: { assert (Hnone : ws !! t = None).
       { apply eq_None_not_Some. rewrite <- (same_tables S0 ws t Hd), Hs0. by intros [? ?]. }
       rewrite Hnone, bool_decide_eq_false_2 by (by intros [? ?]). cbv iota.
       unfold report. rewrite Hnone, (clearTable_absent t ws Hnone). by repeat split. }
  assert (Hsome : is_Some (ws !! t)) by (apply (same_tables S0 ws t Hd); eauto).
  rewrite bool_decide_eq_true_2 by done. cbv iota.
  destruct Hsome as [rs Hrs].
  mstep. unfold client_query. rewrite clientQuery_run.
  change (eng w1) with (tick (eng w)).
  change (faults (tick (eng w))) with (faults (eng w)). rewrite (Hq _).
  rewrite (parse_delete t Hname).
  rewrite (exec_delete PostgresDialect (PoolConn 0) ws t rs (tick (tick (eng w))) Ht Hrs).
  cbv iota beta. unfold report. rewrite Hrs. split; [done|]. split.
  { cbn [fst snd trace record set_eng]. subst w1. cbn [trace record set_eng].
    by rewrite <- !app_assoc. }
  split; [done|].
  cbn [fst snd]. eapply inTransaction_record; [exact Hw1|try done..]. by rewrite dom_clearTable.
Qed.

Lemma service_cleanTable_sqlite S0 ws w t :
  inTransaction AdapterSqlite 0 S0 ws w -> quiet (eng w) -> plainName t = true ->
  quietStep w (ResetDataService.cleanTable None t w) (report ws t)
    (serviceTableEvents AdapterSqlite S0 t)
    (inTransaction AdapterSqlite 0 S0 (clearTable t ws)).
Proof.
  intros Hin Hq Hname. pose proof Hin as (Ha & Hc & Ht & Hd & Hco & Hcl & Hdb).
  unfold ResetDataService.cleanTable, ResetDataService.tableExists, ResetDataService.deleteRows.
  mstep. rewrite (DbAdapter_queryOne_sqlite_all w SQL_EXISTS_SQLITE _ Ha Hdb eq_refl).
  rewrite sqliteAll_run, (Hq _).
  change (parse SQL_EXISTS_SQLITE [Str t]) with (SExistsSqlite t).
  rewrite (exec_exists_sqlite ws t (tick (eng w)) Ht). cbv iota beta. cbn [pg_rows].
  set (w1 := record _ (set_eng (tick (eng w)) w)).
  assert (Hw1 : inTransaction AdapterSqlite 0 S0 ws w1)
    by (by eapply inTransaction_record; [exact Hin|..]).
  unfold serviceTableEvents.
  destruct (S0 !! t) as [rs0|] eqn:Hs0.
  2: { assert (Hnone : ws !! t = None).
       { apply eq_None_not_Some. rewrite <- (same_tables S0 ws t Hd), Hs0. by intros [? ?]. }
       rewrite Hnone. cbn. unfold report. rewrite Hnone, (clearTable_absent t ws Hnone).
       by repeat split. }
  assert (Hsome : is_Some (ws !! t)) by (apply (same_tables S0 ws t Hd); eauto).
  destruct Hsome as [rs Hrs]. rewrite Hrs.
  simpl. mstep.
  destruct (delete_not_select t) as [Hs Hi].
  assert (Hdb1 : sqliteDb w1 = true) by done.
  rewrite (DbAdapter_query_sqlite_run w1 _ _ Ha Hdb1 Hs Hi), sqliteRun_run.
  change (eng w1) with (tick (eng w)).
  change (faults (tick (eng w))) with (faults (eng w)). rewrite (Hq _).
  rewrite (parse_delete t Hname).
  rewrite (exec_delete SqliteDialect SharedFile ws t rs (tick (tick (eng w))) Ht Hrs).
  cbv iota beta. unfold report. rewrite Hrs. split; [done|]. split.
  { cbn [fst snd trace record set_eng]. subst w1. cbn [trace record set_eng].
    by rewrite <- !app_assoc. }
  split; [done|].
  cbn [fst snd]. eapply inTransaction_record; [exact Hw1|try done..]. by rewrite dom_clearTable.
Qed.

Lemma service_cleanTables_quiet b S0 ts : forall ws w acc,
  inTransaction b 0 S0 ws w -> quiet (eng w) ->
  Forall (fun t => plainName t = true) ts ->
  quietStep w (ResetDataService.cleanTables (client w) ts acc w) (acc ++ reports ws ts)
    (concat (map (serviceTableEvents b S0) ts)) (inTransaction b 0 S0 (cleared ts ws)).
Proof.
  induction ts as [|t ts IH]; intros ws w acc Hin Hq Hplain.
  { unfold quietStep. cbn [ResetDataService.cleanTables reports map concat ret fst snd].
    rewrite !app_nil_r. split; [done|]. split; [done|]. split; [done|]. exact Hin. }
  apply Forall_cons in Hplain as [Ht Hts].
  cbn [ResetDataService.cleanTables map concat reports].
  eapply quietStep_bind.
  - rewrite (inTransaction_client _ _ _ _ _ Hin). destruct b.
    + by apply service_cleanTable_postgres.
    + by apply service_cleanTable_sqlite.
  - intros w1 Hin1 Hq1.
    replace (acc ++ report ws t :: reports (clearTable t ws) ts)
      with ((acc ++ [report ws t]) ++ reports (clearTable t ws) ts)
      by (by rewrite <- app_assoc).
    rewrite (inTransaction_client _ _ _ _ _ Hin), <- (inTransaction_client _ _ _ _ _ Hin1).
    by apply (IH (clearTable t ws) w1).
Qed.

Lemma service_cleanUsers_quiet b S0 ws w :
  inTransaction b 0 S0 ws w -> quiet (eng w) -> is_Some (S0 !! "usuarios") ->
  quietStep w (ResetDataService.cleanUsers (client w) w) (usersReport ws)
    [EvQuery (txnConn b 0) SQL_DELETE_USERS [] true]
    (inTransaction b 0 S0 (purged ws)).
Proof.
  intros Hin Hq Hu. pose proof Hin as (Ha & Hc & Ht & Hd & Hco & Hb).
  rewrite (inTransaction_client _ _ _ _ _ Hin).
  assert (Hsome : is_Some (ws !! "usuarios")) by (by apply (same_tables S0 ws _ Hd)).
  destruct Hsome as [rs Hrs].
  unfold ResetDataService.cleanUsers, ResetDataService.deleteRows. destruct b.
  - destruct Hb as (Hl & Hp & Hcl & Hle).
    mstep. unfold client_query. rewrite clientQuery_run, (Hq _).
    rewrite parse_delete_users.
    rewrite (exec_delete_users PostgresDialect (PoolConn 0) ws rs (tick (eng w)) Ht Hrs).
    cbv iota beta. unfold usersReport. rewrite Hrs. split; [done|]. split; [done|].
    split; [done|].
    cbn [fst snd]. eapply inTransaction_record; [exact Hin|try done..]. by rewrite purged_dom.
  - destruct Hb as (Hcl & Hdb).
    mstep. destruct users_not_select as [Hs Hi].
    rewrite (DbAdapter_query_sqlite_run w _ _ Ha Hdb Hs Hi), sqliteRun_run, (Hq _).
    rewrite parse_delete_users.
    rewrite (exec_delete_users SqliteDialect SharedFile ws rs (tick (eng w)) Ht Hrs).
    cbv iota beta. unfold usersReport. rewrite Hrs. split; [done|]. split; [done|].
    split; [done|].
    cbn [fst snd]. eapply inTransaction_record; [exact Hin|try done..]. by rewrite purged_dom.
Qed.

Lemma tryCatch_ok {E A} (m : M E A) (h : error -> M E A) (w : world E) a :
  (m w).1 = Ok a -> tryCatch m h w = m w.
Proof. unfold tryCatch. by destruct (m w) as [[?|?|?] ?]; intros [=]. Qed.

(** The run of the service without failing call. *)
Lemma service_quiet b S0 tables options (w : world engine) :
  settled b S0 w -> quiet (eng w) ->
  Forall (fun t => plainName t = true) tables ->
  (ResetDataService.resetUsers options = true -> is_Some (S0 !! "usuarios")) ->
  let ru := ResetDataService.resetUsers options in
  quietStep w (ResetDataService.resetOperationalData tables options w)
    {| ResetDataService.summary := serviceReport tables ru S0;
       ResetDataService.totalDeleted := totalOf (serviceReport tables ru S0) |}
    (serviceEvents b tables ru S0)
    (settled b (serviceStore tables ru S0)).
Proof.
  intros Hs Hq Hplain Hu ru. pose proof Hs as (Ha & _).
  unfold ResetDataService.resetOperationalData. rewrite bind_run. mred.
  set (w0 := set_client None w).
  assert (Hs0 : settled b S0 w0) by exact Hs.
  assert (Hq0 : quiet (eng w0)) by exact Hq.
  assert (Htr0 : trace w0 = trace w) by done.
  assert (Hstep : quietStep w0
    ((let! pg := DbAdapterState.isPostgres in
      do! (if pg
           then
             do! Postgres.getPool in
             let! c := pool_connect in
             do! modify (set_client (Some c)) in
             do! client_query c "BEGIN" [] in
             ret tt
           else
             do! DbAdapter.query "BEGIN TRANSACTION" [] in
             ret tt) in
      let! client := gets client in
      let! results := ResetDataService.cleanTables client tables [] in
      let! results :=
        (if ResetDataService.resetUsers options
         then
           let! result := ResetDataService.cleanUsers client in
           ret (results ++ [result])
         else ret results) in
      do! match client with
          | Some c =>
              do! client_query c "COMMIT" [] in
              client_release c
          | None =>
              do! DbAdapter.query "COMMIT" [] in
              ret tt
          end in
      ret {| ResetDataService.summary := results;
             ResetDataService.totalDeleted := totalOf results |}) w0)
    {| ResetDataService.summary := serviceReport tables ru S0;
       ResetDataService.totalDeleted := totalOf (serviceReport tables ru S0) |}
    (serviceEvents b tables ru S0)
    (settled b (serviceStore tables ru S0))).
  { rewrite bind_run, isPostgres_run. cbv beta iota. unfold serviceEvents.
    eapply (quietStep_bind _ _ _ _ _ _ _ (inTransaction b 0 S0 S0)).
    { destruct b.
      - rewrite (is_postgres w0 Ha). by apply begin_quiet_postgres.
      - rewrite (not_postgres w0 Ha). by apply begin_quiet_sqlite. }
    intros w1 Hin1 Hq1. rewrite bind_run. mred.
    eapply quietStep_bind.
    { by apply service_cleanTables_quiet. }
    intros w2 Hin2 Hq2. cbn [app].
    assert (Hnil : forall l : list event, l ++ [] = l) by apply app_nil_r.
    rewrite <- (Hnil (match b with AdapterPostgres => _ | AdapterSqlite => _ end)).
    eapply (quietStep_bind _ _ _ (serviceReport tables ru S0) _ _ _
              (fun w' => inTransaction b 0 S0 (serviceStore tables ru S0) w')).
    { unfold serviceReport, serviceStore. subst ru.
      destruct (ResetDataService.resetUsers options).
      - replace [EvQuery (txnConn b 0) SQL_DELETE_USERS [] true]
          with ([EvQuery (txnConn b 0) SQL_DELETE_USERS [] true] ++ []) by apply app_nil_r.
        eapply quietStep_bind.
        + rewrite (clientOf _ _ _ _ _ Hin1), <- (clientOf _ _ _ _ _ Hin2).
          apply service_cleanUsers_quiet; [exact Hin2|done|by apply Hu].
        + intros w3 Hin3 Hq3. split; [reflexivity|]. split; [by rewrite app_nil_r|].
          split; [done|exact Hin3].
      - split; [by rewrite app_nil_r|].
        split; [by rewrite app_nil_r|]. split; [done|exact Hin2]. }
    intros w3 Hin3 Hq3.
    rewrite (clientOf _ _ _ _ _ Hin1).
    eapply (quietStep_bind _ _ _ _ _ _ _ (settled b (serviceStore tables ru S0))).
    { destruct b; [by apply (commit_quiet_postgres S0)|by apply (commit_quiet_sqlite S0)]. }
    intros w4 Hs4 Hq4. split; [done|]. split; [by rewrite app_nil_r|]. by split. }
  rewrite (tryCatch_ok _ _ w0 _ (proj1 Hstep)).
  destruct Hstep as (Hr & Htr & Hq' & Hpost). by rewrite Htr0 in Htr.
Qed.

Lemma totalOf_sum results :
  totalOf results
  = foldr Z.add 0%Z (map deleted (filter (fun entry => skipped entry = false) results)).
Proof.
  induction results as [|r rs IH]; [done|]. cbn [totalOf foldr] in *.
  rewrite filter_cons. destruct (skipped r) eqn:Hs.
  - rewrite decide_False by done. exact IH.
  - rewrite decide_True by done. cbn [map foldr]. by rewrite <- IH.
Qed.

Lemma serviceReport_tables tables ru (S0 : store) :
  map table (serviceReport tables ru S0) = tables ++ (if ru then ["usuarios"] else []).
Proof.
  unfold serviceReport. rewrite map_app. f_equal.
  - revert S0. induction tables as [|t ts IH]; intros S0; [done|]. cbn [reports map].
    rewrite IH. f_equal. unfold report. by destruct (S0 !! t).
  - destruct ru; [|done]. cbn. unfold usersReport. by destruct (_ !! "usuarios").
Qed.

Lemma serviceReport_entries tables ru (S0 : store) :
  NoDup tables -> "usuarios" ∉ tables ->
  serviceReport tables ru S0
  = map (fun t => match S0 !! t with
                  | Some rs => {| table := t; deleted := Z.of_nat (length rs); skipped := false |}
                  | None => {| table := t; deleted := 0; skipped := true |}
                  end) tables
    ++ (if ru
        then [match S0 !! "usuarios" with
              | Some rs =>
                  {| table := "usuarios";
                     deleted := Z.of_nat (length (filter (fun r => purgeable r = true) rs));
                     skipped := false |}
              | None => {| table := "usuarios"; deleted := 0; skipped := true |}
              end]
        else []).
Proof.
  intros Hnd Hu. unfold serviceReport. rewrite (reports_map S0 _ Hnd). f_equal.
  destruct ru; [|done]. f_equal. unfold usersReport.
  rewrite cleared_lookup, bool_decide_eq_false_2 by done.
  destruct (S0 !! "usuarios") as [rs|]; [|done]. do 3 f_equal.
  apply list_filter_iff. intros r. by rewrite users_where_purgeable.
Qed.

(** C4. A call of the service in which no call on the engine fails returns
    a report: its entries are one for each table of the list, in the order
    of the list, followed by the entry of the user accounts when they are
    purged; an entry says [skipped] for a table that is not there and gives
    the number of rows deleted for a table that is; [totalDeleted] is the
    sum of [deleted] over the entries that are not skipped.  The handler of
    the administrative route answers with status 200 and with the
    [totalDeleted] and the [summary] of the report that the service returns
    to it. *)
Theorem service_returns_report (tables : list string) (options : ResetDataService.Options)
    (b : adapter) (S0 : store) (w : world engine) :
  settled b S0 w -> quiet (eng w) ->
  Forall (fun t => plainName t = true) tables ->
  (ResetDataService.resetUsers options = true -> is_Some (S0 !! "usuarios")) ->
  let resetUsers := ResetDataService.resetUsers options in
  let r := ResetDataService.resetOperationalData tables options w in
  let entry (t : string) :=
    match S0 !! t with
    | Some rs => {| table := t; deleted := Z.of_nat (length rs); skipped := false |}
    | None => {| table := t; deleted := 0; skipped := true |}
    end in
  let usersEntry :=
    match S0 !! "usuarios" with
    | Some rs =>
        {| table := "usuarios";
           deleted := Z.of_nat (length (filter (fun r => purgeable r = true) rs));
           skipped := false |}
    | None => {| table := "usuarios"; deleted := 0; skipped := true |}
    end in
  exists report,
    r.1 = Ok report
    /\ ResetDataService.summary report = serviceReport tables resetUsers S0
    /\ map table (ResetDataService.summary report)
       = tables ++ (if resetUsers then ["usuarios"] else [])
    /\ (NoDup tables -> "usuarios" ∉ tables ->
        ResetDataService.summary report
        = map entry tables ++ (if resetUsers then [usersEntry] else []))
    /\ ResetDataService.totalDeleted report
       = foldr Z.add 0%Z
           (map deleted (filter (fun entry => skipped entry = false)
                           (ResetDataService.summary report)))
    /\ committed (eng r.2) = serviceStore tables resetUsers S0
    /\ txn (eng r.2) = None
    /\ trace r.2 = trace w ++ serviceEvents b tables resetUsers S0
    /\ (resetUsers = false ->
        forall req fields,
          Admin.body req = Some fields ->
          fields !! "confirm" = Some (Str "RESET_ALL_DATA") ->
          (Admin.resetHandler tables req w).1
          = Ok {| Admin.status := 200;
                  Admin.json := Admin.Success "Dados operacionais resetados com sucesso"
                                  (ResetDataService.totalDeleted report)
                                  (ResetDataService.summary report) |}).
Proof.
  intros Hs Hq Hplain Hu resetUsers r entry usersEntry.
  destruct (service_quiet b S0 tables options w Hs Hq Hplain Hu) as (Hr & Htr & _ & Hpost).
  fold resetUsers in Hr, Htr, Hpost. fold r in Hr, Htr, Hpost.
  eexists. split; [exact Hr|]. cbn [ResetDataService.summary ResetDataService.totalDeleted].
  split; [done|]. split; [apply serviceReport_tables|].
  split; [by apply serviceReport_entries|]. split; [apply totalOf_sum|].
  destruct Hpost as (_ & Hc & Ht & _).
  split; [done|]. split; [done|]. split; [done|].
  intros Hno req fields Hbody Hconfirm.
  assert (Hopt : options = {| ResetDataService.resetUsers := false |}).
  { destruct options as [ru]. cbn in Hno. subst resetUsers. cbn in Hno. by rewrite Hno. }
  unfold Admin.resetHandler. rewrite Hbody, Hconfirm. cbn [default].
  rewrite <- Hopt.
  rewrite tryCatch_ok with
    (a := {| Admin.status := 200;
             Admin.json := Admin.Success "Dados operacionais resetados com sucesso"
                             (totalOf (serviceReport tables resetUsers S0))
                             (serviceReport tables resetUsers S0) |}).
  all: rewrite bind_run; mred; rewrite bool_decide_eq_true_2 by done; cbn [negb];
    rewrite bind_run; fold r; destruct r as [[rep|e|c] w']; cbn [fst snd] in *;
    try done; by injection Hr as ->.
Qed.

Lemma service_returns_report_witness :
  let tables := ["manutencoes"; "veiculos"] in
  let options := {| ResetDataService.resetUsers := false |} in
  let req := {| Admin.body := Some {[ "confirm" := Str "RESET_ALL_DATA" ]} |} in
  let report :=
    {| ResetDataService.summary :=
         [ {| table := "manutencoes"; deleted := 3; skipped := false |};
           {| table := "veiculos"; deleted := 2; skipped := false |} ];
       ResetDataService.totalDeleted := 5 |} in
  let wp := started POSTGRES_URL (fresh scenario noFault) in
  let wl := started None (fresh scenario noFault) in
  (ResetDataService.resetOperationalData tables options wp).1 = Ok report
  /\ (ResetDataService.resetOperationalData tables options wl).1 = Ok report
  /\ (Admin.resetHandler tables req wp).1
     = Ok {| Admin.status := 200;
             Admin.json := Admin.Success "Dados operacionais resetados com sucesso" 5
                             (ResetDataService.summary report) |}
  /\ (ResetDataService.resetOperationalData TABLES_TO_CLEAN
        {| ResetDataService.resetUsers := true |}
        (started POSTGRES_URL (fresh workshop noFault))).1
     = Ok {| ResetDataService.summary :=
               [ {| table := "km_historico"; deleted := 0; skipped := true |};
                 {| table := "abastecimentos"; deleted := 0; skipped := true |};
                 {| table := "manutencoes"; deleted := 3; skipped := false |};
                 {| table := "ocr_usage"; deleted := 0; skipped := true |};
                 {| table := "veiculo_compartilhamentos"; deleted := 0; skipped := true |};
                 {| table := "proprietarios_historico"; deleted := 0; skipped := true |};
                 {| table := "proprietarios"; deleted := 0; skipped := true |};
                 {| table := "veiculos"; deleted := 2; skipped := false |};
                 {| table := "usuarios"; deleted := 1; skipped := false |} ];
             ResetDataService.totalDeleted := 6 |}.
Proof.
  cbv zeta.
  assert (Hquiet : forall url S0, quiet (eng (started url (fresh S0 noFault)))).
  { intros url S0 k. destruct (initDatabase_boot url S0 noFault) as (_ & Hf & _).
    unfold started. cbv zeta in Hf. by rewrite Hf. }
  assert (Hsettled : forall url S0,
            settled (backendOf url) S0 (started url (fresh S0 noFault))).
  { intros url S0. destruct (initDatabase_boot url S0 noFault) as (_ & _ & Hinit).
    destruct (initDatabase_quiet url S0 noFault (fun _ => eq_refl)) as [_ [a Ha]].
    cbv zeta in Hinit. unfold started. rewrite Ha in Hinit. by destruct Hinit. }
  destruct (service_returns_report ["manutencoes"; "veiculos"]
              {| ResetDataService.resetUsers := false |} AdapterPostgres scenario
              (started POSTGRES_URL (fresh scenario noFault))
              (Hsettled POSTGRES_URL scenario) (Hquiet POSTGRES_URL scenario))
    as (rp & Hrp & _ & _ & Hep & Htp & _ & _ & _ & Hhandler);
    [by repeat constructor|done|].
  destruct (service_returns_report ["manutencoes"; "veiculos"]
              {| ResetDataService.resetUsers := false |} AdapterSqlite scenario
              (started None (fresh scenario noFault))
              (Hsettled None scenario) (Hquiet None scenario))
    as (rl & Hrl & _ & _ & Hel & Htl & _);
    [by repeat constructor|done|].
  destruct (service_returns_report TABLES_TO_CLEAN
              {| ResetDataService.resetUsers := true |} AdapterPostgres workshop
              (started POSTGRES_URL (fresh workshop noFault))
              (Hsettled POSTGRES_URL workshop) (Hquiet POSTGRES_URL workshop))
    as (ru & Hru & _ & _ & Heu & Htu & _);
    [apply plain_tables|by eexists|].
  assert (Hnd : NoDup ["manutencoes"; "veiculos"]) by (apply (bool_decide_unpack _); by vm_compute).
  assert (Hnu : "usuarios" ∉ ["manutencoes"; "veiculos"])
    by (apply (bool_decide_unpack _); by vm_compute).
  assert (Hnt : "usuarios" ∉ TABLES_TO_CLEAN) by (apply (bool_decide_unpack _); by vm_compute).
  specialize (Hep Hnd Hnu). specialize (Hel Hnd Hnu). specialize (Heu noDup_tables Hnt).
  specialize (Hhandler eq_refl {| Admin.body := Some {[ "confirm" := Str "RESET_ALL_DATA" ]} |}
                {[ "confirm" := Str "RESET_ALL_DATA" ]} eq_refl eq_refl).
  assert (Hp : rp = {| ResetDataService.summary :=
                         [ {| table := "manutencoes"; deleted := 3; skipped := false |};
                           {| table := "veiculos"; deleted := 2; skipped := false |} ];
                       ResetDataService.totalDeleted := 5 |}).
  { destruct rp as [sp tp]. cbn in Hep, Htp. subst sp tp. reflexivity. }
  assert (Hl : rl = {| ResetDataService.summary :=
                         [ {| table := "manutencoes"; deleted := 3; skipped := false |};
                           {| table := "veiculos"; deleted := 2; skipped := false |} ];
                       ResetDataService.totalDeleted := 5 |}).
  { destruct rl as [sl tl]. cbn in Hel, Htl. subst sl tl. reflexivity. }
  split; [by rewrite Hrp, Hp|]. split; [by rewrite Hrl, Hl|].
  split; [by rewrite Hhandler, Hp|].
  rewrite Hru. destruct ru as [su tu]. cbn in Heu, Htu. subst su tu. reflexivity.
Defined.
